(** * go-fusion: the asset and state-transition core

    A shallow embedding of

      - [core/state/fsnstate.go]  (ticket ring cache, StateDB facade,
        structured-storage codec, notation display),
      - [core/vm/fsncontract.go]   (the second half of that file: the call
        dispatcher [handleFsnCall]),
      - [core/fsntx_pool.go]       (the pool pre-validator
        [validateFsnCallTx]),

    followed by the properties the specification states about them.

    Go values are embedded as follows.  [uint64] is a [Z] with the wrap
    written out ([u64]); [*big.Int] is a [Z]; [common.Hash], [common.Address]
    and [[]byte] are lists of [byte]; a slice that may be [nil] is an
    [option] of a list; Go maps keyed by addresses or hashes are [gmap]s.
    An operation the specification leaves undefined (a Go panic) makes the
    embedded function return [None]. *)

From Stdlib Require Import ZArith Lia String.
From Stdlib Require Import Init.Byte.
From stdpp Require Import base option list gmap pretty.

#[local] Open Scope Z_scope.

(** lia understands division and remainder by a constant. *)
Ltac Zify.zify_post_hook ::= Z.div_mod_to_equations.

(* ===================================================================== *)
(** * Bytes, hashes, addresses, machine integers                          *)
(* ===================================================================== *)

#[global] Instance byte_eq_dec : EqDecision byte := Byte.byte_eq_dec.
#[global] Instance byte_countable : Countable byte :=
  inj_countable Byte.to_N Byte.of_N Byte.of_to_N.

(** [[]byte]; a slice that may be [nil] is an [option Bytes]. *)
Abbreviation Bytes := (list byte).
(** [common.Hash] is [[32]byte] and [common.Address] is [[20]byte]. *)
Abbreviation Hash := (list byte).
Abbreviation Address := (list byte).

Definition HashLength : Z := 32.

(** [common.Hash{}], the zero value of the array type. *)
Definition zeroHash : Hash := replicate 32 "000"%byte.
(** [common.Address{}]. *)
Definition zeroAddress : Address := replicate 20 "000"%byte.

Definition byte_of_Z (z : Z) : byte :=
  match Byte.of_N (Z.to_N (z mod 256)) with
  | Some b => b
  | None => "000"%byte
  end.

Definition Z_of_byte (b : byte) : Z := Z.of_N (Byte.to_N b).

(** Big-endian encoding of [z] on exactly [n] bytes (the low [8n] bits). *)
Fixpoint be_bytes (n : nat) (z : Z) : Bytes :=
  match n with
  | O => []
  | S k => be_bytes k (z / 256) ++ [byte_of_Z z]
  end.

(** Big-endian decoding, [new(big.Int).SetBytes]. *)
Definition be_Z (bs : Bytes) : Z :=
  fold_left (fun acc b => acc * 256 + Z_of_byte b) bs 0.

(** [common.BigToHash]: the 32-byte big-endian image of a number. *)
Definition BigToHash (z : Z) : Hash := be_bytes 32 z.

(** [uint64] arithmetic wraps modulo 2^64. *)
Definition u64 (z : Z) : Z := z mod 2 ^ 64.

(** [common.MaxUint64] *)
Definition MaxUint64 (x y : Z) : Z := if x <? y then y else x.

(** [common.TimeLockNow] and [common.TimeLockForever] *)
Definition TimeLockNow : Z := 0.
Definition TimeLockForever : Z := 2 ^ 64 - 1.

(* ===================================================================== *)
(** * Notation display (fsnstate.go, StateDB.CalcNotationDisplay)          *)
(* ===================================================================== *)

(** [func (s *StateDB) CalcNotationDisplay(notation uint64) uint64] *)
Definition CalcNotationDisplay (notation : Z) : Z :=
  if notation =? 0 then notation
  else
    let check := (Z.lxor (Z.lxor notation 8192) 13) mod 100 in
    u64 (notation * 100 + check).

(** The formula as the specification writes it, over the integers:
    [n*100 + ((n XOR 8192 XOR 13) mod 100)]. *)
Definition notation_checksum (n : Z) : Z := (Z.lxor (Z.lxor n 8192) 13) mod 100.
Definition display_formula (n : Z) : Z := n * 100 + notation_checksum n.

(* ===================================================================== *)
(** * The TimeLock algebra (package common, not among the sources)        *)
(* ===================================================================== *)

(** [common.TimeLockItem] *)
Record TimeLockItem := mkItem { StartTime : Z; EndTime : Z; Value : Z }.

#[global] Instance TimeLockItem_eq_dec : EqDecision TimeLockItem.
Proof. solve_decision. Defined.

(** [common.TimeLock], the struct around [Items []*TimeLockItem]. *)
Abbreviation TimeLock := (list TimeLockItem).

Module TL.

(** [common.NewTimeLock(items...)] *)
Definition NewTimeLock (it : TimeLockItem) : TimeLock := [it].

(** Membership test of the data model: both ends of an item are inside. *)
Definition covers_time (it : TimeLockItem) (t : Z) : bool :=
  (StartTime it <=? t) && (t <=? EndTime it).

(** Modelled from the spec: the projection of section 3, "total value
    available at any instant t = sum of value over the items with
    start <= t <= end".  The TimeLock methods of package common are not
    under src/; every operation below is defined through this projection. *)
Definition valueAt (tl : TimeLock) (t : Z) : Z :=
  foldr (fun it acc => (if covers_time it t then Value it else 0) + acc) 0 tl.

(** The instants at which the projection of [tl] may change. *)
Definition points (tl : TimeLock) : list Z :=
  flat_map (fun it => [StartTime it; EndTime it + 1]) tl.

Fixpoint insert_point (p : Z) (ps : list Z) : list Z :=
  match ps with
  | [] => [p]
  | q :: r =>
      if p <? q then p :: q :: r
      else if p =? q then q :: r
      else q :: insert_point p r
  end.

(** Ascending, without repeats. *)
Definition sort_points (ps : list Z) : list Z := foldr insert_point [] ps.

(** One item per pair of neighbouring instants, valued by [f] at its start. *)
Fixpoint segments (f : Z -> Z) (ps : list Z) : TimeLock :=
  match ps with
  | p :: ((q :: _) as r) => mkItem p (q - 1) (f p) :: segments f r
  | _ => []
  end.

(** "coalescing contiguous intervals of equal value where possible" *)
Fixpoint coalesce (tl : TimeLock) : TimeLock :=
  match tl with
  | [] => []
  | a :: r =>
      match coalesce r with
      | [] => [a]
      | b :: r' =>
          if (EndTime a + 1 =? StartTime b) && (Value a =? Value b)
          then mkItem (StartTime a) (EndTime b) (Value a) :: r'
          else a :: b :: r'
      end
  end.

(** Modelled from the spec: the normalization of section 4.A ("adjacent
    items with identical value ranges are merged; items whose end < start
    or value = 0 are discarded; items are re-sorted"), producing the
    canonical list whose projection is [f]. *)
Definition normalize (f : Z -> Z) (ps : list Z) : TimeLock :=
  coalesce (filter (fun it => Value it <> 0) (segments f (sort_points ps))).

(** Modelled from the spec: [Add] "merges two TimeLocks" (the projection
    of the sum is the sum of the projections). *)
Definition Add (x y : TimeLock) : TimeLock :=
  normalize (fun t => valueAt x t + valueAt y t) (points x ++ points y).

(** [x >= y] pointwise.  A projection only changes at [points], so the
    test at those instants decides it. *)
Definition covers (x y : TimeLock) : bool :=
  forallb (fun p => valueAt y p <=? valueAt x p) (points x ++ points y).

(** Modelled from the spec: [Sub(a, b)] is "defined when a >= b pointwise
    [...]; otherwise undefined (caller must pre-check)".  [None] is the
    undefined case. *)
Definition Sub (x y : TimeLock) : option TimeLock :=
  if covers x y
  then Some (normalize (fun t => valueAt x t - valueAt y t) (points x ++ points y))
  else None.

(** Modelled from the spec: [Cmp(a, b)] "returns >= 0 iff for every point
    in time the value of a is at least that of b". *)
Definition Cmp (x y : TimeLock) : Z :=
  if covers x y then (if covers y x then 0 else 1) else -1.

(** Modelled from the spec: [ClearExpired(t)] "drops items whose end < t". *)
Definition ClearExpired (tl : TimeLock) (t : Z) : TimeLock :=
  filter (fun it => t <= EndTime it) tl.

(** Modelled from the spec: [IsEmpty] is "zero items (or all zero-value)". *)
Definition IsEmpty (tl : TimeLock) : bool :=
  forallb (fun it => Value it =? 0) tl.

Definition item_valid (it : TimeLockItem) : bool :=
  (StartTime it <=? EndTime it) && (0 <? Value it).

Fixpoint ordered (tl : TimeLock) : bool :=
  match tl with
  | a :: ((b :: _) as r) =>
      ((StartTime a <? StartTime b)
       || ((StartTime a =? StartTime b) && (EndTime a <=? EndTime b)))
      && ordered r
  | _ => true
  end.

(** Modelled from the spec: [IsValid] holds when "every item respects
    start <= end, value > 0, canonical order".  [true] stands for the
    [nil] error. *)
Definition IsValid (tl : TimeLock) : bool :=
  forallb item_valid tl && ordered tl.

(** Modelled from the spec: [GetSpendableValue(s,e)] "returns min{ sum of
    item values covering t | t in [s,e] }". *)
Definition GetSpendableValue (tl : TimeLock) (s e : Z) : Z :=
  foldr Z.min (valueAt tl s)
    (map (valueAt tl) (filter (fun p => s < p /\ p <= e) (points tl))).

(** [common.GetTimeLock(value, start, end)] *)
Definition GetTimeLock (value s e : Z) : TimeLock :=
  NewTimeLock (mkItem s e value).

(** Modelled from the spec: [GetSurplus(v, s, e, now)] is "the leftover
    TimeLock {(now, forever, v)} - {(max(s,now), e, v)}". *)
Definition GetSurplusTimeLock (value s e now : Z) : option TimeLock :=
  Sub (NewTimeLock (mkItem now TimeLockForever value))
      (NewTimeLock (mkItem (MaxUint64 s now) e value)).

(** Modelled from the spec: the "whole line" [now, forever). *)
Definition IsWholeAsset (s e now : Z) : bool :=
  (s <=? now) && (e =? TimeLockForever).

End TL.

(* ===================================================================== *)
(** * Tickets (package common, not among the sources)                      *)
(* ===================================================================== *)

(** [common.TicketBody] *)
Record TicketBody := mkTicketBody {
  ID : Hash; Height : Z; TicketStartTime : Z; ExpireTime : Z }.

(** [common.Ticket]: the owner and the embedded [TicketBody]. *)
Record Ticket := mkTicket { Owner : Address; Body : TicketBody }.

(** [common.TicketsData]: the tickets of one owner, as [ClearTickets]
    (fsnstate.go) reads them: [v.Owner], [v.Tickets]. *)
Record TicketsData := mkTicketsData { TDOwner : Address; Tickets : list TicketBody }.

(** [common.TicketsDataSlice] *)
Abbreviation TicketsDataSlice := (list TicketsData).

Module TS.

(** Every ticket of the slice with its owner, in order. *)
Definition flatten (s : TicketsDataSlice) : list (Address * TicketBody) :=
  flat_map (fun d => map (pair (TDOwner d)) (Tickets d)) s.

Fixpoint find_body (id : Hash) (l : list (Address * TicketBody)) : option Ticket :=
  match l with
  | [] => None
  | (o, b) :: r => if decide (ID b = id) then Some (mkTicket o b) else find_body id r
  end.

(** Modelled from the spec: [TicketsDataSlice.Get(id)], the ticket with
    that id ("Tickets are unique by ID"); [None] is the not-found error. *)
Definition Get (id : Hash) (s : TicketsDataSlice) : option Ticket :=
  find_body id (flatten s).

(** Appends [b] to the group of [owner], or opens a new group at the end. *)
Fixpoint append_ticket (owner : Address) (b : TicketBody) (s : TicketsDataSlice)
  : TicketsDataSlice :=
  match s with
  | [] => [mkTicketsData owner [b]]
  | d :: r =>
      if decide (TDOwner d = owner)
      then mkTicketsData owner (Tickets d ++ [b]) :: r
      else d :: append_ticket owner b r
  end.

(** Modelled from the spec: [TicketsDataSlice.AddTicket], "Append ticket";
    "ticket ID collision is a fatal error".  The error is [inl]. *)
Definition AddTicket (t : Ticket) (s : TicketsDataSlice)
  : string + TicketsDataSlice :=
  match Get (ID (Body t)) s with
  | Some _ => inl "AddTicket: ticket exists"%string
  | None => inr (append_ticket (Owner t) (Body t) s)
  end.

(** Modelled from the spec: [TicketsDataSlice.DeepCopy], an element-wise
    copy of the slice into a freshly made one, so never [nil]. *)
Definition DeepCopy (s : option TicketsDataSlice) : option TicketsDataSlice :=
  Some (default [] s).

End TS.

(* ===================================================================== *)
(** * The ticket ring cache (fsnstate.go, lines 20-79)                     *)
(* ===================================================================== *)

(** [type CachedTickets struct]; a [nil] slice is [None]. *)
Record CachedTickets := mkCachedTickets {
  ct_hash : Hash;
  ct_tickets : option TicketsDataSlice }.

Definition maxCachedTicketsCount : Z := 101.

(** [type CachedTicketSlice struct], without its lock. *)
Record CachedTicketSlice := mkCache {
  cts_tickets : list CachedTickets;
  cts_start : Z;
  cts_end : Z }.

(** The zero value of an array element: zero hash, [nil] slice. *)
Definition zeroCachedTickets : CachedTickets := mkCachedTickets zeroHash None.

(** [var cachedTicketSlice = CachedTicketSlice{...}] *)
Definition cachedTicketSlice : CachedTicketSlice :=
  mkCache (replicate 101 zeroCachedTickets) 0 0.

Module Cache.

(** The loop of [Get]:
    [for i := cts.start; i != cts.end; i = (i + 1) % maxCachedTicketsCount].
    The outer [None] is a run that has not returned within [fuel] rounds or
    that indexes outside the array; the inner one is Go's [nil]. *)
Fixpoint Get_loop (fuel : nat) (cts : CachedTicketSlice) (hash : Hash) (i : Z)
  : option (option TicketsDataSlice) :=
  match fuel with
  | O => None
  | S fuel' =>
      if decide (i = cts_end cts) then Some None
      else if decide (0 <= i) then
        match cts_tickets cts !! Z.to_nat i with
        | None => None
        | Some v =>
            if decide (ct_hash v = hash) then Some (ct_tickets v)
            else Get_loop fuel' cts hash (Z.rem (i + 1) maxCachedTicketsCount)
        end
      else None
  end.

(** [func (cts *CachedTicketSlice) Get(hash common.Hash) common.TicketsDataSlice] *)
Definition Get (hash : Hash) (cts : CachedTicketSlice)
  : option (option TicketsDataSlice) :=
  if decide (hash = zeroHash) then Some (Some [])
  else Get_loop 102 cts hash (cts_start cts).

(** [func (cts *CachedTicketSlice) Add(hash common.Hash, tickets common.TicketsDataSlice)] *)
Definition Add (hash : Hash) (tickets : option TicketsDataSlice)
    (cts : CachedTicketSlice) : option CachedTicketSlice :=
  match Get hash cts with
  | None => None
  | Some (Some _) => Some cts
  | Some None =>
      let elem := mkCachedTickets hash (TS.DeepCopy tickets) in
      if decide (0 <= cts_end cts < Z.of_nat (length (cts_tickets cts))) then
        let tickets' := <[Z.to_nat (cts_end cts) := elem]> (cts_tickets cts) in
        let end' := Z.rem (cts_end cts + 1) maxCachedTicketsCount in
        let start' :=
          if decide (end' = cts_start cts)
          then Z.rem (cts_start cts + 1) maxCachedTicketsCount
          else cts_start cts in
        Some (mkCache tickets' start' end')
      else None
  end.

(** [Add] of a list of entries, one after the other. *)
Fixpoint AddAll (es : list (Hash * option TicketsDataSlice))
    (cts : CachedTicketSlice) : option CachedTicketSlice :=
  match es with
  | [] => Some cts
  | (h, t) :: r =>
      match Add h t cts with
      | Some cts' => AddAll r cts'
      | None => None
      end
  end.

End Cache.

(** ** The ring as a queue *)

(** The invariant of the ring: 101 slots, both cursors inside. *)
Definition cache_wf (c : CachedTicketSlice) : Prop :=
  length (cts_tickets c) = 101%nat
  /\ 0 <= cts_start c < 101 /\ 0 <= cts_end c < 101.

(** The number of live entries, from [start] up to [end]. *)
Definition cache_count (c : CachedTicketSlice) : Z :=
  (cts_end c - cts_start c) mod 101.

(** [n] slots of the array from index [i] on, wrapping. *)
Fixpoint ring (t : list CachedTickets) (i : Z) (n : nat) : list CachedTickets :=
  match n with
  | O => []
  | S n' => default zeroCachedTickets (t !! Z.to_nat i) :: ring t ((i + 1) mod 101) n'
  end.

(** The live entries, oldest first. *)
Definition cache_contents (c : CachedTicketSlice) : list CachedTickets :=
  ring (cts_tickets c) (cts_start c) (Z.to_nat (cache_count c)).

(** The slice of the first entry with that hash. *)
Fixpoint lookupHash (h : Hash) (l : list CachedTickets) : option TicketsDataSlice :=
  match l with
  | [] => None
  | v :: r => if decide (ct_hash v = h) then ct_tickets v else lookupHash h r
  end.

(** The entry that [Add] writes. *)
Definition cache_elem (e : Hash * option TicketsDataSlice) : CachedTickets :=
  mkCachedTickets e.1 (TS.DeepCopy e.2).

(** What Go's types and [Add] keep true of the package-level ring: it is
    an array of 101 slots with both cursors inside, and the slice of a live
    entry is a copy, so not [nil]. *)
Definition cache_ok (c : CachedTicketSlice) : Prop :=
  cache_wf c /\ Forall (fun v => is_Some (ct_tickets v)) (cache_contents c).

#[global] Instance cache_ok_dec (c : CachedTicketSlice) : Decision (cache_ok c).
Proof. unfold cache_ok, cache_wf. apply _. Defined.

(** The ring as the package declares it. *)
Definition emptyCache : dsig cache_ok := exist _ cachedTicketSlice I.

(* ===================================================================== *)
(** * Collaborators that are not among the sources                         *)
(* ===================================================================== *)

(** The tag of [common.FSNCallParam.Func].  Only the tags whose case of
    [handleFsnCall] and [validateFsnCallTx] is embedded below are listed;
    [UnknownFunc] is a tag that neither switch knows. *)
Inductive FSNCallFunc :=
  | SendAssetFunc | TimeLockFunc | BuyTicketFunc | EmptyFunc
  | MakeSwapFunc | MakeSwapFuncExt | UnknownFunc (tag : Z).

#[global] Instance FSNCallFunc_eq_dec : EqDecision FSNCallFunc.
Proof. solve_decision. Defined.

(** [common.TimeLockType] *)
Inductive TimeLockType :=
  | AssetToTimeLock | TimeLockToTimeLock | TimeLockToAsset | SmartTransfer
  | UnknownTimeLockType (tag : Z).

#[global] Instance TimeLockType_eq_dec : EqDecision TimeLockType.
Proof. solve_decision. Defined.

(** [common.FSNCallParam] *)
Record FSNCallParam := mkFSNCallParam { Func : FSNCallFunc; Data : Bytes }.

(** [common.SendAssetParam] *)
Record SendAssetParam := mkSendAssetParam {
  sa_AssetID : Hash; sa_To : Address; sa_Value : Z }.

(** [common.TimeLockParam] *)
Record TimeLockParam := mkTimeLockParam {
  tl_Type : TimeLockType; tl_AssetID : Hash; tl_To : Address;
  tl_StartTime : Z; tl_EndTime : Z; tl_Value : Z }.

(** [common.BuyTicketParam] *)
Record BuyTicketParam := mkBuyTicketParam { bt_Start : Z; bt_End : Z }.

(** [common.MakeSwapParam] *)
Record MakeSwapParam := mkMakeSwapParam {
  ms_FromAssetID : Hash; ms_FromStartTime : Z; ms_FromEndTime : Z;
  ms_MinFromAmount : Z;
  ms_ToAssetID : Hash; ms_ToStartTime : Z; ms_ToEndTime : Z;
  ms_MinToAmount : Z;
  ms_SwapSize : Z; ms_Targes : list Address; ms_Time : Z;
  ms_Description : string }.

(** [common.Swap] *)
Record Swap := mkSwap {
  sw_ID : Hash; sw_Owner : Address;
  sw_FromAssetID : Hash; sw_FromStartTime : Z; sw_FromEndTime : Z;
  sw_MinFromAmount : Z;
  sw_ToAssetID : Hash; sw_ToStartTime : Z; sw_ToEndTime : Z;
  sw_MinToAmount : Z;
  sw_SwapSize : Z; sw_Targes : list Address; sw_Time : Z;
  sw_Description : string; sw_Notation : Z }.

(** [common.Asset], as far as the embedded code reads it. *)
Record Asset := mkAsset {
  as_ID : Hash; as_Owner : Address; as_Total : Z; as_CanChange : bool }.

(** [type swapPersist struct] and [type assetPersist struct] (fsnstate.go) *)
Record swapPersist := mkSwapPersist { sp_Deleted : bool; sp_Swap : Swap }.
Record assetPersist := mkAssetPersist { ap_Deleted : bool; ap_Asset : Asset }.

(** [types.Transaction] and [core.Message], as far as the embedded code reads
    them.  [tx_To = None] is the [nil] recipient. *)
Record Transaction := mkTransaction {
  tx_Nonce : Z; tx_To : option Address; tx_Value : Z;
  tx_Gas : Z; tx_GasPrice : Z; tx_Data : Bytes }.

(** [common.TransferTimeLockParam] *)
Record TransferTimeLockParam := mkTransferTimeLockParam {
  tt_AssetID : Hash; tt_StartTime : Z; tt_EndTime : Z; tt_Timestamp : Z;
  tt_Value : Z; tt_GasValue : Z }.

(** What unzipping a blob gives: [gzip.NewReader] fails, [io.Copy] fails,
    [gz.Close] fails, or the data are read. *)
Inductive Gunzip :=
  | GzReadError | GzCopyError | GzCloseError | GzData (data : Bytes).

(** Functions of other packages (crypto, rlp, common, params) that the
    embedded code calls.  They are parameters of the development; an error
    result is [Some message], [None] is Go's [nil] error. *)
Class Externals := {
  (** [crypto.Keccak256Hash(data...)] on the concatenation of its arguments *)
  Keccak256 : Bytes -> Hash;
  (** [common.Hash.String()], the printed form of a hash *)
  Hash_String : Hash -> string;
  (** [rlpHash(types.NewTransaction(...))] of [GetUniqueHashFromMessage] and
      [GetUniqueHashFromTransaction] *)
  rlpHashTx : Transaction -> Hash;
  (** [rlp.DecodeBytes(param.Data, &p)] at each parameter type *)
  decodeSendAssetParam : Bytes -> SendAssetParam;
  decodeTimeLockParam : Bytes -> TimeLockParam;
  decodeBuyTicketParam : Bytes -> BuyTicketParam;
  decodeMakeSwapParam : Bytes -> MakeSwapParam;
  (** [rlp.DecodeBytes(tx.Data(), &param)], which may fail *)
  decodeFSNCallParam : Bytes -> option FSNCallParam;
  (** [rlp.EncodeToBytes] and [rlp.DecodeBytes] at the persisted records *)
  encodeSwapPersist : swapPersist -> string + Bytes;
  decodeSwapPersist : Bytes -> swapPersist;
  decodeAssetPersist : Bytes -> assetPersist;
  (** the [Check] methods of the parameter structs *)
  SendAssetParam_Check : SendAssetParam -> Z -> option string;
  TimeLockParam_Check : TimeLockParam -> Z -> Z -> option string;
  BuyTicketParam_Check : BuyTicketParam -> Z -> Z -> option string;
  MakeSwapParam_Check : MakeSwapParam -> Z -> Z -> option string;
  (** [common.TicketPrice(height)] *)
  TicketPrice : Z -> Z;
  (** [common.IsHardFork(n, height)], [common.IsSmartTransferEnabled(height)] *)
  IsHardFork : Z -> Z -> bool;
  IsSmartTransferEnabled : Z -> bool;
  (** [common.GetFsnCallFee(to, func)], [common.IsFsnCall(to)] *)
  GetFsnCallFee : option Address -> FSNCallFunc -> Z;
  IsFsnCall : option Address -> bool;
  (** [common.IsReceiveAssetPayableTx], [common.ParseReceiveAssetPayableTxInput] *)
  IsReceiveAssetPayableTx : Z -> Bytes -> bool;
  ParseReceiveAssetPayableTxInput : Bytes -> Z -> string + TransferTimeLockParam;
  (** well-known ids and addresses of package common *)
  SystemAssetID : Hash;
  OwnerUSANAssetID : Hash;
  FSNCallAddress : Address;
  SwapKeyAddress : Address;
  AssetKeyAddress : Address;
  BigMaxUint64 : Z;
  (** [common.TicketKeyAddress] *)
  TicketKeyAddress : Address;
  (** [gzip.NewReader(bytes.NewBuffer(blob))], [io.Copy(&buf, gz)] and
      [gz.Close()] *)
  gunzip : Bytes -> Gunzip;
  (** [rlp.DecodeBytes(data, &tickets)]; [None] is an error *)
  decodeTickets : Bytes -> option TicketsDataSlice;
}.

(* ===================================================================== *)
(** * The StateDB facade (fsnstate.go)                                     *)
(* ===================================================================== *)

(** [type Account struct].  The parallel slices [BalancesHash]/[BalancesVal]
    and [TimeLockBalancesHash]/[TimeLockBalancesVal], which the code extends
    and indexes in lock step, are lists of pairs. *)
Record Account := mkAccount {
  Balances : list (Hash * Z);
  TimeLockBalances : list (Hash * TimeLock);
  Notaion : Z }.

(** [type stateObject struct]: the account data, the nonce, the code size,
    the storage slots behind [GetState]/[SetState] and the code, which
    [GetData] reads.  The journal, which only serves reverts, is left out. *)
Record stateObject := mkObject {
  data : Account;
  nonce : Z;
  codeSize : Z;
  storage : gmap Hash Hash;
  code : Bytes }.

(** One value of a log annotation, [common.NewKeyValue(key, value)]. *)
Inductive LogValue :=
  | LVString (s : string) | LVHash (h : Hash) | LVAddress (a : Address).

(** [types.Log] as [addLog] builds it: the function tag of the topic, the
    value that is flattened into the JSON map, and the annotations. *)
Record Log := mkLog {
  log_Func : FSNCallFunc;
  log_Value : Bytes + (SendAssetParam + (TimeLockParam + MakeSwapParam));
  log_KeyValues : list (string * LogValue);
  log_BlockNumber : Z }.

(** [type StateDB struct]: the live objects, the decoded ticket set
    ([s.tickets]), the logs, the hash of the stored ticket set
    ([s.ticketsHash]) and the database error that [s.Error()] returns.  The
    package-level [cachedTicketSlice], which [AllTickets] reads and fills,
    is carried along as [cachedTickets]. *)
Record StateDB := mkState {
  stateObjects : gmap Address stateObject;
  tickets : TicketsDataSlice;
  logs : list Log;
  ticketsHash : Hash;
  dbErr : option string;
  cachedTickets : dsig cache_ok }.

(** A state db with the zero ticket hash and no database error, beside the
    ring as the package declares it. *)
Definition mkStateDB (objs : gmap Address stateObject) (tks : TicketsDataSlice)
    (lgs : list Log) : StateDB :=
  mkState objs tks lgs zeroHash None emptyCache.

(** The embedded code runs in this monad: state passing, with [None] for a
    run the specification leaves undefined. *)
Definition M (A : Type) : Type := StateDB -> option (A * StateDB).

#[global] Instance M_ret : MRet M := fun A x s => Some (x, s).
#[global] Instance M_bind : MBind M := fun A B f m s =>
  match m s with
  | Some (x, s') => f x s'
  | None => None
  end.

(** A read that may touch the state, and a write. *)
Definition liftR {A} (f : StateDB -> A * StateDB) : M A := fun s => Some (f s).
Definition liftW (f : StateDB -> StateDB) : M unit := fun s => Some (tt, f s).
Definition liftO (f : StateDB -> option StateDB) : M unit :=
  fun s => match f s with Some s' => Some (tt, s') | None => None end.

(** A value of an operation that may be undefined. *)
Definition defined {A} (x : option A) : M A :=
  fun s => match x with Some a => Some (a, s) | None => None end.

(** Go's [error]: [None] is [nil].  A message is the text of its format
    string; a hash that the source prints into it is printed with
    [Hash_String], numbers and wrapped errors are left out. *)
Abbreviation error := (option string).

(** ** stateObject methods *)

Module SO.

Definition set_data (f : Account -> Account) (o : stateObject) : stateObject :=
  mkObject (f (data o)) (nonce o) (codeSize o) (storage o) (code o).

Definition set_Balances (b : list (Hash * Z)) (a : Account) : Account :=
  mkAccount b (TimeLockBalances a) (Notaion a).

Definition set_TimeLockBalances (b : list (Hash * TimeLock)) (a : Account) : Account :=
  mkAccount (Balances a) b (Notaion a).

(** The search loop shared by [balanceAssetIndex] and [timeLockAssetIndex]:
    [for i, v := range hashes { if v == assetID { return i } }]. *)
Fixpoint assetIndex {V} (assetID : Hash) (l : list (Hash * V)) : option nat :=
  match l with
  | [] => None
  | (h, _) :: r =>
      if decide (h = assetID) then Some O else S <$> assetIndex assetID r
  end.

(** [func (s *stateObject) balanceAssetIndex(assetID common.Hash) int] *)
Definition balanceAssetIndex (assetID : Hash) (o : stateObject) : nat * stateObject :=
  match assetIndex assetID (Balances (data o)) with
  | Some i => (i, o)
  | None =>
      (length (Balances (data o)),
       set_data (set_Balances (Balances (data o) ++ [(assetID, 0)])) o)
  end.

(** [s.data.BalancesVal[index]] *)
Definition BalancesVal (o : stateObject) (index : nat) : Z :=
  default 0 (snd <$> Balances (data o) !! index).

(** [func (s *stateObject) setBalance(assetID common.Hash, amount *big.Int)] *)
Definition setBalance (assetID : Hash) (amount : Z) (o : stateObject) : stateObject :=
  let '(index, o) := balanceAssetIndex assetID o in
  set_data (set_Balances (alter (fun p => (p.1, amount)) index (Balances (data o)))) o.

(** [func (s *stateObject) SetBalance(assetID common.Hash, amount *big.Int)] *)
Definition SetBalance (assetID : Hash) (amount : Z) (o : stateObject) : stateObject :=
  let '(_, o) := balanceAssetIndex assetID o in
  setBalance assetID amount o.

(** [func (s *stateObject) AddBalance(assetID common.Hash, amount *big.Int)] *)
Definition AddBalance (assetID : Hash) (amount : Z) (o : stateObject) : stateObject :=
  if amount =? 0 then o
  else
    let '(index, o) := balanceAssetIndex assetID o in
    SetBalance assetID (BalancesVal o index + amount) o.

(** [func (s *stateObject) SubBalance(assetID common.Hash, amount *big.Int)] *)
Definition SubBalance (assetID : Hash) (amount : Z) (o : stateObject) : stateObject :=
  if amount =? 0 then o
  else
    let '(index, o) := balanceAssetIndex assetID o in
    SetBalance assetID (BalancesVal o index - amount) o.

(** [func (s *stateObject) Balance(assetID common.Hash) *big.Int] *)
Definition Balance (assetID : Hash) (o : stateObject) : Z * stateObject :=
  let '(index, o) := balanceAssetIndex assetID o in
  (BalancesVal o index, o).

(** [func (c *stateObject) timeLockAssetIndex(assetID common.Hash) int] *)
Definition timeLockAssetIndex (assetID : Hash) (o : stateObject) : nat * stateObject :=
  match assetIndex assetID (TimeLockBalances (data o)) with
  | Some i => (i, o)
  | None =>
      (length (TimeLockBalances (data o)),
       set_data (set_TimeLockBalances (TimeLockBalances (data o) ++ [(assetID, [])])) o)
  end.

(** [s.data.TimeLockBalancesVal[index]] *)
Definition TimeLockBalancesVal (o : stateObject) (index : nat) : TimeLock :=
  default [] (snd <$> TimeLockBalances (data o) !! index).

(** [func (s *stateObject) setTimeLockBalance(assetID common.Hash, amount *common.TimeLock)] *)
Definition setTimeLockBalance (assetID : Hash) (amount : TimeLock) (o : stateObject)
  : stateObject :=
  let '(index, o) := timeLockAssetIndex assetID o in
  set_data (set_TimeLockBalances
              (alter (fun p => (p.1, amount)) index (TimeLockBalances (data o)))) o.

(** [func (s *stateObject) SetTimeLockBalance(assetID common.Hash, amount *common.TimeLock)] *)
Definition SetTimeLockBalance (assetID : Hash) (amount : TimeLock) (o : stateObject)
  : stateObject :=
  let '(_, o) := timeLockAssetIndex assetID o in
  setTimeLockBalance assetID amount o.

(** [func (s *stateObject) AddTimeLockBalance(assetID, amount, blockNumber, timestamp)] *)
Definition AddTimeLockBalance (assetID : Hash) (amount : TimeLock)
    (blockNumber timestamp : Z) (o : stateObject) : stateObject :=
  if TL.IsEmpty amount then o
  else
    let '(index, o) := timeLockAssetIndex assetID o in
    let res := TimeLockBalancesVal o index in
    let res := TL.Add res amount in
    let res := TL.ClearExpired res timestamp in
    SetTimeLockBalance assetID res o.

(** [func (s *stateObject) SubTimeLockBalance(assetID, amount, blockNumber, timestamp)].
    [None] when [Sub] is undefined. *)
Definition SubTimeLockBalance (assetID : Hash) (amount : TimeLock)
    (blockNumber timestamp : Z) (o : stateObject) : option stateObject :=
  if TL.IsEmpty amount then Some o
  else
    let '(index, o) := timeLockAssetIndex assetID o in
    let res := TimeLockBalancesVal o index in
    match TL.Sub res amount with
    | Some res =>
        let res := TL.ClearExpired res timestamp in
        Some (SetTimeLockBalance assetID res o)
    | None => None
    end.

(** [func (s *stateObject) TimeLockBalance(assetID common.Hash) *common.TimeLock] *)
Definition TimeLockBalance (assetID : Hash) (o : stateObject) : TimeLock * stateObject :=
  let '(index, o) := timeLockAssetIndex assetID o in
  (TimeLockBalancesVal o index, o).

(** [func (s *stateObject) Notation() uint64] *)
Definition Notation (o : stateObject) : Z := Notaion (data o).

(** [func (s *stateObject) CopyBalances() map[common.Hash]string]; the
    decimal strings stay numbers. *)
Definition CopyBalances (o : stateObject) : gmap Hash Z :=
  foldl (fun ret p => if decide (p.2 <> 0) then <[p.1 := p.2]> ret else ret)
        ∅ (Balances (data o)).

(** [stateObject.GetState(db, key)]: an unset slot reads as the zero hash. *)
Definition GetState (o : stateObject) (key : Hash) : Hash :=
  default zeroHash (storage o !! key).

(** [stateObject.SetState(db, key, value)] *)
Definition SetState (key value : Hash) (o : stateObject) : stateObject :=
  mkObject (data o) (nonce o) (codeSize o) (<[key := value]> (storage o)) (code o).

(** [stateObject.SetNonce(nonce)] *)
Definition SetNonce (n : Z) (o : stateObject) : stateObject :=
  mkObject (data o) n (codeSize o) (storage o) (code o).

End SO.

(** ** StateDB methods *)

(** [newObject]: an account with no balances, nonce 0, empty storage and
    no code. *)
Definition newObject : stateObject := mkObject (mkAccount [] [] 0) 0 0 ∅ [].

Definition set_stateObjects (f : gmap Address stateObject -> gmap Address stateObject)
    (s : StateDB) : StateDB :=
  mkState (f (stateObjects s)) (tickets s) (logs s)
    (ticketsHash s) (dbErr s) (cachedTickets s).

(** [StateDB.getStateObject(addr)]: [None] is the [nil] object. *)
Definition getStateObject (addr : Address) (s : StateDB) : option stateObject :=
  stateObjects s !! addr.

(** [StateDB.GetOrNewStateObject(addr)] *)
Definition GetOrNewStateObject (addr : Address) (s : StateDB) : stateObject * StateDB :=
  match getStateObject addr s with
  | Some o => (o, s)
  | None => (newObject, set_stateObjects (insert addr newObject) s)
  end.

(** A method call on the object that [GetOrNewStateObject] returns; the
    object is shared with the state, so the state sees the change. *)
Definition onObject (addr : Address) (f : stateObject -> stateObject) (s : StateDB)
  : StateDB :=
  let '(o, s) := GetOrNewStateObject addr s in
  set_stateObjects (insert addr (f o)) s.

(** [func (s *StateDB) AddBalance(addr common.Address, assetID common.Hash, amount *big.Int)] *)
Definition AddBalance (addr : Address) (assetID : Hash) (amount : Z) : StateDB -> StateDB :=
  onObject addr (SO.AddBalance assetID amount).

(** [func (s *StateDB) SubBalance(addr, assetID, amount)] *)
Definition SubBalance (addr : Address) (assetID : Hash) (amount : Z) : StateDB -> StateDB :=
  onObject addr (SO.SubBalance assetID amount).

(** [func (s *StateDB) GetBalance(assetID common.Hash, addr common.Address) *big.Int] *)
Definition GetBalance (assetID : Hash) (addr : Address) (s : StateDB) : Z * StateDB :=
  match getStateObject addr s with
  | Some o =>
      let '(v, o) := SO.Balance assetID o in
      (v, set_stateObjects (insert addr o) s)
  | None => (0, s)
  end.

(** [func (s *StateDB) GetAllBalances(addr common.Address) map[common.Hash]string] *)
Definition GetAllBalances (addr : Address) (s : StateDB) : gmap Hash Z :=
  match getStateObject addr s with
  | Some o => SO.CopyBalances o
  | None => ∅
  end.

(** [func (s *StateDB) AddTimeLockBalance(addr, assetID, amount, blockNumber, timestamp)] *)
Definition AddTimeLockBalance (addr : Address) (assetID : Hash) (amount : TimeLock)
    (blockNumber timestamp : Z) : StateDB -> StateDB :=
  onObject addr (SO.AddTimeLockBalance assetID amount blockNumber timestamp).

(** [func (s *StateDB) SubTimeLockBalance(addr, assetID, amount, blockNumber, timestamp)] *)
Definition SubTimeLockBalance (addr : Address) (assetID : Hash) (amount : TimeLock)
    (blockNumber timestamp : Z) (s : StateDB) : option StateDB :=
  let '(o, s) := GetOrNewStateObject addr s in
  match SO.SubTimeLockBalance assetID amount blockNumber timestamp o with
  | Some o => Some (set_stateObjects (insert addr o) s)
  | None => None
  end.

(** [func (s *StateDB) GetTimeLockBalance(assetID common.Hash, addr common.Address) *common.TimeLock],
    read as a value. *)
Definition GetTimeLockBalance (assetID : Hash) (addr : Address) (s : StateDB)
  : TimeLock * StateDB :=
  match getStateObject addr s with
  | Some o =>
      let '(v, o) := SO.TimeLockBalance assetID o in
      (v, set_stateObjects (insert addr o) s)
  | None => ([], s)
  end.

(** [func (s *StateDB) GetNotation(addr common.Address) uint64] *)
Definition GetNotation (addr : Address) (s : StateDB) : Z :=
  match getStateObject addr s with
  | Some o => SO.Notation o
  | None => 0
  end.

(** [func (s *StateDB) GetData(addr common.Address) []byte]; [None] is the
    [nil] slice. *)
Definition GetData (addr : Address) (s : StateDB) : option Bytes :=
  match getStateObject addr s with
  | Some o => Some (code o)
  | None => None
  end.

(** The assignments [s.tickets = ...] and, on the package-level variable,
    what [cachedTicketSlice.Add] leaves. *)
Definition set_tickets (ts : TicketsDataSlice) (s : StateDB) : StateDB :=
  mkState (stateObjects s) ts (logs s) (ticketsHash s) (dbErr s) (cachedTickets s).

Definition set_cachedTickets (c : dsig cache_ok) (s : StateDB) : StateDB :=
  mkState (stateObjects s) (tickets s) (logs s) (ticketsHash s) (dbErr s) c.

Section TicketSet.
Context `{Externals}.

(** [func (s *StateDB) AllTickets() (common.TicketsDataSlice, error)]: the
    set that the state holds, or else the one that the ring holds under
    [s.ticketsHash], or else the one that the blob under
    [common.TicketKeyAddress] unzips and decodes to, which is then kept in
    the state and in the ring.  [inl] is the error, with which no caller
    reads the slice.  [Add] keeps the ring as [cache_ok] has it; the test
    puts its result back into the type of the field. *)
Definition AllTickets : M (string + TicketsDataSlice) := fun s =>
  if negb (length (tickets s) =? 0)%nat then Some (inr (tickets s), s)
  else
    let key := ticketsHash s in
    match Cache.Get key (proj1_sig (cachedTickets s)) with
    | None => None
    | Some (Some ts) =>
        let s := set_tickets (default [] (TS.DeepCopy (Some ts))) s in
        Some (inr (tickets s), s)
    | Some None =>
        let blob := GetData TicketKeyAddress s in
        if (length (default [] blob) =? 0)%nat then
          match dbErr s with
          | Some e => Some (inl e, s)
          | None => Some (inr [], s)
          end
        else
          match gunzip (default [] blob) with
          | GzReadError => Some (inl "Read tickets zip data: "%string, s)
          | GzCopyError => Some (inl "Copy tickets zip data: "%string, s)
          | GzCloseError => Some (inl "Close read zip tickets: "%string, s)
          | GzData data =>
              match decodeTickets data with
              | None => Some (inl "Unable to decode tickets, err: "%string, s)
              | Some tickets =>
                  let s := set_tickets tickets s in
                  match Cache.Add key (Some tickets) (proj1_sig (cachedTickets s)) with
                  | Some c =>
                      match decide (cache_ok c) with
                      | left ok => Some (inr tickets, set_cachedTickets (dexist c ok) s)
                      | right _ => None
                      end
                  | None => None
                  end
              end
          end
    end.

(** [func (s *StateDB) IsTicketExist(id common.Hash) bool] *)
Definition IsTicketExist (id : Hash) : M bool :=
  r ← AllTickets;
  match r with
  | inl _ => mret false
  | inr tickets => mret (bool_decide (is_Some (TS.Get id tickets)))
  end.

(** [func (s *StateDB) AddTicket(ticket common.Ticket) error] *)
Definition AddTicket (ticket : Ticket) : M error :=
  r ← AllTickets;
  match r with
  | inl e => mret (Some ("AddTicket error: " ++ e)%string)
  | inr tickets =>
      match TS.AddTicket ticket tickets with
      | inl e => mret (Some ("AddTicket error: " ++ e)%string)
      | inr tickets => liftW (set_tickets tickets);; mret None
      end
  end.

End TicketSet.

(** [StateDB.AddLog(log)] *)
Definition AddLog (l : Log) (s : StateDB) : StateDB :=
  mkState (stateObjects s) (tickets s) (logs s ++ [l])
    (ticketsHash s) (dbErr s) (cachedTickets s).

(** [StateDB.GetCodeSize(addr)] *)
Definition GetCodeSize (addr : Address) (s : StateDB) : Z :=
  match getStateObject addr s with
  | Some o => codeSize o
  | None => 0
  end.

(** ** The structured-storage codec (fsnstate.go, lines 793-857) *)

(** [big.Int.Bytes()]: the big-endian bytes of the absolute value with
    no leading zero; empty for 0. *)
Definition big_Bytes (z : Z) : Bytes :=
  if z =? 0 then []
  else be_bytes (Z.to_nat (Z.log2 (Z.abs z) / 8 + 1)) (Z.abs z).

(** Modelled from the spec: [common.IntToBytes] and [common.BytesToInt]
    (package common, not under src/) write and read the 4-byte big-endian
    fields of the header word "[size:4][pad:12][slots:4][pad:12]". *)
Definition IntToBytes (n : Z) : Bytes := be_bytes 4 n.
Definition BytesToInt (b : Bytes) : Z := be_Z b.

(** Go's [copy(dst, src)]: the first [min(len(dst), len(src))] bytes of
    [dst] are overwritten. *)
Definition copy (dst src : Bytes) : Bytes :=
  take (length dst) src ++ drop (length src) dst.

(** [copy(b[from:], src)] on the array or slice [b] *)
Definition copy_at (from : nat) (b src : Bytes) : Bytes :=
  take from b ++ copy (drop from b) src.

(** [common.Hash.SetBytes(b)] on the zero hash: [b] is cropped from the
    left to 32 bytes and right-aligned. *)
Definition Hash_SetBytes (b : Bytes) : Hash :=
  let b := drop (length b - 32)%nat b in
  copy_at (32 - length b)%nat zeroHash b.

Section StructData.
Context `{Externals}.

(** [crypto.Keccak256Hash(tempIndex.Bytes(), keyIndex.Bytes())] with
    [tempIndex := big.NewInt(int64(i))] *)
Definition slotKey (keyIndex : Z) (i : nat) : Hash :=
  Keccak256 (big_Bytes (Z.of_nat i) ++ big_Bytes keyIndex).

(** One round of the loop of [GetStructData].  [data[start:end]] panics
    when [start > end], which is [None]. *)
Definition readSlot (o : stateObject) (keyIndex : Z) (size : nat)
    (data : option Bytes) (i : nat) : option Bytes :=
  data ← data;
  let tempData := SO.GetState o (slotKey keyIndex i) in
  let start := (i * 32)%nat in
  let end_ := (start + 32)%nat in
  let end_ := if decide (size < end_)%nat then size else end_ in
  if decide (start <= end_)%nat then
    Some (take start data
          ++ copy (take (end_ - start) (drop start data))
                  (drop (32 - (end_ - start)) tempData)
          ++ drop end_ data)
  else None.

(** The body of [GetStructData] once the object is at hand. *)
Definition readStructData (o : stateObject) (key : Bytes) : option Bytes :=
  let keyHash := Keccak256 key in
  let keyIndex := be_Z keyHash in
  let info := SO.GetState o keyHash in
  let size := Z.to_nat (BytesToInt (take 4 info)) in
  let length := Z.to_nat (BytesToInt (take 4 (drop 16 info))) in
  let data := replicate size "000"%byte in
  foldl (readSlot o keyIndex size) (Some data) (seq 0 length).

(** [func (s *StateDB) GetStructData(addr common.Address, key []byte) []byte].
    The inner [None] is the [nil] slice. *)
Definition GetStructData (addr : Address) (key : option Bytes) : M (option Bytes) :=
  fun s =>
    match key with
    | None => Some (None, s)
    | Some key =>
        let '(o, s) := GetOrNewStateObject addr s in
        match readStructData o key with
        | Some data => Some (Some data, s)
        | None => None
        end
    end.

(** One round of the loop of [SetStructData]. *)
Definition writeSlot (keyIndex : Z) (value : Bytes) (o : stateObject) (i : nat)
  : stateObject :=
  let size := length value in
  let start := (i * 32)%nat in
  let end_ := (start + 32)%nat in
  let end_ := if decide (size < end_)%nat then size else end_ in
  let tempData := Hash_SetBytes (take (end_ - start) (drop start value)) in
  SO.SetState (slotKey keyIndex i) tempData o.

(** The body of [SetStructData] once the object is at hand. *)
Definition writeStructData (key value : Bytes) (o : stateObject) : stateObject :=
  let size := length value in
  let length := (size / 32)%nat in
  let length := if decide (size mod 32 <> 0)%nat then S length else length in
  let info := zeroHash in
  let info := copy_at 0 info (IntToBytes (Z.of_nat size)) in
  let info := copy_at 16 info (IntToBytes (Z.of_nat length)) in
  let keyHash := Keccak256 key in
  let keyIndex := be_Z keyHash in
  let o := SO.SetState keyHash info o in
  let o := foldl (writeSlot keyIndex value) o (seq 0 length) in
  SO.SetNonce (u64 (nonce o + 1)) o.

(** [func (s *StateDB) SetStructData(addr common.Address, key, value []byte)] *)
Definition SetStructData (addr : Address) (key value : option Bytes) (s : StateDB)
  : StateDB :=
  match key, value with
  | Some key, Some value => onObject addr (writeStructData key value) s
  | _, _ => s
  end.

(** ** Swaps and assets *)

(** [func (s *StateDB) GetSwap(swapID common.Hash) (common.Swap, error)] *)
Definition GetSwap (swapID : Hash) : M (string + Swap) :=
  data ← GetStructData SwapKeyAddress (Some swapID);
  match data with
  | None | Some [] => mret (inl "swap not found"%string)
  | Some data =>
      let swap := decodeSwapPersist data in
      if sp_Deleted swap then mret (inl "swap deleted"%string)
      else mret (inr (sp_Swap swap))
  end.

(** [func (s *StateDB) AddSwap(swap common.Swap) error] *)
Definition AddSwap (swap : Swap) : M error :=
  r ← GetSwap (sw_ID swap);
  match r with
  | inr _ => mret (Some (Hash_String (sw_ID swap) ++ " Swap exists")%string)
  | inl _ =>
      match encodeSwapPersist (mkSwapPersist false swap) with
      | inl e => mret (Some e)
      | inr data =>
          liftW (SetStructData SwapKeyAddress (Some (sw_ID swap)) (Some data));;
          mret None
      end
  end.

(** [func (s *StateDB) GetAsset(assetID common.Hash) (common.Asset, error)] *)
Definition GetAsset (assetID : Hash) : M (string + Asset) :=
  data ← GetStructData AssetKeyAddress (Some assetID);
  match data with
  | None | Some [] => mret (inl "asset not found"%string)
  | Some data =>
      let asset := decodeAssetPersist data in
      if ap_Deleted asset then mret (inl "asset deleted"%string)
      else mret (inr (ap_Asset asset))
  end.

End StructData.

(* ===================================================================== *)
(** * The call dispatcher (fsncontract.go, second half: handleFsnCall)     *)
(* ===================================================================== *)

(** [core.Message], as far as [handleFsnCall] reads it. *)
Record Message := mkMessage {
  From : Address; msg_Nonce : Z; msg_To : option Address; msg_Value : Z;
  msg_Gas : Z; msg_GasPrice : Z; msg_Data : Bytes }.

(** What a run of the dispatcher reads besides the state: [st.evm.Context]
    ([BlockNumber], [ParentTime], [GetHash]) and the local clock behind
    [time.Now().Unix()]. *)
Record Env := mkEnv {
  BlockNumber : Z;
  ParentTime : Z;
  GetHash : Z -> Hash;
  Now : Z }.

(** A non-nil [error] *)
Definition Errorf (msg : string) : error := Some msg.

Definition kvError (msg : string) : string * LogValue := ("Error"%string, LVString msg).
Definition kvString (k v : string) : string * LogValue := (k, LVString v).
Definition kvHash (k : string) (h : Hash) : string * LogValue := (k, LVHash h).
Definition kvAddress (k : string) (a : Address) : string * LogValue := (k, LVAddress a).

Section Dispatcher.
Context `{Externals}.

(** [func GetUniqueHashFromMessage(m Message) common.Hash] *)
Definition GetUniqueHashFromMessage (m : Message) : Hash :=
  rlpHashTx (mkTransaction (msg_Nonce m) (msg_To m) (msg_Value m)
               (msg_Gas m) (msg_GasPrice m) (msg_Data m)).

(** [func GetUniqueHashFromTransaction(tx *types.Transaction) common.Hash] *)
Definition GetUniqueHashFromTransaction (tx : Transaction) : Hash :=
  rlpHashTx (mkTransaction (tx_Nonce tx) (tx_To tx) (tx_Value tx)
               (tx_Gas tx) (tx_GasPrice tx) (tx_Data tx)).

Variable env : Env.
Variable msg : Message.

(** [func (st *StateTransition) addLog(typ, value, keyValues...)] *)
Definition addLog (typ : FSNCallFunc)
    (value : Bytes + (SendAssetParam + (TimeLockParam + MakeSwapParam)))
    (keyValues : list (string * LogValue)) : M unit :=
  liftW (AddLog (mkLog typ value keyValues (BlockNumber env))).

Definition logTL (p : TimeLockParam) := addLog TimeLockFunc (inr (inr (inl p))).
Definition logMS (p : MakeSwapParam) := addLog MakeSwapFunc (inr (inr (inr p))).

(** [case common.SendAssetFunc:] *)
Definition handleSendAsset (param : FSNCallParam) : M error :=
  let height := BlockNumber env in
  let sendAssetParam := decodeSendAssetParam (Data param) in
  let log := addLog SendAssetFunc (inr (inl sendAssetParam)) in
  match SendAssetParam_Check sendAssetParam height with
  | Some e => log [kvError e];; mret (Errorf e)
  | None =>
      bal ← liftR (GetBalance (sa_AssetID sendAssetParam) (From msg));
      if bal <? sa_Value sendAssetParam then
        log [kvError "not enough asset"];; mret (Errorf "not enough asset")
      else
        liftW (SubBalance (From msg) (sa_AssetID sendAssetParam) (sa_Value sendAssetParam));;
        liftW (AddBalance (sa_To sendAssetParam) (sa_AssetID sendAssetParam) (sa_Value sendAssetParam));;
        log [kvHash "AssetID" (sa_AssetID sendAssetParam)];;
        mret None
  end.

(** [case common.AssetToTimeLock:] *)
Definition handleAssetToTimeLock (timeLockParam : TimeLockParam)
    (needValue : TimeLock) : M error :=
  let height := BlockNumber env in
  let timestamp := ParentTime env in
  let assetID := tl_AssetID timeLockParam in
  bal ← liftR (GetBalance assetID (From msg));
  if bal <? tl_Value timeLockParam then
    logTL timeLockParam [kvString "LockType" "AssetToTimeLock"; kvError "not enough asset"];;
    mret (Errorf "not enough asset")
  else
    liftW (SubBalance (From msg) assetID (tl_Value timeLockParam));;
    let totalValue := TL.NewTimeLock
      (mkItem timestamp TimeLockForever (Z.abs (tl_Value timeLockParam))) in
    (if decide (From msg = tl_To timeLockParam) then
       liftW (AddTimeLockBalance (tl_To timeLockParam) assetID totalValue height timestamp)
     else
       surplusValue ← defined (TL.Sub totalValue needValue);
       (if negb (TL.IsEmpty surplusValue) then
          liftW (AddTimeLockBalance (From msg) assetID surplusValue height timestamp)
        else mret tt);;
       liftW (AddTimeLockBalance (tl_To timeLockParam) assetID needValue height timestamp));;
    logTL timeLockParam [kvString "LockType" "AssetToTimeLock"; kvHash "AssetID" assetID];;
    mret None.

(** [case common.TimeLockToTimeLock:] *)
Definition handleTimeLockToTimeLock (timeLockParam : TimeLockParam)
    (needValue : TimeLock) : M error :=
  let height := BlockNumber env in
  let timestamp := ParentTime env in
  let assetID := tl_AssetID timeLockParam in
  tlb ← liftR (GetTimeLockBalance assetID (From msg));
  if TL.Cmp tlb needValue <? 0 then
    logTL timeLockParam [kvString "LockType" "TimeLockToTimeLock";
                         kvError "not enough time lock balance"];;
    mret (Errorf "not enough time lock balance")
  else
    liftO (SubTimeLockBalance (From msg) assetID needValue height timestamp);;
    liftW (AddTimeLockBalance (tl_To timeLockParam) assetID needValue height timestamp);;
    logTL timeLockParam [kvString "LockType" "TimeLockToTimeLock"; kvHash "AssetID" assetID];;
    mret None.

(** [case common.TimeLockToAsset:] *)
Definition handleTimeLockToAsset (timeLockParam : TimeLockParam)
    (needValue : TimeLock) : M error :=
  let height := BlockNumber env in
  let timestamp := ParentTime env in
  let assetID := tl_AssetID timeLockParam in
  tlb ← liftR (GetTimeLockBalance assetID (From msg));
  if TL.Cmp tlb needValue <? 0 then
    logTL timeLockParam [kvString "LockType" "TimeLockToAsset";
                         kvError "not enough time lock balance"];;
    mret (Errorf "not enough time lock balance")
  else
    liftO (SubTimeLockBalance (From msg) assetID needValue height timestamp);;
    liftW (AddBalance (tl_To timeLockParam) assetID (tl_Value timeLockParam));;
    logTL timeLockParam [kvString "LockType" "TimeLockToAsset"; kvHash "AssetID" assetID];;
    mret None.

(** [case common.SmartTransfer:] *)
Definition handleSmartTransfer (timeLockParam : TimeLockParam)
    (start end_ : Z) (needValue : TimeLock) : M error :=
  let height := BlockNumber env in
  let timestamp := ParentTime env in
  let assetID := tl_AssetID timeLockParam in
  (* the code after the balance has been taken from the sender *)
  let credit : M error :=
    (if negb (TL.IsWholeAsset start end_ timestamp) then
       liftW (AddTimeLockBalance (tl_To timeLockParam) assetID needValue height timestamp)
     else
       liftW (AddBalance (tl_To timeLockParam) assetID (tl_Value timeLockParam)));;
    logTL timeLockParam [kvString "LockType" "SmartTransfer"; kvHash "AssetID" assetID];;
    mret None in
  if negb (IsSmartTransferEnabled height) then
    logTL timeLockParam [kvString "LockType" "SmartTransfer"; kvError "not enabled"];;
    mret (Errorf "SendTimeLock not enabled")
  else
    timeLockBalance ← liftR (GetTimeLockBalance assetID (From msg));
    if TL.Cmp timeLockBalance needValue <? 0 then
      let timeLockValue := TL.GetSpendableValue timeLockBalance start end_ in
      assetBalance ← liftR (GetBalance assetID (From msg));
      if timeLockValue + assetBalance <? tl_Value timeLockParam then
        logTL timeLockParam [kvString "LockType" "SmartTransfer"; kvError "not enough balance"];;
        mret (Errorf "not enough balance")
      else
        (if 0 <? timeLockValue then
           let subTimeLock := TL.GetTimeLock timeLockValue start end_ in
           liftO (SubTimeLockBalance (From msg) assetID subTimeLock height timestamp)
         else mret tt);;
        let useAssetAmount := tl_Value timeLockParam - timeLockValue in
        liftW (SubBalance (From msg) assetID useAssetAmount);;
        surplus ← defined (TL.GetSurplusTimeLock useAssetAmount start end_ timestamp);
        (if negb (TL.IsEmpty surplus) then
           liftW (AddTimeLockBalance (From msg) assetID surplus height timestamp)
         else mret tt);;
        credit
    else
      liftO (SubTimeLockBalance (From msg) assetID needValue height timestamp);;
      credit.

(** [case common.TimeLockFunc:] *)
Definition handleTimeLock (param : FSNCallParam) : M error :=
  let height := BlockNumber env in
  let timestamp := ParentTime env in
  let timeLockParam := decodeTimeLockParam (Data param) in
  (* adjust param *)
  let adjusted : string + TimeLockParam :=
    if decide (tl_Type timeLockParam = TimeLockToAsset) then
      if Now env <? tl_StartTime timeLockParam then
        inl "Start time must be less than now"%string
      else
        inr (mkTimeLockParam (tl_Type timeLockParam) (tl_AssetID timeLockParam)
               (tl_To timeLockParam) (tl_StartTime timeLockParam) TimeLockForever
               (tl_Value timeLockParam))
    else inr timeLockParam in
  match adjusted with
  | inl e =>
      logTL timeLockParam [kvString "LockType" "TimeLockToAsset"; kvError e];;
      mret (Errorf e)
  | inr timeLockParam =>
      match TimeLockParam_Check timeLockParam height timestamp with
      | Some e => logTL timeLockParam [kvError e];; mret (Errorf e)
      | None =>
          let start := tl_StartTime timeLockParam in
          let end_ := tl_EndTime timeLockParam in
          let start := if start <? timestamp then timestamp else start in
          let needValue := TL.NewTimeLock
            (mkItem start end_ (Z.abs (tl_Value timeLockParam))) in
          if negb (TL.IsValid needValue) then
            logTL timeLockParam [kvError "TimeLock is invalid"];;
            mret (Errorf "TimeLock is invalid")
          else
            match tl_Type timeLockParam with
            | AssetToTimeLock => handleAssetToTimeLock timeLockParam needValue
            | TimeLockToTimeLock => handleTimeLockToTimeLock timeLockParam needValue
            | TimeLockToAsset => handleTimeLockToAsset timeLockParam needValue
            | SmartTransfer => handleSmartTransfer timeLockParam start end_ needValue
            | UnknownTimeLockType _ => mret (Errorf "Unsupported")
            end
      end
  end.

(** [case common.BuyTicketFunc:] *)
Definition handleBuyTicket (param : FSNCallParam) : M error :=
  let height := BlockNumber env in
  let timestamp := ParentTime env in
  let log := addLog BuyTicketFunc (inl (Data param)) in
  let from := From msg in
  let hash := GetHash env (u64 (height - 1)) in
  let id := Keccak256 (from ++ hash) in
  exist ← IsTicketExist id;
  if (exist : bool) then
    log [kvError "Ticket already exist"];;
    mret (Errorf (Hash_String id ++ " Ticket already exist"))
  else
    let buyTicketParam := decodeBuyTicketParam (Data param) in
    (* check buy ticket param *)
    let checked :=
      if IsHardFork 2 height
      then BuyTicketParam_Check buyTicketParam height timestamp
      else BuyTicketParam_Check buyTicketParam height 0 in
    match checked with
    | Some e => log [kvError e];; mret (Errorf e)
    | None =>
        let start := bt_Start buyTicketParam in
        let end_ := bt_End buyTicketParam in
        let value := TicketPrice height in
        let needValue := TL.NewTimeLock
          (mkItem (MaxUint64 start timestamp) end_ value) in
        if negb (TL.IsValid needValue) then
          log [kvError "TimeLock is invalid"];;
          mret (Errorf "TimeLock is invalid")
        else
          let ticket := mkTicket from (mkTicketBody id (u64 height) start end_) in
          tlb ← liftR (GetTimeLockBalance SystemAssetID from);
          bal ← (if TL.Cmp tlb needValue <? 0
                 then liftR (GetBalance SystemAssetID from) else mret 0);
          if (TL.Cmp tlb needValue <? 0) && (bal <? value) then
            log [kvError "not enough time lock or asset balance"];;
            mret (Errorf "not enough time lock or asset balance")
          else
            let useAsset := TL.Cmp tlb needValue <? 0 in
            (if useAsset then
               liftW (SubBalance from SystemAssetID value);;
               let totalValue := TL.NewTimeLock (mkItem timestamp TimeLockForever value) in
               surplusValue ← defined (TL.Sub totalValue needValue);
               if negb (TL.IsEmpty surplusValue) then
                 liftW (AddTimeLockBalance from SystemAssetID surplusValue height timestamp)
               else mret tt
             else
               liftO (SubTimeLockBalance from SystemAssetID needValue height timestamp));;
            err ← AddTicket ticket;
            match err with
            | Some e => log [kvError "unable to add ticket"];; mret (Errorf e)
            | None =>
                log [kvHash "TicketID" (ID (Body ticket));
                     kvAddress "TicketOwner" (Owner ticket)];;
                mret None
            end
    end.

(** [case common.MakeSwapFunc, common.MakeSwapFuncExt:] *)
Definition handleMakeSwap (param : FSNCallParam) : M error :=
  let height := BlockNumber env in
  let timestamp := ParentTime env in
  notation ← liftR (fun s => (GetNotation (From msg) s, s));
  let makeSwapParam := decodeMakeSwapParam (Data param) in
  let swapId := GetUniqueHashFromMessage msg in
  found ← GetSwap swapId;
  match found with
  | inr _ =>
      logMS makeSwapParam [kvError "Swap already exist"];;
      mret (Errorf "Swap already exist")
  | inl _ =>
  match MakeSwapParam_Check makeSwapParam height timestamp with
  | Some e => logMS makeSwapParam [kvError e];; mret (Errorf e)
  | None =>
  toAsset ← GetAsset (ms_ToAssetID makeSwapParam);
  match toAsset with
  | inl _ =>
      logMS makeSwapParam [kvError "ToAssetID's asset not found"];;
      mret (Errorf "ToAssetID's asset not found")
  | inr _ =>
  (* [useAsset], [total], [needValue] and the adjusted parameter, or the
     error of the branch *)
  let prepared : string + (MakeSwapParam * bool * Z * option TimeLock) :=
    if decide (ms_FromAssetID makeSwapParam = OwnerUSANAssetID) then
      if notation =? 0 then inl "the from address does not have a notation"%string
      else
        let p := mkMakeSwapParam (ms_FromAssetID makeSwapParam)
                   TimeLockNow TimeLockForever 1
                   (ms_ToAssetID makeSwapParam) (ms_ToStartTime makeSwapParam)
                   (ms_ToEndTime makeSwapParam) (ms_MinToAmount makeSwapParam)
                   1 (ms_Targes makeSwapParam) (ms_Time makeSwapParam)
                   (ms_Description makeSwapParam) in
        inr (p, true, ms_MinFromAmount p * ms_SwapSize p, None)
    else
      let total := ms_MinFromAmount makeSwapParam * ms_SwapSize makeSwapParam in
      let start := ms_FromStartTime makeSwapParam in
      let end_ := ms_FromEndTime makeSwapParam in
      let useAsset := (start =? TimeLockNow) && (end_ =? TimeLockForever) in
      if useAsset then inr (makeSwapParam, true, total, None)
      else
        let needValue := TL.NewTimeLock
          (mkItem (MaxUint64 start timestamp) end_ total) in
        if negb (TL.IsValid needValue) then inl "TimeLock is invalid"%string
        else inr (makeSwapParam, false, total, Some needValue) in
  match prepared with
  | inl e => logMS makeSwapParam [kvError e];; mret (Errorf e)
  | inr (makeSwapParam, useAsset, total, needValue) =>
  let needValue := default [] needValue in
  let swap := mkSwap swapId (From msg)
    (ms_FromAssetID makeSwapParam) (ms_FromStartTime makeSwapParam)
    (ms_FromEndTime makeSwapParam) (ms_MinFromAmount makeSwapParam)
    (ms_ToAssetID makeSwapParam) (ms_ToStartTime makeSwapParam)
    (ms_ToEndTime makeSwapParam) (ms_MinToAmount makeSwapParam)
    (ms_SwapSize makeSwapParam) (ms_Targes makeSwapParam) (ms_Time makeSwapParam)
    (ms_Description makeSwapParam) notation in
  let done : M error :=
    logMS makeSwapParam [kvHash "SwapID" (sw_ID swap)];; mret None in
  let addSwap (k : M error) : M error :=
    err ← AddSwap swap;
    match err with
    | Some e =>
        logMS makeSwapParam [kvError "System error can't add swap"];;
        mret (Errorf e)
    | None => k
    end in
  (* take from the owner the asset *)
  let take : M error :=
    addSwap
      ((if useAsset then
          liftW (SubBalance (From msg) (ms_FromAssetID makeSwapParam) total)
        else
          liftO (SubTimeLockBalance (From msg) (ms_FromAssetID makeSwapParam)
                   needValue height timestamp));;
       done) in
  if decide (ms_FromAssetID makeSwapParam = OwnerUSANAssetID) then
    addSwap done
  else if useAsset then
    bal ← liftR (GetBalance (ms_FromAssetID makeSwapParam) (From msg));
    if bal <? total then
      logMS makeSwapParam [kvError "not enough from asset"];;
      mret (Errorf "not enough from asset")
    else take
  else
    available ← liftR (GetTimeLockBalance (ms_FromAssetID makeSwapParam) (From msg));
    if TL.Cmp available needValue <? 0 then
      if decide (Func param = MakeSwapFunc) then
        (* this was the legacy swap do not do time lock and just return an error *)
        logMS makeSwapParam [kvError "not enough time lock or asset balance"];;
        mret (Errorf "not enough time lock balance")
      else
        bal ← liftR (GetBalance (ms_FromAssetID makeSwapParam) (From msg));
        if bal <? total then
          logMS makeSwapParam [kvError "not enough time lock or asset balance"];;
          mret (Errorf "not enough time lock or asset balance")
        else
          (* subtract the asset from the balance *)
          liftW (SubBalance (From msg) (ms_FromAssetID makeSwapParam) total);;
          let totalValue := TL.NewTimeLock (mkItem timestamp TimeLockForever total) in
          liftW (AddTimeLockBalance (From msg) (ms_FromAssetID makeSwapParam)
                   totalValue height timestamp);;
          take
    else take
  end end end end.

(** [func (st *StateTransition) handleFsnCall(param *common.FSNCallParam) error],
    on the tags of [FSNCallFunc]. *)
Definition handleFsnCall (param : FSNCallParam) : M error :=
  match Func param with
  | SendAssetFunc => handleSendAsset param
  | TimeLockFunc => handleTimeLock param
  | BuyTicketFunc => handleBuyTicket param
  | EmptyFunc => mret (Errorf "Unsupported")
  | MakeSwapFunc | MakeSwapFuncExt => handleMakeSwap param
  | UnknownFunc _ => mret (Errorf "Unsupported")
  end.

End Dispatcher.

(* ===================================================================== *)
(** * The pool pre-validator (fsntx_pool.go: validateFsnCallTx)            *)
(* ===================================================================== *)

(** What the validator reads besides the state and the transaction: the
    header of [pool.chain.CurrentBlock()] and the local clock. *)
Record PoolEnv := mkPoolEnv {
  head_Number : Z;
  head_Time : Z;
  pool_Now : Z }.

Section Pool.
Context `{Externals}.

(** [core.CanTransferTimeLock(db, addr, p)], in a file that is not among
    the sources. *)
Variable CanTransferTimeLock : StateDB -> Address -> TransferTimeLockParam -> bool.

Variable penv : PoolEnv.

(** [func (pool *TxPool) validateReceiveAssetPayableTx(tx, from) error] *)
Definition validateReceiveAssetPayableTx (tx : Transaction) (from : Address) : M error :=
  let height := head_Number penv + 1 in
  let input := tx_Data tx in
  if negb (IsReceiveAssetPayableTx height input) then mret None
  else
    size ← liftR (fun s => (GetCodeSize (default zeroAddress (tx_To tx)) s, s));
    if size =? 0 then mret (Errorf "receiveAsset tx receiver must be contract")
    else
      let timestamp := pool_Now penv in
      match ParseReceiveAssetPayableTxInput input (u64 (timestamp + 600)) with
      | inl e => mret (Errorf e)
      | inr p =>
          let p := mkTransferTimeLockParam (tt_AssetID p) (tt_StartTime p)
                     (tt_EndTime p) (tt_Timestamp p) (tx_Value tx)
                     (tx_Gas tx * tx_GasPrice tx) in
          ok ← liftR (fun s => (CanTransferTimeLock s from p, s));
          if (ok : bool) then mret None else mret (Errorf "insufficient funds")
      end.

(** [case common.SendAssetFunc:]; the result is the error or [fsnValue]. *)
Definition validateSendAsset (param : FSNCallParam) (from : Address) : M (string + Z) :=
  let height := BigMaxUint64 in
  let sendAssetParam := decodeSendAssetParam (Data param) in
  match SendAssetParam_Check sendAssetParam height with
  | Some e => mret (inl e)
  | None =>
      if decide (sa_AssetID sendAssetParam = SystemAssetID) then
        mret (inr (sa_Value sendAssetParam))
      else
        bal ← liftR (GetBalance (sa_AssetID sendAssetParam) from);
        if bal <? sa_Value sendAssetParam then mret (inl "not enough asset"%string)
        else mret (inr 0)
  end.

(** [case common.TimeLockFunc:] *)
Definition validateTimeLock (param : FSNCallParam) (from : Address) : M (string + Z) :=
  let nextBlockNumber := head_Number penv + 1 in
  let height := BigMaxUint64 in
  let timestamp := pool_Now penv in
  let timeLockParam := decodeTimeLockParam (Data param) in
  let adjusted : string + TimeLockParam :=
    if decide (tl_Type timeLockParam = TimeLockToAsset) then
      if timestamp <? tl_StartTime timeLockParam then
        inl "TimeLockToAsset: Start time must be less than now"%string
      else
        inr (mkTimeLockParam (tl_Type timeLockParam) (tl_AssetID timeLockParam)
               (tl_To timeLockParam) (tl_StartTime timeLockParam) TimeLockForever
               (tl_Value timeLockParam))
    else inr timeLockParam in
  match adjusted with
  | inl e => mret (inl e)
  | inr timeLockParam =>
      if decide (tl_To timeLockParam = zeroAddress) then
        mret (inl "receiver address must be set and not zero address"%string)
      else
      match TimeLockParam_Check timeLockParam height timestamp with
      | Some e => mret (inl e)
      | None =>
          let start := tl_StartTime timeLockParam in
          let end_ := tl_EndTime timeLockParam in
          let start := if start <? timestamp then timestamp else start in
          let needValue := TL.NewTimeLock
            (mkItem start end_ (Z.abs (tl_Value timeLockParam))) in
          let assetID := tl_AssetID timeLockParam in
          if negb (TL.IsValid needValue) then mret (inl "TimeLock is invalid"%string)
          else
            match tl_Type timeLockParam with
            | AssetToTimeLock =>
                if decide (assetID = SystemAssetID) then
                  mret (inr (tl_Value timeLockParam))
                else
                  bal ← liftR (GetBalance assetID from);
                  if bal <? tl_Value timeLockParam
                  then mret (inl "AssetToTimeLock: not enough asset"%string)
                  else mret (inr 0)
            | TimeLockToTimeLock =>
                tlb ← liftR (GetTimeLockBalance assetID from);
                if TL.Cmp tlb needValue <? 0
                then mret (inl "TimeLockToTimeLock: not enough time lock balance"%string)
                else mret (inr 0)
            | TimeLockToAsset =>
                tlb ← liftR (GetTimeLockBalance assetID from);
                if TL.Cmp tlb needValue <? 0
                then mret (inl "TimeLockToAsset: not enough time lock balance"%string)
                else mret (inr 0)
            | SmartTransfer =>
                if negb (IsSmartTransferEnabled nextBlockNumber)
                then mret (inl "SendTimeLock not enabled"%string)
                else
                  timeLockBalance ← liftR (GetTimeLockBalance assetID from);
                  if TL.Cmp timeLockBalance needValue <? 0 then
                    let timeLockValue := TL.GetSpendableValue timeLockBalance start end_ in
                    assetBalance ← liftR (GetBalance assetID from);
                    if timeLockValue + assetBalance <? tl_Value timeLockParam
                    then mret (inl "SendTimeLock: not enough balance"%string)
                    else mret (inr (tl_Value timeLockParam - timeLockValue))
                  else mret (inr 0)
            | UnknownTimeLockType _ => mret (inr 0)
            end
      end
  end.

(** [case common.BuyTicketFunc:] *)
Definition validateBuyTicket (param : FSNCallParam) (from : Address) : M (string + Z) :=
  let height := BigMaxUint64 in
  let timestamp := pool_Now penv in
  let buyTicketParam := decodeBuyTicketParam (Data param) in
  match BuyTicketParam_Check buyTicketParam height (head_Time penv) with
  | Some e => mret (inl e)
  | None =>
      let start := bt_Start buyTicketParam in
      let end_ := bt_End buyTicketParam in
      let value := TicketPrice height in
      let needValue := TL.NewTimeLock
        (mkItem (MaxUint64 start timestamp) end_ value) in
      if negb (TL.IsValid needValue) then mret (inl "TimeLock is invalid"%string)
      else
        tlb ← liftR (GetTimeLockBalance SystemAssetID from);
        if TL.Cmp tlb needValue <? 0 then mret (inr value) else mret (inr 0)
  end.

(** [case common.MakeSwapFunc, common.MakeSwapFuncExt:] *)
Definition validateMakeSwap (tx : Transaction) (param : FSNCallParam) (from : Address)
  : M (string + Z) :=
  let height := BigMaxUint64 in
  let timestamp := pool_Now penv in
  let makeSwapParam := decodeMakeSwapParam (Data param) in
  let swapId := GetUniqueHashFromTransaction tx in
  found ← GetSwap swapId;
  match found with
  | inr _ => mret (inl ("MakeSwap: " ++ Hash_String swapId ++ " Swap already exist")%string)
  | inl _ =>
  match MakeSwapParam_Check makeSwapParam height timestamp with
  | Some e => mret (inl e)
  | None =>
  toAsset ← GetAsset (ms_ToAssetID makeSwapParam);
  match toAsset with
  | inl _ =>
      mret (inl ("ToAssetID asset " ++ Hash_String (ms_ToAssetID makeSwapParam)
                 ++ " not found")%string)
  | inr _ =>
      if decide (ms_FromAssetID makeSwapParam = OwnerUSANAssetID) then
        notation ← liftR (fun s => (GetNotation from s, s));
        if notation =? 0
        then mret (inl "the from address does not have a notation"%string)
        else mret (inr 0)
      else
        let total := ms_MinFromAmount makeSwapParam * ms_SwapSize makeSwapParam in
        let start := ms_FromStartTime makeSwapParam in
        let end_ := ms_FromEndTime makeSwapParam in
        let useAsset := (start =? TimeLockNow) && (end_ =? TimeLockForever) in
        if useAsset then
          if decide (ms_FromAssetID makeSwapParam = SystemAssetID) then mret (inr total)
          else
            bal ← liftR (GetBalance (ms_FromAssetID makeSwapParam) from);
            if bal <? total then mret (inl "not enough from asset"%string)
            else mret (inr 0)
        else
          let needValue := TL.NewTimeLock
            (mkItem (MaxUint64 start timestamp) end_ total) in
          if negb (TL.IsValid needValue) then mret (inl "TimeLock is invalid"%string)
          else
            available ← liftR (GetTimeLockBalance (ms_FromAssetID makeSwapParam) from);
            if TL.Cmp available needValue <? 0 then
              if decide (Func param = MakeSwapFunc) then
                (* this was the legacy swap do not do time lock and just return an error *)
                mret (inl "not enough time lock balance"%string)
              else if decide (ms_FromAssetID makeSwapParam = SystemAssetID) then
                mret (inr total)
              else
                bal ← liftR (GetBalance (ms_FromAssetID makeSwapParam) from);
                if bal <? total
                then mret (inl "not enough time lock or asset balance"%string)
                else mret (inr 0)
            else mret (inr 0)
  end end end.

(** [func (pool *TxPool) validateFsnCallTx(tx *types.Transaction) error],
    on the tags of [FSNCallFunc]; [from] is [types.Sender(pool.signer, tx)]. *)
Definition validateFsnCallTx (tx : Transaction) (from : Address) : M error :=
  let to := tx_To tx in
  if negb (IsFsnCall to) then
    match to with
    | None => mret None
    | Some _ => validateReceiveAssetPayableTx tx from
    end
  else
    match decodeFSNCallParam (tx_Data tx) with
    | None => mret (Errorf "decode FSNCallParam error")
    | Some param =>
        let fee := GetFsnCallFee to (Func param) in
        r ← match Func param with
            | SendAssetFunc => validateSendAsset param from
            | TimeLockFunc => validateTimeLock param from
            | BuyTicketFunc => validateBuyTicket param from
            | EmptyFunc => mret (inr 0)
            | MakeSwapFunc | MakeSwapFuncExt => validateMakeSwap tx param from
            | UnknownFunc _ => mret (inl "Unsupported FsnCall func"%string)
            end;
        match r with
        | inl e => mret (Errorf e)
        | inr fsnValue =>
            (* check gas, fee and value *)
            let mgval := tx_Gas tx * tx_GasPrice tx in
            let mgval := mgval + fee in
            let mgval := mgval + fsnValue in
            balance ← liftR (GetBalance SystemAssetID from);
            if balance <? mgval then mret (Errorf "insufficient balance")
            else mret None
        end
    end.

End Pool.

(* ===================================================================== *)
(** * Time-lock balances as the pointers they are                          *)
(* ===================================================================== *)

(** [Account.TimeLockBalancesVal] is a [[]*common.TimeLock]: the account
    holds pointers, and [stateObject.TimeLockBalance] hands one out.  This
    module keeps the pointers: a location per [*common.TimeLock], and a
    store from locations to values.  The methods above read the same
    functions as values. *)
Module Ptr.

Abbreviation loc := nat.

(** The time-lock part of [Account]: asset ids and pointers, in lock step. *)
Record stateObject := mkObject {
  TimeLockBalances : list (Hash * loc) }.

(** The objects, and the store of every [common.TimeLock] allocated so far. *)
Record StateDB := mkStateDB {
  stateObjects : gmap Address stateObject;
  heap : list TimeLock }.

(** [new(common.TimeLock)], and any other allocation of a [TimeLock] *)
Definition new (v : TimeLock) (s : StateDB) : loc * StateDB :=
  (length (heap s), mkStateDB (stateObjects s) (heap s ++ [v])).

(** [*p] *)
Definition load (p : loc) (s : StateDB) : TimeLock := default [] (heap s !! p).

(** [*p = v] *)
Definition store (p : loc) (v : TimeLock) (s : StateDB) : StateDB :=
  mkStateDB (stateObjects s) (<[p := v]> (heap s)).

(** [func (c *stateObject) timeLockAssetIndex(assetID common.Hash) int]
    on the object of [addr] *)
Definition timeLockAssetIndex (assetID : Hash) (addr : Address) (o : stateObject)
    (s : StateDB) : nat * stateObject * StateDB :=
  match SO.assetIndex assetID (TimeLockBalances o) with
  | Some i => (i, o, s)
  | None =>
      let '(p, s) := new [] s in
      let o' := mkObject (TimeLockBalances o ++ [(assetID, p)]) in
      (length (TimeLockBalances o), o',
       mkStateDB (<[addr := o']> (stateObjects s)) (heap s))
  end.

(** [func (s *stateObject) TimeLockBalance(assetID common.Hash) *common.TimeLock]:
    [return s.data.TimeLockBalancesVal[index]] *)
Definition TimeLockBalance (assetID : Hash) (addr : Address) (o : stateObject)
    (s : StateDB) : option loc * StateDB :=
  let '(index, o, s) := timeLockAssetIndex assetID addr o s in
  (snd <$> TimeLockBalances o !! index, s).

(** [func (s *StateDB) GetTimeLockBalance(assetID common.Hash, addr common.Address) *common.TimeLock].
    The result is the pointer; [None] would be an index out of range. *)
Definition GetTimeLockBalance (assetID : Hash) (addr : Address) (s : StateDB)
  : option loc * StateDB :=
  match stateObjects s !! addr with
  | Some o => TimeLockBalance assetID addr o s
  | None => let '(p, s) := new [] s in (Some p, s)
  end.

(** [z.Add(x, y)] on pointers: the receiver is overwritten with the sum,
    as [timeLockBalance.Add(timeLockBalance, totalValue)] in
    fsncontract.go relies on. *)
Definition Add (z x y : loc) (s : StateDB) : StateDB :=
  store z (TL.Add (load x s) (load y s)) s.

(** [x.Clone()]: a new [TimeLock] with the same items. *)
Definition Clone (x : loc) (s : StateDB) : loc * StateDB := new (load x s) s.

(** The balance a later [GetTimeLockBalance] reads, as a value. *)
Definition balanceOf (assetID : Hash) (addr : Address) (s : StateDB) : option TimeLock :=
  let '(p, s') := GetTimeLockBalance assetID addr s in
  (fun p => load p s') <$> p.

End Ptr.

(* ===================================================================== *)
(** * Stand-ins for running the embedded code on examples                  *)
(* ===================================================================== *)

(** [common.BigToAddress]: the 20-byte big-endian image of a number. *)
Definition BigToAddress (z : Z) : Address := be_bytes 20 z.

(** A function from byte strings to 32-byte words that tells short inputs
    apart; it stands for Keccak256 where an example has to run. *)
Definition exampleKeccak (b : Bytes) : Hash := be_bytes 32 (be_Z ("001"%byte :: b)).

(** Reads the function tag from the first byte, as a stand-in for the RLP
    decoder of the call envelope. *)
Definition exampleDecodeCall (data : Bytes) : option FSNCallParam :=
  match data with
  | [] => None
  | b :: rest =>
      let f := match Z_of_byte b with
               | 3 => SendAssetFunc | 4 => TimeLockFunc | 5 => BuyTicketFunc
               | 7 => EmptyFunc | 8 => MakeSwapFunc | 15 => MakeSwapFuncExt
               | n => UnknownFunc n
               end in
      Some (mkFSNCallParam f rest)
  end.

(** Collaborators for the examples: the decoders return the parameters
    given here, every check passes, a ticket costs [price], the call fee is
    [fee], every asset record decodes to a live asset and every swap record
    to a live swap. *)
Definition exampleExternals (sa : SendAssetParam) (tl : TimeLockParam)
    (bt : BuyTicketParam) (ms : MakeSwapParam) (price fee : Z) : Externals := {|
  Keccak256 := exampleKeccak;
  Hash_String := fun _ => "0x"%string;
  rlpHashTx := fun tx => BigToHash (tx_Nonce tx);
  decodeSendAssetParam := fun _ => sa;
  decodeTimeLockParam := fun _ => tl;
  decodeBuyTicketParam := fun _ => bt;
  decodeMakeSwapParam := fun _ => ms;
  decodeFSNCallParam := exampleDecodeCall;
  encodeSwapPersist := fun _ => inr ["001"%byte];
  decodeSwapPersist := fun _ =>
    mkSwapPersist false
      (mkSwap zeroHash zeroAddress zeroHash 0 0 0 zeroHash 0 0 0 0 [] 0 "" 0);
  decodeAssetPersist := fun _ => mkAssetPersist false (mkAsset zeroHash zeroAddress 0 false);
  SendAssetParam_Check := fun _ _ => None;
  TimeLockParam_Check := fun _ _ _ => None;
  BuyTicketParam_Check := fun _ _ _ => None;
  MakeSwapParam_Check := fun _ _ _ => None;
  TicketPrice := fun _ => price;
  IsHardFork := fun _ _ => true;
  IsSmartTransferEnabled := fun _ => true;
  GetFsnCallFee := fun _ _ => fee;
  IsFsnCall := fun to => bool_decide (to = Some (BigToAddress (2 ^ 160 - 1)));
  IsReceiveAssetPayableTx := fun _ _ => false;
  ParseReceiveAssetPayableTxInput := fun _ _ => inl ""%string;
  SystemAssetID := BigToHash (2 ^ 256 - 1);
  OwnerUSANAssetID := BigToHash (2 ^ 256 - 2);
  FSNCallAddress := BigToAddress (2 ^ 160 - 1);
  SwapKeyAddress := BigToAddress (2 ^ 160 - 2);
  AssetKeyAddress := BigToAddress (2 ^ 160 - 3);
  BigMaxUint64 := 2 ^ 64 - 1;
  TicketKeyAddress := BigToAddress (2 ^ 160 - 6);
  gunzip := GzData;
  decodeTickets := fun _ => Some [];
|}.

(** Parameters that an example does not read. *)
Definition noSendAsset : SendAssetParam := mkSendAssetParam zeroHash zeroAddress 0.
Definition noTimeLock : TimeLockParam :=
  mkTimeLockParam (UnknownTimeLockType 0) zeroHash zeroAddress 0 0 0.
Definition noBuyTicket : BuyTicketParam := mkBuyTicketParam 0 0.
Definition noMakeSwap : MakeSwapParam :=
  mkMakeSwapParam zeroHash 0 0 0 zeroHash 0 0 0 0 [] 0 "".

(** A state in which [addr] holds [amount] of [asset] and nothing else. *)
Definition stateWithBalance (addr : Address) (asset : Hash) (amount : Z) : StateDB :=
  mkStateDB {[ addr := mkObject (mkAccount [(asset, amount)] [] 0) 0 0 ∅ [] ]} [] [].

(* ===================================================================== *)
(** * Observers, auxiliary functions and scenarios of the properties       *)
(* ===================================================================== *)

(** An account [a1] that holds asset [x1] with the time lock (0, forever, 10),
    and a second TimeLock (0, forever, 5) in the store. *)
Definition ptr_example : Ptr.StateDB :=
  Ptr.mkStateDB {[ BigToHash 1 := Ptr.mkObject [(BigToHash 7, 0%nat)] ]}
            [[mkItem 0 TimeLockForever 10]; [mkItem 0 TimeLockForever 5]].

(** The [i]-th 32-byte chunk of a blob (the last one may be shorter). *)
Definition chunk (value : Bytes) (i : nat) : Bytes := take 32 (drop (i * 32) value).

(** [ceil(size / 32)] *)
Definition slotCount (size : nat) : nat := Z.to_nat ((Z.of_nat size + 31) / 32).

(** A blob of 40 bytes, 1 to 40: one full slot and a partial one. *)
Definition exampleBlob : Bytes := byte_of_Z <$> seqZ 1 40.

(** The value that the index search of the code finds for an asset: the
    first pair with that id, or the zero value [d]. *)
Fixpoint lookupAsset {V} (d : V) (a : Hash) (l : list (Hash * V)) : V :=
  match l with
  | [] => d
  | (h, v) :: r => if decide (h = a) then v else lookupAsset d a r
  end.

(** The list after the code has set the value of an asset: the first pair
    with that id is rewritten, or a pair is appended. *)
Fixpoint updAsset {V} (a : Hash) (v : V) (l : list (Hash * V)) : list (Hash * V) :=
  match l with
  | [] => [(a, v)]
  | (h, w) :: r => if decide (h = a) then (h, v) :: r else (h, w) :: updAsset a v r
  end.

(** The balance and the time-lock balance of an asset in an object. *)
Definition objBal (o : stateObject) (a : Hash) : Z := lookupAsset 0 a (Balances (data o)).
Definition objTL (o : stateObject) (a : Hash) : TimeLock :=
  lookupAsset [] a (TimeLockBalances (data o)).

(** Two objects with the same balances and time locks as the reads see
    them, and the same notation, nonce, code size and storage. *)
Definition obj_same (o o' : stateObject) : Prop :=
  (forall a, objBal o a = objBal o' a)
  /\ (forall a, objTL o a = objTL o' a)
  /\ Notaion (data o) = Notaion (data o')
  /\ nonce o = nonce o' /\ codeSize o = codeSize o' /\ storage o = storage o'.

(** The fields of an object that balance updates leave alone. *)
Definition obj_rest (o o' : stateObject) : Prop :=
  Notaion (data o) = Notaion (data o')
  /\ nonce o = nonce o' /\ codeSize o = codeSize o' /\ storage o = storage o'.

(** The time-lock balance after [AddTimeLockBalance]: an empty amount
    changes nothing; otherwise the sum, cleared of what expired. *)
Definition creditTL (old amount : TimeLock) (timestamp : Z) : TimeLock :=
  if TL.IsEmpty amount then old
  else TL.ClearExpired (TL.Add old amount) timestamp.

(** The time-lock balance after [SubTimeLockBalance], when it is defined. *)
Definition debitTL (old amount : TimeLock) (timestamp : Z) : option TimeLock :=
  if TL.IsEmpty amount then Some old
  else (fun r => TL.ClearExpired r timestamp) <$> TL.Sub old amount.

(** The object of an address as the reads see it: an absent account reads
    like a new one. *)
Definition view (s : StateDB) (addr : Address) : stateObject :=
  default newObject (stateObjects s !! addr).

Definition bal (s : StateDB) (addr : Address) (a : Hash) : Z := objBal (view s addr) a.
Definition tlb (s : StateDB) (addr : Address) (a : Hash) : TimeLock := objTL (view s addr) a.

(** States whose accounts are the same in that sense, with the same ticket
    set in memory and the same logs. *)
Definition st_same (s s' : StateDB) : Prop :=
  (forall addr, obj_same (view s addr) (view s' addr))
  /\ tickets s = tickets s' /\ logs s = logs s'.

(** States with the same storage, notations, tickets and logs; balances may
    differ. *)
Definition st_rest (s s' : StateDB) : Prop :=
  (forall addr, obj_rest (view s addr) (view s' addr))
  /\ tickets s = tickets s' /\ logs s = logs s'.

(** Scenario S1 as a run: Alice holds 100 of the system asset and locks 40
    for Bob from 1000 to 2000 at parent-block time 500. *)
Definition S1_param : TimeLockParam :=
  mkTimeLockParam AssetToTimeLock (BigToHash (2 ^ 256 - 1)) (BigToAddress 2) 1000 2000 40.
Definition S1_externals : Externals :=
  exampleExternals noSendAsset S1_param noBuyTicket noMakeSwap 1 0.
Definition S1_env : Env := mkEnv 10 500 (fun _ => zeroHash) 500.
Definition S1_msg : Message := mkMessage (BigToAddress 1) 0 None 0 0 0 [].
Definition S1_state : StateDB :=
  stateWithBalance (BigToAddress 1) (BigToHash (2 ^ 256 - 1)) 100.

(** Scenario S2 as a run: the owner holds 5 of the system asset and no time
    lock, and buys a ticket from 2000 to 5000 at parent-block time 1000,
    the price being 1. *)
Definition S2_externals : Externals :=
  exampleExternals noSendAsset noTimeLock (mkBuyTicketParam 2000 5000) noMakeSwap 1 0.
Definition S2_env : Env := mkEnv 10 1000 (fun _ => zeroHash) 1000.
Definition S2_msg : Message := mkMessage (BigToAddress 1) 0 None 0 0 0 [].
Definition S2_state : StateDB :=
  stateWithBalance (BigToAddress 1) (BigToHash (2 ^ 256 - 1)) 5.
Definition S2_id : Hash := exampleKeccak (BigToAddress 1 ++ zeroHash).

(** Strictly ascending lists of instants. *)
Fixpoint asc (l : list Z) : Prop :=
  match l with
  | [] => True
  | p :: r => (forall q, In q r -> p < q) /\ asc r
  end.

(** The step function that [segments] draws: [f p] from [p] up to the next
    instant of the list, nothing before the first and from the last on. *)
Fixpoint step (f : Z -> Z) (l : list Z) (t : Z) : Z :=
  match l with
  | p :: ((q :: _) as r) => if (p <=? t) && (t <? q) then f p else step f r t
  | _ => 0
  end.

(** Scenario S3 as a run: the owner holds 100 of an asset and no time
    lock, and offers 10 lots of 4 of it for the interval 1000 to 2000 at
    parent-block time 500. *)
Definition S3_param : MakeSwapParam :=
  mkMakeSwapParam (BigToHash 7) 1000 2000 4 (BigToHash 8) 0 0 1 10 [] 0 "".
Definition S3_externals : Externals :=
  exampleExternals noSendAsset noTimeLock noBuyTicket S3_param 1 0.
Definition S3_env : Env := mkEnv 10 500 (fun _ => zeroHash) 500.
Definition S3_msg : Message := mkMessage (BigToAddress 1) 0 None 0 0 0 [].
Definition S3_state : StateDB :=
  SetStructData (H := S3_externals) (BigToAddress (2 ^ 160 - 3)) (Some (BigToHash 8))
    (Some ["001"%byte]) (stateWithBalance (BigToAddress 1) (BigToHash 7) 100).

(** A TimeLockToAsset call of 40 of an asset whose time lock starts ten
    seconds after the parent block, sent by an account that holds a time
    lock of 100 from the parent-block time on. *)
Definition clock_param : TimeLockParam :=
  mkTimeLockParam TimeLockToAsset (BigToHash 7) (BigToAddress 1) 1010 TimeLockForever 40.
Definition clock_externals : Externals :=
  exampleExternals noSendAsset clock_param noBuyTicket noMakeSwap 1 0.
Definition clock_msg : Message := mkMessage (BigToAddress 1) 0 None 0 0 0 [].
Definition clock_state : StateDB :=
  mkStateDB
    {[ BigToAddress 1 :=
         mkObject (mkAccount [] [(BigToHash 7, [mkItem 1000 TimeLockForever 100])] 0)
           0 0 ∅ [] ]} [] [].
(** The same block (height 10, parent time 1000) on a node whose clock
    shows [now]. *)
Definition clock_env (now : Z) : Env := mkEnv 10 1000 (fun _ => zeroHash) now.

(** A SmartTransfer of 40 of an asset that is not the system asset, for the
    interval 1000 to 2000, by a sender who holds 100 of that asset, no time
    lock, and 21001 of the system asset: the gas (21000 at price 1) and the
    call fee (1) and nothing more. *)
Definition pool_param : TimeLockParam :=
  mkTimeLockParam SmartTransfer (BigToHash 7) (BigToAddress 2) 1000 2000 40.
Definition pool_externals : Externals :=
  exampleExternals noSendAsset pool_param noBuyTicket noMakeSwap 1 1.
Definition pool_tx : Transaction :=
  mkTransaction 0 (Some (BigToAddress (2 ^ 160 - 1))) 0 21000 1 ["004"%byte].
Definition pool_state : StateDB :=
  mkStateDB
    {[ BigToAddress 1 :=
         mkObject (mkAccount [(BigToHash 7, 100); (BigToHash (2 ^ 256 - 1), 21001)] [] 0)
           0 0 ∅ [] ]} [] [].
Definition pool_env : PoolEnv := mkPoolEnv 9 490 500.
Definition pool_msg : Message :=
  mkMessage (BigToAddress 1) 0 (Some (BigToAddress (2 ^ 160 - 1))) 0 21000 1 ["004"%byte].

(** Scenario for the transfers: height 10, parent-block time 500; account 1
    holds 100 of asset 7 and the time lock (500, forever, 100) of it. *)
Definition demo_env : Env := mkEnv 10 500 (fun _ => zeroHash) 500.
Definition demo_msg : Message := mkMessage (BigToAddress 1) 0 None 0 0 0 [].
Definition demo_state : StateDB :=
  mkStateDB
    {[ BigToAddress 1 :=
         mkObject (mkAccount [(BigToHash 7, 100)]
                     [(BigToHash 7, [mkItem 500 TimeLockForever 100])] 0) 0 0 ∅ [] ]} [] [].
Definition sendAsset_externals : Externals :=
  exampleExternals (mkSendAssetParam (BigToHash 7) (BigToAddress 2) 40)
    noTimeLock noBuyTicket noMakeSwap 1 0.

Definition lockToLock_externals : Externals :=
  exampleExternals noSendAsset
    (mkTimeLockParam TimeLockToTimeLock (BigToHash 7) (BigToAddress 2) 1000 2000 40)
    noBuyTicket noMakeSwap 1 0.
Definition lockToAsset_externals : Externals :=
  exampleExternals noSendAsset
    (mkTimeLockParam TimeLockToAsset (BigToHash 7) (BigToAddress 2) 400 0 40)
    noBuyTicket noMakeSwap 1 0.
Definition selfLock_externals : Externals :=
  exampleExternals noSendAsset
    (mkTimeLockParam AssetToTimeLock (BigToHash 7) (BigToAddress 1) 1000 2000 40)
    noBuyTicket noMakeSwap 1 0.

(* ===================================================================== *)
(** * More of the StateDB facade (fsnstate.go)                             *)
(* ===================================================================== *)

(** [type notationPersist struct] *)
Record notationPersist := mkNotationPersist {
  np_Deleted : bool; np_Count : Z; np_Address : Address }.

(** Further collaborators of fsnstate.go that are not among the sources:
    the RLP codecs of the persisted records, the printed form of an
    address, and the well-known addresses of package common. *)
Class StateExternals := {
  (** [rlp.EncodeToBytes(&assetToSave)] *)
  encodeAssetPersist : assetPersist -> string + Bytes;
  (** [rlp.EncodeToBytes(&np)] and [rlp.DecodeBytes(data, &np)]: the record
      as the decoder leaves it, and the decoder's error *)
  encodeNotationPersist : notationPersist -> string + Bytes;
  decodeNotationPersist : Bytes -> notationPersist * option string;
  (** [common.Address.String()] *)
  Address_String : Address -> string;
  (** [ticket.Value()] of a [common.TicketBody] *)
  TicketBody_Value : TicketBody -> Z;
  NotationKeyAddress : Address;
  ReportKeyAddress : Address;
}.

(** [func (s *stateObject) SetNotation(notation uint64)] with
    [setNotation]; the journal entry is left out. *)
Definition SetNotation (notation : Z) (o : stateObject) : stateObject :=
  SO.set_data (fun a => mkAccount (Balances a) (TimeLockBalances a) notation) o.

(** [binary.PutUvarint(buf, x)] of the Go library on a zeroed buffer of
    [binary.MaxVarintLen64] = 10 bytes: seven bits a byte, low bits first,
    the high bit set on every byte but the last.  The result is the whole
    buffer, which is what the code uses as key. *)
Fixpoint uvarint (fuel : nat) (x : Z) : Bytes :=
  match fuel with
  | O => []
  | S fuel' =>
      if 128 <=? x then byte_of_Z (Z.lor (x mod 256) 128) :: uvarint fuel' (Z.shiftr x 7)
      else [byte_of_Z x]
  end.

Definition PutUvarint (x : Z) : Bytes :=
  let enc := uvarint 10 x in
  enc ++ replicate (10 - length enc) "000"%byte.

Section Registries.
Context `{Externals} `{StateExternals}.

(** [func (s *StateDB) SetBalance(addr, assetID, amount)] *)
Definition SetBalance (addr : Address) (assetID : Hash) (amount : Z) : StateDB -> StateDB :=
  onObject addr (SO.SetBalance assetID amount).

(** [func (s *StateDB) SetTimeLockBalance(addr, assetID, amount)] *)
Definition SetTimeLockBalance (addr : Address) (assetID : Hash) (amount : TimeLock)
  : StateDB -> StateDB :=
  onObject addr (SO.SetTimeLockBalance assetID amount).

(** [func (s *StateDB) UpdateSwap(swap common.Swap) error] *)
Definition UpdateSwap (swap : Swap) : M error :=
  match encodeSwapPersist (mkSwapPersist false swap) with
  | inl e => mret (Some e)
  | inr data =>
      liftW (SetStructData SwapKeyAddress (Some (sw_ID swap)) (Some data));;
      mret None
  end.

(** [func (s *StateDB) RemoveSwap(id common.Hash) error] *)
Definition RemoveSwap (id : Hash) : M error :=
  r ← GetSwap id;
  match r with
  | inl _ => mret (Some (Hash_String id ++ " Swap not found ")%string)
  | inr swapFound =>
      match encodeSwapPersist (mkSwapPersist true swapFound) with
      | inl e => mret (Some e)
      | inr data =>
          liftW (SetStructData SwapKeyAddress (Some id) (Some data));;
          mret None
      end
  end.

(** [func (s *StateDB) GenAsset(asset common.Asset) error] *)
Definition GenAsset (asset : Asset) : M error :=
  r ← GetAsset (as_ID asset);
  match r with
  | inr _ => mret (Some (Hash_String (as_ID asset) ++ " asset exists")%string)
  | inl _ =>
      match encodeAssetPersist (mkAssetPersist false asset) with
      | inl e => mret (Some e)
      | inr data =>
          liftW (SetStructData AssetKeyAddress (Some (as_ID asset)) (Some data));;
          mret None
      end
  end.

(** [func (s *StateDB) UpdateAsset(asset common.Asset) error] *)
Definition UpdateAsset (asset : Asset) : M error :=
  match encodeAssetPersist (mkAssetPersist false asset) with
  | inl e => mret (Some e)
  | inr data =>
      liftW (SetStructData AssetKeyAddress (Some (as_ID asset)) (Some data));;
      mret None
  end.

(** [func (s *StateDB) IsReportExist(report []byte) bool]; a [nil] report
    is [None], and hashes like the empty one. *)
Definition IsReportExist (report : option Bytes) : M bool :=
  let hash := Keccak256 (default [] report) in
  data ← GetStructData ReportKeyAddress (Some hash);
  mret (bool_decide (0 < length (default [] data))%nat).

(** [func (s *StateDB) AddReport(report []byte) error] *)
Definition AddReport (report : option Bytes) : M error :=
  exist ← IsReportExist report;
  if (exist : bool) then mret (Some "AddReport error: report exists"%string)
  else
    let hash := Keccak256 (default [] report) in
    liftW (SetStructData ReportKeyAddress (Some hash) report);;
    mret None.

(** [func (s *StateDB) GetNotationCount() (uint64, error)]; the error is
    always [nil]. *)
Definition GetNotationCount : M Z :=
  data ← GetStructData NotationKeyAddress (Some NotationKeyAddress);
  match data with
  | None | Some [] => mret 0 (* not created yet *)
  | Some data => mret (np_Count (decodeNotationPersist data).1)
  end.

(** [func (s *StateDB) setNotationCount(newCount uint64) error] *)
Definition setNotationCount (newCount : Z) : M error :=
  match encodeNotationPersist (mkNotationPersist false newCount zeroAddress) with
  | inl e => mret (Some e)
  | inr data =>
      liftW (SetStructData NotationKeyAddress (Some NotationKeyAddress) (Some data));;
      mret None
  end.

(** [func (s *StateDB) setNotationToAddressLookup(notation uint64, address common.Address) error] *)
Definition setNotationToAddressLookup (notation : Z) (address : Address) : M error :=
  match encodeNotationPersist (mkNotationPersist false notation address) with
  | inl e => mret (Some e)
  | inr data =>
      let buf := PutUvarint notation in
      liftW (SetStructData NotationKeyAddress (Some buf) (Some data));;
      mret None
  end.

(** [func (s *StateDB) GetAddressByNotation(notation uint64) (common.Address, error)] *)
Definition GetAddressByNotation (notation : Z) : M (string + Address) :=
  let buf := PutUvarint notation in
  data ← GetStructData NotationKeyAddress (Some buf);
  match data with
  | None | Some [] =>
      mret (inl ("notation " ++ pretty notation ++ " does not exist")%string)
  | Some data =>
      let '(np, err) := decodeNotationPersist data in
      match err with
      | Some e => mret (inl e)
      | None =>
          if np_Deleted np || bool_decide (np_Address np = zeroAddress)
          then mret (inl "notation was deleted"%string)
          else mret (inr (np_Address np))
      end
  end.

(** [func (s *StateDB) GenNotation(addr common.Address) error].  The errors
    of [setNotationCount] and [setNotationToAddressLookup] are dropped, as
    in the code; the notation is printed in decimal. *)
Definition GenNotation (addr : Address) : M error :=
  liftW (fun s => (GetOrNewStateObject addr s).2);;
  n ← liftR (fun s => (GetNotation addr s, s));
  if negb (n =? 0) then
    mret (Some ("Account " ++ Address_String addr ++ " has a notation:" ++ pretty n)%string)
  else
    (* get last notation value *)
    nextNotation ← GetNotationCount;
    let nextNotation := u64 (nextNotation + 1) in
    let newNotation := CalcNotationDisplay nextNotation in
    setNotationCount nextNotation;;
    setNotationToAddressLookup newNotation addr;;
    liftW (onObject addr (SetNotation newNotation));;
    mret None.

(** [func (s *StateDB) BurnNotation(addr common.Address)] *)
Definition BurnNotation (addr : Address) : M unit :=
  o ← liftR (fun s => (getStateObject addr s, s));
  match o with
  | None => mret tt
  | Some o =>
      let notation := SO.Notation o in
      if negb (notation =? 0) then
        setNotationToAddressLookup notation zeroAddress;;
        liftW (onObject addr (SetNotation 0))
      else mret tt
  end.

(** [func (s *StateDB) TransferNotation(notation uint64, from, to common.Address) error] *)
Definition TransferNotation (notation : Z) (from to : Address) : M error :=
  liftW (fun s => (GetOrNewStateObject from s).2);;
  liftW (fun s => (GetOrNewStateObject to s).2);;
  r ← GetAddressByNotation notation;
  match r with
  | inl e => mret (Some e)
  | inr address =>
      if negb (bool_decide (address = from)) then
        mret (Some "This notation is not the from address"%string)
      else
        (* reset the notation *)
        oldNotationTo ← liftR (fun s => (GetNotation to s, s));
        (if negb (oldNotationTo =? 0) then
           (* need to clear notation to address *)
           setNotationToAddressLookup oldNotationTo zeroAddress;; mret tt
         else mret tt);;
        setNotationToAddressLookup notation to;;
        liftW (onObject to (SetNotation notation));;
        liftW (onObject from (SetNotation 0));;
        mret None
  end.

End Registries.

(** The storage cells of a blob of [n] slots under [key]: the header cell
    and the slot cells. *)
Definition cells `{Externals} (key : Bytes) (n : nat) : list Hash :=
  Keccak256 key :: (slotKey (be_Z (Keccak256 key)) <$> seq 0 n).

(** The slot count that the header cell of [key] records in an object. *)
Definition storedSlots `{Externals} (o : stateObject) (key : Bytes) : nat :=
  Z.to_nat (BytesToInt (take 4 (drop 16 (SO.GetState o (Keccak256 key))))).

(** What a read of the structured storage of [addr] finds under [key];
    [None] when the read is undefined. *)
Definition stored `{Externals} (s : StateDB) (addr : Address) (key : Bytes) : option Bytes :=
  readStructData (view s addr) key.

(** What [GetSwap] makes of the bytes stored under a swap id, and
    [GetAsset] of the bytes stored under an asset id. *)
Definition swapOf `{Externals} (d : Bytes) : string + Swap :=
  match d with
  | [] => inl "swap not found"%string
  | _ => let sp := decodeSwapPersist d in
         if sp_Deleted sp then inl "swap deleted"%string else inr (sp_Swap sp)
  end.

Definition assetOf `{Externals} (d : Bytes) : string + Asset :=
  match d with
  | [] => inl "asset not found"%string
  | _ => let ap := decodeAssetPersist d in
         if ap_Deleted ap then inl "asset deleted"%string else inr (ap_Asset ap)
  end.

(** A swap record for the examples, and collaborators whose swap and asset
    codecs keep the deleted flag of that record: one byte, 1 for a live
    record and 2 for a deleted one. *)
Definition demoSwap : Swap :=
  mkSwap (BigToHash 5) (BigToAddress 1) (BigToHash 7) 0 0 4 (BigToHash 8) 0 0 1 10 [] 0 "" 0.
Definition demoAsset : Asset := mkAsset (BigToHash 8) (BigToAddress 1) 1000 true.

Definition registryExternals : Externals :=
  let E := exampleExternals noSendAsset noTimeLock noBuyTicket noMakeSwap 1 0 in {|
  Keccak256 := @Keccak256 E;
  Hash_String := @Hash_String E;
  rlpHashTx := @rlpHashTx E;
  decodeSendAssetParam := @decodeSendAssetParam E;
  decodeTimeLockParam := @decodeTimeLockParam E;
  decodeBuyTicketParam := @decodeBuyTicketParam E;
  decodeMakeSwapParam := @decodeMakeSwapParam E;
  decodeFSNCallParam := @decodeFSNCallParam E;
  encodeSwapPersist := fun sp => inr [if sp_Deleted sp then "002"%byte else "001"%byte];
  decodeSwapPersist := fun d => mkSwapPersist (bool_decide (d = ["002"%byte])) demoSwap;
  decodeAssetPersist := fun d => mkAssetPersist (bool_decide (d = ["002"%byte])) demoAsset;
  SendAssetParam_Check := @SendAssetParam_Check E;
  TimeLockParam_Check := @TimeLockParam_Check E;
  BuyTicketParam_Check := @BuyTicketParam_Check E;
  MakeSwapParam_Check := @MakeSwapParam_Check E;
  TicketPrice := @TicketPrice E;
  IsHardFork := @IsHardFork E;
  IsSmartTransferEnabled := @IsSmartTransferEnabled E;
  GetFsnCallFee := @GetFsnCallFee E;
  IsFsnCall := @IsFsnCall E;
  IsReceiveAssetPayableTx := @IsReceiveAssetPayableTx E;
  ParseReceiveAssetPayableTxInput := @ParseReceiveAssetPayableTxInput E;
  SystemAssetID := @SystemAssetID E;
  OwnerUSANAssetID := @OwnerUSANAssetID E;
  FSNCallAddress := @FSNCallAddress E;
  SwapKeyAddress := @SwapKeyAddress E;
  AssetKeyAddress := @AssetKeyAddress E;
  BigMaxUint64 := @BigMaxUint64 E;
  TicketKeyAddress := @TicketKeyAddress E;
  gunzip := @gunzip E;
  decodeTickets := @decodeTickets E;
|}.

(** The notation record as 8 bytes of count, 20 of address and the deleted
    flag; the report registry lives at address [2^160 - 5], the notation
    registry at [2^160 - 4]. *)
Definition registryStateExternals : StateExternals := {|
  encodeAssetPersist := fun ap => inr [if ap_Deleted ap then "002"%byte else "001"%byte];
  encodeNotationPersist := fun np =>
    inr (be_bytes 8 (np_Count np)
         ++ take 20 (np_Address np ++ replicate 20 "000"%byte)
         ++ [if np_Deleted np then "001"%byte else "000"%byte]);
  decodeNotationPersist := fun d =>
    (mkNotationPersist (bool_decide (drop 28 d = ["001"%byte])) (be_Z (take 8 d))
       (take 20 (drop 8 d)),
     if decide (length d = 29%nat) then None else Some "rlp: input too short"%string);
  Address_String := fun _ => "0x"%string;
  TicketBody_Value := fun _ => 5;
  NotationKeyAddress := BigToAddress (2 ^ 160 - 4);
  ReportKeyAddress := BigToAddress (2 ^ 160 - 5);
|}.

Definition emptyState : StateDB := mkStateDB ∅ [] [].

(** What [GetNotationCount] makes of the bytes stored under the count key,
    and [GetAddressByNotation] of the bytes stored under a notation. *)
Definition countOf `{StateExternals} (d : Bytes) : Z :=
  match d with
  | [] => 0
  | _ => np_Count (decodeNotationPersist d).1
  end.

Definition addressOf `{StateExternals} (notation : Z) (d : Bytes) : string + Address :=
  match d with
  | [] => inl ("notation " ++ pretty notation ++ " does not exist")%string
  | _ =>
      let '(np, err) := decodeNotationPersist d in
      match err with
      | Some e => inl e
      | None =>
          if np_Deleted np || bool_decide (np_Address np = zeroAddress)
          then inl "notation was deleted"%string
          else inr (np_Address np)
      end
  end.

(** The empty state after [GenNotation] for address 1 (notation 104). *)
Definition notedState : StateDB :=
  match GenNotation (H := registryExternals) (H0 := registryStateExternals)
          (BigToAddress 1) emptyState with
  | Some (_, s) => s
  | None => emptyState
  end.

(* ===================================================================== *)
(** * Draining an account (fsnstate.go, ClearTickets and TransferAll)       *)
(* ===================================================================== *)

Section Drain.
Context `{Externals} `{StateExternals}.

(** The TimeLock that [ClearTickets] builds of a ticket:
    [common.NewTimeLock(&common.TimeLockItem{StartTime: ticket.StartTime,
    EndTime: ticket.ExpireTime, Value: ticket.Value()})]. *)
Definition ticketLock (ticket : TicketBody) : TimeLock :=
  TL.NewTimeLock (mkItem (TicketStartTime ticket) (ExpireTime ticket)
                    (TicketBody_Value ticket)).

(** [func (s *StateDB) ClearTickets(from, to common.Address, blockNumber *big.Int, timestamp uint64)]:
    nothing when the ticket set does not load; otherwise the first group of
    tickets owned by [from] is taken out of the set, and each of its tickets
    that has not expired is credited to [to] as a time lock of the system
    asset. *)
Definition ClearTickets (from to : Address) (blockNumber timestamp : Z) : M unit :=
  r ← AllTickets;
  match r with
  | inl _ => mret tt
  | inr tickets =>
      match list_find (fun v => TDOwner v = from) tickets with
      | None => mret tt
      | Some (i, v) =>
          liftW (fun s =>
                   foldl (fun s ticket =>
                            if ExpireTime ticket <=? timestamp then s
                            else
                              let value := ticketLock ticket in
                              AddTimeLockBalance to SystemAssetID value
                                blockNumber timestamp s)
                         s (Tickets v));;
          liftW (set_tickets (delete i tickets))
      end
  end.

(** The first loop of [TransferAll],
    [for i, v := range fromObject.data.BalancesVal], from index [i] on with
    [n] rounds to go: the range fixes the number of rounds when it starts,
    and each round reads entry [i] of the object as it then is.
    [fromObject] is the object that the state holds for [from], so a call
    on it is a call on the object of [from]. *)
Fixpoint transferBalances (from to : Address) (n i : nat) (s : StateDB) : StateDB :=
  match n with
  | O => s
  | S n' =>
      match Balances (data (view s from)) !! i with
      | Some (k, v) =>
          let s := onObject from (SO.SetBalance k 0) s in
          let s := AddBalance to k v s in
          transferBalances from to n' (S i) s
      | None => s
      end
  end.

(** The second loop, [for i, v := range fromObject.data.TimeLockBalancesVal]. *)
Fixpoint transferTimeLocks (from to : Address) (blockNumber timestamp : Z)
    (n i : nat) (s : StateDB) : StateDB :=
  match n with
  | O => s
  | S n' =>
      match TimeLockBalances (data (view s from)) !! i with
      | Some (k, v) =>
          let s := onObject from (SO.SetTimeLockBalance k []) s in
          let s := AddTimeLockBalance to k v blockNumber timestamp s in
          transferTimeLocks from to blockNumber timestamp n' (S i) s
      | None => s
      end
  end.

(** [func (s *StateDB) TransferAll(from, to common.Address, blockNumber *big.Int, timestamp uint64)] *)
Definition TransferAll (from to : Address) (blockNumber timestamp : Z) : M unit :=
  fromObject ← liftR (fun s => (getStateObject from s, s));
  match fromObject with
  | None => mret tt
  | Some _ =>
      (* remove tickets *)
      ClearTickets from to blockNumber timestamp;;
      (* burn notation *)
      BurnNotation from;;
      (* transfer all balances *)
      liftW (fun s =>
               transferBalances from to (length (Balances (data (view s from)))) 0 s);;
      (* transfer all timelock balances *)
      liftW (fun s =>
               transferTimeLocks from to blockNumber timestamp
                 (length (TimeLockBalances (data (view s from)))) 0 s)
  end.

End Drain.

(** What entries of asset [x] add up to in a list of balances, and the time
    lock that crediting the entries of asset [x] one after the other makes
    of [init]. *)
Definition totalOf (x : Hash) (l : list (Hash * Z)) : Z :=
  foldr (fun p acc => if decide (p.1 = x) then p.2 + acc else acc) 0 l.

Definition creditAll (x : Hash) (timestamp : Z) (init : TimeLock)
    (l : list (Hash * TimeLock)) : TimeLock :=
  foldl (fun acc p => if decide (p.1 = x) then creditTL acc p.2 timestamp else acc) init l.

(** The locks of the tickets that [ClearTickets] credits: those of the
    first group owned by [from] that have not expired. *)
Definition refundLocks `{StateExternals} (from : Address) (timestamp : Z)
    (ts : TicketsDataSlice) : list TimeLock :=
  match list_find (fun v => TDOwner v = from) ts with
  | None => []
  | Some (_, v) =>
      ticketLock <$> filter (fun t => timestamp < ExpireTime t) (Tickets v)
  end.

(** The ticket set without the first group owned by [from]. *)
Definition withoutGroup (from : Address) (ts : TicketsDataSlice) : TicketsDataSlice :=
  match list_find (fun v => TDOwner v = from) ts with
  | None => ts
  | Some (i, _) => delete i ts
  end.

(** An account (address 1) with two balances, a time lock and a ticket,
    and a second account (address 2) with one balance. *)
Definition drainState : StateDB :=
  mkStateDB
    {[ BigToAddress 1 :=
         mkObject (mkAccount [(BigToHash 1, 100); (BigToHash 2, 7)]
                     [(BigToHash 1, [mkItem 0 TimeLockForever 10])] 0) 0 0 ∅ [];
       BigToAddress 2 := mkObject (mkAccount [(BigToHash 1, 1)] [] 0) 0 0 ∅ [] ]}
    [mkTicketsData (BigToAddress 1) [mkTicketBody (BigToHash 9) 1 0 5000]] [].

(* ===================================================================== *)
(** * The vote1 hard fork (consensus/datong/votefork.go)                    *)
(* ===================================================================== *)

Section Vote1Fork.
Context `{Externals} `{StateExternals}.

(** [common.Vote1DrainList] and [common.Vote1RefundAddress], which are not
    among the sources. *)
Variable Vote1DrainList : list Address.
Variable Vote1RefundAddress : Address.

(** [func ApplyVote1HardFork(statedb *state.StateDB, blockNumber *big.Int, timestamp uint64)] *)
Definition ApplyVote1HardFork (blockNumber timestamp : Z) : M unit :=
  foldr (fun addr rest =>
           TransferAll addr Vote1RefundAddress blockNumber timestamp;; rest)
        (mret tt) Vote1DrainList.

End Vote1Fork.

(** What the balance entries of asset [x] of the listed accounts add up to. *)
Definition drainedTotal (s : StateDB) (x : Hash) (l : list Address) : Z :=
  foldr (fun a acc => totalOf x (Balances (data (view s a))) + acc) 0 l.

(** A SmartTransfer of 40 of asset 7 to account 2, from time 400 for ever. *)
Definition smartTransfer_externals : Externals :=
  exampleExternals noSendAsset
    (mkTimeLockParam SmartTransfer (BigToHash 7) (BigToAddress 2) 400 TimeLockForever 40)
    noBuyTicket noMakeSwap 1 0.

(* ===================================================================== *)
(** * The source of the ticket set                                         *)
(* ===================================================================== *)

(** States in which [AllTickets] reads the same: the same set in memory,
    hash, database error and ring, and the same code under every address. *)
Definition ticket_src_same (t s : StateDB) : Prop :=
  tickets t = tickets s /\ ticketsHash t = ticketsHash s /\ dbErr t = dbErr s
  /\ cachedTickets t = cachedTickets s
  /\ forall a, code (view t a) = code (view s a).

(** The ticket set that a call of [AllTickets] hands to its caller; with an
    error the callers read none. *)
Definition loaded (r : string + TicketsDataSlice) : TicketsDataSlice :=
  match r with
  | inr tks => tks
  | inl _ => []
  end.

(** The collaborators [E] with another unzipper. *)
Definition withGunzip (E : Externals) (g : Bytes -> Gunzip) : Externals := {|
  Keccak256 := @Keccak256 E;
  Hash_String := @Hash_String E;
  rlpHashTx := @rlpHashTx E;
  decodeSendAssetParam := @decodeSendAssetParam E;
  decodeTimeLockParam := @decodeTimeLockParam E;
  decodeBuyTicketParam := @decodeBuyTicketParam E;
  decodeMakeSwapParam := @decodeMakeSwapParam E;
  decodeFSNCallParam := @decodeFSNCallParam E;
  encodeSwapPersist := @encodeSwapPersist E;
  decodeSwapPersist := @decodeSwapPersist E;
  decodeAssetPersist := @decodeAssetPersist E;
  SendAssetParam_Check := @SendAssetParam_Check E;
  TimeLockParam_Check := @TimeLockParam_Check E;
  BuyTicketParam_Check := @BuyTicketParam_Check E;
  MakeSwapParam_Check := @MakeSwapParam_Check E;
  TicketPrice := @TicketPrice E;
  IsHardFork := @IsHardFork E;
  IsSmartTransferEnabled := @IsSmartTransferEnabled E;
  GetFsnCallFee := @GetFsnCallFee E;
  IsFsnCall := @IsFsnCall E;
  IsReceiveAssetPayableTx := @IsReceiveAssetPayableTx E;
  ParseReceiveAssetPayableTxInput := @ParseReceiveAssetPayableTxInput E;
  SystemAssetID := @SystemAssetID E;
  OwnerUSANAssetID := @OwnerUSANAssetID E;
  FSNCallAddress := @FSNCallAddress E;
  SwapKeyAddress := @SwapKeyAddress E;
  AssetKeyAddress := @AssetKeyAddress E;
  BigMaxUint64 := @BigMaxUint64 E;
  TicketKeyAddress := @TicketKeyAddress E;
  gunzip := g;
  decodeTickets := @decodeTickets E;
|}.

(** Scenario S2 on a state db whose ticket set is not in memory and not in
    the ring, and whose blob under the ticket key address does not unzip. *)
Definition S2_corrupt_externals : Externals :=
  withGunzip S2_externals (fun _ => GzReadError).
Definition S2_corrupt_state : StateDB :=
  mkState
    {[ BigToAddress 1 :=
         mkObject (mkAccount [(BigToHash (2 ^ 256 - 1), 5)] [] 0) 0 0 ∅ [];
       BigToAddress (2 ^ 160 - 6) :=
         mkObject (mkAccount [] [] 0) 0 0 ∅ ["001"%byte] ]}
    [] [] (BigToHash 1) None emptyCache.

(** A computation that, when it returns, leaves a state that no read of
    the embedded code tells apart from the one it started in. *)
Definition readonly {A} (m : M A) : Prop :=
  forall s r s', m s = Some (r, s') -> st_same s' s.

(* ===================================================================== *)
(** * Properties                                                           *)
(* ===================================================================== *)

(** ** Notation display *)

Lemma notation_checksum_range n : 0 <= notation_checksum n < 100.
Proof. unfold notation_checksum. apply Z.mod_pos_bound. lia. Qed.

Lemma CalcNotationDisplay_nonzero n :
  n <> 0 -> CalcNotationDisplay n = u64 (display_formula n).
Proof.
  intros Hn. unfold CalcNotationDisplay, display_formula, notation_checksum.
  destruct (Z.eqb_spec n 0); [contradiction | reflexivity].
Qed.

(** C8 (as amended).  For every notation [n] that is assigned ([0 < n]) and
    whose display fits 64 bits, [CalcNotationDisplay n] is
    [n*100 + ((n XOR 8192 XOR 13) mod 100)]; its last two digits are the
    checksum and [n] is the display divided by 100. *)
Theorem CalcNotationDisplay_checksum (n : Z) :
  0 < n -> display_formula n < 2 ^ 64 ->
  CalcNotationDisplay n = n * 100 + (Z.lxor (Z.lxor n 8192) 13) mod 100
  /\ CalcNotationDisplay n mod 100 = (Z.lxor (Z.lxor n 8192) 13) mod 100
  /\ CalcNotationDisplay n / 100 = n.
Proof.
  intros Hpos Hfit.
  rewrite CalcNotationDisplay_nonzero by lia.
  pose proof (notation_checksum_range n) as Hc.
  unfold u64. rewrite Z.mod_small by (unfold display_formula in *; lia).
  unfold display_formula in *. fold (notation_checksum n).
  repeat split; lia.
Qed.

Lemma CalcNotationDisplay_checksum_witness :
  CalcNotationDisplay 1 = 1 * 100 + (Z.lxor (Z.lxor 1 8192) 13) mod 100
  /\ CalcNotationDisplay 1 mod 100 = (Z.lxor (Z.lxor 1 8192) 13) mod 100
  /\ CalcNotationDisplay 1 / 100 = 1.
Proof. apply (CalcNotationDisplay_checksum 1); vm_compute; reflexivity. Defined.

(** C8, the claim as stated fails: the unassigned notation 0 is returned
    unchanged although the formula gives 5, and a display that does not fit
    64 bits wraps, so that dividing it by 100 does not give the notation
    back. *)
Lemma CalcNotationDisplay_not_formula :
  CalcNotationDisplay 0 = 0
  /\ display_formula 0 = 5
  /\ CalcNotationDisplay (2 ^ 63) = 13
  /\ CalcNotationDisplay (2 ^ 63) / 100 = 0.
Proof. vm_compute. repeat split; reflexivity. Qed.

(** ** Reads on absent accounts *)

(** C10.  On an address without state object, [GetBalance] is 0,
    [GetTimeLockBalance] is the empty TimeLock, [GetNotation] is 0 and
    [GetAllBalances] is the empty map; each read returns (none can fail) and
    leaves the state as it was, so no account is created. *)
Theorem reads_total_on_absent_accounts (s : StateDB) (addr : Address) (assetID : Hash) :
  getStateObject addr s = None ->
  GetBalance assetID addr s = (0, s)
  /\ GetTimeLockBalance assetID addr s = ([], s)
  /\ GetNotation addr s = 0
  /\ GetAllBalances addr s = ∅.
Proof.
  intros Habs.
  unfold GetBalance, GetTimeLockBalance, GetNotation, GetAllBalances.
  rewrite Habs. repeat split.
Qed.

Lemma reads_total_on_absent_accounts_witness :
  let s := mkStateDB ∅ [] [] in
  GetBalance (BigToHash 1) (BigToHash 2) s = (0, s)
  /\ GetTimeLockBalance (BigToHash 1) (BigToHash 2) s = ([], s)
  /\ GetNotation (BigToHash 2) s = 0
  /\ GetAllBalances (BigToHash 2) s = ∅.
Proof.
  apply (reads_total_on_absent_accounts (mkStateDB ∅ [] []) (BigToHash 2) (BigToHash 1)).
  reflexivity.
Defined.

(** ** The ticket ring cache *)

Lemma mod101_cases a :
  0 <= a < 202 ->
  (a mod 101 = a /\ a < 101) \/ (a mod 101 = a - 101 /\ 101 <= a).
Proof. intros Ha. lia. Qed.

(** Replaces the remainders by 101 of the goal and the hypotheses, innermost
    first, by the value they have in each case. *)
Ltac mod101 :=
  repeat
    (let go a :=
       lazymatch a with
       | context [_ mod 101] => fail
       | _ =>
           let E := fresh "E" in
           destruct (mod101_cases a ltac:(lia)) as [[E ?]|[E ?]];
           rewrite ?E in *; clear E
       end in
     match goal with
     | |- context [?a mod 101] => go a
     | H : context [?a mod 101] |- _ => go a
     end).

Section CacheFacts.
Import Cache.

Lemma ring_snoc t i n :
  0 <= i < 101 -> (n < 101)%nat ->
  ring t i (S n)
  = ring t i n ++ [default zeroCachedTickets (t !! Z.to_nat ((i + Z.of_nat n) mod 101))].
Proof.
  revert i. induction n as [|n IH]; intros i Hi Hn.
  - simpl. do 3 f_equal. lia.
  - change (ring t i (S (S n)))
      with (default zeroCachedTickets (t !! Z.to_nat i) :: ring t ((i + 1) mod 101) (S n)).
    rewrite IH by lia. simpl.
    replace (((i + 1) mod 101 + Z.of_nat n) mod 101)
      with ((i + Z.of_nat (S n)) mod 101) by (mod101; lia).
    reflexivity.
Qed.

(** Writing a slot that the walk does not reach does not change it: the
    slot lies [m] steps after [i], the walk takes [n <= m] steps. *)
Lemma ring_insert_outside t i n m x :
  0 <= i < 101 -> (n <= m < 101)%nat ->
  ring (<[Z.to_nat ((i + Z.of_nat m) mod 101) := x]> t) i n = ring t i n.
Proof.
  revert i m. induction n as [|n IH]; intros i m Hi Hm; [reflexivity|].
  simpl. f_equal.
  - rewrite list_lookup_insert_ne; [reflexivity|]. mod101; lia.
  - replace ((i + Z.of_nat m) mod 101)
      with (((i + 1) mod 101 + Z.of_nat (m - 1)) mod 101) by (mod101; lia).
    apply IH; lia.
Qed.

Lemma Get_loop_ring c h n : forall fuel i,
  0 <= i < 101 -> (n < fuel)%nat -> (n < 101)%nat ->
  (i + Z.of_nat n) mod 101 = cts_end c ->
  length (cts_tickets c) = 101%nat ->
  Get_loop fuel c h i = Some (lookupHash h (ring (cts_tickets c) i n)).
Proof.
  induction n as [|n IH]; intros fuel i Hi Hfuel Hn Hend Hlen.
  - destruct fuel as [|fuel]; [lia|]. simpl.
    destruct (decide (i = cts_end c)) as [_|Hne]; [reflexivity|]. lia.
  - destruct fuel as [|fuel]; [lia|]. simpl.
    destruct (decide (i = cts_end c)) as [He|_]; [mod101; lia|].
    destruct (decide (0 <= i)) as [_|?]; [|lia].
    destruct (cts_tickets c !! Z.to_nat i) as [v|] eqn:Hv.
    + simpl. destruct (decide (ct_hash v = h)); [reflexivity|].
      unfold maxCachedTicketsCount.
      rewrite Z.rem_mod_nonneg by lia.
      apply IH; lia.
    + apply lookup_ge_None in Hv. lia.
Qed.

(** [Get] finds the first live entry with the hash. *)
Lemma Get_contents c h :
  cache_wf c -> h <> zeroHash ->
  Get h c = Some (lookupHash h (cache_contents c)).
Proof.
  intros (Hlen & Hs & He) Hh. unfold Get, cache_contents, cache_count.
  destruct (decide (h = zeroHash)); [contradiction|].
  apply Get_loop_ring; lia.
Qed.

(** [Add] of a hash that is not live appends the entry, and drops the
    oldest one when 100 entries are live. *)
Lemma Add_contents c h t :
  cache_wf c -> h <> zeroHash -> lookupHash h (cache_contents c) = None ->
  exists c',
    Add h t c = Some c' /\ cache_wf c'
    /\ cache_contents c'
       = (if decide (cache_count c = 100) then tail (cache_contents c)
          else cache_contents c) ++ [cache_elem (h, t)]
    /\ cache_count c'
       = (if decide (cache_count c = 100) then 100 else cache_count c + 1).
Proof.
  intros Hwf Hh Hfresh. pose proof Hwf as (Hlen & Hs & He).
  unfold Add. rewrite (Get_contents c h Hwf Hh), Hfresh.
  destruct (decide (0 <= cts_end c < Z.of_nat (length (cts_tickets c)))) as [_|?]; [|lia].
  unfold maxCachedTicketsCount. rewrite !Z.rem_mod_nonneg by lia.
  eexists. split; [reflexivity|].
  unfold cache_wf, cache_contents, cache_count in *. simpl.
  rewrite length_insert. clear Hfresh Hwf.
  set (s := cts_start c) in *. set (e := cts_end c) in *.
  set (t0 := cts_tickets c) in *. clearbody s e t0.
  assert (exists n, (n < 101)%nat /\ (e - s) mod 101 = Z.of_nat n
                    /\ e = (s + Z.of_nat n) mod 101) as (n & Hn & Hcnt & Hen).
  { exists (Z.to_nat ((e - s) mod 101)). mod101; lia. }
  rewrite Hcnt, Nat2Z.id.
  destruct (decide ((e + 1) mod 101 = s)) as [Hfull|Hroom].
  - (* the ring was full: the oldest entry leaves *)
    assert (n = 100%nat) as -> by (clear Hcnt; mod101; lia).
    destruct (decide (Z.of_nat 100 = 100)) as [_|?]; [|lia].
    assert (((e + 1) mod 101 - (s + 1) mod 101) mod 101 = 100) as -> by (clear Hcnt Hen; mod101; lia).
    split; [clear Hcnt Hen Hfull; mod101; lia|]. split; [|reflexivity].
    change (Z.to_nat 100) with (S 99).
    rewrite ring_snoc by (clear; mod101; lia).
    replace (((s + 1) mod 101 + Z.of_nat 99) mod 101) with e by (clear Hcnt Hfull; mod101; lia).
    rewrite list_lookup_insert_eq by lia.
    change (default zeroCachedTickets (Some ?y)) with y.
    replace (Z.to_nat e) with (Z.to_nat (((s + 1) mod 101 + Z.of_nat 99) mod 101))
      by (clear Hcnt Hfull; mod101; lia).
    rewrite ring_insert_outside by (clear; mod101; lia).
    reflexivity.
  - (* there is room *)
    assert (n <> 100%nat) by (clear Hcnt; mod101; lia).
    destruct (decide (Z.of_nat n = 100)) as [?|_]; [lia|].
    assert (((e + 1) mod 101 - s) mod 101 = Z.of_nat n + 1) as -> by (clear Hcnt; mod101; lia).
    split; [clear Hcnt Hen Hroom; mod101; lia|]. split; [|reflexivity].
    replace (Z.to_nat (Z.of_nat n + 1)) with (S n) by lia.
    rewrite ring_snoc by lia.
    rewrite <- Hen. rewrite list_lookup_insert_eq by lia.
    change (default zeroCachedTickets (Some ?y)) with y.
    rewrite Hen at 1. rewrite ring_insert_outside by lia.
    reflexivity.
Qed.

Lemma lookupHash_absent h l :
  Forall (fun v => ct_hash v <> h) l -> lookupHash h l = None.
Proof.
  induction 1 as [|v l Hv _ IH]; [reflexivity|]. simpl.
  destruct (decide (ct_hash v = h)); [contradiction | exact IH].
Qed.

Lemma lookupHash_app_absent h l1 l2 :
  Forall (fun v => ct_hash v <> h) l1 -> lookupHash h (l1 ++ l2) = lookupHash h l2.
Proof.
  induction 1 as [|v l Hv _ IH]; [reflexivity|]. simpl.
  destruct (decide (ct_hash v = h)); [contradiction | exact IH].
Qed.

Lemma lookupHash_elem (es : list (Hash * option TicketsDataSlice)) h t :
  NoDup es.*1 -> (h, t) ∈ es ->
  lookupHash h (cache_elem <$> es) = TS.DeepCopy t.
Proof.
  induction es as [|[h' t'] es IH]; intros Hnd Hin.
  - inversion Hin.
  - apply NoDup_cons in Hnd as [Hnotin Hnd]. simpl.
    destruct (decide (h' = h)) as [->|Hne].
    + apply elem_of_cons in Hin as [Heq|Hin]; [congruence|].
      exfalso. apply Hnotin. apply (list_elem_of_fmap_2 fst _ _ Hin).
    + apply elem_of_cons in Hin as [Heq|Hin]; [congruence|]. auto.
Qed.

(** Adding entries with fresh, distinct, non-zero hashes while at most 100
    are live queues them all. *)
Lemma AddAll_contents (es : list (Hash * option TicketsDataSlice)) : forall c,
  cache_wf c ->
  NoDup es.*1 -> Forall (fun e => e.1 <> zeroHash) es ->
  Forall (fun e => Forall (fun v => ct_hash v <> e.1) (cache_contents c)) es ->
  cache_count c + Z.of_nat (length es) <= 100 ->
  exists c',
    AddAll es c = Some c' /\ cache_wf c'
    /\ cache_contents c' = cache_contents c ++ (cache_elem <$> es)
    /\ cache_count c' = cache_count c + Z.of_nat (length es).
Proof.
  induction es as [|[h t] es IH]; intros c Hwf Hnd Hnz Hfresh Hroom.
  - exists c. simpl. rewrite app_nil_r. split; [done|]. split; [done|].
    split; [done|lia].
  - apply NoDup_cons in Hnd as [Hnotin Hnd].
    apply Forall_cons in Hnz as [Hh Hnz].
    apply Forall_cons in Hfresh as [Hfh Hfresh]. simpl in Hh, Hfh.
    destruct (Add_contents c h t Hwf Hh (lookupHash_absent _ _ Hfh))
      as (c1 & Hadd & Hwf1 & Hcont1 & Hcount1).
    assert (0 <= cache_count c) by (unfold cache_count; lia).
    simpl length in Hroom.
    destruct (decide (cache_count c = 100)) as [?|_]; [lia|].
    destruct (IH c1) as (c' & Hall & Hwf' & Hcont' & Hcount'); try done.
    + rewrite Hcont1. apply Forall_forall. intros [h2 t2] Hin. simpl.
      apply Forall_app. split.
      * rewrite Forall_forall in Hfresh. apply (Hfresh _ Hin).
      * apply Forall_singleton. simpl. intros <-. apply Hnotin.
        apply (list_elem_of_fmap_2 fst _ _ Hin).
    + lia.
    + exists c'. simpl. rewrite Hadd. split; [exact Hall|]. split; [exact Hwf'|].
      rewrite Hcont', Hcont1, Hcount', Hcount1, <- app_assoc. simpl. split; [done|lia].
Qed.

Lemma cachedTicketSlice_wf : cache_wf cachedTicketSlice.
Proof. unfold cache_wf. split; [reflexivity | simpl; lia]. Qed.

(** C7 (as amended).  The ring has 101 slots, of which one is kept free:
    from the empty cache, [Add] of up to 100 entries with distinct non-zero
    hashes leaves every one of them retrievable by [Get]; [Add] of a hash
    that [Get] finds leaves the cache as it is; and [Add] of a new hash to
    a cache with 100 live entries drops the oldest one and queues the new
    one last (FIFO), which is what [Get] reads afterwards. *)
Theorem ring_cache_holds_100_fifo :
  (forall es : list (Hash * option TicketsDataSlice),
      NoDup es.*1 -> Forall (fun e => e.1 <> zeroHash) es ->
      (length es <= 100)%nat ->
      exists c, AddAll es cachedTicketSlice = Some c
                /\ forall h t, (h, t) ∈ es -> Get h c = Some (TS.DeepCopy t))
  /\ (forall c h t x, Get h c = Some (Some x) -> Add h t c = Some c)
  /\ (forall c h t,
        cache_wf c -> cache_count c = 100 -> h <> zeroHash ->
        Get h c = Some None ->
        exists c', Add h t c = Some c' /\ cache_wf c' /\ cache_count c' = 100
          /\ cache_contents c' = tail (cache_contents c) ++ [cache_elem (h, t)]
          /\ forall h', h' <> zeroHash ->
               Get h' c'
               = Some (lookupHash h' (tail (cache_contents c) ++ [cache_elem (h, t)]))).
Proof.
  split; [|split].
  - intros es Hnd Hnz Hlen.
    destruct (AddAll_contents es cachedTicketSlice cachedTicketSlice_wf Hnd Hnz)
      as (c & Hall & Hwf & Hcont & _).
    + apply Forall_forall. intros e _. constructor.
    + change (cache_count cachedTicketSlice) with 0. lia.
    + exists c. split; [exact Hall|]. intros h t Hin.
      rewrite Forall_forall in Hnz.
      rewrite (Get_contents c h Hwf (Hnz _ Hin)), Hcont. simpl.
      f_equal. apply lookupHash_elem; assumption.
  - intros c h t x Hget. unfold Add. rewrite Hget. reflexivity.
  - intros c h t Hwf Hfull Hh Hget.
    rewrite (Get_contents c h Hwf Hh) in Hget. injection Hget as Hfresh.
    destruct (Add_contents c h t Hwf Hh Hfresh) as (c' & Hadd & Hwf' & Hcont & Hcount).
    destruct (decide (cache_count c = 100)) as [_|?]; [|contradiction].
    exists c'. repeat split; try assumption; try apply Hwf'.
    intros h' Hh'. rewrite (Get_contents c' h' Hwf' Hh'), Hcont. reflexivity.
Qed.

Lemma ring_cache_holds_100_fifo_witness :
  exists c,
    AddAll [(BigToHash 1, None); (BigToHash 2, Some [])] cachedTicketSlice = Some c
    /\ Get (BigToHash 1) c = Some (Some [])
    /\ Get (BigToHash 2) c = Some (Some []).
Proof.
  destruct (proj1 ring_cache_holds_100_fifo
              [(BigToHash 1, None); (BigToHash 2, Some [])])
    as (c & Hall & Hget).
  - apply (bool_decide_unpack _). vm_compute. exact I.
  - apply (bool_decide_unpack _). vm_compute. exact I.
  - simpl. lia.
  - exists c. split; [exact Hall|]. split.
    + apply (Hget _ None), list_elem_of_here.
    + apply (Hget _ (Some [])), list_elem_of_further, list_elem_of_here.
Defined.

(** C7, the claim as stated fails: after [Add] of 101 entries with
    distinct non-zero hashes to the empty cache, [Get] of the first one
    returns [nil]. *)
Lemma ring_cache_101st_evicts_first :
  let es := (fun n => (BigToHash n, Some [])) <$> seqZ 1 101 in
  length es = 101%nat
  /\ NoDup es.*1
  /\ Forall (fun e => e.1 <> zeroHash) es
  /\ (AddAll es cachedTicketSlice ≫= Get (BigToHash 1)) = Some None.
Proof.
  split; [reflexivity|]. split; [|split].
  - apply (bool_decide_unpack _). vm_compute. exact I.
  - apply (bool_decide_unpack _). vm_compute. exact I.
  - vm_compute. reflexivity.
Qed.

End CacheFacts.

(** ** Indices of assets *)

Lemma assetIndex_Some {V} (a : Hash) (l : list (Hash * V)) i :
  SO.assetIndex a l = Some i -> exists v, l !! i = Some (a, v).
Proof.
  revert i. induction l as [|[h v] l IH]; intros i Hi; [discriminate|].
  simpl in Hi. destruct (decide (h = a)) as [->|Hne].
  - injection Hi as <-. exists v. reflexivity.
  - destruct (SO.assetIndex a l) as [j|] eqn:Hj; [|discriminate].
    injection Hi as <-. destruct (IH j eq_refl) as [w Hw]. exists w. exact Hw.
Qed.

Lemma assetIndex_app_new {V} (a : Hash) (l : list (Hash * V)) v :
  SO.assetIndex a l = None -> SO.assetIndex a (l ++ [(a, v)]) = Some (length l).
Proof.
  induction l as [|[h w] l IH]; intros Hi; simpl.
  - destruct (decide (a = a)); [reflexivity | contradiction].
  - simpl in Hi. destruct (decide (h = a)); [discriminate|].
    destruct (SO.assetIndex a l); [discriminate|]. rewrite IH; reflexivity.
Qed.

(** ** The pointer that GetTimeLockBalance returns *)

Section PtrFacts.
Import Ptr.

(** Once the pointer of an asset is in the account, later reads find it. *)
Lemma GetTimeLockBalance_stored assetID addr (s : StateDB) o i p :
  stateObjects s !! addr = Some o ->
  SO.assetIndex assetID (TimeLockBalances o) = Some i ->
  TimeLockBalances o !! i = Some (assetID, p) ->
  GetTimeLockBalance assetID addr s = (Some p, s).
Proof.
  intros Ho Hi Hp. unfold GetTimeLockBalance, TimeLockBalance, timeLockAssetIndex.
  rewrite Ho, Hi, Hp. reflexivity.
Qed.

(** After a read the account holds the returned pointer for the asset. *)
Lemma GetTimeLockBalance_holds assetID addr (s : StateDB) o p s1 :
  stateObjects s !! addr = Some o ->
  GetTimeLockBalance assetID addr s = (Some p, s1) ->
  exists o1 i,
    stateObjects s1 !! addr = Some o1
    /\ SO.assetIndex assetID (TimeLockBalances o1) = Some i
    /\ TimeLockBalances o1 !! i = Some (assetID, p)
    /\ (length (heap s) <= length (heap s1))%nat
    /\ (forall q, (q < length (heap s))%nat -> heap s1 !! q = heap s !! q).
Proof.
  intros Ho Hget. unfold GetTimeLockBalance, TimeLockBalance, timeLockAssetIndex in Hget.
  rewrite Ho in Hget.
  destruct (SO.assetIndex assetID (TimeLockBalances o)) as [i|] eqn:Hi.
  - destruct (assetIndex_Some _ _ _ Hi) as [q Hq]. rewrite Hq in Hget.
    simpl in Hget. injection Hget as <- <-.
    exists o, i. repeat split; auto.
  - simpl in Hget. rewrite lookup_app_r in Hget by lia.
    rewrite Nat.sub_diag in Hget. simpl in Hget. injection Hget as <- <-.
    eexists _, _. simpl. rewrite lookup_insert_eq. split; [reflexivity|].
    simpl. split; [apply assetIndex_app_new, Hi|].
    split; [rewrite lookup_app_r by lia; rewrite Nat.sub_diag; reflexivity|].
    rewrite length_app. split; [lia|].
    intros q Hq. apply lookup_app_l. exact Hq.
Qed.

(** C6 (as amended).  [GetTimeLockBalance] returns the [*common.TimeLock]
    that the account itself holds, not a clone: for an address with a state
    object, a value written through the returned pointer is the balance the
    state reads afterwards for that asset and address, while a write to a
    [Clone] of the returned value leaves the stored balance as it was.  For
    an address without state object the result is a new empty TimeLock that
    no account holds. *)
Theorem GetTimeLockBalance_returns_stored_pointer :
  (forall (s : StateDB) assetID addr o p s1,
      stateObjects s !! addr = Some o ->
      GetTimeLockBalance assetID addr s = (Some p, s1) ->
      (p < length (heap s1))%nat ->
      (forall v, balanceOf assetID addr (store p v s1) = Some v)
      /\ (forall v q s2, Clone p s1 = (q, s2) ->
            balanceOf assetID addr (store q v s2) = Some (load p s1)))
  /\ (forall (s : StateDB) assetID addr,
        stateObjects s !! addr = None ->
        exists p s1,
          GetTimeLockBalance assetID addr s = (Some p, s1)
          /\ load p s1 = []
          /\ forall v, stateObjects (store p v s1) = stateObjects s
                  /\ forall q, (q < length (heap s))%nat ->
                       load q (store p v s1) = load q s).
Proof.
  split.
  - intros s assetID addr o p s1 Ho Hget Hp.
    destruct (GetTimeLockBalance_holds _ _ _ _ _ _ Ho Hget)
      as (o1 & i & Ho1 & Hi & Hpi & _ & _).
    split.
    + intros v. unfold balanceOf.
      rewrite (GetTimeLockBalance_stored assetID addr (store p v s1) o1 i p Ho1 Hi Hpi).
      simpl. unfold load. simpl. rewrite list_lookup_insert_eq by exact Hp. reflexivity.
    + intros v q s2 Hclone. unfold Clone, new in Hclone. injection Hclone as <- <-.
      unfold balanceOf.
      rewrite GetTimeLockBalance_stored with (o := o1) (i := i) (p := p);
        [|exact Ho1|exact Hi|exact Hpi].
      simpl. unfold load at 1. simpl.
      rewrite list_lookup_insert_ne by lia.
      rewrite lookup_app_l by exact Hp. reflexivity.
  - intros s assetID addr Habs. unfold GetTimeLockBalance. rewrite Habs. simpl.
    eexists _, _. split; [reflexivity|]. unfold load, store. simpl.
    split.
    + rewrite lookup_app_r by lia. rewrite Nat.sub_diag. reflexivity.
    + intros v. split; [reflexivity|]. intros q Hq.
      rewrite list_lookup_insert_ne by lia. rewrite lookup_app_l by exact Hq.
      reflexivity.
Qed.

Lemma GetTimeLockBalance_returns_stored_pointer_witness :
  (forall v, balanceOf (BigToHash 7) (BigToHash 1) (store 0%nat v ptr_example) = Some v)
  /\ (forall v q s2, Clone 0%nat ptr_example = (q, s2) ->
        balanceOf (BigToHash 7) (BigToHash 1) (store q v s2)
        = Some (load 0%nat ptr_example)).
Proof.
  apply (proj1 GetTimeLockBalance_returns_stored_pointer ptr_example
           (BigToHash 7) (BigToHash 1) (mkObject [(BigToHash 7, 0%nat)])).
  - reflexivity.
  - reflexivity.
  - simpl. lia.
Defined.

(** C6, the claim as stated fails: [p.Add(p, y)] on the value [p] that
    [GetTimeLockBalance] returned changes the balance that the state holds
    for that asset and address, here from (0, forever, 10) to
    (0, forever, 15). *)
Lemma GetTimeLockBalance_result_is_not_a_clone :
  balanceOf (BigToHash 7) (BigToHash 1) ptr_example
  = Some [mkItem 0 TimeLockForever 10]
  /\ (let '(p, s1) := GetTimeLockBalance (BigToHash 7) (BigToHash 1) ptr_example in
      p ≫= fun p => balanceOf (BigToHash 7) (BigToHash 1) (Add p p 1%nat s1))
     = Some [mkItem 0 TimeLockForever 15].
Proof. split; vm_compute; reflexivity. Qed.

End PtrFacts.

(** ** The structured-storage codec *)

Lemma Z_of_byte_of_Z z : Z_of_byte (byte_of_Z z) = z mod 256.
Proof.
  unfold Z_of_byte, byte_of_Z.
  assert (0 <= z mod 256 < 256) as Hr by (apply Z.mod_pos_bound; lia).
  destruct (Byte.of_N (Z.to_N (z mod 256))) as [b|] eqn:Hb.
  - apply Byte.to_of_N in Hb. rewrite Hb. lia.
  - apply Byte.of_N_None_iff in Hb. lia.
Qed.

Lemma be_Z_snoc bs b : be_Z (bs ++ [b]) = be_Z bs * 256 + Z_of_byte b.
Proof. unfold be_Z. rewrite fold_left_app. reflexivity. Qed.

(** The 4-byte field reads back what was written, below 2^32. *)
Lemma BytesToInt_IntToBytes n : 0 <= n < 2 ^ 32 -> BytesToInt (IntToBytes n) = n.
Proof.
  intros Hn. unfold BytesToInt, IntToBytes, be_bytes.
  rewrite !be_Z_snoc, !Z_of_byte_of_Z. change (be_Z []) with 0.
  change (2 ^ 32) with 4294967296 in Hn. lia.
Qed.

Lemma IntToBytes_length n : length (IntToBytes n) = 4%nat.
Proof. reflexivity. Qed.

(** The header word of a blob of [size] bytes in [n] slots. *)
Lemma header_word size n :
  copy_at 16 (copy_at 0 zeroHash (IntToBytes size)) (IntToBytes n)
  = IntToBytes size ++ replicate 12 "000"%byte ++ IntToBytes n ++ replicate 12 "000"%byte.
Proof. reflexivity. Qed.

Lemma copy_same_length (dst src : Bytes) :
  length dst = length src -> copy dst src = src.
Proof.
  intros Hl. unfold copy. rewrite Hl, firstn_all, <- Hl, drop_all. apply app_nil_r.
Qed.

(** [SetBytes] right-aligns a chunk of at most 32 bytes. *)
Lemma Hash_SetBytes_short b :
  (length b <= 32)%nat ->
  Hash_SetBytes b = replicate (32 - length b) "000"%byte ++ b.
Proof.
  intros Hb. unfold Hash_SetBytes, copy_at, copy.
  replace (length b - 32)%nat with O by lia. rewrite drop_0.
  unfold zeroHash. rewrite take_replicate, drop_replicate, length_replicate.
  rewrite Nat.min_l by lia.
  replace (32 - (32 - length b))%nat with (length b) by lia.
  rewrite firstn_all, drop_replicate.
  replace (length b - length b)%nat with O by lia. simpl.
  rewrite app_nil_r. reflexivity.
Qed.

Section CodecFacts.
Context `{Externals}.

Lemma writeSlot_chunk ki value o i :
  writeSlot ki value o i = SO.SetState (slotKey ki i) (Hash_SetBytes (chunk value i)) o.
Proof.
  unfold writeSlot, chunk. do 2 f_equal.
  destruct (decide (length value < i * 32 + 32)%nat) as [Hlt|Hge].
  - destruct (decide (i * 32 <= length value)%nat).
    + rewrite (take_ge (drop (i * 32) value) 32) by (rewrite length_drop; lia).
      apply take_ge. rewrite length_drop. lia.
    + rewrite drop_ge by lia. rewrite !take_nil. reflexivity.
  - f_equal. lia.
Qed.

Lemma writeSlots_other ki value k n : forall o,
  k ∉ (slotKey ki <$> seq 0 n) ->
  SO.GetState (foldl (writeSlot ki value) o (seq 0 n)) k = SO.GetState o k.
Proof.
  induction n as [|n IH]; intros o Hk; [reflexivity|].
  rewrite seq_S in *. simpl in *. rewrite fmap_app in Hk. simpl in Hk.
  rewrite foldl_snoc, writeSlot_chunk.
  apply not_elem_of_app in Hk as [Hk1 Hk2].
  apply not_elem_of_cons in Hk2 as [Hk2 _].
  unfold SO.GetState, SO.SetState at 1. simpl.
  rewrite lookup_insert_ne by congruence. apply IH, Hk1.
Qed.

Lemma writeSlots_slot ki value n : forall o i,
  NoDup (slotKey ki <$> seq 0 n) -> (i < n)%nat ->
  SO.GetState (foldl (writeSlot ki value) o (seq 0 n)) (slotKey ki i)
  = Hash_SetBytes (chunk value i).
Proof.
  induction n as [|n IH]; intros o i Hnd Hi; [lia|].
  rewrite seq_S in *. simpl in *. rewrite fmap_app in Hnd. simpl in Hnd.
  apply NoDup_app in Hnd as (Hnd & Hdisj & _).
  rewrite foldl_snoc, writeSlot_chunk.
  unfold SO.GetState, SO.SetState at 1. simpl.
  destruct (decide (i = n)) as [->|Hne].
  - rewrite lookup_insert_eq. reflexivity.
  - assert (slotKey ki i ∈ slotKey ki <$> seq 0 n) as Hin.
    { apply list_elem_of_fmap_2, elem_of_seq. lia. }
    rewrite lookup_insert_ne.
    + apply IH; [exact Hnd | lia].
    + intros Heq. apply (Hdisj _ Hin). rewrite Heq. apply list_elem_of_here.
Qed.

(** The loop of [GetStructData] rebuilds the blob chunk by chunk. *)
Lemma readSlots_prefix o ki value n m :
  (forall i, (i < n)%nat ->
     SO.GetState o (slotKey ki i) = Hash_SetBytes (chunk value i)) ->
  (m <= n)%nat -> (n = 0 \/ (n - 1) * 32 < length value)%nat ->
  foldl (readSlot o ki (length value))
        (Some (replicate (length value) "000"%byte)) (seq 0 m)
  = Some (take (m * 32) value ++ replicate (length value - m * 32) "000"%byte).
Proof.
  intros Hslots. induction m as [|m IH]; intros Hm Hn.
  - simpl. rewrite Nat.sub_0_r. reflexivity.
  - replace (S m * 32)%nat with (m * 32 + 32)%nat by lia.
    rewrite seq_S, foldl_snoc, IH by lia. simpl.
    set (size := length value) in *. set (start := (m * 32)%nat).
    assert (start < size)%nat as Hstart by (unfold start; lia).
    rewrite Hslots by lia.
    assert (length (chunk value m) <= 32)%nat as Hc32
        by (unfold chunk; rewrite length_take; lia).
    rewrite Hash_SetBytes_short by exact Hc32.
    set (end_ := if decide (size < start + 32)%nat then size else (start + 32)%nat).
    assert (start <= end_ /\ end_ <= size
            /\ length (chunk value m) = end_ - start)%nat as (Hse & Hes & Hlen).
    { unfold end_, chunk. rewrite length_take, length_drop. fold size start.
      destruct (decide (size < start + 32)%nat); lia. }
    destruct (decide (start <= end_)%nat) as [_|?]; [|lia].
    f_equal.
    assert (length (take start value) = start) as Hpre
        by (rewrite length_take; fold size; lia).
    rewrite (take_app_length' (take start value)) by (symmetry; exact Hpre).
    rewrite (drop_app_length' (take start value)) by (symmetry; exact Hpre).
    rewrite drop_app_length' by (rewrite length_replicate; lia).
    rewrite copy_same_length
      by (rewrite length_take, length_replicate; lia).
    rewrite drop_app_ge by lia.
    rewrite Hpre, drop_replicate.
    rewrite <- take_take_drop. fold (chunk value m).
    rewrite <- app_assoc. do 3 f_equal.
    unfold end_. destruct (decide (size < start + 32)%nat); lia.
Qed.

Lemma slotCount_code size :
  (if decide (size mod 32 <> 0)%nat then S (size / 32) else (size / 32)%nat)
  = slotCount size.
Proof.
  unfold slotCount.
  pose proof (Nat2Z.inj_div size 32) as Hd. pose proof (Nat2Z.inj_mod size 32) as Hm.
  change (Z.of_nat 32) with 32 in *.
  destruct (decide (size mod 32 <> 0)%nat) as [Hr|Hr].
  - apply Nat2Z.inj. rewrite Nat2Z.inj_succ, Hd, Z2Nat.id by lia.
    assert (Z.of_nat size mod 32 <> 0) by lia. lia.
  - apply Nat2Z.inj. rewrite Hd, Z2Nat.id by lia.
    assert (Z.of_nat size mod 32 = 0) by lia. lia.
Qed.

End CodecFacts.

Section CodecRoundTrip.
Context `{Externals}.

Lemma GetState_SetNonce n o k : SO.GetState (SO.SetNonce n o) k = SO.GetState o k.
Proof. reflexivity. Qed.

Lemma GetState_SetState_eq k v o : SO.GetState (SO.SetState k v o) k = v.
Proof. unfold SO.GetState, SO.SetState. simpl. rewrite lookup_insert_eq. reflexivity. Qed.

(** What [SetStructData] leaves in the storage of the object. *)
Lemma writeStructData_storage key value o :
  let keyHash := Keccak256 key in
  let keyIndex := be_Z keyHash in
  let n := slotCount (length value) in
  NoDup (keyHash :: (slotKey keyIndex <$> seq 0 n)) ->
  SO.GetState (writeStructData key value o) keyHash
  = IntToBytes (Z.of_nat (length value)) ++ replicate 12 "000"%byte
    ++ IntToBytes (Z.of_nat n) ++ replicate 12 "000"%byte
  /\ forall i, (i < n)%nat ->
       SO.GetState (writeStructData key value o) (slotKey keyIndex i)
       = Hash_SetBytes (chunk value i).
Proof.
  intros keyHash keyIndex n Hnd. apply NoDup_cons in Hnd as [Hhdr Hnd].
  unfold writeStructData. cbv zeta. rewrite slotCount_code.
  fold keyHash keyIndex n. rewrite !GetState_SetNonce. split.
  - rewrite writeSlots_other by exact Hhdr.
    rewrite GetState_SetState_eq. apply header_word.
  - intros i Hi. rewrite GetState_SetNonce. apply writeSlots_slot; assumption.
Qed.

Lemma slotCount_bounds size :
  let n := slotCount size in
  (size <= n * 32)%nat /\ (n = 0 \/ (n - 1) * 32 < size)%nat /\ (n <= size)%nat.
Proof. unfold slotCount. lia. Qed.

(** C5.  [GetStructData(addr, key)] after [SetStructData(addr, key, value)]
    returns [value] itself (and returns: the read is defined), for every
    address, non-nil key and non-nil value whose length fits the 4-byte size
    field, when Keccak256 does not collide on the header key and the slot
    keys.  The header word holds the size in its first 4 bytes and the slot
    count at offset 16; the payload lies in [ceil(len/32)] slots keyed by
    [Keccak256(i || Keccak256(key))], each chunk right-aligned in its slot. *)
Theorem struct_data_round_trip (s : StateDB) (addr : Address) (key value : Bytes) :
  Z.of_nat (length value) < 2 ^ 31 ->
  NoDup (Keccak256 key
         :: (slotKey (be_Z (Keccak256 key)) <$> seq 0 (slotCount (length value)))) ->
  let s' := SetStructData addr (Some key) (Some value) s in
  GetStructData addr (Some key) s' = Some (Some value, s')
  /\ exists o,
       getStateObject addr s' = Some o
       /\ take 4 (SO.GetState o (Keccak256 key)) = IntToBytes (Z.of_nat (length value))
       /\ take 4 (drop 16 (SO.GetState o (Keccak256 key)))
          = IntToBytes (Z.of_nat (slotCount (length value)))
       /\ Z.of_nat (slotCount (length value)) = (Z.of_nat (length value) + 31) / 32
       /\ forall i, (i < slotCount (length value))%nat ->
            SO.GetState o (slotKey (be_Z (Keccak256 key)) i)
            = replicate (32 - length (chunk value i)) "000"%byte ++ chunk value i.
Proof.
  intros Hsize Hnd s'.
  destruct (slotCount_bounds (length value)) as (Hcover & Hlast & Hle).
  set (n := slotCount (length value)) in *.
  assert (exists o0 s0, s' = set_stateObjects (insert addr (writeStructData key value o0)) s0)
    as (o0 & s0 & Hs').
  { unfold s', SetStructData, onObject.
    destruct (GetOrNewStateObject addr s) as [o0 s0]. eauto. }
  set (o := writeStructData key value o0) in *.
  assert (getStateObject addr s' = Some o) as Hobj.
  { rewrite Hs'. unfold getStateObject, set_stateObjects. simpl.
    apply lookup_insert_eq. }
  destruct (writeStructData_storage key value o0 Hnd) as [Hinfo Hslots].
  fold o n in Hinfo, Hslots.
  assert (take 4 (SO.GetState o (Keccak256 key)) = IntToBytes (Z.of_nat (length value)))
    as Htake1 by (rewrite Hinfo; reflexivity).
  assert (take 4 (drop 16 (SO.GetState o (Keccak256 key))) = IntToBytes (Z.of_nat n))
    as Htake2 by (rewrite Hinfo; reflexivity).
  split.
  - unfold GetStructData, GetOrNewStateObject. rewrite Hobj.
    unfold readStructData. rewrite Htake1, Htake2.
    rewrite !BytesToInt_IntToBytes by lia. rewrite !Nat2Z.id.
    rewrite (readSlots_prefix o _ value n n Hslots) by (lia || exact Hlast).
    rewrite take_ge by lia.
    replace (length value - n * 32)%nat with O by lia.
    simpl. rewrite app_nil_r. reflexivity.
  - exists o. split; [exact Hobj|]. split; [exact Htake1|]. split; [exact Htake2|].
    split.
    + unfold n, slotCount. lia.
    + intros i Hi. rewrite Hslots by exact Hi.
      apply Hash_SetBytes_short. unfold chunk. rewrite length_take. lia.
Qed.

End CodecRoundTrip.

Lemma struct_data_round_trip_witness :
  let E := exampleExternals noSendAsset noTimeLock noBuyTicket noMakeSwap 1 0 in
  let s' := SetStructData (BigToAddress 9) (Some ["007"%byte]) (Some exampleBlob)
              (mkStateDB ∅ [] []) in
  GetStructData (BigToAddress 9) (Some ["007"%byte]) s' = Some (Some exampleBlob, s').
Proof.
  apply (struct_data_round_trip
           (H := exampleExternals noSendAsset noTimeLock noBuyTicket noMakeSwap 1 0)
           (mkStateDB ∅ [] []) (BigToAddress 9) ["007"%byte] exampleBlob).
  - vm_compute. reflexivity.
  - apply (bool_decide_unpack _). vm_compute. exact I.
Defined.

(** ** Balances as the accounts hold them *)

Lemma lookupAsset_index {V} (d : V) a l :
  match SO.assetIndex a l with
  | Some i => default d (snd <$> l !! i)
  | None => d
  end = lookupAsset d a l.
Proof.
  induction l as [|[h v] l IH]; [reflexivity|]. simpl.
  destruct (decide (h = a)); [reflexivity|].
  destruct (SO.assetIndex a l); exact IH.
Qed.

Lemma lookupAsset_app_new {V} (d : V) a a' l :
  SO.assetIndex a l = None -> lookupAsset d a' (l ++ [(a, d)]) = lookupAsset d a' l.
Proof.
  induction l as [|[h v] l IH]; intros Hi; simpl.
  - destruct (decide (a = a')); reflexivity.
  - simpl in Hi. destruct (decide (h = a)); [discriminate|].
    destruct (SO.assetIndex a l); [discriminate|].
    destruct (decide (h = a')); [reflexivity | apply IH; reflexivity].
Qed.

Lemma updAsset_index {V} (d : V) a v l :
  match SO.assetIndex a l with
  | Some i => alter (fun p => (p.1, v)) i l
  | None => alter (fun p => (p.1, v)) (length l) (l ++ [(a, d)])
  end = updAsset a v l.
Proof.
  induction l as [|[h w] l IH]; simpl.
  - reflexivity.
  - destruct (decide (h = a)) as [->|Hne]; [reflexivity|].
    destruct (SO.assetIndex a l); simpl in *; f_equal; exact IH.
Qed.

Lemma updAsset_app_new {V} (d : V) a v l :
  SO.assetIndex a l = None -> updAsset a v (l ++ [(a, d)]) = updAsset a v l.
Proof.
  induction l as [|[h w] l IH]; intros Hi; simpl.
  - destruct (decide (a = a)); [reflexivity | contradiction].
  - simpl in Hi. destruct (decide (h = a)); [discriminate|].
    destruct (SO.assetIndex a l); [discriminate|]. f_equal. apply IH. reflexivity.
Qed.

Lemma lookupAsset_updAsset {V} (d : V) a a' v l :
  lookupAsset d a' (updAsset a v l)
  = if decide (a' = a) then v else lookupAsset d a' l.
Proof.
  induction l as [|[h w] l IH]; simpl.
  - destruct (decide (a = a')), (decide (a' = a)); congruence.
  - destruct (decide (h = a)) as [->|Hne]; simpl.
    + destruct (decide (a = a')), (decide (a' = a)); congruence.
    + destruct (decide (h = a')) as [->|Hne'].
      * destruct (decide (a' = a)); congruence.
      * exact IH.
Qed.

Lemma obj_same_refl o : obj_same o o.
Proof. repeat split. Qed.

Lemma Balance_spec a o :
  (SO.Balance a o).1 = objBal o a /\ obj_same (SO.Balance a o).2 o.
Proof.
  unfold SO.Balance, SO.balanceAssetIndex, SO.BalancesVal, objBal.
  pose proof (lookupAsset_index 0 a (Balances (data o))) as Hl.
  destruct (SO.assetIndex a (Balances (data o))) as [i|] eqn:Hi; simpl.
  - split; [exact Hl | apply obj_same_refl].
  - rewrite lookup_app_r by lia. rewrite Nat.sub_diag. simpl.
    split; [exact Hl|]. unfold obj_same, objBal, objTL. simpl.
    repeat split. intros a'. apply lookupAsset_app_new, Hi.
Qed.

Lemma TimeLockBalance_spec a o :
  (SO.TimeLockBalance a o).1 = objTL o a /\ obj_same (SO.TimeLockBalance a o).2 o.
Proof.
  unfold SO.TimeLockBalance, SO.timeLockAssetIndex, SO.TimeLockBalancesVal, objTL.
  pose proof (lookupAsset_index [] a (TimeLockBalances (data o))) as Hl.
  destruct (SO.assetIndex a (TimeLockBalances (data o))) as [i|] eqn:Hi; simpl.
  - split; [exact Hl | apply obj_same_refl].
  - rewrite lookup_app_r by lia. rewrite Nat.sub_diag. simpl.
    split; [exact Hl|]. unfold obj_same, objBal, objTL. simpl.
    repeat split. intros a'. apply lookupAsset_app_new, Hi.
Qed.

Lemma SetBalance_spec a v o :
  SO.SetBalance a v o
  = SO.set_data (SO.set_Balances (updAsset a v (Balances (data o)))) o.
Proof.
  unfold SO.SetBalance, SO.setBalance, SO.balanceAssetIndex.
  pose proof (updAsset_index 0 a v (Balances (data o))) as Hu.
  destruct (SO.assetIndex a (Balances (data o))) as [i|] eqn:Hi; simpl.
  - rewrite Hi. simpl. unfold SO.set_data, SO.set_Balances. simpl. rewrite Hu. reflexivity.
  - rewrite (assetIndex_app_new a _ 0 Hi). simpl.
    unfold SO.set_data, SO.set_Balances. simpl.
    rewrite <- (updAsset_app_new 0 a v _ Hi).
    rewrite <- (updAsset_index 0 a v (Balances (data o) ++ [(a, 0)])).
    rewrite (assetIndex_app_new a _ 0 Hi). reflexivity.
Qed.

Lemma SetTimeLockBalance_spec a v o :
  SO.SetTimeLockBalance a v o
  = SO.set_data (SO.set_TimeLockBalances (updAsset a v (TimeLockBalances (data o)))) o.
Proof.
  unfold SO.SetTimeLockBalance, SO.setTimeLockBalance, SO.timeLockAssetIndex.
  pose proof (updAsset_index [] a v (TimeLockBalances (data o))) as Hu.
  destruct (SO.assetIndex a (TimeLockBalances (data o))) as [i|] eqn:Hi; simpl.
  - rewrite Hi. simpl. unfold SO.set_data, SO.set_TimeLockBalances. simpl.
    rewrite Hu. reflexivity.
  - rewrite (assetIndex_app_new a _ [] Hi). simpl.
    unfold SO.set_data, SO.set_TimeLockBalances. simpl.
    rewrite <- (updAsset_app_new [] a v _ Hi).
    rewrite <- (updAsset_index [] a v (TimeLockBalances (data o) ++ [(a, [])])).
    rewrite (assetIndex_app_new a _ [] Hi). reflexivity.
Qed.

Lemma AddBalance_obj a amt o :
  (forall a', objBal (SO.AddBalance a amt o) a'
              = if decide (a' = a) then objBal o a + amt else objBal o a')
  /\ (forall a', objTL (SO.AddBalance a amt o) a' = objTL o a')
  /\ obj_rest (SO.AddBalance a amt o) o.
Proof.
  unfold SO.AddBalance. destruct (Z.eqb_spec amt 0) as [->|Hne].
  - repeat split. intros a'. destruct (decide (a' = a)) as [->|]; [lia | reflexivity].
  - destruct (SO.balanceAssetIndex a o) as [i o1] eqn:Hidx.
    pose proof (Balance_spec a o) as [Hv Hsame]. unfold SO.Balance in Hv, Hsame.
    rewrite Hidx in Hv, Hsame. simpl in Hv, Hsame.
    destruct Hsame as (Hb & Ht & Hn & Hnc & Hcs & Hst).
    rewrite SetBalance_spec, Hv. unfold objBal, objTL, obj_rest. simpl.
    split; [|split; [exact Ht | auto]].
    intros a'. rewrite lookupAsset_updAsset.
    destruct (decide (a' = a)); [reflexivity | apply Hb].
Qed.

Lemma SubBalance_obj a amt o :
  (forall a', objBal (SO.SubBalance a amt o) a'
              = if decide (a' = a) then objBal o a - amt else objBal o a')
  /\ (forall a', objTL (SO.SubBalance a amt o) a' = objTL o a')
  /\ obj_rest (SO.SubBalance a amt o) o.
Proof.
  unfold SO.SubBalance. destruct (Z.eqb_spec amt 0) as [->|Hne].
  - repeat split. intros a'. destruct (decide (a' = a)) as [->|]; [lia | reflexivity].
  - destruct (SO.balanceAssetIndex a o) as [i o1] eqn:Hidx.
    pose proof (Balance_spec a o) as [Hv Hsame]. unfold SO.Balance in Hv, Hsame.
    rewrite Hidx in Hv, Hsame. simpl in Hv, Hsame.
    destruct Hsame as (Hb & Ht & Hn & Hnc & Hcs & Hst).
    rewrite SetBalance_spec, Hv. unfold objBal, objTL, obj_rest. simpl.
    split; [|split; [exact Ht | auto]].
    intros a'. rewrite lookupAsset_updAsset.
    destruct (decide (a' = a)); [reflexivity | apply Hb].
Qed.

Lemma AddTimeLockBalance_obj a amt h ts o :
  (forall a', objTL (SO.AddTimeLockBalance a amt h ts o) a'
              = if decide (a' = a) then creditTL (objTL o a) amt ts else objTL o a')
  /\ (forall a', objBal (SO.AddTimeLockBalance a amt h ts o) a' = objBal o a')
  /\ obj_rest (SO.AddTimeLockBalance a amt h ts o) o.
Proof.
  unfold SO.AddTimeLockBalance, creditTL. destruct (TL.IsEmpty amt).
  - repeat split. intros a'. destruct (decide (a' = a)) as [->|]; reflexivity.
  - destruct (SO.timeLockAssetIndex a o) as [i o1] eqn:Hidx.
    pose proof (TimeLockBalance_spec a o) as [Hv Hsame]. unfold SO.TimeLockBalance in Hv, Hsame.
    rewrite Hidx in Hv, Hsame. simpl in Hv, Hsame.
    destruct Hsame as (Hb & Ht & Hn & Hnc & Hcs & Hst).
    rewrite SetTimeLockBalance_spec, Hv. unfold objBal, objTL, obj_rest. simpl.
    split; [|split; [exact Hb | auto]].
    intros a'. rewrite lookupAsset_updAsset.
    destruct (decide (a' = a)); [reflexivity | apply Ht].
Qed.

Lemma SubTimeLockBalance_obj a amt h ts o :
  match SO.SubTimeLockBalance a amt h ts o, debitTL (objTL o a) amt ts with
  | Some o', Some r =>
      (forall a', objTL o' a' = if decide (a' = a) then r else objTL o a')
      /\ (forall a', objBal o' a' = objBal o a')
      /\ obj_rest o' o
  | None, None => True
  | _, _ => False
  end.
Proof.
  unfold SO.SubTimeLockBalance, debitTL. destruct (TL.IsEmpty amt).
  - repeat split. intros a'. destruct (decide (a' = a)) as [->|]; reflexivity.
  - destruct (SO.timeLockAssetIndex a o) as [i o1] eqn:Hidx.
    pose proof (TimeLockBalance_spec a o) as [Hv Hsame]. unfold SO.TimeLockBalance in Hv, Hsame.
    rewrite Hidx in Hv, Hsame. simpl in Hv, Hsame.
    destruct Hsame as (Hb & Ht & Hn & Hnc & Hcs & Hst). rewrite Hv.
    destruct (TL.Sub (objTL o a) amt) as [r|]; simpl; [|exact I].
    rewrite SetTimeLockBalance_spec. unfold objBal, objTL, obj_rest. simpl.
    split; [|split; [exact Hb | auto]].
    intros a'. rewrite lookupAsset_updAsset.
    destruct (decide (a' = a)); [reflexivity | apply Ht].
Qed.

(** ** Balances as the state holds them *)

Lemma st_same_refl s : st_same s s.
Proof. split; [intros; apply obj_same_refl | split; reflexivity]. Qed.

Lemma st_same_bal s s' addr a : st_same s s' -> bal s addr a = bal s' addr a.
Proof. intros [Hv _]. apply (Hv addr). Qed.

Lemma st_same_tlb s s' addr a : st_same s s' -> tlb s addr a = tlb s' addr a.
Proof. intros [Hv _]. apply (Hv addr). Qed.

Lemma st_same_rest s s' : st_same s s' -> st_rest s s'.
Proof.
  intros [Hv Hr]. split; [|exact Hr]. intros addr.
  destruct (Hv addr) as (_ & _ & Hrest). exact Hrest.
Qed.

Lemma st_rest_refl s : st_rest s s.
Proof. split; [intros; repeat split | split; reflexivity]. Qed.

Lemma st_rest_trans s1 s2 s3 : st_rest s1 s2 -> st_rest s2 s3 -> st_rest s1 s3.
Proof.
  intros [H1 [Ht1 Hl1]] [H2 [Ht2 Hl2]]. split; [|split; congruence].
  intros addr. destruct (H1 addr) as (? & ? & ? & ?), (H2 addr) as (? & ? & ? & ?).
  repeat split; congruence.
Qed.

Lemma view_onObject addr f s addr' :
  view (onObject addr f s) addr'
  = if decide (addr' = addr) then f (view s addr) else view s addr'.
Proof.
  unfold onObject, GetOrNewStateObject, getStateObject, view.
  destruct (stateObjects s !! addr) as [o|] eqn:Ho; simpl;
    destruct (decide (addr' = addr)) as [->|Hne];
    rewrite ?lookup_insert_eq, ?lookup_insert_ne by congruence; try reflexivity.
Qed.

Lemma onObject_tickets_logs addr f s :
  tickets (onObject addr f s) = tickets s /\ logs (onObject addr f s) = logs s.
Proof.
  unfold onObject, GetOrNewStateObject.
  destruct (getStateObject addr s); split; reflexivity.
Qed.

Lemma GetBalance_st a addr s :
  (GetBalance a addr s).1 = bal s addr a /\ st_same (GetBalance a addr s).2 s.
Proof.
  unfold GetBalance, getStateObject, bal, view.
  destruct (stateObjects s !! addr) as [o|] eqn:Ho; simpl.
  - pose proof (Balance_spec a o) as [Hv Hsame].
    destruct (SO.Balance a o) as [v o1]. simpl in *.
    split; [exact Hv|]. split; [|split; reflexivity].
    intros addr'. unfold view. simpl.
    destruct (decide (addr' = addr)) as [->|Hne].
    + rewrite lookup_insert_eq, Ho. exact Hsame.
    + rewrite lookup_insert_ne by congruence. apply obj_same_refl.
  - split; [reflexivity | apply st_same_refl].
Qed.

Lemma GetTimeLockBalance_st a addr s :
  (GetTimeLockBalance a addr s).1 = tlb s addr a
  /\ st_same (GetTimeLockBalance a addr s).2 s.
Proof.
  unfold GetTimeLockBalance, getStateObject, tlb, view.
  destruct (stateObjects s !! addr) as [o|] eqn:Ho; simpl.
  - pose proof (TimeLockBalance_spec a o) as [Hv Hsame].
    destruct (SO.TimeLockBalance a o) as [v o1]. simpl in *.
    split; [exact Hv|]. split; [|split; reflexivity].
    intros addr'. unfold view. simpl.
    destruct (decide (addr' = addr)) as [->|Hne].
    + rewrite lookup_insert_eq, Ho. exact Hsame.
    + rewrite lookup_insert_ne by congruence. apply obj_same_refl.
  - split; [reflexivity | apply st_same_refl].
Qed.

Lemma AddBalance_st addr a amt s :
  (forall addr' a', bal (AddBalance addr a amt s) addr' a'
     = if decide (addr' = addr /\ a' = a) then bal s addr a + amt else bal s addr' a')
  /\ (forall addr' a', tlb (AddBalance addr a amt s) addr' a' = tlb s addr' a')
  /\ st_rest (AddBalance addr a amt s) s.
Proof.
  unfold AddBalance, bal, tlb, st_rest.
  destruct (AddBalance_obj a amt (view s addr)) as (Hb & Ht & Hr).
  destruct (onObject_tickets_logs addr (SO.AddBalance a amt) s) as [Htk Hlg].
  split; [|split; [|split; [|split; assumption]]]; intros addr'; try intros a';
    rewrite view_onObject; destruct (decide (addr' = addr)) as [->|Hne].
  - rewrite Hb. destruct (decide (a' = a)), (decide (addr = addr /\ a' = a)); tauto.
  - destruct (decide (addr' = addr /\ a' = a)); tauto.
  - apply Ht.
  - reflexivity.
  - exact Hr.
  - repeat split.
Qed.

Lemma SubBalance_st addr a amt s :
  (forall addr' a', bal (SubBalance addr a amt s) addr' a'
     = if decide (addr' = addr /\ a' = a) then bal s addr a - amt else bal s addr' a')
  /\ (forall addr' a', tlb (SubBalance addr a amt s) addr' a' = tlb s addr' a')
  /\ st_rest (SubBalance addr a amt s) s.
Proof.
  unfold SubBalance, bal, tlb, st_rest.
  destruct (SubBalance_obj a amt (view s addr)) as (Hb & Ht & Hr).
  destruct (onObject_tickets_logs addr (SO.SubBalance a amt) s) as [Htk Hlg].
  split; [|split; [|split; [|split; assumption]]]; intros addr'; try intros a';
    rewrite view_onObject; destruct (decide (addr' = addr)) as [->|Hne].
  - rewrite Hb. destruct (decide (a' = a)), (decide (addr = addr /\ a' = a)); tauto.
  - destruct (decide (addr' = addr /\ a' = a)); tauto.
  - apply Ht.
  - reflexivity.
  - exact Hr.
  - repeat split.
Qed.

Lemma AddTimeLockBalance_st addr a amt h ts s :
  (forall addr' a', tlb (AddTimeLockBalance addr a amt h ts s) addr' a'
     = if decide (addr' = addr /\ a' = a) then creditTL (tlb s addr a) amt ts
       else tlb s addr' a')
  /\ (forall addr' a', bal (AddTimeLockBalance addr a amt h ts s) addr' a' = bal s addr' a')
  /\ st_rest (AddTimeLockBalance addr a amt h ts s) s.
Proof.
  unfold AddTimeLockBalance, bal, tlb, st_rest.
  destruct (AddTimeLockBalance_obj a amt h ts (view s addr)) as (Ht & Hb & Hr).
  destruct (onObject_tickets_logs addr (SO.AddTimeLockBalance a amt h ts) s) as [Htk Hlg].
  split; [|split; [|split; [|split; assumption]]]; intros addr'; try intros a';
    rewrite view_onObject; destruct (decide (addr' = addr)) as [->|Hne].
  - rewrite Ht. destruct (decide (a' = a)), (decide (addr = addr /\ a' = a)); tauto.
  - destruct (decide (addr' = addr /\ a' = a)); tauto.
  - apply Hb.
  - reflexivity.
  - exact Hr.
  - repeat split.
Qed.

Lemma SubTimeLockBalance_onObject addr a amt h ts s :
  SubTimeLockBalance addr a amt h ts s
  = (fun o' => onObject addr (fun _ => o') s)
      <$> SO.SubTimeLockBalance a amt h ts (view s addr).
Proof.
  unfold SubTimeLockBalance, onObject, GetOrNewStateObject, getStateObject, view.
  destruct (stateObjects s !! addr) as [o|]; simpl;
    destruct (SO.SubTimeLockBalance a amt h ts _); reflexivity.
Qed.

Lemma SubTimeLockBalance_st addr a amt h ts s :
  match SubTimeLockBalance addr a amt h ts s, debitTL (tlb s addr a) amt ts with
  | Some s', Some r =>
      (forall addr' a', tlb s' addr' a'
         = if decide (addr' = addr /\ a' = a) then r else tlb s addr' a')
      /\ (forall addr' a', bal s' addr' a' = bal s addr' a')
      /\ st_rest s' s
  | None, None => True
  | _, _ => False
  end.
Proof.
  pose proof (SubTimeLockBalance_obj a amt h ts (view s addr)) as Hobj.
  rewrite SubTimeLockBalance_onObject.
  change (tlb s addr a) with (objTL (view s addr) a).
  destruct (SO.SubTimeLockBalance a amt h ts (view s addr)) as [o'|];
    destruct (debitTL (objTL (view s addr) a) amt ts) as [r|]; try exact Hobj.
  simpl. destruct Hobj as (Ht & Hb & Hr).
  destruct (onObject_tickets_logs addr (fun _ => o') s) as [Htk Hlg].
  unfold bal, tlb, st_rest.
  split; [|split; [|split; [|split; assumption]]]; intros addr'; try intros a';
    rewrite view_onObject; destruct (decide (addr' = addr)) as [->|Hne].
  - rewrite Ht. destruct (decide (a' = a)), (decide (addr = addr /\ a' = a)); tauto.
  - destruct (decide (addr' = addr /\ a' = a)); tauto.
  - apply Hb.
  - reflexivity.
  - exact Hr.
  - repeat split.
Qed.

Lemma AddLog_st l s :
  (forall addr, view (AddLog l s) addr = view s addr)
  /\ tickets (AddLog l s) = tickets s
  /\ logs (AddLog l s) = logs s ++ [l].
Proof. repeat split. Qed.

(** ** Facts of the TimeLock algebra that the dispatcher relies on *)

(** The algebra on the instances of the scenarios of the specification. *)
Example S1_surplus :
  TL.Sub [mkItem 500 TimeLockForever 40] [mkItem 1000 2000 40]
  = Some [mkItem 500 999 40; mkItem 2001 TimeLockForever 40].
Proof. vm_compute. reflexivity. Qed.

Example Add_coalesces :
  TL.Add [mkItem 1000 2000 40] [mkItem 2001 3000 40] = [mkItem 1000 3000 40].
Proof. vm_compute. reflexivity. Qed.

Example Add_overlap :
  TL.Add [mkItem 10 20 5] [mkItem 15 30 7]
  = [mkItem 10 14 5; mkItem 15 20 12; mkItem 21 30 7].
Proof. vm_compute. reflexivity. Qed.

Lemma IsValid_singleton s e v :
  TL.IsValid [mkItem s e v] = true <-> s <= e /\ 0 < v.
Proof.
  unfold TL.IsValid, TL.item_valid. simpl.
  rewrite !andb_true_r, andb_true_iff, Z.leb_le, Z.ltb_lt. reflexivity.
Qed.

Lemma IsEmpty_singleton s e v : v <> 0 -> TL.IsEmpty [mkItem s e v] = false.
Proof.
  intros Hv. unfold TL.IsEmpty. simpl. rewrite andb_true_r. apply Z.eqb_neq, Hv.
Qed.

(** The time lock that a plain balance converts to covers every requirement
    of the same value from [now] on, so the surplus is defined. *)
Lemma covers_total_need ts s e v :
  ts <= s -> s <= e -> e <= TimeLockForever -> 0 < v ->
  TL.covers [mkItem ts TimeLockForever v] [mkItem s e v] = true.
Proof.
  intros Hts Hse He Hv. unfold TL.covers, TL.points, TL.valueAt, TL.covers_time.
  unfold TimeLockForever in *. simpl. rewrite !Z.add_0_r.
  repeat (apply andb_true_intro; split); try reflexivity; apply Z.leb_le;
    repeat match goal with
           | |- context [?a <=? ?b] => destruct (Z.leb_spec a b); simpl
           end; lia.
Qed.

Lemma Sub_total_need ts s e v :
  ts <= s -> s <= e -> e <= TimeLockForever -> 0 < v ->
  exists surplus, TL.Sub [mkItem ts TimeLockForever v] [mkItem s e v] = Some surplus.
Proof.
  intros. unfold TL.Sub. rewrite covers_total_need by assumption. eauto.
Qed.

Lemma max_start start ts : (if start <? ts then ts else start) = Z.max start ts.
Proof. destruct (Z.ltb_spec start ts); lia. Qed.

Lemma MaxUint64_max x y : MaxUint64 x y = Z.max x y.
Proof. unfold MaxUint64. destruct (Z.ltb_spec x y); lia. Qed.

(** [AddTimeLockBalance] guarded by [!amount.IsEmpty()], as the dispatcher
    calls it for a surplus: the guard changes nothing that is read. *)
Lemma maybe_AddTimeLockBalance_st addr a amt h ts s :
  let s' := if negb (TL.IsEmpty amt) then AddTimeLockBalance addr a amt h ts s else s in
  (forall addr' a', tlb s' addr' a'
     = if decide (addr' = addr /\ a' = a) then creditTL (tlb s addr a) amt ts
       else tlb s addr' a')
  /\ (forall addr' a', bal s' addr' a' = bal s addr' a')
  /\ st_rest s' s.
Proof.
  intros s'. unfold s'. destruct (TL.IsEmpty amt) eqn:He; simpl.
  - split; [|split; [reflexivity | apply st_rest_refl]].
    intros addr' a'. unfold creditTL. rewrite He.
    destruct (decide (addr' = addr /\ a' = a)) as [[-> ->]|]; reflexivity.
  - apply AddTimeLockBalance_st.
Qed.

(** ** The dispatcher *)

(** Reduces the matches and conditionals that a case analysis has decided. *)
Ltac mred := cbn [andb negb].

(** Unfolds the monad of the embedded code. *)
Ltac munfold :=
  unfold mbind, M_bind, mret, M_ret, liftR, liftW, liftO, defined,
    logTL, logMS, addLog in *.

Section DispatcherFacts.
Context `{Externals}.

(** AssetToTimeLock with a recipient other than the sender. *)
Lemma AssetToTimeLock_general (env : Env) (msg : Message) (param : FSNCallParam)
    (s : StateDB) :
  let p := decodeTimeLockParam (Data param) in
  let from := From msg in
  let to := tl_To p in
  let ts := ParentTime env in
  let value := tl_Value p in
  let assetID := tl_AssetID p in
  let need := [mkItem (Z.max (tl_StartTime p) ts) (tl_EndTime p) value] in
  let total := [mkItem ts TimeLockForever value] in
  Func param = TimeLockFunc ->
  tl_Type p = AssetToTimeLock ->
  from <> to ->
  TimeLockParam_Check p (BlockNumber env) ts = None ->
  TL.IsValid need = true ->
  0 <= value -> tl_EndTime p <= TimeLockForever ->
  (bal s from assetID < value ->
     exists s', handleFsnCall env msg param s = Some (Errorf "not enough asset", s')
       /\ forall addr a, bal s' addr a = bal s addr a /\ tlb s' addr a = tlb s addr a)
  /\ (value <= bal s from assetID ->
     exists s' surplus,
       handleFsnCall env msg param s = Some (None, s')
       /\ TL.Sub total need = Some surplus
       /\ bal s' from assetID = bal s from assetID - value
       /\ tlb s' to assetID = TL.ClearExpired (TL.Add (tlb s to assetID) need) ts
       /\ tlb s' from assetID
          = (if TL.IsEmpty surplus then tlb s from assetID
             else TL.ClearExpired (TL.Add (tlb s from assetID) surplus) ts)
       /\ (forall addr a, ~ (addr = from /\ a = assetID) -> bal s' addr a = bal s addr a)
       /\ (forall addr a, ~ (addr = from /\ a = assetID) -> ~ (addr = to /\ a = assetID) ->
             tlb s' addr a = tlb s addr a)).
Proof.
  intros p from to ts value assetID need total HFunc Htype Hne Hcheck Hvalid Hval Hend.
  apply IsValid_singleton in Hvalid as Hv. destruct Hv as [Hse Hpos].
  assert (handleFsnCall env msg param s = handleAssetToTimeLock env msg p need s) as Hrun.
  { unfold handleFsnCall. rewrite HFunc. unfold handleTimeLock. fold p.
    rewrite Htype. destruct (decide (AssetToTimeLock = TimeLockToAsset)); [discriminate|].
    fold ts. rewrite Hcheck. cbv zeta. rewrite max_start. fold value.
    rewrite (Z.abs_eq value) by exact Hval. unfold TL.NewTimeLock. fold need.
    rewrite Hvalid, Htype.
    reflexivity. }
  rewrite Hrun. unfold handleAssetToTimeLock, TL.NewTimeLock.
  fold from to ts value assetID. rewrite (Z.abs_eq value) by exact Hval. fold total.
  munfold.
  destruct (GetBalance_st assetID from s) as [Hb0 Hs0].
  destruct (GetBalance assetID from s) as [b s0]. simpl in Hb0, Hs0. subst b.
  split.
  - intros Hlt. destruct (Z.ltb_spec (bal s from assetID) value) as [_|?]; [|lia].
    munfold. eexists. split; [reflexivity|]. intros addr a.
    split; [apply (st_same_bal _ _ _ _ Hs0) | apply (st_same_tlb _ _ _ _ Hs0)].
  - intros Hge. destruct (Z.ltb_spec (bal s from assetID) value) as [?|_]; [lia|].
    destruct (decide (from = to)) as [?|_]; [contradiction|].
    destruct (Sub_total_need ts (Z.max (tl_StartTime p) ts) (tl_EndTime p) value)
      as [surplus Hsur]; try lia.
    fold total need in Hsur. rewrite Hsur. munfold.
    set (h := BlockNumber env).
    set (s1 := SubBalance from assetID value s0).
    destruct (SubBalance_st from assetID value s0) as (Hb1 & Ht1 & _). fold s1 in Hb1, Ht1.
    assert (creditTL (tlb s to assetID) need ts
            = TL.ClearExpired (TL.Add (tlb s to assetID) need) ts) as Hcredit.
    { unfold creditTL, need. rewrite IsEmpty_singleton by lia. reflexivity. }
    assert (forall s2 l,
      (forall addr' a', tlb s2 addr' a'
         = if decide (addr' = from /\ a' = assetID)
           then creditTL (tlb s1 from assetID) surplus ts else tlb s1 addr' a') ->
      (forall addr' a', bal s2 addr' a' = bal s1 addr' a') ->
      let s' := AddLog l (AddTimeLockBalance to assetID need h ts s2) in
      bal s' from assetID = bal s from assetID - value
      /\ tlb s' to assetID = TL.ClearExpired (TL.Add (tlb s to assetID) need) ts
      /\ tlb s' from assetID
         = (if TL.IsEmpty surplus then tlb s from assetID
            else TL.ClearExpired (TL.Add (tlb s from assetID) surplus) ts)
      /\ (forall addr a, ~ (addr = from /\ a = assetID) -> bal s' addr a = bal s addr a)
      /\ (forall addr a, ~ (addr = from /\ a = assetID) -> ~ (addr = to /\ a = assetID) ->
            tlb s' addr a = tlb s addr a)) as Htail.
    { intros s2 l Ht2 Hb2 s'.
      destruct (AddTimeLockBalance_st to assetID need h ts s2) as (Ht3 & Hb3 & _).
      set (s3 := AddTimeLockBalance to assetID need h ts s2) in *.
      assert (forall addr a, bal s' addr a = bal s3 addr a) as Hb4 by reflexivity.
      assert (forall addr a, tlb s' addr a = tlb s3 addr a) as Ht4 by reflexivity.
      repeat split.
      + rewrite Hb4, Hb3, Hb2, Hb1, (st_same_bal _ _ _ _ Hs0).
        destruct (decide (from = from /\ assetID = assetID)); tauto.
      + rewrite Ht4, Ht3.
        destruct (decide (to = to /\ assetID = assetID)) as [_|?]; [|tauto].
        rewrite Ht2. destruct (decide (to = from /\ assetID = assetID)) as [[? _]|_];
          [congruence|].
        rewrite Ht1, (st_same_tlb _ _ _ _ Hs0). exact Hcredit.
      + rewrite Ht4, Ht3.
        destruct (decide (from = to /\ assetID = assetID)) as [[? _]|_]; [congruence|].
        rewrite Ht2. destruct (decide (from = from /\ assetID = assetID)) as [_|?]; [|tauto].
        rewrite Ht1, (st_same_tlb _ _ _ _ Hs0). reflexivity.
      + intros addr a Hother. rewrite Hb4, Hb3, Hb2, Hb1.
        destruct (decide (addr = from /\ a = assetID)); [tauto|].
        apply (st_same_bal _ _ _ _ Hs0).
      + intros addr a Hnf Hnt. rewrite Ht4, Ht3.
        destruct (decide (addr = to /\ a = assetID)); [tauto|].
        rewrite Ht2. destruct (decide (addr = from /\ a = assetID)); [tauto|].
        rewrite Ht1. apply (st_same_tlb _ _ _ _ Hs0). }
    pose proof (maybe_AddTimeLockBalance_st from assetID surplus h ts s1) as Hmaybe.
    destruct (TL.IsEmpty surplus) eqn:He; simpl in Hmaybe |- *;
      destruct Hmaybe as (Ht2 & Hb2 & _);
      eexists _, surplus; (split; [reflexivity|]); (split; [reflexivity|]);
      rewrite ?He; apply (Htail _ _ Ht2 Hb2).
Qed.

(** C1.  An AssetToTimeLock call whose sender is not the recipient and
    that passes the parameter check, at parent-block time [ts]: when the
    sender holds less than [value] of the asset the call fails with "not
    enough asset" and no balance or time-lock balance changes; otherwise it
    returns without error, the sender's balance goes down by [value], the
    recipient's time-lock balance is credited with
    [(max(start, ts), end, value)], and the sender's is credited with the
    surplus [(ts, forever, value) - (max(start, ts), end, value)] when that
    is not empty; nothing else changes.  In particular (scenario S1) balance
    100, amount 40, start 1000, end 2000, ts 500 gives balance 60, sender
    time lock (500, 999, 40), (2001, forever, 40) and recipient time lock
    (1000, 2000, 40). *)
Theorem AssetToTimeLock_debits_and_credits :
  (forall (env : Env) (msg : Message) (param : FSNCallParam) (s : StateDB),
    let p := decodeTimeLockParam (Data param) in
    let from := From msg in
    let to := tl_To p in
    let ts := ParentTime env in
    let value := tl_Value p in
    let assetID := tl_AssetID p in
    let need := [mkItem (Z.max (tl_StartTime p) ts) (tl_EndTime p) value] in
    let total := [mkItem ts TimeLockForever value] in
    Func param = TimeLockFunc ->
    tl_Type p = AssetToTimeLock ->
    from <> to ->
    TimeLockParam_Check p (BlockNumber env) ts = None ->
    TL.IsValid need = true ->
    0 <= value -> tl_EndTime p <= TimeLockForever ->
    (bal s from assetID < value ->
       exists s', handleFsnCall env msg param s = Some (Errorf "not enough asset", s')
         /\ forall addr a, bal s' addr a = bal s addr a /\ tlb s' addr a = tlb s addr a)
    /\ (value <= bal s from assetID ->
       exists s' surplus,
         handleFsnCall env msg param s = Some (None, s')
         /\ TL.Sub total need = Some surplus
         /\ bal s' from assetID = bal s from assetID - value
         /\ tlb s' to assetID = TL.ClearExpired (TL.Add (tlb s to assetID) need) ts
         /\ tlb s' from assetID
            = (if TL.IsEmpty surplus then tlb s from assetID
               else TL.ClearExpired (TL.Add (tlb s from assetID) surplus) ts)
         /\ (forall addr a, ~ (addr = from /\ a = assetID) -> bal s' addr a = bal s addr a)
         /\ (forall addr a, ~ (addr = from /\ a = assetID) -> ~ (addr = to /\ a = assetID) ->
               tlb s' addr a = tlb s addr a)))
  /\ (forall (env : Env) (msg : Message) (param : FSNCallParam) (s : StateDB),
    let p := decodeTimeLockParam (Data param) in
    Func param = TimeLockFunc ->
    tl_Type p = AssetToTimeLock ->
    From msg <> tl_To p ->
    TimeLockParam_Check p (BlockNumber env) (ParentTime env) = None ->
    tl_Value p = 40 -> tl_StartTime p = 1000 -> tl_EndTime p = 2000 ->
    ParentTime env = 500 ->
    bal s (From msg) (tl_AssetID p) = 100 ->
    tlb s (From msg) (tl_AssetID p) = [] ->
    tlb s (tl_To p) (tl_AssetID p) = [] ->
    exists s',
      handleFsnCall env msg param s = Some (None, s')
      /\ bal s' (From msg) (tl_AssetID p) = 60
      /\ tlb s' (From msg) (tl_AssetID p)
         = [mkItem 500 999 40; mkItem 2001 TimeLockForever 40]
      /\ tlb s' (tl_To p) (tl_AssetID p) = [mkItem 1000 2000 40]).
Proof.
  split; [exact AssetToTimeLock_general|].
  intros env msg param s p HFunc Htype Hne Hcheck Hv Hst Hen Hts Hbal Htf Htt.
  destruct (AssetToTimeLock_general env msg param s HFunc Htype Hne Hcheck) as [_ Hok].
  - fold p. rewrite Hv, Hst, Hen, Hts. reflexivity.
  - fold p. lia.
  - fold p. rewrite Hen. unfold TimeLockForever. lia.
  - fold p in Hok. destruct Hok as (s' & surplus & Hrun & Hsur & Hb & Hto & Hfrom & _).
    + rewrite Hbal, Hv. lia.
    + exists s'. split; [exact Hrun|].
      rewrite Hv, Hst, Hen, Hts in Hsur. vm_compute in Hsur. injection Hsur as <-.
      rewrite Hb, Hto, Hfrom, Hbal, Htf, Htt, Hv, Hst, Hen, Hts.
      repeat split; vm_compute; reflexivity.
Qed.

End DispatcherFacts.

Lemma AssetToTimeLock_debits_and_credits_witness :
  exists s',
    handleFsnCall (H := S1_externals) S1_env S1_msg (mkFSNCallParam TimeLockFunc []) S1_state
    = Some (None, s')
    /\ bal s' (BigToAddress 1) (BigToHash (2 ^ 256 - 1)) = 60
    /\ tlb s' (BigToAddress 1) (BigToHash (2 ^ 256 - 1))
       = [mkItem 500 999 40; mkItem 2001 TimeLockForever 40]
    /\ tlb s' (BigToAddress 2) (BigToHash (2 ^ 256 - 1)) = [mkItem 1000 2000 40].
Proof.
  apply (proj2 (AssetToTimeLock_debits_and_credits (H := S1_externals))
           S1_env S1_msg (mkFSNCallParam TimeLockFunc []) S1_state);
    try reflexivity.
  vm_compute. discriminate.
Defined.

(** ** Tickets *)

Lemma flatten_append o b s :
  exists l1 l2,
    TS.flatten (TS.append_ticket o b s) = l1 ++ (o, b) :: l2
    /\ TS.flatten s = l1 ++ l2.
Proof.
  induction s as [|d r IH]; simpl.
  - exists [], []. split; reflexivity.
  - destruct (decide (TDOwner d = o)) as [Ho|Ho].
    + exists (map (pair o) (Tickets d)), (TS.flatten r). unfold TS.flatten. simpl.
      rewrite map_app, <- app_assoc, Ho. split; reflexivity.
    + destruct IH as (l1 & l2 & H1 & H2).
      exists (map (pair (TDOwner d)) (Tickets d) ++ l1), l2.
      unfold TS.flatten in *. simpl. rewrite H1, H2, <- !app_assoc. split; reflexivity.
Qed.

Lemma find_body_insert id l1 l2 o b :
  TS.find_body id (l1 ++ l2) = None -> ID b = id ->
  TS.find_body id (l1 ++ (o, b) :: l2) = Some (mkTicket o b).
Proof.
  intros Hnone Hid. induction l1 as [|[o' b'] l1 IH]; simpl in *.
  - destruct (decide (ID b = id)); [reflexivity | contradiction].
  - destruct (decide (ID b' = id)); [discriminate | apply IH, Hnone].
Qed.

(** A ticket with a new id is there after it has been appended. *)
Lemma Get_append_ticket id o b s :
  TS.Get id s = None -> ID b = id ->
  TS.Get id (TS.append_ticket o b s) = Some (mkTicket o b).
Proof.
  intros Hnone Hid. unfold TS.Get in *.
  destruct (flatten_append o b s) as (l1 & l2 & H1 & H2).
  rewrite H1. apply find_body_insert; [rewrite <- H2; exact Hnone | exact Hid].
Qed.

(** ** The ticket set of a state *)

Lemma lookupHash_None_absent h l :
  Forall (fun v => is_Some (ct_tickets v)) l -> lookupHash h l = None ->
  Forall (fun v => ct_hash v <> h) l.
Proof.
  induction 1 as [|v l Hv _ IH]; intros Hl; [constructor|]. simpl in Hl.
  destruct (decide (ct_hash v = h)) as [_|Hne].
  - destruct Hv as [x Hx]. congruence.
  - constructor; [exact Hne | exact (IH Hl)].
Qed.

(** [Get] returns on the ring of a state, and [Add] after a miss queues
    the entry and keeps the ring as the state carries it. *)
Lemma Get_defined (c : CachedTicketSlice) h :
  cache_ok c -> exists r, Cache.Get h c = Some r.
Proof.
  intros [Hwf _]. destruct (decide (h = zeroHash)) as [->|Hh].
  - exists (Some []). reflexivity.
  - rewrite (Get_contents c h Hwf Hh). eauto.
Qed.

Lemma Add_after_miss (c : CachedTicketSlice) h t :
  cache_ok c -> Cache.Get h c = Some None ->
  exists c', Cache.Add h t c = Some c' /\ cache_ok c'
    /\ Cache.Get h c' = Some (TS.DeepCopy t).
Proof.
  intros [Hwf Hsome] Hget.
  assert (h <> zeroHash) as Hh.
  { intros ->. unfold Cache.Get in Hget.
    destruct (decide (zeroHash = zeroHash)); [discriminate|contradiction]. }
  rewrite (Get_contents c h Hwf Hh) in Hget. injection Hget as Hmiss.
  destruct (Add_contents c h t Hwf Hh Hmiss) as (c' & Hadd & Hwf' & Hcont & _).
  pose proof (lookupHash_None_absent h _ Hsome Hmiss) as Habs.
  assert (Forall (fun v => is_Some (ct_tickets v))
            (if decide (cache_count c = 100) then tail (cache_contents c)
             else cache_contents c)
          /\ Forall (fun v => ct_hash v <> h)
               (if decide (cache_count c = 100) then tail (cache_contents c)
                else cache_contents c)) as [Hs' Ha'].
  { destruct (decide (cache_count c = 100)); [|split; assumption].
    destruct (cache_contents c) as [|v l]; [split; constructor|].
    simpl. split; [exact (Forall_inv_tail Hsome) | exact (Forall_inv_tail Habs)]. }
  exists c'. split; [exact Hadd|]. split.
  - split; [exact Hwf'|]. rewrite Hcont. apply Forall_app. split; [exact Hs'|].
    apply Forall_singleton. unfold cache_elem, TS.DeepCopy. simpl. eauto.
  - rewrite (Get_contents c' h Hwf' Hh), Hcont, (lookupHash_app_absent _ _ _ Ha').
    simpl. destruct (decide (h = h)); [reflexivity|contradiction].
Qed.

Section TicketSetFacts.
Context `{Externals}.

Lemma GetData_view addr s : default [] (GetData addr s) = code (view s addr).
Proof. unfold GetData, view, getStateObject. destruct (stateObjects s !! addr); reflexivity. Qed.

Lemma view_stateObjects s t a : stateObjects t = stateObjects s -> view t a = view s a.
Proof. intros Ho. unfold view. rewrite Ho. reflexivity. Qed.

(** A load changes no object, log, hash or error; it returns the set that
    the state then holds, and an error leaves the state as it was. *)
Lemma AllTickets_effect s r s0 :
  AllTickets s = Some (r, s0) ->
  stateObjects s0 = stateObjects s /\ logs s0 = logs s
  /\ ticketsHash s0 = ticketsHash s /\ dbErr s0 = dbErr s
  /\ match r with
     | inr tks => tickets s0 = tks
     | inl _ => s0 = s
     end.
Proof.
  unfold AllTickets. intros Hrun.
  destruct (length (tickets s) =? 0)%nat eqn:Hlen; cbn [negb] in Hrun.
  2:{ injection Hrun as <- <-. repeat split. }
  apply Nat.eqb_eq, nil_length_inv in Hlen.
  destruct (Cache.Get (ticketsHash s) (proj1_sig (cachedTickets s))) as [[ts|]|];
    [|  |discriminate].
  { injection Hrun as <- <-. repeat split. }
  destruct (length (default [] (GetData TicketKeyAddress s)) =? 0)%nat.
  { destruct (dbErr s) eqn:He; injection Hrun as <- <-; repeat split;
      assumption || congruence. }
  destruct (gunzip (default [] (GetData TicketKeyAddress s))) as [| | |data];
    try (injection Hrun as <- <-; repeat split; fail).
  destruct (decodeTickets data) as [tks|]; [|injection Hrun as <- <-; repeat split].
  cbv zeta in Hrun. simpl in Hrun.
  destruct (Cache.Add (ticketsHash s) (Some tks) (proj1_sig (cachedTickets s)))
    as [c|]; [|discriminate].
  destruct (decide (cache_ok c)); [|discriminate].
  injection Hrun as <- <-. repeat split.
Qed.

(** [AllTickets] returns on every state. *)
Lemma AllTickets_total s : exists r s0, AllTickets s = Some (r, s0).
Proof.
  unfold AllTickets.
  destruct (length (tickets s) =? 0)%nat; cbn [negb]; [|eauto].
  pose proof (proj2_dsig (cachedTickets s)) as Hok.
  destruct (Get_defined _ (ticketsHash s) Hok) as [[ts|] Hget]; rewrite Hget; [eauto|].
  destruct (length (default [] (GetData TicketKeyAddress s)) =? 0)%nat.
  { destruct (dbErr s); eauto. }
  destruct (gunzip (default [] (GetData TicketKeyAddress s))) as [| | |data]; eauto.
  destruct (decodeTickets data) as [tks|]; eauto.
  cbv zeta. simpl.
  destruct (Add_after_miss _ (ticketsHash s) (Some tks) Hok Hget) as (c & -> & Hok' & _).
  destruct (decide (cache_ok c)); [eauto | contradiction].
Qed.

(** A set that has loaded loads again, as the same set, from every state
    in which [AllTickets] reads the same. *)
Lemma AllTickets_again s tks s0 t :
  AllTickets s = Some (inr tks, s0) -> ticket_src_same t s0 ->
  exists t0,
    AllTickets t = Some (inr tks, t0)
    /\ stateObjects t0 = stateObjects t /\ logs t0 = logs t /\ tickets t0 = tks.
Proof.
  intros Hrun (Htk & Hhash & Herr & Hcache & Hcode).
  destruct (AllTickets_effect s _ s0 Hrun) as (Hobj0 & _ & Hhash0 & Herr0 & Htk0).
  assert (default [] (GetData TicketKeyAddress t)
          = default [] (GetData TicketKeyAddress s)) as Hblob.
  { rewrite !GetData_view, Hcode. f_equal. apply view_stateObjects, Hobj0. }
  destruct tks as [|d tks].
  2:{ exists t. unfold AllTickets. rewrite Htk, Htk0. simpl.
      repeat split; congruence. }
  revert Hrun. unfold AllTickets. rewrite Htk, Htk0. simpl length.
  change ((0 =? 0)%nat) with true. cbn [negb].
  destruct (length (tickets s) =? 0)%nat eqn:Hlen; cbn [negb].
  2:{ intros Hrun. injection Hrun as Hts <-. rewrite Hts in Hlen. discriminate. }
  rewrite Hhash, Hhash0, Hcache.
  destruct (Cache.Get (ticketsHash s) (proj1_sig (cachedTickets s))) as [[ts|]|] eqn:Hget;
    [| |discriminate].
  { intros Hrun. injection Hrun as Hts <-. simpl in Hts. subst ts.
    simpl. rewrite Hget. eexists. split; [reflexivity|]. repeat split. }
  rewrite Hblob, Herr, Herr0.
  destruct (length (default [] (GetData TicketKeyAddress s)) =? 0)%nat.
  { destruct (dbErr s); [discriminate|]. intros Hrun. injection Hrun as <-.
    rewrite Hget. exists t. repeat split. congruence. }
  destruct (gunzip (default [] (GetData TicketKeyAddress s))) as [| | |data];
    try discriminate.
  destruct (decodeTickets data) as [tks|]; [|discriminate].
  cbv zeta. simpl.
  destruct (Add_after_miss _ (ticketsHash s) (Some tks) (proj2_dsig (cachedTickets s)) Hget)
    as (c & Hadd & Hok & Hget').
  rewrite Hadd. destruct (decide (cache_ok c)) as [ok|]; [|contradiction].
  intros Hrun. injection Hrun as -> <-. simpl. rewrite Hget'. simpl.
  eexists. split; [reflexivity|]. repeat split.
Qed.

(** [AddTicket] of a ticket whose id is not in the set that loads. *)
Lemma AddTicket_loaded ticket s tks s0 t :
  AllTickets s = Some (inr tks, s0) -> ticket_src_same t s0 ->
  TS.Get (ID (Body ticket)) tks = None ->
  exists t',
    AddTicket ticket t = Some (None, t')
    /\ stateObjects t' = stateObjects t /\ logs t' = logs t
    /\ tickets t' = TS.append_ticket (Owner ticket) (Body ticket) tks.
Proof.
  intros Hrun Hsrc Hget.
  destruct (AllTickets_again s tks s0 t Hrun Hsrc) as (t0 & Hagain & Hobj & Hlog & _).
  unfold AddTicket, TS.AddTicket. unfold mbind, M_bind, mret, M_ret, liftW.
  rewrite Hagain, Hget. eexists. split; [reflexivity|]. simpl. repeat split; assumption.
Qed.

End TicketSetFacts.

(** ** What the balance operations leave of the source of the ticket set *)

Lemma ticket_src_same_refl s : ticket_src_same s s.
Proof. repeat split. Qed.

Lemma ticket_src_same_trans s1 s2 s3 :
  ticket_src_same s1 s2 -> ticket_src_same s2 s3 -> ticket_src_same s1 s3.
Proof.
  intros (? & ? & ? & ? & Hc1) (? & ? & ? & ? & Hc2).
  repeat split; try congruence; try (intros a; rewrite Hc1; apply Hc2).
Qed.

(** Unfolds the methods of [stateObject] down to the record. *)
Ltac so_unfold :=
  unfold SO.AddBalance, SO.SubBalance, SO.Balance, SO.SetBalance, SO.setBalance,
    SO.balanceAssetIndex, SO.AddTimeLockBalance, SO.SubTimeLockBalance,
    SO.TimeLockBalance, SO.SetTimeLockBalance, SO.setTimeLockBalance,
    SO.timeLockAssetIndex, SO.set_data in *.

Lemma code_AddBalance a v o : code (SO.AddBalance a v o) = code o.
Proof. so_unfold. repeat case_match; simplify_eq; reflexivity. Qed.

Lemma code_SubBalance a v o : code (SO.SubBalance a v o) = code o.
Proof. so_unfold. repeat case_match; simplify_eq; reflexivity. Qed.

Lemma code_Balance a o : code (SO.Balance a o).2 = code o.
Proof. so_unfold. repeat case_match; simplify_eq; reflexivity. Qed.

Lemma code_TimeLockBalance a o : code (SO.TimeLockBalance a o).2 = code o.
Proof. so_unfold. repeat case_match; simplify_eq; reflexivity. Qed.

Lemma code_AddTimeLockBalance a v h ts o : code (SO.AddTimeLockBalance a v h ts o) = code o.
Proof. so_unfold. repeat case_match; simplify_eq; reflexivity. Qed.

Lemma code_SubTimeLockBalance a v h ts o o' :
  SO.SubTimeLockBalance a v h ts o = Some o' -> code o' = code o.
Proof. so_unfold. intros Hsub. repeat case_match; simplify_eq; reflexivity. Qed.

Lemma ticket_src_insert addr o' s :
  code o' = code (view s addr) ->
  ticket_src_same (set_stateObjects (insert addr o') s) s.
Proof.
  intros Hc. repeat split. intros a. unfold view, set_stateObjects. simpl.
  destruct (decide (a = addr)) as [->|Hne].
  - rewrite lookup_insert_eq. exact Hc.
  - rewrite lookup_insert_ne by congruence. reflexivity.
Qed.

Lemma ticket_src_onObject addr f s :
  (forall o, code (f o) = code o) -> ticket_src_same (onObject addr f s) s.
Proof.
  intros Hf. split; [|split; [|split; [|split]]];
    try (unfold onObject, GetOrNewStateObject; destruct (getStateObject addr s); reflexivity).
  intros a. rewrite view_onObject. destruct (decide (a = addr)) as [->|_]; [apply Hf|reflexivity].
Qed.

Lemma ticket_src_GetBalance a addr s : ticket_src_same (GetBalance a addr s).2 s.
Proof.
  unfold GetBalance, getStateObject. destruct (stateObjects s !! addr) as [o|] eqn:Ho;
    [|apply ticket_src_same_refl].
  pose proof (code_Balance a o) as Hc. destruct (SO.Balance a o) as [v o']. simpl in *.
  apply ticket_src_insert. unfold view. rewrite Ho. exact Hc.
Qed.

Lemma ticket_src_GetTimeLockBalance a addr s :
  ticket_src_same (GetTimeLockBalance a addr s).2 s.
Proof.
  unfold GetTimeLockBalance, getStateObject.
  destruct (stateObjects s !! addr) as [o|] eqn:Ho; [|apply ticket_src_same_refl].
  pose proof (code_TimeLockBalance a o) as Hc.
  destruct (SO.TimeLockBalance a o) as [v o']. simpl in *.
  apply ticket_src_insert. unfold view. rewrite Ho. exact Hc.
Qed.

Lemma ticket_src_SubTimeLockBalance addr a amt h ts s s' :
  SubTimeLockBalance addr a amt h ts s = Some s' -> ticket_src_same s' s.
Proof.
  unfold SubTimeLockBalance, GetOrNewStateObject, getStateObject.
  destruct (stateObjects s !! addr) as [o|] eqn:Ho.
  - destruct (SO.SubTimeLockBalance a amt h ts o) as [o'|] eqn:Hsub; [|discriminate].
    intros Hs. injection Hs as <-. apply ticket_src_insert.
    unfold view. rewrite Ho. exact (code_SubTimeLockBalance _ _ _ _ _ _ Hsub).
  - destruct (SO.SubTimeLockBalance a amt h ts newObject) as [o'|] eqn:Hsub; [|discriminate].
    intros Hs. injection Hs as <-.
    apply (ticket_src_same_trans _ (set_stateObjects (insert addr newObject) s)).
    + apply ticket_src_insert. unfold view, set_stateObjects. simpl.
      rewrite lookup_insert_eq. exact (code_SubTimeLockBalance _ _ _ _ _ _ Hsub).
    + apply ticket_src_insert. unfold view. rewrite Ho. reflexivity.
Qed.

Lemma ticket_src_AddLog l s : ticket_src_same (AddLog l s) s.
Proof. repeat split. Qed.

(** [Cmp] is not negative exactly when [Sub] is defined. *)
Lemma Cmp_nonneg_Sub x y :
  (TL.Cmp x y <? 0) = false -> exists r, TL.Sub x y = Some r.
Proof.
  unfold TL.Cmp, TL.Sub. destruct (TL.covers x y); [eauto|].
  intros Hc. discriminate.
Qed.

Section BuyTicketFacts.
Context `{Externals}.

(** BuyTicket in a state whose ticket set loads, as [tks]. *)
Lemma BuyTicket_general (env : Env) (msg : Message) (param : FSNCallParam) (s : StateDB)
    (tks : TicketsDataSlice) (sL : StateDB) :
  let p := decodeBuyTicketParam (Data param) in
  let from := From msg in
  let height := BlockNumber env in
  let ts := ParentTime env in
  let price := TicketPrice height in
  let id := Keccak256 (from ++ GetHash env (u64 (height - 1))) in
  let body := mkTicketBody id (u64 height) (bt_Start p) (bt_End p) in
  let need := [mkItem (Z.max (bt_Start p) ts) (bt_End p) price] in
  let total := [mkItem ts TimeLockForever price] in
  Func param = BuyTicketFunc ->
  AllTickets s = Some (inr tks, sL) ->
  (is_Some (TS.Get id tks) ->
     handleFsnCall env msg param s
     = Some (Errorf (Hash_String id ++ " Ticket already exist"),
             AddLog (mkLog BuyTicketFunc (inl (Data param))
                       [kvError "Ticket already exist"] height) sL))
  /\ (TS.Get id tks = None ->
      (if IsHardFork 2 height then BuyTicketParam_Check p height ts
       else BuyTicketParam_Check p height 0) = None ->
      TL.IsValid need = true -> bt_End p <= TimeLockForever ->
      (TL.Cmp (tlb s from SystemAssetID) need < 0 -> price <= bal s from SystemAssetID ->
         exists s' surplus,
           handleFsnCall env msg param s = Some (None, s')
           /\ TL.Sub total need = Some surplus
           /\ bal s' from SystemAssetID = bal s from SystemAssetID - price
           /\ tlb s' from SystemAssetID
              = (if TL.IsEmpty surplus then tlb s from SystemAssetID
                 else TL.ClearExpired (TL.Add (tlb s from SystemAssetID) surplus) ts)
           /\ tickets s' = TS.append_ticket from body tks
           /\ TS.Get id (tickets s') = Some (mkTicket from body))
      /\ (0 <= TL.Cmp (tlb s from SystemAssetID) need ->
         exists s' rest,
           handleFsnCall env msg param s = Some (None, s')
           /\ TL.Sub (tlb s from SystemAssetID) need = Some rest
           /\ tlb s' from SystemAssetID = TL.ClearExpired rest ts
           /\ bal s' from SystemAssetID = bal s from SystemAssetID
           /\ tickets s' = TS.append_ticket from body tks
           /\ TS.Get id (tickets s') = Some (mkTicket from body))
      /\ (TL.Cmp (tlb s from SystemAssetID) need < 0 -> bal s from SystemAssetID < price ->
         exists s',
           handleFsnCall env msg param s
           = Some (Errorf "not enough time lock or asset balance", s')
           /\ tickets s' = tks
           /\ forall addr a, bal s' addr a = bal s addr a /\ tlb s' addr a = tlb s addr a)).
Proof.
  intros p from height ts price id body need total HFunc Hload.
  assert (handleFsnCall env msg param s = handleBuyTicket env msg param s) as ->
      by (unfold handleFsnCall; rewrite HFunc; reflexivity).
  destruct (AllTickets_effect s _ sL Hload) as (HobjL & _ & _ & _ & HtkL).
  assert (forall a x, bal sL a x = bal s a x) as HbL
    by (intros; unfold bal; rewrite (view_stateObjects _ _ _ HobjL); reflexivity).
  assert (forall a x, tlb sL a x = tlb s a x) as HtL
    by (intros; unfold tlb; rewrite (view_stateObjects _ _ _ HobjL); reflexivity).
  unfold handleBuyTicket, IsTicketExist. fold p from height ts price id. munfold.
  rewrite Hload. split.
  - intros Hex. rewrite bool_decide_eq_true_2 by exact Hex. reflexivity.
  - intros Hex Hcheck Hvalid Hend.
    rewrite bool_decide_eq_false_2 by (rewrite Hex; intros [? ?]; discriminate).
    rewrite Hcheck. cbv zeta.
    rewrite MaxUint64_max. unfold TL.NewTimeLock. fold need total body. rewrite Hvalid.
    change (negb true) with false. cbv beta iota.
    apply IsValid_singleton in Hvalid as [Hse Hpos].
    destruct (GetTimeLockBalance_st SystemAssetID from sL) as [Ht0 Hs0].
    pose proof (ticket_src_GetTimeLockBalance SystemAssetID from sL) as Hsrc0.
    destruct (GetTimeLockBalance SystemAssetID from sL) as [t s0].
    simpl in Ht0, Hs0, Hsrc0. rewrite HtL in Ht0. subst t.
    destruct (GetBalance_st SystemAssetID from s0) as [Hb0 Hs1].
    pose proof (ticket_src_GetBalance SystemAssetID from s0) as Hsrc1.
    rewrite (st_same_bal _ _ _ _ Hs0), HbL in Hb0.
    assert (forall a x, bal s0 a x = bal s a x) as Hbs0
      by (intros; rewrite (st_same_bal _ _ _ _ Hs0); apply HbL).
    assert (forall a x, tlb s0 a x = tlb s a x) as Hts0
      by (intros; rewrite (st_same_tlb _ _ _ _ Hs0); apply HtL).
    split; [|split].
    + (* the price is paid from the balance *)
      intros Hcmp Hbal.
      destruct (Z.ltb_spec (TL.Cmp (tlb s from SystemAssetID) need) 0) as [_|?]; [|lia].
      mred.
      destruct (GetBalance SystemAssetID from s0) as [b s1]. simpl in Hb0, Hs1, Hsrc1. subst b.
      mred.
      destruct (Z.ltb_spec (bal s from SystemAssetID) price) as [?|_]; [lia|].
      mred.
      destruct (Sub_total_need ts (Z.max (bt_Start p) ts) (bt_End p) price)
        as [surplus Hsur]; try lia.
      fold total need in Hsur. rewrite Hsur. mred.
      set (s2 := SubBalance from SystemAssetID price s1).
      destruct (SubBalance_st from SystemAssetID price s1) as (Hb2 & Ht2 & Hr2).
      fold s2 in Hb2, Ht2, Hr2.
      assert (ticket_src_same s2 sL) as Hsrc2.
      { apply (ticket_src_same_trans _ s1); [apply ticket_src_onObject, code_SubBalance|].
        exact (ticket_src_same_trans _ _ _ Hsrc1 Hsrc0). }
      pose proof (maybe_AddTimeLockBalance_st from SystemAssetID surplus height ts s2)
        as Hmaybe.
      assert (forall s3,
        (forall addr' a', tlb s3 addr' a'
           = if decide (addr' = from /\ a' = SystemAssetID)
             then creditTL (tlb s2 from SystemAssetID) surplus ts else tlb s2 addr' a') ->
        (forall addr' a', bal s3 addr' a' = bal s2 addr' a') ->
        ticket_src_same s3 s2 ->
        exists s4,
          AddTicket (mkTicket from body) s3 = Some (None, s4)
          /\ forall l,
            let s' := AddLog l s4 in
            bal s' from SystemAssetID = bal s from SystemAssetID - price
            /\ tlb s' from SystemAssetID
               = (if TL.IsEmpty surplus then tlb s from SystemAssetID
                  else TL.ClearExpired (TL.Add (tlb s from SystemAssetID) surplus) ts)
            /\ tickets s' = TS.append_ticket from body tks
            /\ TS.Get id (tickets s') = Some (mkTicket from body)) as Htail.
      { intros s3 Ht3 Hb3 Hsrc3.
        destruct (AddTicket_loaded (mkTicket from body) s tks sL s3 Hload
                    (ticket_src_same_trans _ _ _ Hsrc3 Hsrc2) Hex)
          as (s4 & Hadd & Hobj4 & _ & Htk4).
        exists s4. split; [exact Hadd|]. intros l s'. unfold s'.
        change (bal (AddLog ?l ?x) ?a ?b) with (bal x a b).
        change (tlb (AddLog ?l ?x) ?a ?b) with (tlb x a b).
        change (tickets (AddLog l s4)) with (tickets s4).
        unfold bal, tlb. rewrite (view_stateObjects _ _ _ Hobj4).
        fold (bal s3 from SystemAssetID) (tlb s3 from SystemAssetID).
        rewrite Hb3, Hb2, Ht3, Ht2, Htk4.
        destruct (decide (from = from /\ SystemAssetID = SystemAssetID)) as [_|?]; [|tauto].
        rewrite (st_same_bal _ _ _ _ Hs1), (st_same_tlb _ _ _ _ Hs1), Hbs0, Hts0.
        split; [reflexivity|]. split; [reflexivity|]. split; [reflexivity|].
        apply Get_append_ticket; [exact Hex | reflexivity]. }
      assert (ticket_src_same
                (if negb (TL.IsEmpty surplus)
                 then AddTimeLockBalance from SystemAssetID surplus height ts s2 else s2) s2)
        as Hsrc3.
      { destruct (TL.IsEmpty surplus); [apply ticket_src_same_refl|].
        apply ticket_src_onObject, code_AddTimeLockBalance. }
      destruct (TL.IsEmpty surplus) eqn:He;
        simpl negb in Hmaybe, Hsrc3; cbv beta iota zeta in Hmaybe, Hsrc3; mred;
        destruct Hmaybe as (Ht3 & Hb3 & Hr3);
        destruct (Htail _ Ht3 Hb3 Hsrc3) as (s4 & Hadd & Hrest);
        rewrite Hadd;
        munfold; eexists _, surplus; (split; [reflexivity|]); (split; [reflexivity|]);
        rewrite ?He; apply Hrest.
    + (* the time-lock balance covers the ticket *)
      intros Hcmp.
      destruct (Z.ltb_spec (TL.Cmp (tlb s from SystemAssetID) need) 0) as [?|_]; [lia|].
      mred.
      destruct (Cmp_nonneg_Sub (tlb s from SystemAssetID) need) as [rest Hrest].
      { apply Z.ltb_ge. exact Hcmp. }
      pose proof (SubTimeLockBalance_st from SystemAssetID need height ts s0) as Hsub.
      pose proof (ticket_src_SubTimeLockBalance from SystemAssetID need height ts s0) as Hsrc2.
      rewrite Hts0 in Hsub. unfold debitTL in Hsub.
      unfold need in Hsub at 2. rewrite IsEmpty_singleton in Hsub by lia. fold need in Hsub.
      rewrite Hrest in Hsub. simpl in Hsub.
      destruct (SubTimeLockBalance from SystemAssetID need height ts s0) as [s2|];
        [|destruct (Z.eqb_spec price 0); [lia | destruct Hsub]].
      mred. destruct Hsub as (Ht2 & Hb2 & Hr2). specialize (Hsrc2 s2 eq_refl).
      destruct (AddTicket_loaded (mkTicket from body) s tks sL s2 Hload
                  (ticket_src_same_trans _ _ _ Hsrc2 Hsrc0) Hex)
        as (s4 & Hadd & Hobj4 & _ & Htk4).
      rewrite Hadd.
      munfold. eexists _, rest. split; [reflexivity|]. split; [exact Hrest|].
      change (bal (AddLog ?l ?x) ?a ?b) with (bal x a b).
      change (tlb (AddLog ?l ?x) ?a ?b) with (tlb x a b).
      change (tickets (AddLog ?l s4)) with (tickets s4).
      unfold bal, tlb. rewrite (view_stateObjects _ _ _ Hobj4).
      fold (bal s2 from SystemAssetID) (tlb s2 from SystemAssetID).
      rewrite Hb2, Ht2, Htk4.
      destruct (decide (from = from /\ SystemAssetID = SystemAssetID)) as [_|?]; [|tauto].
      rewrite Hbs0.
      split; [reflexivity|]. split; [reflexivity|]. split; [reflexivity|].
      apply Get_append_ticket; [exact Hex | reflexivity].
    + (* neither covers *)
      intros Hcmp Hbal.
      destruct (Z.ltb_spec (TL.Cmp (tlb s from SystemAssetID) need) 0) as [_|?]; [|lia].
      mred.
      destruct (GetBalance SystemAssetID from s0) as [b s1]. simpl in Hb0, Hs1. subst b.
      mred.
      destruct (Z.ltb_spec (bal s from SystemAssetID) price) as [_|?]; [|lia].
      mred. munfold. eexists. split; [reflexivity|].
      split.
      * simpl. destruct Hs1 as (_ & -> & _), Hs0 as (_ & -> & _). exact HtkL.
      * intros addr a.
        change (bal (AddLog ?l ?x) ?a ?b) with (bal x a b).
        change (tlb (AddLog ?l ?x) ?a ?b) with (tlb x a b).
        rewrite (st_same_bal _ _ _ _ Hs1), (st_same_tlb _ _ _ _ Hs1), Hbs0, Hts0.
        split; reflexivity.
Qed.

End BuyTicketFacts.

Section BuyTicketClaim.
Context `{Externals}.

(** C2 (as amended).  A BuyTicket call at height [h] with parent hash [H]
    and parent-block time [ts], in a state whose ticket set loads
    ([AllTickets] returns it without error): the ticket id is
    [Keccak256(sender ++ H)] and the call fails when a ticket with that id
    is in the set.  Otherwise, when the parameters pass their check: if the
    sender's system-asset time-lock balance does not cover
    [(max(start, ts), end, TicketPrice h)] and the plain balance is at least
    the price, the balance is debited by the price and the time-lock balance
    is credited with the surplus
    [(ts, forever, price) - (max(start, ts), end, price)] when that is not
    empty; if the time-lock balance covers the requirement it is debited by
    it and the balance is untouched; in both cases the ticket is appended to
    the set.  When neither suffices the call fails and no balance changes.
    In particular (scenario S2) price 1, balance 5, empty time lock, start
    2000, end 5000, ts 1000 gives balance 4, time lock (1000, 1999, 1),
    (5001, forever, 1) and a ticket with id [Keccak256(owner ++ H)]. *)
Theorem BuyTicket_pays_and_appends :
  (forall (env : Env) (msg : Message) (param : FSNCallParam) (s : StateDB)
      (tks : TicketsDataSlice) (sL : StateDB),
    let p := decodeBuyTicketParam (Data param) in
    let from := From msg in
    let height := BlockNumber env in
    let ts := ParentTime env in
    let price := TicketPrice height in
    let id := Keccak256 (from ++ GetHash env (u64 (height - 1))) in
    let body := mkTicketBody id (u64 height) (bt_Start p) (bt_End p) in
    let need := [mkItem (Z.max (bt_Start p) ts) (bt_End p) price] in
    let total := [mkItem ts TimeLockForever price] in
    Func param = BuyTicketFunc ->
    AllTickets s = Some (inr tks, sL) ->
    (is_Some (TS.Get id tks) ->
       handleFsnCall env msg param s
       = Some (Errorf (Hash_String id ++ " Ticket already exist"),
               AddLog (mkLog BuyTicketFunc (inl (Data param))
                         [kvError "Ticket already exist"] height) sL))
    /\ (TS.Get id tks = None ->
        (if IsHardFork 2 height then BuyTicketParam_Check p height ts
         else BuyTicketParam_Check p height 0) = None ->
        TL.IsValid need = true -> bt_End p <= TimeLockForever ->
        (TL.Cmp (tlb s from SystemAssetID) need < 0 -> price <= bal s from SystemAssetID ->
           exists s' surplus,
             handleFsnCall env msg param s = Some (None, s')
             /\ TL.Sub total need = Some surplus
             /\ bal s' from SystemAssetID = bal s from SystemAssetID - price
             /\ tlb s' from SystemAssetID
                = (if TL.IsEmpty surplus then tlb s from SystemAssetID
                   else TL.ClearExpired (TL.Add (tlb s from SystemAssetID) surplus) ts)
             /\ tickets s' = TS.append_ticket from body tks
             /\ TS.Get id (tickets s') = Some (mkTicket from body))
        /\ (0 <= TL.Cmp (tlb s from SystemAssetID) need ->
           exists s' rest,
             handleFsnCall env msg param s = Some (None, s')
             /\ TL.Sub (tlb s from SystemAssetID) need = Some rest
             /\ tlb s' from SystemAssetID = TL.ClearExpired rest ts
             /\ bal s' from SystemAssetID = bal s from SystemAssetID
             /\ tickets s' = TS.append_ticket from body tks
             /\ TS.Get id (tickets s') = Some (mkTicket from body))
        /\ (TL.Cmp (tlb s from SystemAssetID) need < 0 -> bal s from SystemAssetID < price ->
           exists s',
             handleFsnCall env msg param s
             = Some (Errorf "not enough time lock or asset balance", s')
             /\ tickets s' = tks
             /\ forall addr a, bal s' addr a = bal s addr a /\ tlb s' addr a = tlb s addr a)))
  /\ (forall (env : Env) (msg : Message) (param : FSNCallParam) (s : StateDB)
      (tks : TicketsDataSlice) (sL : StateDB),
    let p := decodeBuyTicketParam (Data param) in
    let from := From msg in
    let id := Keccak256 (from ++ GetHash env (u64 (BlockNumber env - 1))) in
    let body := mkTicketBody id (u64 (BlockNumber env)) (bt_Start p) (bt_End p) in
    Func param = BuyTicketFunc ->
    AllTickets s = Some (inr tks, sL) ->
    TS.Get id tks = None ->
    (if IsHardFork 2 (BlockNumber env)
     then BuyTicketParam_Check p (BlockNumber env) (ParentTime env)
     else BuyTicketParam_Check p (BlockNumber env) 0) = None ->
    TicketPrice (BlockNumber env) = 1 ->
    bt_Start p = 2000 -> bt_End p = 5000 -> ParentTime env = 1000 ->
    bal s from SystemAssetID = 5 ->
    tlb s from SystemAssetID = [] ->
    exists s',
      handleFsnCall env msg param s = Some (None, s')
      /\ bal s' from SystemAssetID = 4
      /\ tlb s' from SystemAssetID = [mkItem 1000 1999 1; mkItem 5001 TimeLockForever 1]
      /\ TS.Get id (tickets s') = Some (mkTicket from body)).
Proof.
  split; [exact BuyTicket_general|].
  intros env msg param s tks sL p from id body HFunc Hload Hex Hcheck Hprice Hst Hen Hts
    Hbal Htl.
  destruct (BuyTicket_general env msg param s tks sL HFunc Hload) as [_ Hok].
  destruct (Hok Hex Hcheck) as [Hpay _].
  - fold p. rewrite Hprice, Hst, Hen, Hts. reflexivity.
  - fold p. rewrite Hen. unfold TimeLockForever. lia.
  - fold p from id body in Hpay.
    destruct Hpay as (s' & surplus & Hrun & Hsur & Hb & Ht & _ & Hget).
    + rewrite Htl, Hprice, Hst, Hen, Hts. vm_compute. reflexivity.
    + rewrite Hbal, Hprice. lia.
    + exists s'. split; [exact Hrun|].
      rewrite Hprice, Hst, Hen, Hts in Hsur. vm_compute in Hsur. injection Hsur as <-.
      rewrite Hb, Ht, Hbal, Htl, Hprice, Hts.
      split; [reflexivity|]. split; [vm_compute; reflexivity | exact Hget].
Qed.

End BuyTicketClaim.

Lemma BuyTicket_pays_and_appends_witness :
  exists s',
    handleFsnCall (H := S2_externals) S2_env S2_msg (mkFSNCallParam BuyTicketFunc []) S2_state
    = Some (None, s')
    /\ bal s' (BigToAddress 1) (BigToHash (2 ^ 256 - 1)) = 4
    /\ tlb s' (BigToAddress 1) (BigToHash (2 ^ 256 - 1))
       = [mkItem 1000 1999 1; mkItem 5001 TimeLockForever 1]
    /\ TS.Get S2_id (tickets s')
       = Some (mkTicket (BigToAddress 1) (mkTicketBody S2_id 10 2000 5000)).
Proof.
  apply (proj2 (BuyTicket_pays_and_appends (H := S2_externals))
           S2_env S2_msg (mkFSNCallParam BuyTicketFunc []) S2_state [] S2_state);
    reflexivity.
Defined.

(** C2, the claim as stated fails: in a state whose ticket set does not
    load (its blob does not unzip) the existence test answers false, the
    call debits the price from the sender's balance and credits the
    surplus as in scenario S2, and then fails with the error of
    [AddTicket]; no ticket is appended. *)
Lemma BuyTicket_unloadable_set_debits :
  AllTickets (H := S2_corrupt_externals) S2_corrupt_state
  = Some (inl "Read tickets zip data: "%string, S2_corrupt_state)
  /\ bal S2_corrupt_state (BigToAddress 1) (BigToHash (2 ^ 256 - 1)) = 5
  /\ exists s',
       handleFsnCall (H := S2_corrupt_externals) S2_env S2_msg
         (mkFSNCallParam BuyTicketFunc []) S2_corrupt_state
       = Some (Errorf "AddTicket error: Read tickets zip data: ", s')
       /\ bal s' (BigToAddress 1) (BigToHash (2 ^ 256 - 1)) = 4
       /\ tlb s' (BigToAddress 1) (BigToHash (2 ^ 256 - 1))
          = [mkItem 1000 1999 1; mkItem 5001 TimeLockForever 1]
       /\ tickets s' = [].
Proof.
  split; [vm_compute; reflexivity|]. split; [vm_compute; reflexivity|].
  eexists. split; [vm_compute; reflexivity|].
  split; [vm_compute; reflexivity|]. split; vm_compute; reflexivity.
Qed.

(** ** The projection of [Add], [Sub] and [ClearExpired] *)

Lemma valueAt_cons it tl t :
  TL.valueAt (it :: tl) t
  = (if TL.covers_time it t then Value it else 0) + TL.valueAt tl t.
Proof. reflexivity. Qed.

(** The projection does not change between two instants that no breakpoint
    separates. *)
Lemma valueAt_constant tl a b :
  a <= b -> (forall q, In q (TL.points tl) -> ~ (a < q <= b)) ->
  TL.valueAt tl b = TL.valueAt tl a.
Proof.
  intros Hab. induction tl as [|it tl IH]; intros Hq; [reflexivity|].
  rewrite !valueAt_cons, IH.
  - pose proof (Hq (StartTime it) (or_introl eq_refl)).
    pose proof (Hq (EndTime it + 1) (or_intror (or_introl eq_refl))).
    unfold TL.covers_time.
    destruct (Z.leb_spec (StartTime it) b), (Z.leb_spec b (EndTime it)),
      (Z.leb_spec (StartTime it) a), (Z.leb_spec a (EndTime it)); simpl; lia.
  - intros q Hin. apply Hq. right. right. exact Hin.
Qed.

Lemma valueAt_before tl t :
  (forall q, In q (TL.points tl) -> t < q) -> TL.valueAt tl t = 0.
Proof.
  induction tl as [|it tl IH]; intros Hq; [reflexivity|].
  rewrite valueAt_cons, IH.
  - pose proof (Hq (StartTime it) (or_introl eq_refl)).
    unfold TL.covers_time. destruct (Z.leb_spec (StartTime it) t); [lia | reflexivity].
  - intros q Hin. apply Hq. right. right. exact Hin.
Qed.

Lemma valueAt_after tl t :
  (forall q, In q (TL.points tl) -> q <= t) -> TL.valueAt tl t = 0.
Proof.
  induction tl as [|it tl IH]; intros Hq; [reflexivity|].
  rewrite valueAt_cons, IH.
  - pose proof (Hq (EndTime it + 1) (or_intror (or_introl eq_refl))).
    unfold TL.covers_time.
    destruct (Z.leb_spec (StartTime it) t), (Z.leb_spec t (EndTime it)); simpl; lia.
  - intros q Hin. apply Hq. right. right. exact Hin.
Qed.

Lemma valueAt_nonneg tl t :
  Forall (fun it => 0 <= Value it) tl -> 0 <= TL.valueAt tl t.
Proof.
  induction 1 as [|it tl Hit _ IH]; [reflexivity|].
  rewrite valueAt_cons. destruct (TL.covers_time it t); lia.
Qed.

Lemma insert_point_In p q ps : In q (TL.insert_point p ps) <-> q = p \/ In q ps.
Proof.
  induction ps as [|x r IH]; simpl.
  - intuition.
  - destruct (Z.ltb_spec p x); [simpl; intuition|].
    destruct (Z.eqb_spec p x); simpl; [subst; intuition|].
    rewrite IH. intuition.
Qed.

Lemma insert_point_asc p ps : asc ps -> asc (TL.insert_point p ps).
Proof.
  induction ps as [|x r IH]; simpl.
  - intros _. split; [intros q []|exact I].
  - intros [Hx Hr]. destruct (Z.ltb_spec p x).
    + split; [|split; assumption].
      intros q [<-|Hin]; [assumption | specialize (Hx q Hin); lia].
    + destruct (Z.eqb_spec p x); [split; assumption|].
      split; [|apply IH, Hr].
      intros q Hin. apply insert_point_In in Hin as [->|Hin]; [lia | apply Hx, Hin].
Qed.

Lemma sort_points_In q ps : In q (TL.sort_points ps) <-> In q ps.
Proof.
  induction ps as [|p r IH]; simpl; [reflexivity|].
  rewrite insert_point_In, IH. intuition.
Qed.

Lemma sort_points_asc ps : asc (TL.sort_points ps).
Proof.
  induction ps as [|p r IH]; simpl; [exact I | apply insert_point_asc, IH].
Qed.

Lemma valueAt_segments_before f l t :
  (forall q, In q l -> t < q) -> TL.valueAt (TL.segments f l) t = 0.
Proof.
  induction l as [|p l IH]; [reflexivity|]. destruct l as [|q r]; [reflexivity|].
  intros Hq. change (TL.segments f (p :: q :: r))
    with (mkItem p (q - 1) (f p) :: TL.segments f (q :: r)).
  rewrite valueAt_cons, IH by (intros x Hx; apply Hq; right; exact Hx).
  pose proof (Hq p (or_introl eq_refl)). unfold TL.covers_time. simpl.
  destruct (Z.leb_spec p t); [lia | reflexivity].
Qed.

Lemma valueAt_segments f l t :
  asc l -> TL.valueAt (TL.segments f l) t = step f l t.
Proof.
  induction l as [|p l IH]; [reflexivity|]. destruct l as [|q r]; [reflexivity|].
  intros [Hp Hr]. change (TL.segments f (p :: q :: r))
    with (mkItem p (q - 1) (f p) :: TL.segments f (q :: r)).
  change (step f (p :: q :: r) t)
    with (if (p <=? t) && (t <? q) then f p else step f (q :: r) t).
  rewrite valueAt_cons. unfold TL.covers_time. simpl StartTime. simpl EndTime.
  simpl Value. destruct (Z.leb_spec p t), (Z.ltb_spec t q), (Z.leb_spec t (q - 1));
    try lia; cbn [andb]; try (rewrite IH by exact Hr; lia).
  rewrite valueAt_segments_before; [lia|].
  intros x [<-|Hx]; [lia|]. destruct Hr as [Hq _]. specialize (Hq x Hx). lia.
Qed.

Lemma step_before f l t : (forall q, In q l -> t < q) -> step f l t = 0.
Proof.
  induction l as [|p l IH]; [reflexivity|]. destruct l as [|q r]; [reflexivity|].
  intros Hq. change (step f (p :: q :: r) t)
    with (if (p <=? t) && (t <? q) then f p else step f (q :: r) t).
  pose proof (Hq p (or_introl eq_refl)).
  destruct (Z.leb_spec p t); [lia|]. cbn [andb].
  apply IH. intros x Hx. apply Hq. right. exact Hx.
Qed.

Lemma step_from f r : forall p t,
  asc (p :: r) -> p <= t ->
  (forall a b, p <= a -> a <= b -> (forall q, In q (p :: r) -> ~ (a < q <= b)) -> f b = f a) ->
  (forall b, (forall q, In q (p :: r) -> q <= b) -> f b = 0) ->
  step f (p :: r) t = f t.
Proof.
  induction r as [|q r IH]; intros p t [Hp Hr] Hpt Hconst Hafter.
  - simpl. symmetry. apply Hafter. intros x [<-|[]]. exact Hpt.
  - change (step f (p :: q :: r) t)
      with (if (p <=? t) && (t <? q) then f p else step f (q :: r) t).
    pose proof (Hp q (or_introl eq_refl)) as Hpq.
    destruct (Z.leb_spec p t); [|lia]. destruct (Z.ltb_spec t q); cbn [andb].
    + symmetry. apply Hconst; [lia | exact Hpt |].
      intros x [<-|[<-|Hx]]; [lia | lia |].
      destruct Hr as [Hq _]. specialize (Hq x Hx). lia.
    + apply IH; [exact Hr | assumption | |].
      * intros a b Hqa Hab Hfree. apply Hconst; [lia | exact Hab |].
        intros x [<-|Hx]; [lia | apply Hfree, Hx].
      * intros b Hall. apply Hafter. intros x [<-|Hx]; [|apply Hall, Hx].
        specialize (Hall q (or_introl eq_refl)). lia.
Qed.

Lemma segments_nonempty f l :
  asc l -> Forall (fun it => StartTime it <= EndTime it) (TL.segments f l).
Proof.
  induction l as [|p l IH]; [constructor|]. destruct l as [|q r]; [constructor|].
  intros [Hp Hr]. change (TL.segments f (p :: q :: r))
    with (mkItem p (q - 1) (f p) :: TL.segments f (q :: r)).
  constructor; [|apply IH, Hr]. simpl. specialize (Hp q (or_introl eq_refl)). lia.
Qed.

Lemma segments_values (P : Z -> Prop) f l :
  (forall t, P (f t)) -> Forall (fun it => P (Value it)) (TL.segments f l).
Proof.
  intros HP. induction l as [|p l IH]; [constructor|]. destruct l as [|q r]; [constructor|].
  change (TL.segments f (p :: q :: r))
    with (mkItem p (q - 1) (f p) :: TL.segments f (q :: r)).
  constructor; [apply HP | exact IH].
Qed.

Lemma valueAt_filter_nonzero tl t :
  TL.valueAt (filter (fun it => Value it <> 0) tl) t = TL.valueAt tl t.
Proof.
  induction tl as [|it tl IH]; [reflexivity|].
  rewrite filter_cons, valueAt_cons. destruct (decide (Value it <> 0)) as [|He].
  - rewrite valueAt_cons, IH. reflexivity.
  - rewrite IH. destruct (TL.covers_time it t); lia.
Qed.

Lemma coalesce_spec tl :
  Forall (fun it => StartTime it <= EndTime it) tl ->
  Forall (fun it => StartTime it <= EndTime it) (TL.coalesce tl)
  /\ forall t, TL.valueAt (TL.coalesce tl) t = TL.valueAt tl t.
Proof.
  induction 1 as [|a r Ha _ [IHne IHv]]; [split; [constructor | reflexivity]|].
  simpl TL.coalesce. destruct (TL.coalesce r) as [|b r'].
  - split; [repeat constructor; exact Ha|]. intros t.
    rewrite !valueAt_cons, <- IHv. reflexivity.
  - apply Forall_cons in IHne as [Hb Hr'].
    destruct (Z.eqb_spec (EndTime a + 1) (StartTime b)) as [Hadj|];
      [destruct (Z.eqb_spec (Value a) (Value b)) as [Hval|]|]; cbn [andb].
    + split; [constructor; [simpl; lia | exact Hr']|]. intros t.
      rewrite !valueAt_cons, <- IHv, valueAt_cons. unfold TL.covers_time. simpl.
      destruct (Z.leb_spec (StartTime a) t), (Z.leb_spec t (EndTime b)),
        (Z.leb_spec t (EndTime a)), (Z.leb_spec (StartTime b) t); simpl; lia.
    + split; [repeat constructor; assumption|]. intros t.
      rewrite !valueAt_cons, <- IHv, valueAt_cons. reflexivity.
    + split; [repeat constructor; assumption|]. intros t.
      rewrite !valueAt_cons, <- IHv, valueAt_cons. reflexivity.
Qed.

Lemma coalesce_values (P : Z -> Prop) tl :
  Forall (fun it => P (Value it)) tl -> Forall (fun it => P (Value it)) (TL.coalesce tl).
Proof.
  induction 1 as [|a r Ha _ IH]; [constructor|].
  simpl TL.coalesce. destruct (TL.coalesce r) as [|b r']; [repeat constructor; exact Ha|].
  apply Forall_cons in IH as [Hb Hr'].
  destruct ((EndTime a + 1 =? StartTime b) && (Value a =? Value b));
    repeat constructor; assumption.
Qed.

Lemma Forall_filter_keep {A} (P Q : A -> Prop) `{!forall x, Decision (Q x)} (l : list A) :
  Forall P l -> Forall P (filter Q l).
Proof.
  induction 1 as [|x l Hx _ IH]; [constructor|].
  rewrite filter_cons. destruct (decide (Q x)); [constructor; assumption | exact IH].
Qed.

(** [normalize f ps] projects to [f] when [f] only changes at instants of
    [ps] and vanishes before the first and from the last of them on. *)
Lemma valueAt_normalize f ps t :
  (forall a b, a <= b -> (forall q, In q ps -> ~ (a < q <= b)) -> f b = f a) ->
  (forall b, (forall q, In q ps -> b < q) -> f b = 0) ->
  (forall b, (forall q, In q ps -> q <= b) -> f b = 0) ->
  TL.valueAt (TL.normalize f ps) t = f t.
Proof.
  intros Hconst Hbefore Hafter. unfold TL.normalize.
  pose proof (sort_points_asc ps) as Hasc.
  destruct (coalesce_spec (filter (fun it => Value it <> 0)
                             (TL.segments f (TL.sort_points ps)))) as [_ ->].
  { apply Forall_filter_keep, segments_nonempty, Hasc. }
  rewrite valueAt_filter_nonzero, valueAt_segments by exact Hasc.
  assert (forall q, In q (TL.sort_points ps) <-> In q ps) as Hin
      by (intros q; apply sort_points_In).
  destruct (TL.sort_points ps) as [|p r].
  - simpl. symmetry. apply Hafter. intros q Hq. apply Hin in Hq as [].
  - destruct (Z.lt_ge_cases t p) as [Hlt|Hge].
    + rewrite step_before.
      * symmetry. apply Hbefore. intros q Hq. apply Hin in Hq as [<-|Hq]; [exact Hlt|].
        destruct Hasc as [Hp _]. specialize (Hp q Hq). lia.
      * intros q [<-|Hq]; [exact Hlt|]. destruct Hasc as [Hp _]. specialize (Hp q Hq). lia.
    + apply step_from; [exact Hasc | exact Hge | |].
      * intros a b _ Hab Hfree. apply Hconst; [exact Hab|].
        intros q Hq. apply Hfree, Hin, Hq.
      * intros b Hall. apply Hafter. intros q Hq. apply Hall, Hin, Hq.
Qed.

Lemma normalize_values (P : Z -> Prop) f ps :
  (forall t, P (f t)) -> Forall (fun it => P (Value it)) (TL.normalize f ps).
Proof.
  intros HP. unfold TL.normalize. apply coalesce_values, Forall_filter_keep, segments_values, HP.
Qed.

(** The projection of a sum is the sum of the projections. *)
Lemma valueAt_Add x y t :
  TL.valueAt (TL.Add x y) t = TL.valueAt x t + TL.valueAt y t.
Proof.
  unfold TL.Add.
  apply (valueAt_normalize (fun t => TL.valueAt x t + TL.valueAt y t)).
  - intros a b Hab Hfree.
    rewrite (valueAt_constant x a b), (valueAt_constant y a b); try assumption;
      try reflexivity; intros q Hq; apply Hfree, in_or_app; auto.
  - intros b Hall. rewrite (valueAt_before x), (valueAt_before y); try reflexivity;
      intros q Hq; apply Hall, in_or_app; auto.
  - intros b Hall. rewrite (valueAt_after x), (valueAt_after y); try reflexivity;
      intros q Hq; apply Hall, in_or_app; auto.
Qed.

(** The projection of a difference, where it is defined. *)
Lemma valueAt_Sub x y r t :
  TL.Sub x y = Some r -> TL.valueAt r t = TL.valueAt x t - TL.valueAt y t.
Proof.
  unfold TL.Sub. destruct (TL.covers x y); [|discriminate]. intros [= <-].
  apply (valueAt_normalize (fun t => TL.valueAt x t - TL.valueAt y t)).
  - intros a b Hab Hfree.
    rewrite (valueAt_constant x a b), (valueAt_constant y a b); try assumption;
      try reflexivity; intros q Hq; apply Hfree, in_or_app; auto.
  - intros b Hall. rewrite (valueAt_before x), (valueAt_before y); try reflexivity;
      intros q Hq; apply Hall, in_or_app; auto.
  - intros b Hall. rewrite (valueAt_after x), (valueAt_after y); try reflexivity;
      intros q Hq; apply Hall, in_or_app; auto.
Qed.

(** [Sub] is defined on a pointwise larger first argument. *)
Lemma covers_pointwise x y :
  (forall t, TL.valueAt y t <= TL.valueAt x t) -> TL.covers x y = true.
Proof.
  intros Hle. unfold TL.covers. apply forallb_forall. intros p _.
  apply Z.leb_le, Hle.
Qed.

Lemma valueAt_ClearExpired x ts t :
  ts <= t -> TL.valueAt (TL.ClearExpired x ts) t = TL.valueAt x t.
Proof.
  intros Hts. unfold TL.ClearExpired. induction x as [|it x IH]; [reflexivity|].
  rewrite filter_cons, valueAt_cons. destruct (decide (ts <= EndTime it)) as [|He].
  - rewrite valueAt_cons, IH. reflexivity.
  - rewrite IH. unfold TL.covers_time.
    destruct (Z.leb_spec (StartTime it) t), (Z.leb_spec t (EndTime it)); simpl; lia.
Qed.

Lemma IsValid_values x :
  TL.IsValid x = true -> Forall (fun it => 0 <= Value it) x.
Proof.
  unfold TL.IsValid. intros Hv. apply andb_prop in Hv as [Hv _].
  apply List.Forall_forall. intros it Hin.
  rewrite forallb_forall in Hv. specialize (Hv it).
  unfold TL.item_valid in Hv.
  apply Hv in Hin. apply andb_prop in Hin as [_ Hpos]. apply Z.ltb_lt in Hpos. lia.
Qed.

(** ** Swaps: what the structured storage reads depend on *)

Section SwapFacts.
Context `{Externals}.

Lemma readStructData_storage o o' key :
  storage o = storage o' -> readStructData o key = readStructData o' key.
Proof.
  intros Hs. unfold readStructData, readSlot, SO.GetState. rewrite Hs. reflexivity.
Qed.

(** A read of the structured storage leaves a state that no read tells
    apart from the one before, and gives the same bytes in every state
    with the same storage. *)
Lemma GetStructData_rest addr key s r s0 t :
  GetStructData addr key s = Some (r, s0) -> st_rest t s ->
  st_same s0 s /\ exists t', GetStructData addr key t = Some (r, t') /\ st_same t' t.
Proof.
  assert (forall u, st_same (GetOrNewStateObject addr u).2 u
                    /\ (GetOrNewStateObject addr u).1 = view u addr) as Hnew.
  { intros u. unfold GetOrNewStateObject, getStateObject, view.
    destruct (stateObjects u !! addr) as [o|] eqn:Ho; simpl.
    - split; [apply st_same_refl | reflexivity].
    - split; [|reflexivity]. split; [|split; reflexivity].
      intros addr'. unfold view. simpl.
      destruct (decide (addr' = addr)) as [->|Hne].
      + rewrite lookup_insert_eq, Ho. apply obj_same_refl.
      + rewrite lookup_insert_ne by congruence. apply obj_same_refl. }
  unfold GetStructData. destruct key as [key|].
  - intros Hrun Hrest. destruct (Hnew s) as [Hs Ho], (Hnew t) as [Ht Hot].
    destruct (GetOrNewStateObject addr s) as [o s1].
    destruct (GetOrNewStateObject addr t) as [o' t1]. simpl in *. subst o o'.
    assert (readStructData (view t addr) key = readStructData (view s addr) key) as ->.
    { apply readStructData_storage. destruct Hrest as [Hv _].
      destruct (Hv addr) as (_ & _ & _ & Hst). exact Hst. }
    destruct (readStructData (view s addr) key) as [d|]; [|discriminate].
    injection Hrun as <- <-. split; [exact Hs|]. exists t1. split; [reflexivity | exact Ht].
  - intros [= <- <-] _. split; [apply st_same_refl|].
    exists t. split; [reflexivity | apply st_same_refl].
Qed.

Lemma GetSwap_rest id s r s0 t :
  GetSwap id s = Some (r, s0) -> st_rest t s ->
  st_same s0 s /\ exists t', GetSwap id t = Some (r, t') /\ st_same t' t.
Proof.
  unfold GetSwap. munfold. intros Hrun Hrest.
  destruct (GetStructData SwapKeyAddress (Some id) s) as [[d s1]|] eqn:Hget;
    [|discriminate].
  destruct (GetStructData_rest _ _ _ _ _ t Hget Hrest) as (Hs & t' & -> & Ht).
  destruct d as [[|b d]|]; [| destruct (sp_Deleted _) |];
    injection Hrun as <- <-; (split; [exact Hs|]); exists t'; (split; [reflexivity | exact Ht]).
Qed.

Lemma GetAsset_rest id s r s0 t :
  GetAsset id s = Some (r, s0) -> st_rest t s ->
  st_same s0 s /\ exists t', GetAsset id t = Some (r, t') /\ st_same t' t.
Proof.
  unfold GetAsset. munfold. intros Hrun Hrest.
  destruct (GetStructData AssetKeyAddress (Some id) s) as [[d s1]|] eqn:Hget;
    [|discriminate].
  destruct (GetStructData_rest _ _ _ _ _ t Hget Hrest) as (Hs & t' & -> & Ht).
  destruct d as [[|b d]|]; [| destruct (ap_Deleted _) |];
    injection Hrun as <- <-; (split; [exact Hs|]); exists t'; (split; [reflexivity | exact Ht]).
Qed.

Lemma writeSlots_data keyIndex value l : forall o,
  data (foldl (writeSlot keyIndex value) o l) = data o.
Proof. induction l as [|i l IH]; intros o; [reflexivity|]. simpl. rewrite IH. reflexivity. Qed.

Lemma writeStructData_data key value o : data (writeStructData key value o) = data o.
Proof. unfold writeStructData. cbv zeta. simpl. rewrite writeSlots_data. reflexivity. Qed.

(** A write to the structured storage changes no balance and no ticket. *)
Lemma SetStructData_st addr key value s :
  (forall addr' a, bal (SetStructData addr key value s) addr' a = bal s addr' a)
  /\ (forall addr' a, tlb (SetStructData addr key value s) addr' a = tlb s addr' a)
  /\ tickets (SetStructData addr key value s) = tickets s.
Proof.
  destruct key as [key|], value as [value|]; try (repeat split; reflexivity).
  unfold SetStructData, bal, tlb, objBal, objTL.
  split; [|split; [|apply onObject_tickets_logs]]; intros addr' a;
    rewrite view_onObject; destruct (decide (addr' = addr)) as [->|];
    rewrite ?writeStructData_data; reflexivity.
Qed.

End SwapFacts.

(** ** MakeSwap *)

(** A balance topped up with [(ts, forever, total)] covers every requirement
    of [total] that starts at [ts] or later. *)
Lemma topup_covers avail st en total ts :
  TL.IsValid avail = true -> 0 <= total -> ts <= st -> en <= TimeLockForever ->
  TL.covers (TL.ClearExpired (TL.Add avail [mkItem ts TimeLockForever total]) ts)
            [mkItem st en total] = true.
Proof.
  intros Hav Htot Hst Hen. apply covers_pointwise. intros t.
  pose proof (valueAt_nonneg avail) as Hnn. specialize (Hnn t (IsValid_values _ Hav)).
  rewrite (valueAt_cons (mkItem st en total) []). unfold TL.covers_time at 1.
  simpl StartTime. simpl EndTime. simpl Value. simpl (TL.valueAt [] t).
  destruct (Z.leb_spec st t), (Z.leb_spec t en); cbn [andb].
  1: { rewrite valueAt_ClearExpired, valueAt_Add by lia.
       rewrite (valueAt_cons (mkItem ts TimeLockForever total) []).
       unfold TL.covers_time. simpl.
       destruct (Z.leb_spec ts t), (Z.leb_spec t TimeLockForever); simpl; lia. }
  all: rewrite Z.add_0_l; apply valueAt_nonneg, Forall_filter_keep;
    apply (normalize_values (fun v => 0 <= v)); intros u;
    pose proof (valueAt_nonneg avail u (IsValid_values _ Hav));
    rewrite (valueAt_cons (mkItem ts TimeLockForever total) []);
    destruct (TL.covers_time _ u); simpl; lia.
Qed.

Section MakeSwapFacts.
Context `{Externals}.

(** C3.  A MakeSwap or MakeSwapFuncExt call that passes the checks, whose
    From interval is not [now, forever) and whose sender's time-lock
    balance in the From asset does not cover
    [(max(FromStart, ts), FromEnd, MinFromAmount * SwapSize)]: the legacy
    MakeSwap returns "not enough time lock balance" and changes no balance
    and no time-lock balance (there is no top-up from the plain balance),
    in the dispatcher and in the pool; MakeSwapFuncExt with a plain balance
    of at least the total returns without error, the plain balance goes
    down by the total, and the sender's time-lock balance becomes the old
    one plus [(ts, forever, total)] minus the requirement, so that the
    surplus stays with the sender; nothing else changes. *)
Theorem MakeSwap_legacy_errors_ext_tops_up :
  (forall (env : Env) (msg : Message) (param : FSNCallParam) (s : StateDB),
    let p := decodeMakeSwapParam (Data param) in
    let from := From msg in
    let ts := ParentTime env in
    let asset := ms_FromAssetID p in
    let total := ms_MinFromAmount p * ms_SwapSize p in
    let need := [mkItem (Z.max (ms_FromStartTime p) ts) (ms_FromEndTime p) total] in
    let totalValue := [mkItem ts TimeLockForever total] in
    let swapId := GetUniqueHashFromMessage msg in
    (exists e s0, GetSwap swapId s = Some (inl e, s0)) ->
    MakeSwapParam_Check p (BlockNumber env) ts = None ->
    (exists a s0, GetAsset (ms_ToAssetID p) s = Some (inr a, s0)) ->
    asset <> OwnerUSANAssetID ->
    ~ (ms_FromStartTime p = TimeLockNow /\ ms_FromEndTime p = TimeLockForever) ->
    TL.IsValid need = true ->
    TL.Cmp (tlb s from asset) need < 0 ->
    (Func param = MakeSwapFunc ->
       exists s',
         handleFsnCall env msg param s = Some (Errorf "not enough time lock balance", s')
         /\ forall addr a, bal s' addr a = bal s addr a /\ tlb s' addr a = tlb s addr a)
    /\ (Func param = MakeSwapFuncExt ->
        total <= bal s from asset ->
        TL.IsValid (tlb s from asset) = true ->
        ms_FromEndTime p <= TimeLockForever ->
        (forall sp, exists data, encodeSwapPersist sp = inr data) ->
        exists s' rest,
          handleFsnCall env msg param s = Some (None, s')
          /\ bal s' from asset = bal s from asset - total
          /\ TL.Sub (TL.ClearExpired (TL.Add (tlb s from asset) totalValue) ts) need = Some rest
          /\ tlb s' from asset = TL.ClearExpired rest ts
          /\ (forall t, ts <= t ->
                TL.valueAt (tlb s' from asset) t
                = TL.valueAt (tlb s from asset) t + TL.valueAt totalValue t
                  - TL.valueAt need t)
          /\ (forall addr a, ~ (addr = from /\ a = asset) ->
                bal s' addr a = bal s addr a /\ tlb s' addr a = tlb s addr a)))
  /\ (forall ctl (penv : PoolEnv) (tx : Transaction) (param : FSNCallParam)
       (from : Address) (s : StateDB),
    let p := decodeMakeSwapParam (Data param) in
    let ts := pool_Now penv in
    let asset := ms_FromAssetID p in
    let total := ms_MinFromAmount p * ms_SwapSize p in
    let need := [mkItem (Z.max (ms_FromStartTime p) ts) (ms_FromEndTime p) total] in
    let swapId := GetUniqueHashFromTransaction tx in
    IsFsnCall (tx_To tx) = true ->
    decodeFSNCallParam (tx_Data tx) = Some param ->
    Func param = MakeSwapFunc ->
    (exists e s0, GetSwap swapId s = Some (inl e, s0)) ->
    MakeSwapParam_Check p BigMaxUint64 ts = None ->
    (exists a s0, GetAsset (ms_ToAssetID p) s = Some (inr a, s0)) ->
    asset <> OwnerUSANAssetID ->
    ~ (ms_FromStartTime p = TimeLockNow /\ ms_FromEndTime p = TimeLockForever) ->
    TL.IsValid need = true ->
    TL.Cmp (tlb s from asset) need < 0 ->
    exists s',
      validateFsnCallTx ctl penv tx from s
      = Some (Errorf "not enough time lock balance", s')
      /\ forall addr a, bal s' addr a = bal s addr a /\ tlb s' addr a = tlb s addr a).
Proof.
  split.
  { intros env msg param s.
    intros p from ts asset total need totalValue swapId (e & s0 & Hswap) Hcheck
      (a & sa & Hasset) Hnot Hwhole Hvalid Hcmp.
    assert (Func param = MakeSwapFunc \/ Func param = MakeSwapFuncExt ->
            handleFsnCall env msg param s = handleMakeSwap env msg param s) as Hdisp
        by (intros [HF|HF]; unfold handleFsnCall; rewrite HF; reflexivity).
    destruct (GetSwap_rest _ _ _ _ s Hswap (st_rest_refl s)) as [Hs0 _].
    destruct (GetAsset_rest _ _ _ _ s0 Hasset (st_same_rest _ _ Hs0))
      as (_ & s1 & Hasset1 & Hs1).
    apply IsValid_singleton in Hvalid as Hv. destruct Hv as [Hse Hpos].
    assert ((ms_FromStartTime p =? TimeLockNow) && (ms_FromEndTime p =? TimeLockForever)
            = false) as Huse.
    { destruct (Z.eqb_spec (ms_FromStartTime p) TimeLockNow),
        (Z.eqb_spec (ms_FromEndTime p) TimeLockForever); try reflexivity. tauto. }
    destruct (GetTimeLockBalance_st asset from s1) as [Ht2 Hs2].
    rewrite (st_same_tlb _ _ _ _ Hs1), (st_same_tlb _ _ _ _ Hs0) in Ht2.
    split.
    - intros HF. rewrite Hdisp by (left; exact HF).
      unfold handleMakeSwap. munfold. cbv zeta. fold p swapId. rewrite Hswap.
      cbv beta iota. fold ts. rewrite Hcheck, Hasset1. cbv beta iota.
      fold asset from total.
      destruct (decide (asset = OwnerUSANAssetID)) as [|_]; [contradiction|].
      rewrite Huse, MaxUint64_max. unfold TL.NewTimeLock. fold need.
      rewrite Hvalid. cbn [negb default]. unfold id. cbv beta iota. fold asset from total.
      destruct (decide (asset = OwnerUSANAssetID)) as [|_]; [contradiction|].
      destruct (GetTimeLockBalance asset from s1) as [av s2]. simpl in Ht2, Hs2. subst av.
      destruct (Z.ltb_spec (TL.Cmp (tlb s from asset) need) 0) as [_|?]; [|lia].
      destruct (decide (Func param = MakeSwapFunc)) as [_|?]; [|contradiction].
      eexists. split; [reflexivity|]. intros addr a0.
      change (bal (AddLog ?l ?x) ?a ?b) with (bal x a b).
      change (tlb (AddLog ?l ?x) ?a ?b) with (tlb x a b).
      rewrite (st_same_bal _ _ _ _ Hs2), (st_same_bal _ _ _ _ Hs1), (st_same_bal _ _ _ _ Hs0).
      rewrite (st_same_tlb _ _ _ _ Hs2), (st_same_tlb _ _ _ _ Hs1), (st_same_tlb _ _ _ _ Hs0).
      split; reflexivity.
    - intros HF Hbal Hav Hend Henc. rewrite Hdisp by (right; exact HF).
      unfold handleMakeSwap. munfold. cbv zeta. fold p swapId. rewrite Hswap.
      cbv beta iota. fold ts. rewrite Hcheck, Hasset1. cbv beta iota.
      fold asset from total.
      destruct (decide (asset = OwnerUSANAssetID)) as [|_]; [contradiction|].
      rewrite Huse, MaxUint64_max. unfold TL.NewTimeLock. fold need totalValue.
      rewrite Hvalid. cbn [negb default]. unfold id. cbv beta iota. fold asset from total.
      destruct (decide (asset = OwnerUSANAssetID)) as [|_]; [contradiction|].
      destruct (GetTimeLockBalance asset from s1) as [av s2]. simpl in Ht2, Hs2. subst av.
      destruct (Z.ltb_spec (TL.Cmp (tlb s from asset) need) 0) as [_|?]; [|lia].
      destruct (decide (Func param = MakeSwapFunc)) as [HF'|_];
        [rewrite HF in HF'; discriminate|].
      destruct (GetBalance_st asset from s2) as [Hb3 Hs3].
      rewrite (st_same_bal _ _ _ _ Hs2), (st_same_bal _ _ _ _ Hs1), (st_same_bal _ _ _ _ Hs0)
        in Hb3.
      destruct (GetBalance asset from s2) as [b s3]. simpl in Hb3, Hs3. subst b.
      destruct (Z.ltb_spec (bal s from asset) total) as [?|_]; [lia|].
      fold totalValue. set (s4 := SubBalance from asset total s3).
      destruct (SubBalance_st from asset total s3) as (Hb4 & Ht4 & Hr4). fold s4 in Hb4, Ht4, Hr4.
      set (s5 := AddTimeLockBalance from asset totalValue (BlockNumber env) ts s4).
      destruct (AddTimeLockBalance_st from asset totalValue (BlockNumber env) ts s4)
        as (Ht5 & Hb5 & Hr5). fold s5 in Ht5, Hb5, Hr5.
      assert (st_rest s5 s) as Hrest5.
      { repeat (eapply st_rest_trans; [eassumption|]).
        repeat (eapply st_rest_trans; [apply st_same_rest; eassumption|]).
        apply st_rest_refl. }
      destruct (GetSwap_rest _ _ _ _ s5 Hswap Hrest5) as (_ & s6 & Hswap5 & Hs6).
      match goal with |- context [AddSwap ?sw s5] => set (swap := sw) end.
      destruct (Henc (mkSwapPersist false swap)) as [data Hdata].
      set (s7 := SetStructData SwapKeyAddress (Some swapId) (Some data) s6).
      assert (AddSwap swap s5 = Some (None, s7)) as ->.
      { unfold AddSwap. munfold. change (sw_ID swap) with swapId.
        rewrite Hswap5, Hdata. reflexivity. }
      destruct (SetStructData_st SwapKeyAddress (Some swapId) (Some data) s6)
        as (Hb7 & Ht7 & _). fold s7 in Hb7, Ht7.
      assert (tlb s7 from asset
              = TL.ClearExpired (TL.Add (tlb s from asset) totalValue) ts) as Htl7.
      { rewrite Ht7, (st_same_tlb _ _ _ _ Hs6), Ht5.
        destruct (decide (from = from /\ asset = asset)) as [_|?]; [|tauto].
        unfold creditTL. unfold totalValue at 1. rewrite IsEmpty_singleton by lia.
        rewrite Ht4, (st_same_tlb _ _ _ _ Hs3), (st_same_tlb _ _ _ _ Hs2),
          (st_same_tlb _ _ _ _ Hs1), (st_same_tlb _ _ _ _ Hs0). reflexivity. }
      assert (TL.covers (tlb s7 from asset) need = true) as Hcov.
      { rewrite Htl7. apply topup_covers; [exact Hav | lia | lia | exact Hend]. }
      assert (exists rest, TL.Sub (tlb s7 from asset) need = Some rest) as [rest Hrest].
      { unfold TL.Sub. rewrite Hcov. eauto. }
      assert (TL.IsEmpty need = false) as Hne by (apply IsEmpty_singleton; lia).
      pose proof (SubTimeLockBalance_st from asset need (BlockNumber env) ts s7) as Hsub.
      unfold debitTL in Hsub. rewrite Hne, Hrest in Hsub.
      cbn [fmap option_fmap option_map] in Hsub.
      destruct (SubTimeLockBalance from asset need (BlockNumber env) ts s7) as [s8|];
        [|destruct Hsub].
      destruct Hsub as (Ht8 & Hb8 & Hr8).
      eexists _, rest. split; [reflexivity|].
      change (bal (AddLog ?l ?x) ?a ?b) with (bal x a b).
      change (tlb (AddLog ?l ?x) ?a ?b) with (tlb x a b).
      rewrite Htl7 in Hrest.
      assert (forall addr a0, bal s8 addr a0
                = if decide (addr = from /\ a0 = asset) then bal s from asset - total
                  else bal s addr a0) as Hbal8.
      { intros addr a0. rewrite Hb8, Hb7, (st_same_bal _ _ _ _ Hs6), Hb5, Hb4.
        rewrite !(st_same_bal _ _ _ _ Hs3), !(st_same_bal _ _ _ _ Hs2),
          !(st_same_bal _ _ _ _ Hs1), !(st_same_bal _ _ _ _ Hs0). reflexivity. }
      assert (tlb s8 from asset = TL.ClearExpired rest ts) as Htl8.
      { rewrite Ht8. destruct (decide (from = from /\ asset = asset)); tauto. }
      split; [|split; [exact Hrest|split; [exact Htl8|split]]].
      + rewrite Hbal8. destruct (decide (from = from /\ asset = asset)); tauto.
      + intros t Ht. rewrite Htl8, valueAt_ClearExpired by exact Ht.
        rewrite (valueAt_Sub _ _ _ t Hrest), valueAt_ClearExpired by exact Ht.
        rewrite valueAt_Add. reflexivity.
      + intros addr a0 Hother. rewrite Hbal8, Ht8.
        destruct (decide (addr = from /\ a0 = asset)); [tauto|].
        split; [reflexivity|].
        rewrite Ht7, (st_same_tlb _ _ _ _ Hs6), Ht5.
        destruct (decide (addr = from /\ a0 = asset)); [tauto|].
        rewrite Ht4, (st_same_tlb _ _ _ _ Hs3), (st_same_tlb _ _ _ _ Hs2),
          (st_same_tlb _ _ _ _ Hs1), (st_same_tlb _ _ _ _ Hs0). reflexivity. }
  { intros ctl penv tx param from s.
    intros p ts asset total need swapId Hfsn Hdec HF (e & s0 & Hswap) Hcheck
      (a & sa & Hasset) Hnot Hwhole Hvalid Hcmp.
    destruct (GetSwap_rest _ _ _ _ s Hswap (st_rest_refl s)) as [Hs0 _].
    destruct (GetAsset_rest _ _ _ _ s0 Hasset (st_same_rest _ _ Hs0))
      as (_ & s1 & Hasset1 & Hs1).
    assert ((ms_FromStartTime p =? TimeLockNow) && (ms_FromEndTime p =? TimeLockForever)
            = false) as Huse.
    { destruct (Z.eqb_spec (ms_FromStartTime p) TimeLockNow),
        (Z.eqb_spec (ms_FromEndTime p) TimeLockForever); try reflexivity. tauto. }
    destruct (GetTimeLockBalance_st asset from s1) as [Ht2 Hs2].
    rewrite (st_same_tlb _ _ _ _ Hs1), (st_same_tlb _ _ _ _ Hs0) in Ht2.
    unfold validateFsnCallTx. rewrite Hfsn, Hdec, HF. cbn [negb].
    unfold validateMakeSwap. munfold. cbv zeta. fold p swapId. rewrite Hswap.
    cbv beta iota. fold ts. rewrite Hcheck, Hasset1. cbv beta iota.
    fold asset total.
    destruct (decide (asset = OwnerUSANAssetID)) as [|_]; [contradiction|].
    rewrite Huse, MaxUint64_max. unfold TL.NewTimeLock. fold need.
    rewrite Hvalid. cbn [negb].
    destruct (GetTimeLockBalance asset from s1) as [av s2]. simpl in Ht2, Hs2. subst av.
    destruct (Z.ltb_spec (TL.Cmp (tlb s from asset) need) 0) as [_|?]; [|lia].
    destruct (decide (Func param = MakeSwapFunc)) as [_|?]; [|contradiction].
    eexists. split; [reflexivity|]. intros addr a0.
    rewrite (st_same_bal _ _ _ _ Hs2), (st_same_bal _ _ _ _ Hs1), (st_same_bal _ _ _ _ Hs0).
    rewrite (st_same_tlb _ _ _ _ Hs2), (st_same_tlb _ _ _ _ Hs1), (st_same_tlb _ _ _ _ Hs0).
    split; reflexivity. }
Qed.

End MakeSwapFacts.

Lemma MakeSwap_legacy_errors_ext_tops_up_witness :
  (exists s',
     handleFsnCall (H := S3_externals) S3_env S3_msg (mkFSNCallParam MakeSwapFunc [])
       S3_state
     = Some (Errorf "not enough time lock balance", s')
     /\ bal s' (BigToAddress 1) (BigToHash 7) = 100
     /\ tlb s' (BigToAddress 1) (BigToHash 7) = [])
  /\ (exists s',
       handleFsnCall (H := S3_externals) S3_env S3_msg (mkFSNCallParam MakeSwapFuncExt [])
         S3_state
       = Some (None, s')
       /\ bal s' (BigToAddress 1) (BigToHash 7) = 60
       /\ tlb s' (BigToAddress 1) (BigToHash 7)
          = [mkItem 500 999 40; mkItem 2001 TimeLockForever 40]).
Proof.
  pose proof (proj1 (MakeSwap_legacy_errors_ext_tops_up (H := S3_externals))) as Hthm.
  split.
  - pose proof (Hthm S3_env S3_msg (mkFSNCallParam MakeSwapFunc []) S3_state) as Hc.
    cbv zeta in Hc. destruct Hc as [Hleg _].
    + eexists _, _. vm_compute. reflexivity.
    + reflexivity.
    + eexists _, _. vm_compute. reflexivity.
    + intros Heq. vm_compute in Heq. discriminate.
    + intros [Heq _]. vm_compute in Heq. discriminate.
    + reflexivity.
    + vm_compute. reflexivity.
    + destruct (Hleg eq_refl) as (s' & Hrun & Hsame). exists s'. split; [exact Hrun|].
      destruct (Hsame (BigToAddress 1) (BigToHash 7)) as [Hb Ht].
      split; [etransitivity; [exact Hb | vm_compute; reflexivity]|].
      etransitivity; [exact Ht | vm_compute; reflexivity].
  - pose proof (Hthm S3_env S3_msg (mkFSNCallParam MakeSwapFuncExt []) S3_state) as Hc.
    cbv zeta in Hc. destruct Hc as [_ Hext].
    + eexists _, _. vm_compute. reflexivity.
    + reflexivity.
    + eexists _, _. vm_compute. reflexivity.
    + intros Heq. vm_compute in Heq. discriminate.
    + intros [Heq _]. vm_compute in Heq. discriminate.
    + reflexivity.
    + vm_compute. reflexivity.
    + destruct Hext as (s' & rest & Hrun & Hb & Hsub & Ht & _).
      * reflexivity.
      * vm_compute. discriminate.
      * reflexivity.
      * vm_compute. discriminate.
      * intros sp. eexists. reflexivity.
      * exists s'. split; [exact Hrun|].
        vm_compute in Hsub. injection Hsub as <-.
        split; [etransitivity; [exact Hb | vm_compute; reflexivity]|].
        etransitivity; [exact Ht | vm_compute; reflexivity].
Defined.

(** ** The clock of the dispatcher *)

(** C4.  Two runs of the dispatcher on the same sender, call data, state,
    block height, parent-block time and block hashes give the same result
    and the same post-state whenever the call is not a TimeLockToAsset call,
    or the two local clocks fall on the same side of its start time: the
    local clock is read by the TimeLockToAsset start-time check and nowhere
    else.  That check does read it: the call above fails with "Start time
    must be less than now" on a node whose clock shows 1005 and converts the
    40 on a node whose clock shows 1015. *)
Theorem handleFsnCall_clock :
  (forall (H : Externals) (e1 e2 : Env) (msg : Message) (param : FSNCallParam) (s : StateDB),
     BlockNumber e1 = BlockNumber e2 -> ParentTime e1 = ParentTime e2 ->
     GetHash e1 = GetHash e2 ->
     (Func param = TimeLockFunc ->
      tl_Type (decodeTimeLockParam (Data param)) = TimeLockToAsset ->
      (Now e1 <? tl_StartTime (decodeTimeLockParam (Data param)))
      = (Now e2 <? tl_StartTime (decodeTimeLockParam (Data param)))) ->
     handleFsnCall e1 msg param s = handleFsnCall e2 msg param s)
  /\ (exists s1,
        handleFsnCall (H := clock_externals) (clock_env 1005) clock_msg
          (mkFSNCallParam TimeLockFunc []) clock_state
        = Some (Errorf "Start time must be less than now", s1)
        /\ bal s1 (BigToAddress 1) (BigToHash 7) = 0
        /\ tlb s1 (BigToAddress 1) (BigToHash 7) = [mkItem 1000 TimeLockForever 100])
  /\ (exists s2,
        handleFsnCall (H := clock_externals) (clock_env 1015) clock_msg
          (mkFSNCallParam TimeLockFunc []) clock_state
        = Some (None, s2)
        /\ bal s2 (BigToAddress 1) (BigToHash 7) = 40
        /\ tlb s2 (BigToAddress 1) (BigToHash 7)
           = [mkItem 1000 1009 100; mkItem 1010 TimeLockForever 60]).
Proof.
  split; [|split].
  - intros H [b1 p1 g1 n1] [b2 p2 g2 n2] msg param s. simpl.
    intros <- <- <- Hclock. unfold handleFsnCall.
    destruct (Func param) eqn:HF; try reflexivity.
    unfold handleTimeLock. cbn [Now].
    destruct (decide (tl_Type (decodeTimeLockParam (Data param)) = TimeLockToAsset)) as [Ht|];
      [rewrite (Hclock eq_refl Ht)|]; reflexivity.
  - eexists. split; [vm_compute; reflexivity|]. split; vm_compute; reflexivity.
  - eexists. split; [vm_compute; reflexivity|]. split; vm_compute; reflexivity.
Qed.

(** ** The value the pool reserves for a call *)

(** C9.  On the SmartTransfer above the pool takes [fsnValue] to be the 40
    of the other asset and answers "insufficient balance", although the
    sender's system-asset balance, 21001, is not below gas * gasPrice + fee
    = 21001, and although the dispatcher runs the same call without error
    and leaves the sender's system-asset balance at 21001, taking the 40
    from the balance of the other asset. *)
Theorem validateFsnCallTx_SmartTransfer_reserves_other_asset :
  (exists s',
     validateFsnCallTx (H := pool_externals) (fun _ _ _ => true) pool_env pool_tx
       (BigToAddress 1) pool_state
     = Some (Errorf "insufficient balance", s'))
  /\ @SystemAssetID pool_externals <> tl_AssetID pool_param
  /\ bal pool_state (BigToAddress 1) (@SystemAssetID pool_externals)
     = tx_Gas pool_tx * tx_GasPrice pool_tx
       + @GetFsnCallFee pool_externals (tx_To pool_tx) TimeLockFunc
  /\ (exists s2,
        handleFsnCall (H := pool_externals) (mkEnv 10 500 (fun _ => zeroHash) 500) pool_msg
          (mkFSNCallParam TimeLockFunc []) pool_state
        = Some (None, s2)
        /\ bal s2 (BigToAddress 1) (@SystemAssetID pool_externals) = 21001
        /\ bal s2 (BigToAddress 1) (BigToHash 7) = 60
        /\ tlb s2 (BigToAddress 2) (BigToHash 7) = [mkItem 1000 2000 40]).
Proof.
  split; [eexists; vm_compute; reflexivity|].
  split; [intros Heq; vm_compute in Heq; discriminate|].
  split; [vm_compute; reflexivity|].
  eexists. split; [vm_compute; reflexivity|].
  split; [vm_compute; reflexivity|]. split; vm_compute; reflexivity.
Qed.

(* ===================================================================== *)
(** * Further properties of the embedded code                              *)
(* ===================================================================== *)

(** ** Transfers of the dispatcher *)

Section TransferFacts.
Context `{Externals}.

(** X1.  A SendAsset call that passes the parameter check: when the sender
    holds less than the value of the asset it fails with "not enough asset"
    and no balance changes; otherwise it returns without error, the
    sender's balance of the asset goes down by the value and the
    receiver's goes up by it (a transfer to oneself changes nothing), and
    no other balance and no time-lock balance changes.  In both cases
    exactly one log entry, tagged SendAssetFunc, is appended. *)
Theorem SendAsset_moves_value (env : Env) (msg : Message) (param : FSNCallParam)
    (s : StateDB) :
  let p := decodeSendAssetParam (Data param) in
  let from := From msg in
  Func param = SendAssetFunc ->
  SendAssetParam_Check p (BlockNumber env) = None ->
  exists s' l,
    logs s' = logs s ++ [l] /\ log_Func l = SendAssetFunc
    /\ tickets s' = tickets s
    /\ (forall addr a, tlb s' addr a = tlb s addr a)
    /\ if bal s from (sa_AssetID p) <? sa_Value p
       then handleFsnCall env msg param s = Some (Errorf "not enough asset", s')
            /\ forall addr a, bal s' addr a = bal s addr a
       else handleFsnCall env msg param s = Some (None, s')
            /\ forall addr a,
                 bal s' addr a
                 = bal s addr a
                   + (if decide (addr = sa_To p /\ a = sa_AssetID p) then sa_Value p else 0)
                   - (if decide (addr = from /\ a = sa_AssetID p) then sa_Value p else 0).
Proof.
  intros p from HFunc Hcheck.
  assert (handleFsnCall env msg param s = handleSendAsset env msg param s) as ->
      by (unfold handleFsnCall; rewrite HFunc; reflexivity).
  unfold handleSendAsset. munfold. cbv zeta. fold p from. rewrite Hcheck.
  destruct (GetBalance_st (sa_AssetID p) from s) as [Hb0 Hs0].
  destruct (GetBalance (sa_AssetID p) from s) as [b s0]. simpl in Hb0, Hs0. subst b.
  destruct (bal s from (sa_AssetID p) <? sa_Value p) eqn:Hlt; cbv beta iota.
  - eexists _, _. split; [|split; [|split; [|split; [|split; [reflexivity|]]]]].
    + simpl. destruct Hs0 as (_ & _ & ->). reflexivity.
    + reflexivity.
    + simpl. destruct Hs0 as (_ & -> & _). reflexivity.
    + intros addr a. change (tlb (AddLog ?l ?x) ?a ?b) with (tlb x a b).
      apply st_same_tlb, Hs0.
    + intros addr a. change (bal (AddLog ?l ?x) ?a ?b) with (bal x a b).
      apply st_same_bal, Hs0.
  - set (s1 := SubBalance from (sa_AssetID p) (sa_Value p) s0).
    destruct (SubBalance_st from (sa_AssetID p) (sa_Value p) s0) as (Hb1 & Ht1 & Hr1).
    fold s1 in Hb1, Ht1, Hr1.
    set (s2 := AddBalance (sa_To p) (sa_AssetID p) (sa_Value p) s1).
    destruct (AddBalance_st (sa_To p) (sa_AssetID p) (sa_Value p) s1) as (Hb2 & Ht2 & Hr2).
    fold s2 in Hb2, Ht2, Hr2.
    eexists _, _. split; [|split; [|split; [|split; [|split; [reflexivity|]]]]].
    + simpl. destruct Hr2 as (_ & _ & ->), Hr1 as (_ & _ & ->), Hs0 as (_ & _ & ->).
      reflexivity.
    + reflexivity.
    + simpl. destruct Hr2 as (_ & -> & _), Hr1 as (_ & -> & _), Hs0 as (_ & -> & _).
      reflexivity.
    + intros addr a. change (tlb (AddLog ?l ?x) ?a ?b) with (tlb x a b).
      rewrite Ht2, Ht1. apply st_same_tlb, Hs0.
    + intros addr a. change (bal (AddLog ?l ?x) ?a ?b) with (bal x a b).
      rewrite Hb2, !Hb1, !(st_same_bal _ _ _ _ Hs0).
      clearbody from. repeat case_decide; destruct_and?; subst; try lia; exfalso; tauto.
Qed.

End TransferFacts.

Lemma SendAsset_moves_value_witness :
  exists s',
    handleFsnCall (H := sendAsset_externals) demo_env demo_msg
      (mkFSNCallParam SendAssetFunc []) demo_state = Some (None, s')
    /\ bal s' (BigToAddress 1) (BigToHash 7) = 60
    /\ bal s' (BigToAddress 2) (BigToHash 7) = 40.
Proof.
  destruct (SendAsset_moves_value (H := sendAsset_externals) demo_env demo_msg
              (mkFSNCallParam SendAssetFunc []) demo_state eq_refl eq_refl)
    as (s' & l & _ & _ & _ & _ & Hif).
  change (bal demo_state (From demo_msg)
            (sa_AssetID (decodeSendAssetParam (Data (mkFSNCallParam SendAssetFunc []))))
          <? sa_Value (decodeSendAssetParam (Data (mkFSNCallParam SendAssetFunc []))))
    with false in Hif.
  destruct Hif as [Hrun Hbal]. exists s'. split; [exact Hrun|].
  rewrite !Hbal. split; vm_compute; reflexivity.
Defined.

Section TimeLockFacts.
Context `{Externals}.

(** A TimeLock call that passes the start-time test, the parameter check
    and the validity test runs the case of its type on the adjusted
    parameter and the required time lock. *)
Lemma handleTimeLock_case (env : Env) (msg : Message) (param : FSNCallParam) (s : StateDB) :
  let p0 := decodeTimeLockParam (Data param) in
  let p := if decide (tl_Type p0 = TimeLockToAsset)
           then mkTimeLockParam (tl_Type p0) (tl_AssetID p0) (tl_To p0) (tl_StartTime p0)
                  TimeLockForever (tl_Value p0)
           else p0 in
  let ts := ParentTime env in
  let start := Z.max (tl_StartTime p) ts in
  let need := [mkItem start (tl_EndTime p) (Z.abs (tl_Value p))] in
  Func param = TimeLockFunc ->
  (tl_Type p0 = TimeLockToAsset -> tl_StartTime p0 <= Now env) ->
  TimeLockParam_Check p (BlockNumber env) ts = None ->
  TL.IsValid need = true ->
  handleFsnCall env msg param s
  = match tl_Type p with
    | AssetToTimeLock => handleAssetToTimeLock env msg p need s
    | TimeLockToTimeLock => handleTimeLockToTimeLock env msg p need s
    | TimeLockToAsset => handleTimeLockToAsset env msg p need s
    | SmartTransfer => handleSmartTransfer env msg p start (tl_EndTime p) need s
    | UnknownTimeLockType _ => Some (Errorf "Unsupported", s)
    end.
Proof.
  intros p0 p ts start need HFunc Hclock Hcheck Hvalid.
  unfold handleFsnCall. rewrite HFunc. unfold handleTimeLock. fold p0.
  assert ((if decide (tl_Type p0 = TimeLockToAsset)
           then if Now env <? tl_StartTime p0
                then inl "Start time must be less than now"%string
                else inr (mkTimeLockParam (tl_Type p0) (tl_AssetID p0) (tl_To p0)
                            (tl_StartTime p0) TimeLockForever (tl_Value p0))
           else inr p0) = (inr p : string + TimeLockParam)) as ->.
  { unfold p. destruct (decide (tl_Type p0 = TimeLockToAsset)) as [Ht|]; [|reflexivity].
    destruct (Z.ltb_spec (Now env) (tl_StartTime p0)); [specialize (Hclock Ht); lia|].
    reflexivity. }
  fold ts. rewrite Hcheck. cbv zeta. rewrite max_start. unfold TL.NewTimeLock.
  fold start need. rewrite Hvalid. cbn [negb].
  destruct (tl_Type p); reflexivity.
Qed.

(** X2.  A TimeLockToTimeLock call that passes the checks: when the
    sender's time-lock balance of the asset does not cover the required
    time lock it fails with "not enough time lock balance" and nothing
    changes; otherwise it returns without error, from the parent-block time
    on the sender's time-lock balance is lower by the required time lock
    and the receiver's higher by it at every instant (a transfer to oneself
    leaves it as it was), and no plain balance and no other time-lock
    balance changes. *)
Theorem TimeLockToTimeLock_moves_lock (env : Env) (msg : Message) (param : FSNCallParam)
    (s : StateDB) :
  let p := decodeTimeLockParam (Data param) in
  let from := From msg in
  let to := tl_To p in
  let asset := tl_AssetID p in
  let ts := ParentTime env in
  let need := [mkItem (Z.max (tl_StartTime p) ts) (tl_EndTime p) (Z.abs (tl_Value p))] in
  Func param = TimeLockFunc ->
  tl_Type p = TimeLockToTimeLock ->
  TimeLockParam_Check p (BlockNumber env) ts = None ->
  TL.IsValid need = true ->
  exists s',
    (forall addr a, bal s' addr a = bal s addr a)
    /\ tickets s' = tickets s
    /\ if TL.Cmp (tlb s from asset) need <? 0
       then handleFsnCall env msg param s
            = Some (Errorf "not enough time lock balance", s')
            /\ forall addr a, tlb s' addr a = tlb s addr a
       else handleFsnCall env msg param s = Some (None, s')
            /\ (forall addr a, ~ (addr = from /\ a = asset) -> ~ (addr = to /\ a = asset) ->
                  tlb s' addr a = tlb s addr a)
            /\ forall addr a t, ts <= t ->
                 TL.valueAt (tlb s' addr a) t
                 = TL.valueAt (tlb s addr a) t
                   + (if decide (addr = to /\ a = asset) then TL.valueAt need t else 0)
                   - (if decide (addr = from /\ a = asset) then TL.valueAt need t else 0).
Proof.
  intros p from to asset ts need HFunc Htype Hcheck Hvalid.
  pose proof (handleTimeLock_case env msg param s HFunc) as Hrun. cbv zeta in Hrun.
  fold p in Hrun. rewrite Htype in Hrun.
  destruct (decide (TimeLockToTimeLock = TimeLockToAsset)) as [?|_]; [discriminate|].
  rewrite Htype in Hrun. fold ts need in Hrun.
  rewrite Hrun by (assumption || discriminate). clear Hrun.
  apply IsValid_singleton in Hvalid as [Hse Hpos].
  assert (TL.IsEmpty need = false) as Hne by (apply IsEmpty_singleton; lia).
  unfold handleTimeLockToTimeLock. munfold. fold from to asset ts.
  destruct (GetTimeLockBalance_st asset from s) as [Ht0 Hs0].
  destruct (GetTimeLockBalance asset from s) as [t0 s0]. simpl in Ht0, Hs0. subst t0.
  destruct (TL.Cmp (tlb s from asset) need <? 0) eqn:Hcmp; cbv beta iota.
  - eexists. split; [|split; [|split; [reflexivity|]]].
    + intros addr a. change (bal (AddLog ?l ?x) ?a ?b) with (bal x a b).
      apply st_same_bal, Hs0.
    + simpl. destruct Hs0 as (_ & -> & _). reflexivity.
    + intros addr a. change (tlb (AddLog ?l ?x) ?a ?b) with (tlb x a b).
      apply st_same_tlb, Hs0.
  - destruct (Cmp_nonneg_Sub _ _ Hcmp) as [rest Hrest].
    pose proof (SubTimeLockBalance_st from asset need (BlockNumber env) ts s0) as Hsub.
    rewrite (st_same_tlb _ _ _ _ Hs0) in Hsub. unfold debitTL in Hsub.
    rewrite Hne, Hrest in Hsub. cbn [fmap option_fmap option_map] in Hsub.
    destruct (SubTimeLockBalance from asset need (BlockNumber env) ts s0) as [s1|];
      [|destruct Hsub].
    destruct Hsub as (Ht1 & Hb1 & Hr1).
    set (s2 := AddTimeLockBalance to asset need (BlockNumber env) ts s1).
    destruct (AddTimeLockBalance_st to asset need (BlockNumber env) ts s1)
      as (Ht2 & Hb2 & Hr2). fold s2 in Ht2, Hb2, Hr2.
    unfold creditTL in Ht2. rewrite Hne in Ht2.
    eexists. split; [|split; [|split; [reflexivity|split]]].
    + intros addr a. change (bal (AddLog ?l ?x) ?a ?b) with (bal x a b).
      rewrite Hb2, Hb1. apply st_same_bal, Hs0.
    + simpl. destruct Hr2 as (_ & -> & _), Hr1 as (_ & -> & _), Hs0 as (_ & -> & _).
      reflexivity.
    + intros addr a Hnf Hnt. change (tlb (AddLog ?l ?x) ?a ?b) with (tlb x a b).
      rewrite Ht2, !Ht1. repeat case_decide; try tauto. apply st_same_tlb, Hs0.
    + intros addr a t Ht. change (tlb (AddLog ?l ?x) ?a ?b) with (tlb x a b).
      rewrite Ht2, !Ht1, !(st_same_tlb _ _ _ _ Hs0). clearbody from to asset.
      repeat case_decide; destruct_and?; subst;
        rewrite ?valueAt_ClearExpired, ?valueAt_Add, ?valueAt_ClearExpired,
          ?(valueAt_Sub _ _ _ t Hrest) by exact Ht; try lia; exfalso; tauto.
Qed.

(** X3.  A TimeLockToAsset call whose start time is not after the local
    clock and that passes the checks: the required time lock runs from
    [max(start, ts)] for ever.  When the sender's time-lock balance of the
    asset does not cover it the call fails with "not enough time lock
    balance" and nothing changes; otherwise it returns without error, the
    sender's time-lock balance is the old one minus the required time lock,
    cleared of what expired, the receiver's plain balance of the asset goes
    up by the value, and nothing else changes. *)
Theorem TimeLockToAsset_unlocks (env : Env) (msg : Message) (param : FSNCallParam)
    (s : StateDB) :
  let p := decodeTimeLockParam (Data param) in
  let from := From msg in
  let to := tl_To p in
  let asset := tl_AssetID p in
  let ts := ParentTime env in
  let need := [mkItem (Z.max (tl_StartTime p) ts) TimeLockForever (Z.abs (tl_Value p))] in
  Func param = TimeLockFunc ->
  tl_Type p = TimeLockToAsset ->
  tl_StartTime p <= Now env ->
  TimeLockParam_Check
    (mkTimeLockParam (tl_Type p) asset to (tl_StartTime p) TimeLockForever (tl_Value p))
    (BlockNumber env) ts = None ->
  TL.IsValid need = true ->
  exists s',
    tickets s' = tickets s
    /\ if TL.Cmp (tlb s from asset) need <? 0
       then handleFsnCall env msg param s
            = Some (Errorf "not enough time lock balance", s')
            /\ forall addr a, bal s' addr a = bal s addr a /\ tlb s' addr a = tlb s addr a
       else handleFsnCall env msg param s = Some (None, s')
            /\ (forall addr a,
                  bal s' addr a
                  = bal s addr a
                    + (if decide (addr = to /\ a = asset) then tl_Value p else 0))
            /\ (forall addr a, ~ (addr = from /\ a = asset) -> tlb s' addr a = tlb s addr a)
            /\ exists rest,
                 TL.Sub (tlb s from asset) need = Some rest
                 /\ tlb s' from asset = TL.ClearExpired rest ts
                 /\ forall t, ts <= t ->
                      TL.valueAt (tlb s' from asset) t
                      = TL.valueAt (tlb s from asset) t - TL.valueAt need t.
Proof.
  intros p from to asset ts need HFunc Htype Hclock Hcheck Hvalid.
  set (p' := mkTimeLockParam (tl_Type p) asset to (tl_StartTime p) TimeLockForever
               (tl_Value p)) in *.
  assert (handleFsnCall env msg param s = handleTimeLockToAsset env msg p' need s) as ->.
  { unfold handleFsnCall. rewrite HFunc. unfold handleTimeLock. fold p.
    destruct (decide (tl_Type p = TimeLockToAsset)) as [_|?]; [|contradiction].
    destruct (Z.ltb_spec (Now env) (tl_StartTime p)); [lia|].
    fold asset to p' ts. rewrite Hcheck. cbv zeta. rewrite max_start.
    unfold TL.NewTimeLock. cbn [p' tl_StartTime tl_EndTime tl_Value tl_Type].
    fold need. rewrite Hvalid, Htype. reflexivity. }
  apply IsValid_singleton in Hvalid as [Hse Hpos].
  assert (TL.IsEmpty need = false) as Hne by (apply IsEmpty_singleton; lia).
  unfold handleTimeLockToAsset. munfold. change (tl_AssetID p') with asset.
  change (tl_To p') with to. change (tl_Value p') with (tl_Value p). fold from ts.
  destruct (GetTimeLockBalance_st asset from s) as [Ht0 Hs0].
  destruct (GetTimeLockBalance asset from s) as [t0 s0]. simpl in Ht0, Hs0. subst t0.
  destruct (TL.Cmp (tlb s from asset) need <? 0) eqn:Hcmp; cbv beta iota.
  - eexists. split; [|split; [reflexivity|]].
    + simpl. destruct Hs0 as (_ & -> & _). reflexivity.
    + intros addr a. change (bal (AddLog ?l ?x) ?a ?b) with (bal x a b).
      change (tlb (AddLog ?l ?x) ?a ?b) with (tlb x a b).
      split; [apply st_same_bal, Hs0 | apply st_same_tlb, Hs0].
  - destruct (Cmp_nonneg_Sub _ _ Hcmp) as [rest Hrest].
    pose proof (SubTimeLockBalance_st from asset need (BlockNumber env) ts s0) as Hsub.
    rewrite (st_same_tlb _ _ _ _ Hs0) in Hsub. unfold debitTL in Hsub.
    rewrite Hne, Hrest in Hsub. cbn [fmap option_fmap option_map] in Hsub.
    destruct (SubTimeLockBalance from asset need (BlockNumber env) ts s0) as [s1|];
      [|destruct Hsub].
    destruct Hsub as (Ht1 & Hb1 & Hr1).
    set (s2 := AddBalance to asset (tl_Value p) s1).
    destruct (AddBalance_st to asset (tl_Value p) s1) as (Hb2 & Ht2 & Hr2).
    fold s2 in Ht2, Hb2, Hr2.
    assert (tlb s2 from asset = TL.ClearExpired rest ts) as Hfrom.
    { rewrite Ht2, Ht1. destruct (decide (from = from /\ asset = asset)); tauto. }
    eexists. split; [|split; [reflexivity|split; [|split]]].
    + simpl. destruct Hr2 as (_ & -> & _), Hr1 as (_ & -> & _), Hs0 as (_ & -> & _).
      reflexivity.
    + intros addr a. change (bal (AddLog ?l ?x) ?a ?b) with (bal x a b).
      rewrite Hb2, !Hb1, !(st_same_bal _ _ _ _ Hs0).
      clear Hcheck. clearbody to asset. repeat case_decide; destruct_and?; subst; lia.
    + intros addr a Hnf. change (tlb (AddLog ?l ?x) ?a ?b) with (tlb x a b).
      rewrite Ht2, Ht1. case_decide; [tauto|]. apply st_same_tlb, Hs0.
    + exists rest. change (tlb (AddLog ?l ?x) ?a ?b) with (tlb x a b).
      split; [exact Hrest|]. split; [exact Hfrom|]. intros t Ht.
      rewrite Hfrom, valueAt_ClearExpired by exact Ht. apply valueAt_Sub, Hrest.
Qed.

(** X4.  An AssetToTimeLock call to the sender's own address that passes
    the checks: when the sender holds less than the value of the asset it
    fails with "not enough asset" and nothing changes; otherwise the plain
    balance goes down by the value and the whole value is added to the
    sender's time-lock balance from the parent-block time for ever,
    whatever interval the call asked for; nothing else changes. *)
Theorem AssetToTimeLock_to_self (env : Env) (msg : Message) (param : FSNCallParam)
    (s : StateDB) :
  let p := decodeTimeLockParam (Data param) in
  let from := From msg in
  let asset := tl_AssetID p in
  let ts := ParentTime env in
  let value := tl_Value p in
  let need := [mkItem (Z.max (tl_StartTime p) ts) (tl_EndTime p) (Z.abs value)] in
  Func param = TimeLockFunc ->
  tl_Type p = AssetToTimeLock ->
  tl_To p = from ->
  TimeLockParam_Check p (BlockNumber env) ts = None ->
  TL.IsValid need = true ->
  0 <= value ->
  exists s',
    tickets s' = tickets s
    /\ if bal s from asset <? value
       then handleFsnCall env msg param s = Some (Errorf "not enough asset", s')
            /\ forall addr a, bal s' addr a = bal s addr a /\ tlb s' addr a = tlb s addr a
       else handleFsnCall env msg param s = Some (None, s')
            /\ bal s' from asset = bal s from asset - value
            /\ tlb s' from asset
               = TL.ClearExpired
                   (TL.Add (tlb s from asset) [mkItem ts TimeLockForever value]) ts
            /\ forall addr a, ~ (addr = from /\ a = asset) ->
                 bal s' addr a = bal s addr a /\ tlb s' addr a = tlb s addr a.
Proof.
  intros p from asset ts value need HFunc Htype Hto Hcheck Hvalid Hval.
  pose proof (handleTimeLock_case env msg param s HFunc) as Hrun. cbv zeta in Hrun.
  fold p in Hrun. rewrite Htype in Hrun.
  destruct (decide (AssetToTimeLock = TimeLockToAsset)) as [?|_]; [discriminate|].
  rewrite Htype in Hrun. fold ts value need in Hrun.
  rewrite Hrun by (assumption || discriminate). clear Hrun.
  apply IsValid_singleton in Hvalid as [Hse Hpos].
  unfold handleAssetToTimeLock. munfold. fold from asset ts value. rewrite Hto.
  rewrite (Z.abs_eq value) by exact Hval.
  destruct (decide (from = from)) as [_|?]; [|contradiction].
  destruct (GetBalance_st asset from s) as [Hb0 Hs0].
  destruct (GetBalance asset from s) as [b s0]. simpl in Hb0, Hs0. subst b.
  destruct (bal s from asset <? value) eqn:Hlt; cbv beta iota.
  - eexists. split; [|split; [reflexivity|]].
    + simpl. destruct Hs0 as (_ & -> & _). reflexivity.
    + intros addr a. change (bal (AddLog ?l ?x) ?a ?b) with (bal x a b).
      change (tlb (AddLog ?l ?x) ?a ?b) with (tlb x a b).
      split; [apply st_same_bal, Hs0 | apply st_same_tlb, Hs0].
  - set (s1 := SubBalance from asset value s0).
    destruct (SubBalance_st from asset value s0) as (Hb1 & Ht1 & Hr1).
    fold s1 in Hb1, Ht1, Hr1.
    set (total := TL.NewTimeLock (mkItem ts TimeLockForever value)).
    set (s2 := AddTimeLockBalance from asset total (BlockNumber env) ts s1).
    destruct (AddTimeLockBalance_st from asset total (BlockNumber env) ts s1)
      as (Ht2 & Hb2 & Hr2). fold s2 in Ht2, Hb2, Hr2.
    unfold creditTL in Ht2. unfold total at 1, TL.NewTimeLock in Ht2.
    rewrite IsEmpty_singleton in Ht2 by (rewrite Z.abs_eq in Hpos; lia).
    eexists. split; [|split; [reflexivity|split; [|split]]].
    + simpl. destruct Hr2 as (_ & -> & _), Hr1 as (_ & -> & _), Hs0 as (_ & -> & _).
      reflexivity.
    + change (bal (AddLog ?l ?x) ?a ?b) with (bal x a b).
      rewrite Hb2, Hb1, (st_same_bal _ _ _ _ Hs0).
      destruct (decide (from = from /\ asset = asset)); tauto.
    + change (tlb (AddLog ?l ?x) ?a ?b) with (tlb x a b).
      rewrite Ht2, Ht1, (st_same_tlb _ _ _ _ Hs0).
      destruct (decide (from = from /\ asset = asset)); [reflexivity | tauto].
    + intros addr a Hother. change (bal (AddLog ?l ?x) ?a ?b) with (bal x a b).
      change (tlb (AddLog ?l ?x) ?a ?b) with (tlb x a b).
      rewrite Hb2, Hb1, Ht2, !Ht1.
      repeat case_decide; try tauto. split; [apply st_same_bal, Hs0 | apply st_same_tlb, Hs0].
Qed.

End TimeLockFacts.

(** Evaluates the test of a conditional fact. *)
Ltac eval_if H :=
  match type of H with
  | (if ?c then _ else _) => let v := eval vm_compute in c in change c with v in H
  end.

Lemma TimeLockToTimeLock_moves_lock_witness :
  exists s',
    handleFsnCall (H := lockToLock_externals) demo_env demo_msg
      (mkFSNCallParam TimeLockFunc []) demo_state = Some (None, s')
    /\ TL.valueAt (tlb s' (BigToAddress 1) (BigToHash 7)) 1500 = 60
    /\ TL.valueAt (tlb s' (BigToAddress 2) (BigToHash 7)) 1500 = 40.
Proof.
  destruct (TimeLockToTimeLock_moves_lock (H := lockToLock_externals) demo_env demo_msg
              (mkFSNCallParam TimeLockFunc []) demo_state eq_refl eq_refl eq_refl eq_refl)
    as (s' & _ & _ & Hif).
  eval_if Hif. destruct Hif as (Hrun & _ & Hval). exists s'. split; [exact Hrun|].
  split; (etransitivity; [apply Hval; vm_compute; discriminate | vm_compute; reflexivity]).
Defined.

Lemma TimeLockToAsset_unlocks_witness :
  exists s',
    handleFsnCall (H := lockToAsset_externals) demo_env demo_msg
      (mkFSNCallParam TimeLockFunc []) demo_state = Some (None, s')
    /\ bal s' (BigToAddress 2) (BigToHash 7) = 40
    /\ TL.valueAt (tlb s' (BigToAddress 1) (BigToHash 7)) 600 = 60.
Proof.
  destruct (TimeLockToAsset_unlocks (H := lockToAsset_externals) demo_env demo_msg
              (mkFSNCallParam TimeLockFunc []) demo_state eq_refl eq_refl)
    as (s' & _ & Hif); [vm_compute; discriminate | reflexivity | reflexivity |].
  eval_if Hif. destruct Hif as (Hrun & Hbal & _ & rest & _ & _ & Hval).
  exists s'. split; [exact Hrun|]. split.
  - etransitivity; [apply Hbal | vm_compute; reflexivity].
  - etransitivity; [apply Hval; vm_compute; discriminate | vm_compute; reflexivity].
Defined.

Lemma AssetToTimeLock_to_self_witness :
  exists s',
    handleFsnCall (H := selfLock_externals) demo_env demo_msg
      (mkFSNCallParam TimeLockFunc []) demo_state = Some (None, s')
    /\ bal s' (BigToAddress 1) (BigToHash 7) = 60
    /\ tlb s' (BigToAddress 1) (BigToHash 7) = [mkItem 500 TimeLockForever 140].
Proof.
  destruct (AssetToTimeLock_to_self (H := selfLock_externals) demo_env demo_msg
              (mkFSNCallParam TimeLockFunc []) demo_state eq_refl eq_refl eq_refl eq_refl
              eq_refl)
    as (s' & _ & Hif); [vm_compute; discriminate|].
  eval_if Hif. destruct Hif as (Hrun & Hbal & Htl & _).
  exists s'. split; [exact Hrun|]. split.
  - etransitivity; [apply Hbal | vm_compute; reflexivity].
  - etransitivity; [apply Htl | vm_compute; reflexivity].
Defined.

(** ** The structured storage as a key-value store *)

Section StorageFacts.
Context `{Externals}.

Lemma readSlots_ext o o2 ki size l : forall acc,
  Forall (fun i => SO.GetState o2 (slotKey ki i) = SO.GetState o (slotKey ki i)) l ->
  foldl (readSlot o2 ki size) acc l = foldl (readSlot o ki size) acc l.
Proof.
  induction l as [|i l IH]; intros acc Hl; [reflexivity|].
  apply Forall_cons in Hl as [Hi Hl]. simpl. rewrite <- IH by exact Hl.
  f_equal. unfold readSlot. rewrite Hi. reflexivity.
Qed.

(** A read only looks at the cells of its key. *)
Lemma readStructData_ext o o2 key :
  Forall (fun c => SO.GetState o2 c = SO.GetState o c) (cells key (storedSlots o key)) ->
  readStructData o2 key = readStructData o key.
Proof.
  unfold cells, storedSlots. intros Hc. apply Forall_cons in Hc as [Hhdr Hslots].
  unfold readStructData. rewrite Hhdr. apply readSlots_ext.
  rewrite Forall_fmap in Hslots. exact Hslots.
Qed.

(** A write only changes the cells of its key. *)
Lemma GetState_writeStructData_other key value o c :
  c ∉ cells key (slotCount (length value)) ->
  SO.GetState (writeStructData key value o) c = SO.GetState o c.
Proof.
  unfold cells. intros Hc. apply not_elem_of_cons in Hc as [Hhdr Hslots].
  unfold writeStructData. cbv zeta. rewrite slotCount_code, GetState_SetNonce.
  rewrite writeSlots_other by exact Hslots.
  unfold SO.GetState, SO.SetState. simpl. rewrite lookup_insert_ne by congruence.
  reflexivity.
Qed.

(** A read after a write under the same key finds the value written. *)
Lemma readStructData_write_eq key value o :
  Z.of_nat (length value) < 2 ^ 31 ->
  NoDup (cells key (slotCount (length value))) ->
  readStructData (writeStructData key value o) key = Some value.
Proof.
  intros Hsize Hnd.
  destruct (slotCount_bounds (length value)) as (Hcover & Hlast & Hle).
  destruct (writeStructData_storage key value o Hnd) as [Hinfo Hslots].
  set (n := slotCount (length value)) in *. set (o' := writeStructData key value o) in *.
  unfold readStructData. rewrite Hinfo.
  change (take 4 (IntToBytes ?a ++ ?r)) with (IntToBytes a).
  change (take 4 (drop 16 (IntToBytes ?a ++ replicate 12 ?z ++ IntToBytes ?b ++ ?r)))
    with (IntToBytes b).
  rewrite !BytesToInt_IntToBytes by lia. rewrite !Nat2Z.id.
  rewrite (readSlots_prefix o' _ value n n Hslots) by (lia || exact Hlast).
  rewrite take_ge by lia.
  replace (length value - n * 32)%nat with O by lia.
  simpl. rewrite app_nil_r. reflexivity.
Qed.

(** A read under another key is not disturbed by the write, when the cells
    it looks at are none of the cells written. *)
Lemma readStructData_write_ne key value key' o :
  Forall (fun c => c ∉ cells key (slotCount (length value)))
         (cells key' (storedSlots o key')) ->
  readStructData (writeStructData key value o) key' = readStructData o key'.
Proof.
  intros Hdisj. apply readStructData_ext.
  eapply Forall_impl; [exact Hdisj|]. intros c Hc.
  apply GetState_writeStructData_other, Hc.
Qed.

Lemma writeSlots_nonce keyIndex value l : forall o,
  nonce (foldl (writeSlot keyIndex value) o l) = nonce o.
Proof. induction l as [|i l IH]; intros o; [reflexivity|]. simpl. rewrite IH. reflexivity. Qed.

Lemma writeStructData_nonce key value o :
  nonce (writeStructData key value o) = u64 (nonce o + 1).
Proof. unfold writeStructData. cbv zeta. simpl. rewrite writeSlots_nonce. reflexivity. Qed.

Lemma GetOrNewStateObject_view addr s :
  (GetOrNewStateObject addr s).1 = view s addr
  /\ st_same (GetOrNewStateObject addr s).2 s
  /\ is_Some (stateObjects (GetOrNewStateObject addr s).2 !! addr).
Proof.
  unfold GetOrNewStateObject, getStateObject, view.
  destruct (stateObjects s !! addr) as [o|] eqn:Ho; simpl.
  - split; [reflexivity|]. split; [apply st_same_refl | rewrite Ho; eauto].
  - split; [reflexivity|]. split; [|rewrite lookup_insert_eq; eauto].
    split; [|split; reflexivity].
    intros addr'. unfold view. simpl.
    destruct (decide (addr' = addr)) as [->|Hne].
    + rewrite lookup_insert_eq, Ho. apply obj_same_refl.
    + rewrite lookup_insert_ne by congruence. apply obj_same_refl.
Qed.

(** [GetStructData] returns what is stored and leaves a state that reads
    the same. *)
Lemma GetStructData_stored addr key s :
  match stored s addr key with
  | Some d => exists s', GetStructData addr (Some key) s = Some (Some d, s') /\ st_same s' s
  | None => GetStructData addr (Some key) s = None
  end.
Proof.
  unfold stored, GetStructData.
  destruct (GetOrNewStateObject_view addr s) as (Ho & Hs & _).
  destruct (GetOrNewStateObject addr s) as [o s1]. simpl in Ho, Hs. subst o.
  destruct (readStructData (view s addr) key); eauto.
Qed.

Lemma stored_st_rest s s' addr key : st_rest s' s -> stored s' addr key = stored s addr key.
Proof.
  intros [Hv _]. unfold stored. apply readStructData_storage.
  destruct (Hv addr) as (_ & _ & _ & Hst). exact Hst.
Qed.

Lemma view_SetStructData addr key value s addr' :
  view (SetStructData addr (Some key) (Some value) s) addr'
  = if decide (addr' = addr) then writeStructData key value (view s addr) else view s addr'.
Proof. unfold SetStructData. apply view_onObject. Qed.

Lemma stored_SetStructData_eq addr key value s :
  Z.of_nat (length value) < 2 ^ 31 ->
  NoDup (cells key (slotCount (length value))) ->
  stored (SetStructData addr (Some key) (Some value) s) addr key = Some value.
Proof.
  intros Hsize Hnd. unfold stored. rewrite view_SetStructData.
  destruct (decide (addr = addr)) as [_|?]; [|contradiction].
  apply readStructData_write_eq; assumption.
Qed.

Lemma stored_SetStructData_ne addr key value s addr' key' :
  addr' <> addr
  \/ Forall (fun c => c ∉ cells key (slotCount (length value)))
            (cells key' (storedSlots (view s addr') key')) ->
  stored (SetStructData addr (Some key) (Some value) s) addr' key' = stored s addr' key'.
Proof.
  intros Hother. unfold stored. rewrite view_SetStructData.
  destruct (decide (addr' = addr)) as [->|Hne]; [|reflexivity].
  destruct Hother as [?|Hdisj]; [contradiction|].
  apply readStructData_write_ne, Hdisj.
Qed.

(** X5.  The structured storage is a key-value store per address: a write
    under a key of an address changes no balance, no time-lock balance, no
    notation and no ticket, raises the nonce of that address by one (as a
    uint64) and leaves every other account as it was; a read under the same
    key then returns the value written (when its length fits the size field
    and its cells do not collide); and a read under any other address, or
    under a key of the same address whose cells are none of the cells
    written, returns what it returned before.  A write with a [nil] key or a
    [nil] value does nothing, and a read with a [nil] key returns [nil]. *)
Theorem SetStructData_key_value_store (s : StateDB) (addr : Address) (key value : Bytes) :
  let s' := SetStructData addr (Some key) (Some value) s in
  (forall a x, bal s' a x = bal s a x /\ tlb s' a x = tlb s a x)
  /\ (forall a, GetNotation a s' = GetNotation a s)
  /\ tickets s' = tickets s
  /\ nonce (view s' addr) = u64 (nonce (view s addr) + 1)
  /\ (forall a, a <> addr -> view s' a = view s a)
  /\ (Z.of_nat (length value) < 2 ^ 31 ->
      NoDup (cells key (slotCount (length value))) ->
      exists s2, GetStructData addr (Some key) s' = Some (Some value, s2) /\ st_same s2 s')
  /\ (forall addr' key',
        addr' <> addr
        \/ Forall (fun c => c ∉ cells key (slotCount (length value)))
                  (cells key' (storedSlots (view s addr') key')) ->
        fst <$> GetStructData addr' (Some key') s' = fst <$> GetStructData addr' (Some key') s)
  /\ (forall v, SetStructData addr None v s = s)
  /\ (forall k, SetStructData addr k None s = s)
  /\ GetStructData addr None s = Some (None, s).
Proof.
  intros s'.
  destruct (SetStructData_st addr (Some key) (Some value) s) as (Hb & Ht & Htk).
  fold s' in Hb, Ht, Htk.
  split; [intros a x; split; [apply Hb | apply Ht]|].
  split.
  { intros a. unfold GetNotation, getStateObject.
    assert (Notaion (data (view s' a)) = Notaion (data (view s a))) as Hn.
    { unfold s'. rewrite view_SetStructData. case_decide; [subst|reflexivity].
      rewrite writeStructData_data. reflexivity. }
    unfold s', SetStructData, onObject, GetOrNewStateObject, getStateObject in *.
    unfold view in Hn. simpl in Hn.
    destruct (stateObjects s !! addr) as [o|] eqn:Ho; simpl in *;
      destruct (decide (a = addr)) as [->|Hne];
      rewrite ?lookup_insert_eq, ?lookup_insert_ne in * by congruence;
      rewrite ?Ho in *; simpl in *; try exact Hn; reflexivity. }
  split; [exact Htk|].
  split.
  { unfold s'. rewrite view_SetStructData.
    destruct (decide (addr = addr)) as [_|?]; [|contradiction].
    apply writeStructData_nonce. }
  split.
  { intros a Ha. unfold s'. rewrite view_SetStructData. case_decide; [contradiction|].
    reflexivity. }
  split.
  { intros Hsize Hnd. pose proof (GetStructData_stored addr key s') as Hget.
    unfold s' in Hget at 1. rewrite stored_SetStructData_eq in Hget by assumption.
    exact Hget. }
  split.
  { intros addr' key' Hother.
    pose proof (GetStructData_stored addr' key' s') as Hget'.
    pose proof (GetStructData_stored addr' key' s) as Hget.
    unfold s' in Hget' at 1. rewrite stored_SetStructData_ne in Hget' by exact Hother.
    destruct (stored s addr' key') as [d|].
    - destruct Hget' as (s2 & -> & _), Hget as (s3 & -> & _). reflexivity.
    - rewrite Hget', Hget. reflexivity. }
  split; [reflexivity|]. split; [intros [k|]; reflexivity | reflexivity].
Qed.

End StorageFacts.

(** ** The swap and asset registries *)

Section RegistryFacts.
Context `{Externals} `{StateExternals}.

Lemma GetSwap_stored id s :
  match stored s SwapKeyAddress id with
  | Some d => exists s', GetSwap id s = Some (swapOf d, s') /\ st_same s' s
  | None => GetSwap id s = None
  end.
Proof.
  pose proof (GetStructData_stored SwapKeyAddress id s) as Hget.
  unfold GetSwap. munfold.
  destruct (stored s SwapKeyAddress id) as [d|].
  - destruct Hget as (s' & -> & Hs). exists s'. split; [|exact Hs].
    unfold swapOf. destruct d as [|b d]; [reflexivity|].
    destruct (sp_Deleted _); reflexivity.
  - rewrite Hget. reflexivity.
Qed.

Lemma GetAsset_stored id s :
  match stored s AssetKeyAddress id with
  | Some d => exists s', GetAsset id s = Some (assetOf d, s') /\ st_same s' s
  | None => GetAsset id s = None
  end.
Proof.
  pose proof (GetStructData_stored AssetKeyAddress id s) as Hget.
  unfold GetAsset. munfold.
  destruct (stored s AssetKeyAddress id) as [d|].
  - destruct Hget as (s' & -> & Hs). exists s'. split; [|exact Hs].
    unfold assetOf. destruct d as [|b d]; [reflexivity|].
    destruct (ap_Deleted _); reflexivity.
  - rewrite Hget. reflexivity.
Qed.

(** A run of [GetSwap] tells what is stored. *)
Lemma GetSwap_run id s r s0 :
  GetSwap id s = Some (r, s0) ->
  st_same s0 s /\ exists d, stored s SwapKeyAddress id = Some d /\ r = swapOf d.
Proof.
  intros Hrun. pose proof (GetSwap_stored id s) as Hst.
  destruct (stored s SwapKeyAddress id) as [d|]; [|congruence].
  destruct Hst as (s' & Hget & Hs). rewrite Hrun in Hget. injection Hget as -> ->.
  split; [exact Hs|]. eauto.
Qed.

(** After the bytes of a record have been written under an id, [GetSwap]
    reads that record. *)
Lemma GetSwap_after_write id data s :
  Z.of_nat (length data) < 2 ^ 31 ->
  NoDup (cells id (slotCount (length data))) ->
  let s1 := SetStructData SwapKeyAddress (Some id) (Some data) s in
  exists s2, GetSwap id s1 = Some (swapOf data, s2) /\ st_same s2 s1.
Proof.
  intros Hsize Hnd s1. pose proof (GetSwap_stored id s1) as Hst.
  unfold s1 in Hst at 1. rewrite stored_SetStructData_eq in Hst by assumption.
  exact Hst.
Qed.

(** X6.  [AddSwap] refuses a swap whose id [GetSwap] finds, with the
    "Swap exists" error and no change that a read can tell.  When [GetSwap]
    reports an error for the id (never stored, or stored and deleted) and
    the record encodes, [AddSwap] returns nil, [GetSwap] of the id then
    returns the swap, a second [AddSwap] of it is refused, and no balance
    changes.  [UpdateSwap] writes the record without looking: afterwards
    [GetSwap] returns the swap whatever was stored before. *)
Theorem AddSwap_registers (s : StateDB) (swap : Swap) :
  let id := sw_ID swap in
  (forall x s0, GetSwap id s = Some (inr x, s0) ->
     AddSwap swap s = Some (Some (Hash_String id ++ " Swap exists")%string, s0)
     /\ st_same s0 s)
  /\ (forall data,
        encodeSwapPersist (mkSwapPersist false swap) = inr data ->
        decodeSwapPersist data = mkSwapPersist false swap ->
        data <> [] -> Z.of_nat (length data) < 2 ^ 31 ->
        NoDup (cells id (slotCount (length data))) ->
        (forall e s0, GetSwap id s = Some (inl e, s0) ->
           exists s1 s2 s3,
             AddSwap swap s = Some (None, s1)
             /\ GetSwap id s1 = Some (inr swap, s2) /\ st_same s2 s1
             /\ AddSwap swap s1
                = Some (Some (Hash_String id ++ " Swap exists")%string, s3)
             /\ forall a x, bal s1 a x = bal s a x /\ tlb s1 a x = tlb s a x)
        /\ exists s1 s2,
             UpdateSwap swap s = Some (None, s1)
             /\ GetSwap id s1 = Some (inr swap, s2) /\ st_same s2 s1).
Proof.
  intros id. split.
  - intros x s0 Hget. destruct (GetSwap_run _ _ _ _ Hget) as [Hs _].
    unfold AddSwap. munfold. fold id. rewrite Hget. split; [reflexivity | exact Hs].
  - intros data Henc Hdec Hne Hsize Hnd.
    assert (swapOf data = inr swap) as Hof.
    { unfold swapOf. destruct data as [|b d]; [contradiction|]. rewrite Hdec. reflexivity. }
    split.
    + intros e s0 Hget. destruct (GetSwap_run _ _ _ _ Hget) as [Hs0 _].
      destruct (GetSwap_after_write id data s0 Hsize Hnd) as (s2 & Hget1 & Hs2).
      rewrite Hof in Hget1.
      set (s1 := SetStructData SwapKeyAddress (Some id) (Some data) s0) in *.
      exists s1, s2, s2. split; [|split; [exact Hget1|split; [exact Hs2|split]]].
      * unfold AddSwap. munfold. fold id. rewrite Hget, Henc. reflexivity.
      * unfold AddSwap. munfold. fold id. rewrite Hget1. reflexivity.
      * intros a x. destruct (SetStructData_st SwapKeyAddress (Some id) (Some data) s0)
          as (Hb & Ht & _). fold s1 in Hb, Ht.
        rewrite Hb, Ht. split; [apply st_same_bal, Hs0 | apply st_same_tlb, Hs0].
    + destruct (GetSwap_after_write id data s Hsize Hnd) as (s2 & Hget1 & Hs2).
      rewrite Hof in Hget1. eexists _, s2. split; [|split; [exact Hget1 | exact Hs2]].
      unfold UpdateSwap. munfold. rewrite Henc. reflexivity.
Qed.

(** X7.  [RemoveSwap] of an id for which [GetSwap] reports an error fails
    with "Swap not found" and changes nothing that a read can tell.
    [RemoveSwap] of a live swap writes the record back with the deleted
    flag: it returns nil, [GetSwap] of the id then fails with "swap
    deleted", a second [RemoveSwap] fails with "Swap not found", and no
    balance changes. *)
Theorem RemoveSwap_marks_deleted (s : StateDB) (id : Hash) :
  (forall e s0, GetSwap id s = Some (inl e, s0) ->
     RemoveSwap id s = Some (Some (Hash_String id ++ " Swap not found ")%string, s0)
     /\ st_same s0 s)
  /\ (forall swap s0 data,
        GetSwap id s = Some (inr swap, s0) ->
        encodeSwapPersist (mkSwapPersist true swap) = inr data ->
        sp_Deleted (decodeSwapPersist data) = true ->
        data <> [] -> Z.of_nat (length data) < 2 ^ 31 ->
        NoDup (cells id (slotCount (length data))) ->
        exists s1 s2 s3,
          RemoveSwap id s = Some (None, s1)
          /\ GetSwap id s1 = Some (inl "swap deleted"%string, s2) /\ st_same s2 s1
          /\ RemoveSwap id s1
             = Some (Some (Hash_String id ++ " Swap not found ")%string, s3)
          /\ forall a x, bal s1 a x = bal s a x /\ tlb s1 a x = tlb s a x).
Proof.
  split.
  - intros e s0 Hget. destruct (GetSwap_run _ _ _ _ Hget) as [Hs _].
    unfold RemoveSwap. munfold. rewrite Hget. split; [reflexivity | exact Hs].
  - intros swap s0 data Hget Henc Hdec Hne Hsize Hnd.
    destruct (GetSwap_run _ _ _ _ Hget) as [Hs0 _].
    assert (swapOf data = inl "swap deleted"%string) as Hof.
    { unfold swapOf. destruct data as [|b d]; [contradiction|]. rewrite Hdec. reflexivity. }
    destruct (GetSwap_after_write id data s0 Hsize Hnd) as (s2 & Hget1 & Hs2).
    rewrite Hof in Hget1.
    set (s1 := SetStructData SwapKeyAddress (Some id) (Some data) s0) in *.
    exists s1, s2, s2. split; [|split; [exact Hget1|split; [exact Hs2|split]]].
    + unfold RemoveSwap. munfold. rewrite Hget, Henc. reflexivity.
    + unfold RemoveSwap. munfold. rewrite Hget1. reflexivity.
    + intros a x. destruct (SetStructData_st SwapKeyAddress (Some id) (Some data) s0)
        as (Hb & Ht & _). fold s1 in Hb, Ht.
      rewrite Hb, Ht. split; [apply st_same_bal, Hs0 | apply st_same_tlb, Hs0].
Qed.

(** After the bytes of a record have been written under an id, [GetAsset]
    reads that record. *)
Lemma GetAsset_after_write id data s :
  Z.of_nat (length data) < 2 ^ 31 ->
  NoDup (cells id (slotCount (length data))) ->
  let s1 := SetStructData AssetKeyAddress (Some id) (Some data) s in
  exists s2, GetAsset id s1 = Some (assetOf data, s2) /\ st_same s2 s1.
Proof.
  intros Hsize Hnd s1. pose proof (GetAsset_stored id s1) as Hst.
  unfold s1 in Hst at 1. rewrite stored_SetStructData_eq in Hst by assumption.
  exact Hst.
Qed.

Lemma GetAsset_run id s r s0 :
  GetAsset id s = Some (r, s0) ->
  st_same s0 s /\ exists d, stored s AssetKeyAddress id = Some d /\ r = assetOf d.
Proof.
  intros Hrun. pose proof (GetAsset_stored id s) as Hst.
  destruct (stored s AssetKeyAddress id) as [d|]; [|congruence].
  destruct Hst as (s' & Hget & Hs). rewrite Hrun in Hget. injection Hget as -> ->.
  split; [exact Hs|]. eauto.
Qed.

(** X8.  [GenAsset] refuses an asset whose id [GetAsset] finds, with the
    "asset exists" error and no change that a read can tell; for an id
    that [GetAsset] does not find it stores the record, after which
    [GetAsset] returns the asset and a second [GenAsset] is refused.
    [UpdateAsset] overwrites the record without looking.  Neither changes
    a balance. *)
Theorem GenAsset_registers (s : StateDB) (asset : Asset) :
  let id := as_ID asset in
  (forall x s0, GetAsset id s = Some (inr x, s0) ->
     GenAsset asset s = Some (Some (Hash_String id ++ " asset exists")%string, s0)
     /\ st_same s0 s)
  /\ (forall data,
        encodeAssetPersist (mkAssetPersist false asset) = inr data ->
        decodeAssetPersist data = mkAssetPersist false asset ->
        data <> [] -> Z.of_nat (length data) < 2 ^ 31 ->
        NoDup (cells id (slotCount (length data))) ->
        (forall e s0, GetAsset id s = Some (inl e, s0) ->
           exists s1 s2 s3,
             GenAsset asset s = Some (None, s1)
             /\ GetAsset id s1 = Some (inr asset, s2) /\ st_same s2 s1
             /\ GenAsset asset s1
                = Some (Some (Hash_String id ++ " asset exists")%string, s3)
             /\ forall a x, bal s1 a x = bal s a x /\ tlb s1 a x = tlb s a x)
        /\ exists s1 s2,
             UpdateAsset asset s = Some (None, s1)
             /\ GetAsset id s1 = Some (inr asset, s2) /\ st_same s2 s1
             /\ forall a x, bal s1 a x = bal s a x /\ tlb s1 a x = tlb s a x).
Proof.
  intros id. split.
  - intros x s0 Hget. destruct (GetAsset_run _ _ _ _ Hget) as [Hs _].
    unfold GenAsset. munfold. fold id. rewrite Hget. split; [reflexivity | exact Hs].
  - intros data Henc Hdec Hne Hsize Hnd.
    assert (assetOf data = inr asset) as Hof.
    { unfold assetOf. destruct data as [|b d]; [contradiction|]. rewrite Hdec. reflexivity. }
    split.
    + intros e s0 Hget. destruct (GetAsset_run _ _ _ _ Hget) as [Hs0 _].
      destruct (GetAsset_after_write id data s0 Hsize Hnd) as (s2 & Hget1 & Hs2).
      rewrite Hof in Hget1.
      set (s1 := SetStructData AssetKeyAddress (Some id) (Some data) s0) in *.
      exists s1, s2, s2. split; [|split; [exact Hget1|split; [exact Hs2|split]]].
      * unfold GenAsset. munfold. fold id. rewrite Hget, Henc. reflexivity.
      * unfold GenAsset. munfold. fold id. rewrite Hget1. reflexivity.
      * intros a x. destruct (SetStructData_st AssetKeyAddress (Some id) (Some data) s0)
          as (Hb & Ht & _). fold s1 in Hb, Ht.
        rewrite Hb, Ht. split; [apply st_same_bal, Hs0 | apply st_same_tlb, Hs0].
    + destruct (GetAsset_after_write id data s Hsize Hnd) as (s2 & Hget1 & Hs2).
      rewrite Hof in Hget1. eexists _, s2.
      split; [|split; [exact Hget1 | split; [exact Hs2|]]].
      * unfold UpdateAsset. munfold. rewrite Henc. reflexivity.
      * intros a x. destruct (SetStructData_st AssetKeyAddress (Some id) (Some data) s)
          as (Hb & Ht & _). rewrite Hb, Ht. split; reflexivity.
Qed.

End RegistryFacts.

Lemma AddSwap_registers_witness :
  exists s1 s2,
    AddSwap (H := registryExternals) demoSwap emptyState = Some (None, s1)
    /\ GetSwap (H := registryExternals) (BigToHash 5) s1 = Some (inr demoSwap, s2).
Proof.
  destruct (proj2 (AddSwap_registers (H := registryExternals) emptyState demoSwap)
              ["001"%byte] eq_refl eq_refl) as [Hadd _].
  - discriminate.
  - vm_compute. reflexivity.
  - apply (bool_decide_unpack _). vm_compute. exact I.
  - destruct (Hadd "swap not found"%string
                (set_stateObjects (insert (BigToAddress (2 ^ 160 - 2)) newObject) emptyState))
      as (s1 & s2 & _ & Hrun & Hget & _); [vm_compute; reflexivity|].
    exists s1, s2. split; [exact Hrun | exact Hget].
Defined.

Lemma RemoveSwap_marks_deleted_witness :
  let s := SetStructData (H := registryExternals) (BigToAddress (2 ^ 160 - 2))
             (Some (BigToHash 5)) (Some ["001"%byte]) emptyState in
  exists s1 s2,
    RemoveSwap (H := registryExternals) (BigToHash 5) s = Some (None, s1)
    /\ GetSwap (H := registryExternals) (BigToHash 5) s1
       = Some (inl "swap deleted"%string, s2).
Proof.
  intros s.
  destruct (proj2 (RemoveSwap_marks_deleted (H := registryExternals) s (BigToHash 5))
              demoSwap s ["002"%byte]) as (s1 & s2 & _ & Hrun & Hget & _).
  - vm_compute. reflexivity.
  - reflexivity.
  - reflexivity.
  - discriminate.
  - vm_compute. reflexivity.
  - apply (bool_decide_unpack _). vm_compute. exact I.
  - exists s1, s2. split; [exact Hrun | exact Hget].
Defined.

Lemma GenAsset_registers_witness :
  exists s1 s2,
    GenAsset (H := registryExternals) (H0 := registryStateExternals) demoAsset emptyState
    = Some (None, s1)
    /\ GetAsset (H := registryExternals) (BigToHash 8) s1 = Some (inr demoAsset, s2).
Proof.
  destruct (proj2 (GenAsset_registers (H := registryExternals)
                     (H0 := registryStateExternals) emptyState demoAsset)
              ["001"%byte] eq_refl eq_refl) as [Hadd _].
  - discriminate.
  - vm_compute. reflexivity.
  - apply (bool_decide_unpack _). vm_compute. exact I.
  - destruct (Hadd "asset not found"%string
                (set_stateObjects (insert (BigToAddress (2 ^ 160 - 3)) newObject) emptyState))
      as (s1 & s2 & _ & Hrun & Hget & _); [vm_compute; reflexivity|].
    exists s1, s2. split; [exact Hrun | exact Hget].
Defined.

(** ** The report registry *)

Section ReportFacts.
Context `{Externals} `{StateExternals}.

Lemma IsReportExist_stored report s :
  match stored s ReportKeyAddress (Keccak256 (default [] report)) with
  | Some d => exists s', IsReportExist report s = Some (bool_decide (0 < length d)%nat, s')
                         /\ st_same s' s
  | None => IsReportExist report s = None
  end.
Proof.
  pose proof (GetStructData_stored ReportKeyAddress (Keccak256 (default [] report)) s) as Hget.
  unfold IsReportExist. munfold.
  destruct (stored s ReportKeyAddress _) as [d|].
  - destruct Hget as (s' & -> & Hs). exists s'. split; [reflexivity | exact Hs].
  - rewrite Hget. reflexivity.
Qed.

(** X9.  [AddReport] refuses a report that [IsReportExist] finds, with
    "AddReport error: report exists" and no change that a read can tell.
    A report that is not found and is not empty is stored under its
    Keccak256 hash: [AddReport] returns nil, [IsReportExist] then finds it
    and a second [AddReport] is refused.  An empty report is accepted but
    never found afterwards, since the test is on the length of what is
    stored; a [nil] report is accepted and writes nothing. *)
Theorem AddReport_once (s : StateDB) :
  (forall report s0,
     IsReportExist report s = Some (true, s0) ->
     AddReport report s = Some (Some "AddReport error: report exists"%string, s0)
     /\ st_same s0 s)
  /\ (forall b s0,
        IsReportExist (Some b) s = Some (false, s0) ->
        b <> [] -> Z.of_nat (length b) < 2 ^ 31 ->
        NoDup (cells (Keccak256 b) (slotCount (length b))) ->
        exists s1 s2 s3,
          AddReport (Some b) s = Some (None, s1)
          /\ IsReportExist (Some b) s1 = Some (true, s2)
          /\ AddReport (Some b) s1
             = Some (Some "AddReport error: report exists"%string, s3)
          /\ forall a x, bal s1 a x = bal s a x /\ tlb s1 a x = tlb s a x)
  /\ (forall s0,
        IsReportExist (Some []) s = Some (false, s0) ->
        exists s1 s2,
          AddReport (Some []) s = Some (None, s1)
          /\ IsReportExist (Some []) s1 = Some (false, s2))
  /\ (forall s0,
        IsReportExist None s = Some (false, s0) ->
        AddReport None s = Some (None, s0)).
Proof.
  split; [|split; [|split]].
  - intros report s0 Hex. unfold AddReport. munfold. rewrite Hex.
    split; [reflexivity|].
    pose proof (IsReportExist_stored report s) as Hst.
    destruct (stored s ReportKeyAddress _); [|congruence].
    destruct Hst as (s' & Hrun & Hs). congruence.
  - intros b s0 Hex Hne Hsize Hnd.
    assert (st_same s0 s) as Hs0.
    { pose proof (IsReportExist_stored (Some b) s) as Hst.
      destruct (stored s ReportKeyAddress _); [|congruence].
      destruct Hst as (s' & Hrun & Hs). congruence. }
    set (s1 := SetStructData ReportKeyAddress (Some (Keccak256 b)) (Some b) s0).
    pose proof (IsReportExist_stored (Some b) s1) as Hst. simpl in Hst.
    unfold s1 in Hst at 1. rewrite stored_SetStructData_eq in Hst by assumption.
    destruct Hst as (s2 & Hrun2 & Hs2).
    assert (bool_decide (0 < length b)%nat = true) as Hlen.
    { apply bool_decide_eq_true. destruct b; [contradiction | simpl; lia]. }
    rewrite Hlen in Hrun2.
    exists s1, s2, s2. split; [|split; [exact Hrun2|split]].
    + unfold AddReport. munfold. rewrite Hex. reflexivity.
    + unfold AddReport. munfold. rewrite Hrun2. reflexivity.
    + intros a x.
      destruct (SetStructData_st ReportKeyAddress (Some (Keccak256 b)) (Some b) s0)
        as (Hb & Ht & _). fold s1 in Hb, Ht.
      rewrite Hb, Ht. split; [apply st_same_bal, Hs0 | apply st_same_tlb, Hs0].
  - intros s0 Hex.
    set (s1 := SetStructData ReportKeyAddress (Some (Keccak256 [])) (Some []) s0).
    pose proof (IsReportExist_stored (Some []) s1) as Hst. simpl in Hst.
    unfold s1 in Hst at 1. rewrite stored_SetStructData_eq in Hst.
    + destruct Hst as (s2 & Hrun2 & _). exists s1, s2.
      split; [|exact Hrun2]. unfold AddReport. munfold. rewrite Hex. reflexivity.
    + simpl. lia.
    + change (slotCount (length [])) with O. unfold cells. simpl.
      apply NoDup_singleton.
  - intros s0 Hex. unfold AddReport. munfold. rewrite Hex. reflexivity.
Qed.

End ReportFacts.

Lemma AddReport_once_witness :
  exists s1 s2,
    AddReport (H := registryExternals) (H0 := registryStateExternals)
      (Some ["007"%byte; "009"%byte]) emptyState = Some (None, s1)
    /\ IsReportExist (H := registryExternals) (H0 := registryStateExternals)
         (Some ["007"%byte; "009"%byte]) s1 = Some (true, s2).
Proof.
  destruct (proj1 (proj2 (AddReport_once (H := registryExternals)
                            (H0 := registryStateExternals) emptyState))
              ["007"%byte; "009"%byte]
              (set_stateObjects (insert (BigToAddress (2 ^ 160 - 5)) newObject) emptyState))
    as (s1 & s2 & _ & Hrun & Hex & _).
  - vm_compute. reflexivity.
  - discriminate.
  - vm_compute. reflexivity.
  - apply (bool_decide_unpack _). vm_compute. exact I.
  - exists s1, s2. split; [exact Hrun | exact Hex].
Defined.

(** ** The notation registry *)

Section NotationFacts.
Context `{Externals} `{StateExternals}.

Lemma GetNotation_view a s : GetNotation a s = Notaion (data (view s a)).
Proof.
  unfold GetNotation, getStateObject, view. destruct (stateObjects s !! a); reflexivity.
Qed.

Lemma st_same_GetNotation s s' a : st_same s s' -> GetNotation a s = GetNotation a s'.
Proof.
  intros [Hv _]. rewrite !GetNotation_view. destruct (Hv a) as (_ & _ & Hn & _). exact Hn.
Qed.

(** A change of an object that keeps its storage is not seen by the reads
    of the structured storage. *)
Lemma stored_onObject a f s addr key :
  (forall o, storage (f o) = storage o) ->
  stored (onObject a f s) addr key = stored s addr key.
Proof.
  intros Hf. unfold stored. rewrite view_onObject.
  destruct (decide (addr = a)) as [->|]; [|reflexivity].
  apply readStructData_storage, Hf.
Qed.

Lemma SetNotation_st a n s :
  GetNotation a (onObject a (SetNotation n) s) = n
  /\ (forall a', a' <> a -> GetNotation a' (onObject a (SetNotation n) s) = GetNotation a' s)
  /\ (forall a' x, bal (onObject a (SetNotation n) s) a' x = bal s a' x
                   /\ tlb (onObject a (SetNotation n) s) a' x = tlb s a' x)
  /\ (forall addr key, stored (onObject a (SetNotation n) s) addr key = stored s addr key)
  /\ tickets (onObject a (SetNotation n) s) = tickets s.
Proof.
  split; [|split; [|split; [|split]]].
  - rewrite GetNotation_view, view_onObject.
    destruct (decide (a = a)); [reflexivity | contradiction].
  - intros a' Hne. rewrite !GetNotation_view, view_onObject.
    destruct (decide (a' = a)); [contradiction | reflexivity].
  - intros a' x. unfold bal, tlb. rewrite view_onObject.
    destruct (decide (a' = a)) as [->|]; split; reflexivity.
  - intros addr key. apply stored_onObject. reflexivity.
  - apply onObject_tickets_logs.
Qed.

Lemma SetStructData_GetNotation addr key value s a :
  GetNotation a (SetStructData addr key value s) = GetNotation a s.
Proof.
  destruct key as [key|], value as [value|]; try reflexivity.
  rewrite !GetNotation_view, view_SetStructData.
  destruct (decide (a = addr)) as [->|]; [|reflexivity].
  rewrite writeStructData_data. reflexivity.
Qed.

(** The header written with a blob records its slot count. *)
Lemma storedSlots_write key value o :
  Z.of_nat (length value) < 2 ^ 31 ->
  NoDup (cells key (slotCount (length value))) ->
  storedSlots (writeStructData key value o) key = slotCount (length value).
Proof.
  intros Hsize Hnd. destruct (slotCount_bounds (length value)) as (_ & _ & Hle).
  destruct (writeStructData_storage key value o Hnd) as [Hinfo _].
  unfold storedSlots. rewrite Hinfo.
  change (take 4 (drop 16 (IntToBytes ?a ++ replicate 12 ?z ++ IntToBytes ?b ++ ?r)))
    with (IntToBytes b).
  rewrite BytesToInt_IntToBytes by lia. apply Nat2Z.id.
Qed.

Lemma GetNotationCount_stored s :
  match stored s NotationKeyAddress NotationKeyAddress with
  | Some d => exists s', GetNotationCount s = Some (countOf d, s') /\ st_same s' s
  | None => GetNotationCount s = None
  end.
Proof.
  pose proof (GetStructData_stored NotationKeyAddress NotationKeyAddress s) as Hget.
  unfold GetNotationCount. munfold.
  destruct (stored s NotationKeyAddress NotationKeyAddress) as [d|].
  - destruct Hget as (s' & -> & Hs). exists s'. split; [|exact Hs].
    destruct d; reflexivity.
  - rewrite Hget. reflexivity.
Qed.

Lemma GetAddressByNotation_stored n s :
  match stored s NotationKeyAddress (PutUvarint n) with
  | Some d => exists s', GetAddressByNotation n s = Some (addressOf n d, s') /\ st_same s' s
  | None => GetAddressByNotation n s = None
  end.
Proof.
  pose proof (GetStructData_stored NotationKeyAddress (PutUvarint n) s) as Hget.
  unfold GetAddressByNotation. munfold.
  destruct (stored s NotationKeyAddress (PutUvarint n)) as [d|].
  - destruct Hget as (s' & -> & Hs). exists s'. split; [|exact Hs].
    unfold addressOf. destruct d as [|b d]; [reflexivity|].
    destruct (decodeNotationPersist (b :: d)) as [np [e|]]; [reflexivity|].
    destruct (np_Deleted np || bool_decide (np_Address np = zeroAddress)); reflexivity.
  - rewrite Hget. reflexivity.
Qed.

(** X10.  [GenNotation] on an account that has a notation fails and
    changes nothing that a read can tell.  On an account without one it
    returns nil, takes the stored count plus one (as a uint64) as the next
    number, gives the account the display form of that number, stores the
    number as the new count and the account under the new notation: the
    account's notation, [GetNotationCount] and [GetAddressByNotation] read
    accordingly afterwards; no balance and no other account's notation
    changes. *)
Theorem GenNotation_assigns (s : StateDB) (addr : Address) :
  (GetNotation addr s <> 0 ->
   exists s',
     GenNotation addr s
     = Some (Some ("Account " ++ Address_String addr ++ " has a notation:"
                   ++ pretty (GetNotation addr s))%string, s')
     /\ st_same s' s)
  /\ (forall d0 d1 d2,
        GetNotation addr s = 0 ->
        stored s NotationKeyAddress NotationKeyAddress = Some d0 ->
        let next := u64 (countOf d0 + 1) in
        let n := CalcNotationDisplay next in
        encodeNotationPersist (mkNotationPersist false next zeroAddress) = inr d1 ->
        encodeNotationPersist (mkNotationPersist false n addr) = inr d2 ->
        countOf d1 = next ->
        addressOf n d2 = inr addr ->
        Z.of_nat (length d1) < 2 ^ 31 -> Z.of_nat (length d2) < 2 ^ 31 ->
        NoDup (cells NotationKeyAddress (slotCount (length d1))
               ++ cells (PutUvarint n) (slotCount (length d2))) ->
        exists s' s1 s2,
          GenNotation addr s = Some (None, s')
          /\ GetNotation addr s' = n
          /\ GetNotationCount s' = Some (next, s1)
          /\ GetAddressByNotation n s' = Some (inr addr, s2)
          /\ (forall a, a <> addr -> GetNotation a s' = GetNotation a s)
          /\ (forall a x, bal s' a x = bal s a x /\ tlb s' a x = tlb s a x)
          /\ tickets s' = tickets s).
Proof.
  destruct (GetOrNewStateObject_view addr s) as (_ & Hs0 & _).
  set (s0 := (GetOrNewStateObject addr s).2) in *.
  split.
  - intros Hn. exists s0. split; [|exact Hs0].
    unfold GenNotation. munfold. fold s0. rewrite (st_same_GetNotation _ _ addr Hs0).
    destruct (Z.eqb_spec (GetNotation addr s) 0); [contradiction | reflexivity].
  - intros d0 d1 d2 Hn Hd0 next n Henc1 Henc2 Hcnt Haddr Hsz1 Hsz2 Hnd.
    apply NoDup_app in Hnd as (Hnd1 & Hdisj & Hnd2).
    pose proof (GetNotationCount_stored s0) as Hcount.
    rewrite (stored_st_rest _ _ _ _ (st_same_rest _ _ Hs0)), Hd0 in Hcount.
    destruct Hcount as (s0' & Hcount & Hs0').
    set (s1 := SetStructData NotationKeyAddress (Some NotationKeyAddress) (Some d1) s0').
    set (s2 := SetStructData NotationKeyAddress (Some (PutUvarint n)) (Some d2) s1).
    set (s3 := onObject addr (SetNotation n) s2).
    destruct (SetNotation_st addr n s2) as (Hn3 & Hno3 & Hb3 & Hst3 & Htk3).
    fold s3 in Hn3, Hno3, Hb3, Hst3, Htk3.
    assert (GenNotation addr s = Some (None, s3)) as Hrun.
    { unfold GenNotation. munfold. fold s0. rewrite (st_same_GetNotation _ _ addr Hs0), Hn.
      cbn [Z.eqb negb]. rewrite Hcount. fold next n.
      unfold setNotationCount, setNotationToAddressLookup. munfold.
      rewrite Henc1, Henc2. reflexivity. }
    assert (stored s3 NotationKeyAddress (PutUvarint n) = Some d2) as Hlook.
    { rewrite Hst3. apply stored_SetStructData_eq; assumption. }
    assert (stored s3 NotationKeyAddress NotationKeyAddress = Some d1) as Hcnt3.
    { rewrite Hst3. unfold s2. rewrite stored_SetStructData_ne.
      - apply stored_SetStructData_eq; assumption.
      - right. unfold s1. rewrite view_SetStructData.
        destruct (decide (NotationKeyAddress = NotationKeyAddress)) as [_|?];
          [|contradiction].
        rewrite storedSlots_write by assumption.
        apply Forall_forall. intros c Hc Hc'. exact (Hdisj c Hc Hc'). }
    pose proof (GetNotationCount_stored s3) as Hc3. rewrite Hcnt3, Hcnt in Hc3.
    destruct Hc3 as (s4 & Hc3 & _).
    pose proof (GetAddressByNotation_stored n s3) as Ha3. rewrite Hlook, Haddr in Ha3.
    destruct Ha3 as (s5 & Ha3 & _).
    exists s3, s4, s5.
    split; [exact Hrun|]. split; [exact Hn3|]. split; [exact Hc3|]. split; [exact Ha3|].
    split; [|split].
    + intros a Ha. rewrite (Hno3 a Ha). unfold s2, s1.
      rewrite !SetStructData_GetNotation.
      rewrite (st_same_GetNotation _ _ a Hs0'). apply st_same_GetNotation, Hs0.
    + intros a x. destruct (Hb3 a x) as [-> ->].
      destruct (SetStructData_st NotationKeyAddress (Some (PutUvarint n)) (Some d2) s1)
        as (Hb2 & Ht2 & _). fold s2 in Hb2, Ht2. rewrite Hb2, Ht2.
      destruct (SetStructData_st NotationKeyAddress (Some NotationKeyAddress) (Some d1) s0')
        as (Hb1 & Ht1 & _). fold s1 in Hb1, Ht1. rewrite Hb1, Ht1.
      rewrite (st_same_bal _ _ _ _ Hs0'), (st_same_tlb _ _ _ _ Hs0').
      split; [apply st_same_bal, Hs0 | apply st_same_tlb, Hs0].
    + rewrite Htk3. unfold s2.
      destruct (SetStructData_st NotationKeyAddress (Some (PutUvarint n)) (Some d2) s1)
        as (_ & _ & ->). unfold s1.
      destruct (SetStructData_st NotationKeyAddress (Some NotationKeyAddress) (Some d1) s0')
        as (_ & _ & ->).
      destruct Hs0' as (_ & -> & _), Hs0 as (_ & -> & _). reflexivity.
Qed.

End NotationFacts.

Lemma GenNotation_assigns_witness :
  exists s' s1 s2,
    GenNotation (H := registryExternals) (H0 := registryStateExternals)
      (BigToAddress 1) emptyState = Some (None, s')
    /\ GetNotation (BigToAddress 1) s' = 104
    /\ GetNotationCount (H := registryExternals) (H0 := registryStateExternals) s'
       = Some (1, s1)
    /\ GetAddressByNotation (H := registryExternals) (H0 := registryStateExternals) 104 s'
       = Some (inr (BigToAddress 1), s2).
Proof.
  destruct (proj2 (GenNotation_assigns (H := registryExternals)
                     (H0 := registryStateExternals) emptyState (BigToAddress 1))
              [] _ _ eq_refl eq_refl eq_refl eq_refl)
    as (s' & s1 & s2 & Hrun & Hn & Hc & Ha & _).
  - vm_compute. reflexivity.
  - vm_compute. reflexivity.
  - vm_compute. reflexivity.
  - vm_compute. reflexivity.
  - apply (bool_decide_unpack _). vm_compute. exact I.
  - exists s', s1, s2. split; [exact Hrun|]. split; [exact Hn|].
    split; [exact Hc | exact Ha].
Defined.

Section NotationMoves.
Context `{Externals} `{StateExternals}.

(** The lookup write, as a state. *)
Lemma setNotationToAddressLookup_run n a d s :
  encodeNotationPersist (mkNotationPersist false n a) = inr d ->
  setNotationToAddressLookup n a s
  = Some (None, SetStructData NotationKeyAddress (Some (PutUvarint n)) (Some d) s).
Proof. intros Henc. unfold setNotationToAddressLookup. munfold. rewrite Henc. reflexivity. Qed.

(** X11.  [BurnNotation] of an account without notation (or of no
    account) does nothing.  On an account with notation [n] it stores the
    zero address under [n] and clears the account's notation:
    [GetAddressByNotation n] then fails with "notation was deleted"; no
    balance and no other account's notation changes. *)
Theorem BurnNotation_clears (s : StateDB) (addr : Address) :
  (GetNotation addr s = 0 -> BurnNotation addr s = Some (tt, s))
  /\ (forall d,
        let n := GetNotation addr s in
        n <> 0 ->
        encodeNotationPersist (mkNotationPersist false n zeroAddress) = inr d ->
        addressOf n d = inl "notation was deleted"%string ->
        Z.of_nat (length d) < 2 ^ 31 ->
        NoDup (cells (PutUvarint n) (slotCount (length d))) ->
        exists s' s1,
          BurnNotation addr s = Some (tt, s')
          /\ GetNotation addr s' = 0
          /\ GetAddressByNotation n s' = Some (inl "notation was deleted"%string, s1)
          /\ (forall a, a <> addr -> GetNotation a s' = GetNotation a s)
          /\ (forall a x, bal s' a x = bal s a x /\ tlb s' a x = tlb s a x)
          /\ tickets s' = tickets s).
Proof.
  split.
  - unfold BurnNotation, GetNotation, getStateObject. munfold. intros Hn.
    destruct (stateObjects s !! addr) as [o|]; [|reflexivity].
    rewrite Hn. reflexivity.
  - intros d n Hn Henc Haddr Hsize Hnd.
    set (s1 := SetStructData NotationKeyAddress (Some (PutUvarint n)) (Some d) s).
    set (s2 := onObject addr (SetNotation 0) s1).
    destruct (SetNotation_st addr 0 s1) as (Hn2 & Hno2 & Hb2 & Hst2 & Htk2).
    fold s2 in Hn2, Hno2, Hb2, Hst2, Htk2.
    assert (BurnNotation addr s = Some (tt, s2)) as Hrun.
    { unfold BurnNotation. munfold. unfold n, GetNotation, getStateObject in *.
      destruct (stateObjects s !! addr) as [o|] eqn:Ho; [|contradiction].
      destruct (Z.eqb_spec (SO.Notation o) 0); [contradiction|]. cbn [negb].
      rewrite (setNotationToAddressLookup_run _ _ d) by exact Henc. reflexivity. }
    pose proof (GetAddressByNotation_stored n s2) as Ha.
    rewrite Hst2 in Ha. unfold s1 in Ha at 1.
    rewrite stored_SetStructData_eq, Haddr in Ha by assumption.
    destruct Ha as (s3 & Ha & _).
    exists s2, s3. split; [exact Hrun|]. split; [exact Hn2|]. split; [exact Ha|].
    split; [|split].
    + intros a Ha'. rewrite (Hno2 a Ha'). apply SetStructData_GetNotation.
    + intros a x. destruct (Hb2 a x) as [-> ->].
      destruct (SetStructData_st NotationKeyAddress (Some (PutUvarint n)) (Some d) s)
        as (Hb1 & Ht1 & _). split; [apply Hb1 | apply Ht1].
    + rewrite Htk2.
      apply (SetStructData_st NotationKeyAddress (Some (PutUvarint n)) (Some d) s).
Qed.

(** X12.  [TransferNotation] returns the error of the lookup when the
    notation does not resolve, and "This notation is not the from address"
    when it resolves to another address; in both cases nothing that a read
    can tell changes.  When it resolves to [from] and the receiver, another
    address, has no notation, it returns nil, the receiver's notation
    becomes the notation, the sender's becomes 0 and the lookup resolves to
    the receiver; no balance changes. *)
Theorem TransferNotation_moves (s : StateDB) (notation : Z) (from to : Address) :
  forall d0, stored s NotationKeyAddress (PutUvarint notation) = Some d0 ->
  (forall e, addressOf notation d0 = inl e ->
     exists s', TransferNotation notation from to s = Some (Some e, s') /\ st_same s' s)
  /\ (forall a, addressOf notation d0 = inr a -> a <> from ->
        exists s', TransferNotation notation from to s
                   = Some (Some "This notation is not the from address"%string, s')
                   /\ st_same s' s)
  /\ (forall d,
        addressOf notation d0 = inr from -> to <> from -> GetNotation to s = 0 ->
        encodeNotationPersist (mkNotationPersist false notation to) = inr d ->
        addressOf notation d = inr to ->
        Z.of_nat (length d) < 2 ^ 31 ->
        NoDup (cells (PutUvarint notation) (slotCount (length d))) ->
        exists s' s1,
          TransferNotation notation from to s = Some (None, s')
          /\ GetNotation to s' = notation
          /\ GetNotation from s' = 0
          /\ GetAddressByNotation notation s' = Some (inr to, s1)
          /\ (forall a, a <> from -> a <> to -> GetNotation a s' = GetNotation a s)
          /\ (forall a x, bal s' a x = bal s a x /\ tlb s' a x = tlb s a x)).
Proof.
  intros d0 Hd0.
  destruct (GetOrNewStateObject_view from s) as (_ & Hsa & _).
  set (sa := (GetOrNewStateObject from s).2) in *.
  destruct (GetOrNewStateObject_view to sa) as (_ & Hsb & _).
  set (sb := (GetOrNewStateObject to sa).2) in *.
  assert (st_same sb s) as Hsbs.
  { destruct Hsb as (Hv1 & Ht1 & Hl1), Hsa as (Hv2 & Ht2 & Hl2).
    split; [|split; congruence]. intros a.
    destruct (Hv1 a) as (? & ? & ? & ? & ? & ?), (Hv2 a) as (? & ? & ? & ? & ? & ?).
    repeat split; intros; congruence. }
  pose proof (GetAddressByNotation_stored notation sb) as Hlook.
  rewrite (stored_st_rest _ _ _ _ (st_same_rest _ _ Hsbs)), Hd0 in Hlook.
  destruct Hlook as (sc & Hlook & Hsc).
  assert (st_same sc s) as Hscs.
  { destruct Hsc as (Hv1 & Ht1 & Hl1), Hsbs as (Hv2 & Ht2 & Hl2).
    split; [|split; congruence]. intros a.
    destruct (Hv1 a) as (? & ? & ? & ? & ? & ?), (Hv2 a) as (? & ? & ? & ? & ? & ?).
    repeat split; intros; congruence. }
  split; [|split].
  - intros e He. exists sc. split; [|exact Hscs].
    unfold TransferNotation. munfold. fold sa sb. rewrite Hlook, He. reflexivity.
  - intros a Ha Hne. exists sc. split; [|exact Hscs].
    unfold TransferNotation. munfold. fold sa sb. rewrite Hlook, Ha.
    rewrite bool_decide_eq_false_2 by exact Hne. reflexivity.
  - intros d Ha Hne Hto Henc Haddr Hsize Hnd.
    set (s1 := SetStructData NotationKeyAddress (Some (PutUvarint notation)) (Some d) sc).
    set (s2 := onObject to (SetNotation notation) s1).
    set (s3 := onObject from (SetNotation 0) s2).
    destruct (SetNotation_st to notation s1) as (Hn2 & Hno2 & Hb2 & Hst2 & _).
    fold s2 in Hn2, Hno2, Hb2, Hst2.
    destruct (SetNotation_st from 0 s2) as (Hn3 & Hno3 & Hb3 & Hst3 & _).
    fold s3 in Hn3, Hno3, Hb3, Hst3.
    assert (TransferNotation notation from to s = Some (None, s3)) as Hrun.
    { unfold TransferNotation. munfold. fold sa sb. rewrite Hlook, Ha.
      rewrite bool_decide_eq_true_2 by reflexivity. cbn [negb].
      rewrite (st_same_GetNotation _ _ to Hscs), Hto. cbn [Z.eqb negb].
      rewrite (setNotationToAddressLookup_run _ _ d) by exact Henc. reflexivity. }
    pose proof (GetAddressByNotation_stored notation s3) as Ha3.
    rewrite Hst3, Hst2 in Ha3. unfold s1 in Ha3 at 1.
    rewrite stored_SetStructData_eq, Haddr in Ha3 by assumption.
    destruct Ha3 as (s4 & Ha3 & _).
    exists s3, s4. split; [exact Hrun|]. split; [|split; [exact Hn3|split; [exact Ha3|split]]].
    + rewrite (Hno3 to Hne). exact Hn2.
    + intros a Haf Hat. rewrite (Hno3 a Haf), (Hno2 a Hat). unfold s1.
      rewrite SetStructData_GetNotation. apply st_same_GetNotation, Hscs.
    + intros a x. destruct (Hb3 a x) as [-> ->]. destruct (Hb2 a x) as [-> ->].
      destruct (SetStructData_st NotationKeyAddress (Some (PutUvarint notation)) (Some d) sc)
        as (Hb1 & Ht1 & _). fold s1 in Hb1, Ht1. rewrite Hb1, Ht1.
      split; [apply st_same_bal, Hscs | apply st_same_tlb, Hscs].
Qed.

End NotationMoves.

Lemma BurnNotation_clears_witness :
  exists s' s1,
    BurnNotation (H := registryExternals) (H0 := registryStateExternals)
      (BigToAddress 1) notedState = Some (tt, s')
    /\ GetNotation (BigToAddress 1) s' = 0
    /\ GetAddressByNotation (H := registryExternals) (H0 := registryStateExternals) 104 s'
       = Some (inl "notation was deleted"%string, s1).
Proof.
  destruct (proj2 (BurnNotation_clears (H := registryExternals)
                     (H0 := registryStateExternals) notedState (BigToAddress 1))
              (match encodeNotationPersist (StateExternals := registryStateExternals)
                       (mkNotationPersist false 104 zeroAddress) with
               | inr d => d | inl _ => [] end))
    as (s' & s1 & Hrun & Hn & Ha & _).
  - vm_compute. discriminate.
  - vm_compute. reflexivity.
  - vm_compute. reflexivity.
  - vm_compute. reflexivity.
  - apply (bool_decide_unpack _). vm_compute. exact I.
  - exists s', s1. split; [exact Hrun|]. split; [exact Hn|].
    etransitivity; [exact Ha | vm_compute; reflexivity].
Defined.

Lemma TransferNotation_moves_witness :
  exists s' s1,
    TransferNotation (H := registryExternals) (H0 := registryStateExternals)
      104 (BigToAddress 1) (BigToAddress 2) notedState = Some (None, s')
    /\ GetNotation (BigToAddress 2) s' = 104
    /\ GetNotation (BigToAddress 1) s' = 0
    /\ GetAddressByNotation (H := registryExternals) (H0 := registryStateExternals) 104 s'
       = Some (inr (BigToAddress 2), s1).
Proof.
  destruct (TransferNotation_moves (H := registryExternals) (H0 := registryStateExternals)
              notedState 104 (BigToAddress 1) (BigToAddress 2)
              (match encodeNotationPersist (StateExternals := registryStateExternals)
                       (mkNotationPersist false 104 (BigToAddress 1)) with
               | inr d => d | inl _ => [] end))
    as (_ & _ & Hmove).
  - vm_compute. reflexivity.
  - destruct (Hmove (match encodeNotationPersist (StateExternals := registryStateExternals)
                       (mkNotationPersist false 104 (BigToAddress 2)) with
               | inr d => d | inl _ => [] end))
      as (s' & s1 & Hrun & Hto & Hfrom & Ha & _).
    + vm_compute. reflexivity.
    + vm_compute. discriminate.
    + vm_compute. reflexivity.
    + vm_compute. reflexivity.
    + vm_compute. reflexivity.
    + vm_compute. reflexivity.
    + apply (bool_decide_unpack _). vm_compute. exact I.
    + exists s', s1. split; [exact Hrun|]. split; [exact Hto|].
      split; [exact Hfrom | exact Ha].
Defined.

(** ** Draining an account *)

Lemma updAsset_later {V} (k : Hash) (v w : V) (l : list (Hash * V)) : forall i,
  l !! i = Some (k, v) ->
  drop (S i) (updAsset k w l) = drop (S i) l /\ length (updAsset k w l) = length l.
Proof.
  induction l as [|[h u] l IH]; intros i Hi; [discriminate|]. simpl.
  destruct (decide (h = k)) as [->|Hne]; [split; reflexivity|].
  destruct i as [|i]; [simpl in Hi; congruence|].
  destruct (IH i Hi) as [Hd Hl]. simpl. split; [exact Hd | congruence].
Qed.

Lemma lookupAsset_absent {V} (d : V) x (l : list (Hash * V)) :
  x ∉ l.*1 -> lookupAsset d x l = d.
Proof.
  induction l as [|[h u] l IH]; intros Hx; [reflexivity|]. simpl.
  destruct (decide (h = x)) as [->|Hne].
  - exfalso. apply Hx. simpl. left.
  - apply IH. intros Hin. apply Hx. simpl. right. exact Hin.
Qed.

Lemma totalOf_NoDup x (l : list (Hash * Z)) :
  NoDup l.*1 -> totalOf x l = lookupAsset 0 x l.
Proof.
  induction l as [|[h u] l IH]; intros Hnd; [reflexivity|].
  apply NoDup_cons in Hnd as [Hnotin Hnd]. unfold totalOf in *. simpl.
  destruct (decide (h = x)) as [->|Hne]; [|exact (IH Hnd)].
  rewrite (IH Hnd), lookupAsset_absent by exact Hnotin. lia.
Qed.

Section DrainFacts.
Context `{Externals} `{StateExternals}.

Lemma transferBalances_spec (from to : Address) : from <> to -> forall n i s,
  length (Balances (data (view s from))) = (i + n)%nat ->
  let l := Balances (data (view s from)) in
  let s' := transferBalances from to n i s in
  (forall x, bal s' to x = bal s to x + totalOf x (drop i l))
  /\ (forall x, bal s' from x = if decide (x ∈ (drop i l).*1) then 0 else bal s from x)
  /\ (forall a x, a <> from -> a <> to -> bal s' a x = bal s a x)
  /\ (forall a x, tlb s' a x = tlb s a x)
  /\ TimeLockBalances (data (view s' from)) = TimeLockBalances (data (view s from))
  /\ st_rest s' s
  /\ (forall a, a <> from -> a <> to -> view s' a = view s a).
Proof.
  intros Hne. induction n as [|n IH]; intros i s Hlen; cbn zeta.
  - simpl. rewrite drop_ge by lia. simpl.
    repeat split; try reflexivity; intros; try lia;
      try (destruct (decide (x ∈ [])) as [Hin|_]; [inversion Hin | reflexivity]).
  - simpl.
    destruct (Balances (data (view s from)) !! i) as [[k v]|] eqn:Hi;
      [|apply lookup_ge_None in Hi; lia].
    set (l := Balances (data (view s from))) in *.
    set (s1 := onObject from (SO.SetBalance k 0) s).
    set (s2 := AddBalance to k v s1).
    assert (view s1 from = SO.SetBalance k 0 (view s from)) as Hv1.
    { unfold s1. rewrite view_onObject. destruct (decide (from = from)); [reflexivity|contradiction]. }
    assert (forall a, a <> from -> view s1 a = view s a) as Hv1o.
    { intros a Ha. unfold s1. rewrite view_onObject.
      destruct (decide (a = from)); [contradiction|reflexivity]. }
    assert (view s2 from = view s1 from) as Hv2.
    { unfold s2, AddBalance. rewrite view_onObject.
      destruct (decide (from = to)); [contradiction|reflexivity]. }
    destruct (AddBalance_st to k v s1) as (Hb2 & Ht2 & Hr2). fold s2 in Hb2, Ht2, Hr2.
    destruct (updAsset_later k v 0 l i Hi) as [Hdrop Hlen1].
    assert (Balances (data (view s2 from)) = updAsset k 0 l) as Hl2.
    { rewrite Hv2, Hv1, SetBalance_spec. reflexivity. }
    destruct (IH (S i) s2) as (Hto & Hfrom & Hoth & Htl & Htll & Hrest & Hview).
    { rewrite Hl2, Hlen1. lia. }
    rewrite Hl2, Hdrop in Hto, Hfrom.
    assert (drop i l = (k, v) :: drop (S i) l) as Hdi.
    { apply drop_S. exact Hi. }
    assert (forall x, bal s1 from x = if decide (x = k) then 0 else bal s from x) as Hb1.
    { intros x. unfold bal. rewrite Hv1, SetBalance_spec. unfold objBal. simpl.
      apply lookupAsset_updAsset. }
    assert (forall a x, tlb s1 a x = tlb s a x) as Ht1.
    { intros a x. unfold tlb. destruct (decide (a = from)) as [->|Ha].
      - rewrite Hv1, SetBalance_spec. reflexivity.
      - rewrite (Hv1o a Ha). reflexivity. }
    split; [|split; [|split; [|split; [|split; [|split]]]]].
    + intros x. rewrite Hto, Hb2, Hdi. simpl.
      assert (forall y, bal s1 to y = bal s to y) as Hb1o
        by (intros y; unfold bal; rewrite (Hv1o to) by congruence; reflexivity).
      rewrite !Hb1o.
      destruct (decide (x = k)) as [->|Hxk].
      * destruct (decide (to = to /\ k = k)) as [_|Hn]; [|tauto].
        destruct (decide (k = k)) as [_|?]; [lia|contradiction].
      * destruct (decide (to = to /\ x = k)) as [[_ ?]|_]; [contradiction|].
        destruct (decide (k = x)) as [?|_]; [congruence|lia].
    + intros x. rewrite Hfrom, Hb2, Hdi, fmap_cons. cbn [fst].
      destruct (decide (from = to /\ x = k)) as [[? _]|_]; [contradiction|].
      rewrite Hb1.
      destruct (decide (x = k)) as [->|Hxk].
      * rewrite (decide_True (P := k ∈ k :: _)) by apply list_elem_of_here.
        destruct (decide (k ∈ (drop (S i) l).*1)); reflexivity.
      * destruct (decide (x ∈ (drop (S i) l).*1)) as [Hin|Hnin].
        -- rewrite decide_True by (apply list_elem_of_further; exact Hin). reflexivity.
        -- rewrite decide_False; [reflexivity|].
           intros Hin'. apply elem_of_cons in Hin' as [?|?]; contradiction.
    + intros a x Ha Hb. rewrite (Hoth a x Ha Hb), Hb2.
      destruct (decide (a = to /\ x = k)) as [[? _]|_]; [contradiction|].
      unfold bal. rewrite (Hv1o a Ha). reflexivity.
    + intros a x. rewrite Htl, Ht2. apply Ht1.
    + rewrite Htll, Hv2, Hv1, SetBalance_spec. reflexivity.
    + apply (st_rest_trans _ _ _ Hrest). apply (st_rest_trans _ _ _ Hr2).
      split; [|unfold s1; destruct (onObject_tickets_logs from (SO.SetBalance k 0) s); split; assumption].
      intros a. destruct (decide (a = from)) as [->|Ha].
      * rewrite Hv1, SetBalance_spec. repeat split.
      * rewrite (Hv1o a Ha). repeat split.
    + intros a Ha Hb. rewrite (Hview a Ha Hb). unfold s2, AddBalance.
      rewrite view_onObject. destruct (decide (a = to)); [contradiction|].
      apply Hv1o, Ha.
Qed.

Lemma transferTimeLocks_spec (from to : Address) (bn ts : Z) : from <> to -> forall n i s,
  length (TimeLockBalances (data (view s from))) = (i + n)%nat ->
  let l := TimeLockBalances (data (view s from)) in
  let s' := transferTimeLocks from to bn ts n i s in
  (forall x, tlb s' to x = creditAll x ts (tlb s to x) (drop i l))
  /\ (forall x, tlb s' from x = if decide (x ∈ (drop i l).*1) then [] else tlb s from x)
  /\ (forall a x, a <> from -> a <> to -> tlb s' a x = tlb s a x)
  /\ (forall a x, bal s' a x = bal s a x)
  /\ st_rest s' s
  /\ (forall a, a <> from -> a <> to -> view s' a = view s a).
Proof.
  intros Hne. induction n as [|n IH]; intros i s Hlen; cbn zeta.
  - simpl. rewrite drop_ge by lia. simpl.
    repeat split; try reflexivity; intros; try lia;
      try (destruct (decide (x ∈ [])) as [Hin|_]; [inversion Hin | reflexivity]).
  - simpl.
    destruct (TimeLockBalances (data (view s from)) !! i) as [[k v]|] eqn:Hi;
      [|apply lookup_ge_None in Hi; lia].
    set (l := TimeLockBalances (data (view s from))) in *.
    set (s1 := onObject from (SO.SetTimeLockBalance k []) s).
    set (s2 := AddTimeLockBalance to k v bn ts s1).
    assert (view s1 from = SO.SetTimeLockBalance k [] (view s from)) as Hv1.
    { unfold s1. rewrite view_onObject. destruct (decide (from = from)); [reflexivity|contradiction]. }
    assert (forall a, a <> from -> view s1 a = view s a) as Hv1o.
    { intros a Ha. unfold s1. rewrite view_onObject.
      destruct (decide (a = from)); [contradiction|reflexivity]. }
    assert (view s2 from = view s1 from) as Hv2.
    { unfold s2, AddTimeLockBalance. rewrite view_onObject.
      destruct (decide (from = to)); [contradiction|reflexivity]. }
    destruct (AddTimeLockBalance_st to k v bn ts s1) as (Ht2 & Hb2 & Hr2).
    fold s2 in Hb2, Ht2, Hr2.
    destruct (updAsset_later k v [] l i Hi) as [Hdrop Hlen1].
    assert (TimeLockBalances (data (view s2 from)) = updAsset k [] l) as Hl2.
    { rewrite Hv2, Hv1, SetTimeLockBalance_spec. reflexivity. }
    destruct (IH (S i) s2) as (Hto & Hfrom & Hoth & Hbal & Hrest & Hview).
    { rewrite Hl2, Hlen1. lia. }
    rewrite Hl2, Hdrop in Hto, Hfrom.
    assert (drop i l = (k, v) :: drop (S i) l) as Hdi.
    { apply drop_S. exact Hi. }
    assert (forall x, tlb s1 from x = if decide (x = k) then [] else tlb s from x) as Ht1.
    { intros x. unfold tlb. rewrite Hv1, SetTimeLockBalance_spec. unfold objTL. simpl.
      apply lookupAsset_updAsset. }
    assert (forall a x, bal s1 a x = bal s a x) as Hb1.
    { intros a x. unfold bal. destruct (decide (a = from)) as [->|Ha].
      - rewrite Hv1, SetTimeLockBalance_spec. reflexivity.
      - rewrite (Hv1o a Ha). reflexivity. }
    split; [|split; [|split; [|split; [|split]]]].
    + intros x. rewrite Hto, Ht2, Hdi.
      assert (forall y, tlb s1 to y = tlb s to y) as Ht1o
        by (intros y; unfold tlb; rewrite (Hv1o to) by congruence; reflexivity).
      rewrite !Ht1o. unfold creditAll. simpl.
      destruct (decide (x = k)) as [->|Hxk].
      * destruct (decide (to = to /\ k = k)) as [_|Hn]; [|tauto].
        destruct (decide (k = k)) as [_|?]; [reflexivity|contradiction].
      * destruct (decide (to = to /\ x = k)) as [[_ ?]|_]; [contradiction|].
        destruct (decide (k = x)) as [?|_]; [congruence|reflexivity].
    + intros x. rewrite Hfrom, Ht2, Hdi, fmap_cons. cbn [fst].
      destruct (decide (from = to /\ x = k)) as [[? _]|_]; [contradiction|].
      rewrite Ht1.
      destruct (decide (x = k)) as [->|Hxk].
      * rewrite (decide_True (P := k ∈ k :: _)) by apply list_elem_of_here.
        destruct (decide (k ∈ (drop (S i) l).*1)); reflexivity.
      * destruct (decide (x ∈ (drop (S i) l).*1)) as [Hin|Hnin].
        -- rewrite decide_True by (apply list_elem_of_further; exact Hin). reflexivity.
        -- rewrite decide_False; [reflexivity|].
           intros Hin'. apply elem_of_cons in Hin' as [?|?]; contradiction.
    + intros a x Ha Hb. rewrite (Hoth a x Ha Hb), Ht2.
      destruct (decide (a = to /\ x = k)) as [[? _]|_]; [contradiction|].
      unfold tlb. rewrite (Hv1o a Ha). reflexivity.
    + intros a x. rewrite Hbal, Hb2. apply Hb1.
    + apply (st_rest_trans _ _ _ Hrest). apply (st_rest_trans _ _ _ Hr2).
      split; [|unfold s1; destruct (onObject_tickets_logs from (SO.SetTimeLockBalance k []) s);
               split; assumption].
      intros a. destruct (decide (a = from)) as [->|Ha].
      * rewrite Hv1, SetTimeLockBalance_spec. repeat split.
      * rewrite (Hv1o a Ha). repeat split.
    + intros a Ha Hb. rewrite (Hview a Ha Hb). unfold s2, AddTimeLockBalance.
      rewrite view_onObject. destruct (decide (a = to)); [contradiction|].
      apply Hv1o, Ha.
Qed.

(** The credits of [ClearTickets], ticket by ticket. *)
Lemma ClearTickets_credits (to : Address) (bn ts : Z) (tks : list TicketBody) : forall s,
  let s' :=
    foldl (fun s ticket =>
             if ExpireTime ticket <=? ts then s
             else AddTimeLockBalance to SystemAssetID (ticketLock ticket) bn ts s)
          s tks in
  (forall a x, tlb s' a x
     = if decide (a = to /\ x = SystemAssetID)
       then foldl (fun acc v => creditTL acc v ts) (tlb s to SystemAssetID)
              (ticketLock <$> filter (fun t => ts < ExpireTime t) tks)
       else tlb s a x)
  /\ (forall a x, bal s' a x = bal s a x)
  /\ (forall a, a <> to -> view s' a = view s a)
  /\ st_rest s' s.
Proof.
  induction tks as [|t tks IH]; intros s; cbn zeta.
  - simpl. split; [|split; [|split]]; try reflexivity; [|apply st_rest_refl].
    intros a x. destruct (decide (a = to /\ x = SystemAssetID)) as [[-> ->]|_]; reflexivity.
  - simpl. destruct (Z.leb_spec (ExpireTime t) ts) as [Hexp|Hlive].
    + rewrite filter_cons_False by lia. apply IH.
    + rewrite filter_cons_True by lia. simpl.
      set (s1 := AddTimeLockBalance to SystemAssetID (ticketLock t) bn ts s).
      destruct (AddTimeLockBalance_st to SystemAssetID (ticketLock t) bn ts s)
        as (Ht1 & Hb1 & Hr1). fold s1 in Ht1, Hb1, Hr1.
      destruct (IH s1) as (Ht & Hb & Hv & Hr).
      split; [|split; [|split]].
      * intros a x. rewrite Ht, !Ht1.
        destruct (decide (a = to /\ x = SystemAssetID)) as [_|Hn].
        -- destruct (decide (to = to /\ SystemAssetID = SystemAssetID)) as [_|?];
             [reflexivity | tauto].
        -- destruct (decide (a = to /\ x = SystemAssetID)); [contradiction|reflexivity].
      * intros a x. rewrite Hb. apply Hb1.
      * intros a Ha. rewrite (Hv a Ha). unfold s1, AddTimeLockBalance.
        rewrite view_onObject. destruct (decide (a = to)); [contradiction|reflexivity].
      * exact (st_rest_trans _ _ _ Hr Hr1).
Qed.

Lemma ClearTickets_spec (from to : Address) (bn ts : Z) (s : StateDB) r s0 :
  AllTickets s = Some (r, s0) ->
  exists s',
    ClearTickets from to bn ts s = Some (tt, s')
    /\ (forall a x, tlb s' a x
          = if decide (a = to /\ x = SystemAssetID)
            then foldl (fun acc v => creditTL acc v ts) (tlb s to SystemAssetID)
                   (refundLocks from ts (loaded r))
            else tlb s a x)
    /\ (forall a x, bal s' a x = bal s a x)
    /\ (forall a, a <> to -> view s' a = view s a)
    /\ (forall a, obj_rest (view s' a) (view s a))
    /\ tickets s' = match r with
                    | inr tks => withoutGroup from tks
                    | inl _ => tickets s
                    end.
Proof.
  intros Hload. destruct (AllTickets_effect s r s0 Hload) as (Hobj & _ & _ & _ & Htk).
  assert (forall a, view s0 a = view s a) as Hv0
    by (intros; apply view_stateObjects, Hobj).
  assert (forall a x, tlb s0 a x = tlb s a x) as Ht0
    by (intros; unfold tlb; rewrite Hv0; reflexivity).
  assert (forall a x, bal s0 a x = bal s a x) as Hb0
    by (intros; unfold bal; rewrite Hv0; reflexivity).
  unfold ClearTickets. munfold. rewrite Hload.
  destruct r as [e|tks]; [subst s0|]; unfold refundLocks, withoutGroup, loaded.
  - exists s. split; [reflexivity|]. split; [|split; [|split; [|split]]]; try reflexivity.
    + intros a x. simpl.
      destruct (decide (a = to /\ x = SystemAssetID)) as [[-> ->]|_]; reflexivity.
    + intros a. repeat split.
  - destruct (list_find (fun v => TDOwner v = from) tks) as [[i v]|].
    + destruct (ClearTickets_credits to bn ts (Tickets v) s0) as (Ht & Hb & Hv & Hr & _).
      eexists. split; [reflexivity|].
      split; [|split; [|split; [|split]]]; try reflexivity.
      * intros a x. change (tlb (set_tickets ?t ?y) ?c ?d) with (tlb y c d).
        rewrite Ht, !Ht0. reflexivity.
      * intros a x. change (bal (set_tickets ?t ?y) ?c ?d) with (bal y c d).
        rewrite Hb. apply Hb0.
      * intros a Ha. change (view (set_tickets ?t ?y) ?c) with (view y c).
        rewrite (Hv a Ha). apply Hv0.
      * intros a. change (view (set_tickets ?t ?y) ?c) with (view y c).
        rewrite <- (Hv0 a). apply Hr.
    + exists s0. split; [reflexivity|].
      split; [|split; [|split; [|split]]]; try assumption.
      * intros a x. simpl. rewrite Ht0.
        destruct (decide (a = to /\ x = SystemAssetID)) as [[-> ->]|_]; reflexivity.
      * intros a _. apply Hv0.
      * intros a. rewrite Hv0. repeat split.
Qed.

(** [BurnNotation] always returns, and only storage, nonces and the
    notation of the address change. *)
Lemma BurnNotation_total (addr : Address) (s : StateDB) :
  exists s',
    BurnNotation addr s = Some (tt, s')
    /\ GetNotation addr s' = 0
    /\ (forall a, a <> addr -> GetNotation a s' = GetNotation a s)
    /\ (forall a, Balances (data (view s' a)) = Balances (data (view s a))
                  /\ TimeLockBalances (data (view s' a)) = TimeLockBalances (data (view s a)))
    /\ tickets s' = tickets s.
Proof.
  unfold BurnNotation. munfold. unfold getStateObject.
  destruct (stateObjects s !! addr) as [o|] eqn:Ho.
  2:{ exists s. split; [reflexivity|]. unfold GetNotation, getStateObject. rewrite Ho.
      repeat split. }
  destruct (Z.eqb_spec (SO.Notation o) 0) as [Hz|Hnz]; cbn [negb].
  { exists s. split; [reflexivity|]. unfold GetNotation, getStateObject. rewrite Ho.
    repeat split. exact Hz. }
  assert (forall s0,
            (forall a, data (view s0 a) = data (view s a)) -> tickets s0 = tickets s ->
            exists s', Some (tt, onObject addr (SetNotation 0) s0) = Some (tt, s')
              /\ GetNotation addr s' = 0
              /\ (forall a, a <> addr -> GetNotation a s' = GetNotation a s)
              /\ (forall a, Balances (data (view s' a)) = Balances (data (view s a))
                  /\ TimeLockBalances (data (view s' a))
                     = TimeLockBalances (data (view s a)))
              /\ tickets s' = tickets s) as Hfin.
  { intros s0 Hd Htk. eexists. split; [reflexivity|].
    destruct (SetNotation_st addr 0 s0) as (Hn & Hno & _ & _ & Htk').
    split; [exact Hn|]. split; [|split; [|congruence]].
    - intros a Ha. rewrite (Hno a Ha), !GetNotation_view, Hd. reflexivity.
    - intros a. rewrite view_onObject. destruct (decide (a = addr)) as [->|_].
      + unfold SetNotation, SO.set_data. simpl. rewrite Hd. split; reflexivity.
      + rewrite Hd. split; reflexivity. }
  unfold setNotationToAddressLookup. munfold.
  destruct (encodeNotationPersist (mkNotationPersist false (SO.Notation o) zeroAddress))
    as [e|d].
  - apply Hfin; reflexivity.
  - apply Hfin.
    + intros a. rewrite view_SetStructData.
      destruct (decide (a = NotationKeyAddress)) as [->|_]; [|reflexivity].
      apply writeStructData_data.
    + apply (SetStructData_st NotationKeyAddress (Some (PutUvarint (SO.Notation o)))
               (Some d) s).
Qed.

(** [TransferAll] from an account to another address. *)
Lemma TransferAll_present (from to : Address) (bn ts : Z) (s : StateDB) o r s0 :
  getStateObject from s = Some o -> from <> to ->
  AllTickets s = Some (r, s0) ->
        exists s',
          TransferAll from to bn ts s = Some (tt, s')
          /\ (forall x, bal s' from x = 0 /\ tlb s' from x = [])
          /\ GetNotation from s' = 0
          /\ (forall x, bal s' to x = bal s to x + totalOf x (Balances (data o)))
          /\ (forall x, tlb s' to x
                = creditAll x ts
                    (if decide (x = SystemAssetID)
                     then foldl (fun acc v => creditTL acc v ts) (tlb s to x)
                            (refundLocks from ts (loaded r))
                     else tlb s to x)
                    (TimeLockBalances (data o)))
          /\ (forall a x, a <> from -> a <> to ->
                bal s' a x = bal s a x /\ tlb s' a x = tlb s a x)
          /\ (forall a, a <> from -> GetNotation a s' = GetNotation a s)
          /\ tickets s' = match r with
                          | inr tks => withoutGroup from tks
                          | inl _ => tickets s
                          end
          /\ (forall a, a <> from -> a <> to ->
                Balances (data (view s' a)) = Balances (data (view s a))).
Proof.
  - intros Ho Hne Hload.
    assert (view s from = o) as Hvo.
    { unfold view. unfold getStateObject in Ho. rewrite Ho. reflexivity. }
    destruct (ClearTickets_spec from to bn ts s r s0 Hload)
      as (s1 & Hrun1 & Ht1 & Hb1 & Hv1 & Hr1 & Htk1).
    destruct (BurnNotation_total from s1) as (s2 & Hrun2 & Hn2 & Hno2 & Hl2 & Htk2).
    assert (Balances (data (view s2 from)) = Balances (data o)) as Hbl.
    { rewrite (proj1 (Hl2 from)), (Hv1 from Hne), Hvo. reflexivity. }
    assert (TimeLockBalances (data (view s2 from)) = TimeLockBalances (data o)) as Htll.
    { rewrite (proj2 (Hl2 from)), (Hv1 from Hne), Hvo. reflexivity. }
    assert (forall a x, bal s2 a x = bal s a x) as Hb2.
    { intros a x. rewrite <- Hb1. unfold bal, objBal. rewrite (proj1 (Hl2 a)). reflexivity. }
    assert (forall a x, tlb s2 a x = tlb s1 a x) as Ht2.
    { intros a x. unfold tlb, objTL. rewrite (proj2 (Hl2 a)). reflexivity. }
    set (s3 := transferBalances from to (length (Balances (data (view s2 from)))) 0 s2).
    destruct (transferBalances_spec from to Hne
                (length (Balances (data (view s2 from)))) 0%nat s2 eq_refl)
      as (Hto3 & Hfrom3 & Hoth3 & Htl3 & Htll3 & Hr3 & Hv3).
    fold s3 in Hto3, Hfrom3, Hoth3, Htl3, Htll3, Hr3, Hv3.
    set (s4 := transferTimeLocks from to bn ts
                 (length (TimeLockBalances (data (view s3 from)))) 0 s3).
    destruct (transferTimeLocks_spec from to bn ts Hne
                (length (TimeLockBalances (data (view s3 from)))) 0%nat s3 eq_refl)
      as (Hto4 & Hfrom4 & Hoth4 & Hbal4 & Hr4 & Hv4).
    fold s4 in Hto4, Hfrom4, Hoth4, Hbal4, Hr4, Hv4.
    rewrite drop_0 in Hto3, Hfrom3. rewrite drop_0 in Hto4, Hfrom4.
    rewrite Htll3, Htll in Hto4, Hfrom4. rewrite Hbl in Hto3, Hfrom3.
    assert (forall a, GetNotation a s4 = GetNotation a s2) as Hn4.
    { intros a. rewrite !GetNotation_view.
      destruct Hr4 as (Hr4 & _), Hr3 as (Hr3 & _).
      destruct (Hr4 a) as (-> & _), (Hr3 a) as (-> & _). reflexivity. }
    exists s4. split; [|split; [|split; [|split; [|split; [|split; [|split; [|split]]]]]]].
    + unfold TransferAll. munfold. rewrite Ho, Hrun1, Hrun2. reflexivity.
    + intros x. split.
      * rewrite Hbal4, Hfrom3.
        destruct (decide (x ∈ (Balances (data o)).*1)) as [_|Hnin]; [reflexivity|].
        rewrite Hb2. unfold bal, objBal. rewrite Hvo. apply lookupAsset_absent, Hnin.
      * rewrite Hfrom4.
        destruct (decide (x ∈ (TimeLockBalances (data o)).*1)) as [_|Hnin]; [reflexivity|].
        rewrite Htl3, Ht2. unfold tlb, objTL. rewrite (Hv1 from Hne), Hvo.
        apply lookupAsset_absent, Hnin.
    + rewrite Hn4. exact Hn2.
    + intros x. rewrite Hbal4, Hto3, Hb2. reflexivity.
    + intros x. rewrite Hto4, Htl3, Ht2, Ht1. f_equal.
      destruct (decide (x = SystemAssetID)) as [->|Hx].
      * destruct (decide (to = to /\ SystemAssetID = SystemAssetID)) as [_|?];
          [reflexivity | tauto].
      * destruct (decide (to = to /\ x = SystemAssetID)) as [[_ ?]|_];
          [contradiction | reflexivity].
    + intros a x Ha Hb. split.
      * rewrite Hbal4, (Hoth3 a x Ha Hb). apply Hb2.
      * rewrite (Hoth4 a x Ha Hb), Htl3, Ht2, Ht1.
        destruct (decide (a = to /\ x = SystemAssetID)) as [[? _]|_];
          [contradiction | reflexivity].
    + intros a Ha. rewrite Hn4, (Hno2 a Ha), !GetNotation_view.
      destruct (Hr1 a) as (-> & _). reflexivity.
    + destruct Hr4 as (_ & -> & _), Hr3 as (_ & -> & _). rewrite Htk2. exact Htk1.
    + intros a Ha Hb. rewrite (Hv4 a Ha Hb), (Hv3 a Ha Hb), (proj1 (Hl2 a)), (Hv1 a Hb).
      reflexivity.
Qed.

(** X13.  [TransferAll] from an address without account does nothing.
    From an account to another address it returns and leaves the sender
    with balance 0 and an empty time lock of every asset and with notation
    0; the receiver's balance of an asset grows by what the sender's
    entries of that asset add up to (the sender's balance, when the
    sender's asset ids are distinct); no balance, time lock or notation of
    a third address changes.  The tickets go by what [AllTickets] returns
    on the state: when it returns the ticket set, the first group of the
    sender leaves the set and the locks of its unexpired tickets are
    credited to the receiver's time lock of the system asset, before the
    sender's time locks are; when it returns an error, no ticket is
    refunded and the ticket set stays as it is. *)
Theorem TransferAll_drains (from to : Address) (bn ts : Z) (s : StateDB) :
  (getStateObject from s = None -> TransferAll from to bn ts s = Some (tt, s))
  /\ (forall o, getStateObject from s = Some o -> from <> to ->
        exists r s0 s',
          AllTickets s = Some (r, s0)
          /\ TransferAll from to bn ts s = Some (tt, s')
          /\ (forall x, bal s' from x = 0 /\ tlb s' from x = [])
          /\ GetNotation from s' = 0
          /\ (forall x, bal s' to x = bal s to x + totalOf x (Balances (data o)))
          /\ (NoDup (Balances (data o)).*1 ->
              forall x, bal s' to x = bal s to x + bal s from x)
          /\ (forall x, tlb s' to x
                = creditAll x ts
                    (if decide (x = SystemAssetID)
                     then foldl (fun acc v => creditTL acc v ts) (tlb s to x)
                            (refundLocks from ts (loaded r))
                     else tlb s to x)
                    (TimeLockBalances (data o)))
          /\ (forall a x, a <> from -> a <> to ->
                bal s' a x = bal s a x /\ tlb s' a x = tlb s a x)
          /\ (forall a, a <> from -> GetNotation a s' = GetNotation a s)
          /\ tickets s' = match r with
                          | inr tks => withoutGroup from tks
                          | inl _ => tickets s
                          end).
Proof.
  split.
  - intros Ho. unfold TransferAll. munfold. rewrite Ho. reflexivity.
  - intros o Ho Hne.
    destruct (AllTickets_total s) as (r & s0 & Hload).
    destruct (TransferAll_present from to bn ts s o r s0 Ho Hne Hload)
      as (s' & Hrun & Hfrom & Hn & Hto & Htl & Hoth & Hno & Htk & _).
    exists r, s0, s'. split; [exact Hload|].
    split; [exact Hrun|]. split; [exact Hfrom|]. split; [exact Hn|].
    split; [exact Hto|]. split; [|split; [exact Htl|split; [exact Hoth|split; assumption]]].
    intros Hnd x. rewrite Hto, (totalOf_NoDup _ _ Hnd). f_equal.
    unfold bal, objBal, view. unfold getStateObject in Ho. rewrite Ho. reflexivity.
Qed.

End DrainFacts.

Lemma TransferAll_drains_witness :
  exists s',
    TransferAll (H := registryExternals) (H0 := registryStateExternals)
      (BigToAddress 1) (BigToAddress 2) 10 1000 drainState = Some (tt, s')
    /\ bal s' (BigToAddress 1) (BigToHash 1) = 0
    /\ bal s' (BigToAddress 2) (BigToHash 1) = 101
    /\ bal s' (BigToAddress 2) (BigToHash 2) = 7
    /\ tlb s' (BigToAddress 1) (BigToHash 1) = []
    /\ tickets s' = [].
Proof.
  destruct (proj2 (TransferAll_drains (H := registryExternals)
                     (H0 := registryStateExternals)
                     (BigToAddress 1) (BigToAddress 2) 10 1000 drainState)
              (mkObject (mkAccount [(BigToHash 1, 100); (BigToHash 2, 7)]
                           [(BigToHash 1, [mkItem 0 TimeLockForever 10])] 0) 0 0 ∅ []))
    as (r & s0 & s' & Hload & Hrun & Hfrom & _ & Hto & _ & _ & _ & _ & Htk).
  - vm_compute. reflexivity.
  - vm_compute. discriminate.
  - vm_compute in Hload. injection Hload as <- <-.
    exists s'. split; [exact Hrun|].
    split; [apply Hfrom|].
    split; [etransitivity; [apply Hto | vm_compute; reflexivity]|].
    split; [etransitivity; [apply Hto | vm_compute; reflexivity]|].
    split; [apply Hfrom|].
    etransitivity; [exact Htk | vm_compute; reflexivity].
Defined.

(** ** The vote1 hard fork *)

Section Vote1ForkFacts.
Context `{Externals} `{StateExternals}.

(** [TransferAll] to another address, whether the sender has an account
    or not. *)
Lemma TransferAll_effect (from to : Address) (bn ts : Z) (s : StateDB) :
  from <> to ->
  exists s',
    TransferAll from to bn ts s = Some (tt, s')
    /\ (forall x, bal s' from x = 0 /\ tlb s' from x = [])
    /\ GetNotation from s' = 0
    /\ (forall a, a <> from -> GetNotation a s' = GetNotation a s)
    /\ (forall x, bal s' to x = bal s to x + totalOf x (Balances (data (view s from))))
    /\ (forall a x, a <> from -> a <> to ->
          bal s' a x = bal s a x /\ tlb s' a x = tlb s a x)
    /\ (forall a, a <> from -> a <> to ->
          Balances (data (view s' a)) = Balances (data (view s a))).
Proof.
  intros Hne. destruct (getStateObject from s) as [o|] eqn:Ho.
  - destruct (AllTickets_total s) as (r & s0 & Hload).
    destruct (TransferAll_present from to bn ts s o r s0 Ho Hne Hload)
      as (s' & Hrun & Hfrom & Hn & Hto & _ & Hoth & Hno & _ & Hl).
    exists s'. split; [exact Hrun|]. split; [exact Hfrom|]. split; [exact Hn|].
    split; [exact Hno|]. split; [|split; assumption].
    intros x. rewrite Hto. unfold view. unfold getStateObject in Ho. rewrite Ho.
    reflexivity.
  - exists s. split; [unfold TransferAll; munfold; rewrite Ho; reflexivity|].
    assert (view s from = newObject) as Hv
      by (unfold view; unfold getStateObject in Ho; rewrite Ho; reflexivity).
    split; [intros x; unfold bal, tlb; rewrite Hv; split; reflexivity|].
    split; [unfold GetNotation; rewrite Ho; reflexivity|].
    split; [reflexivity|]. split; [|split; intros; try split; reflexivity].
    intros x. rewrite Hv. simpl. lia.
Qed.

Lemma drainedTotal_ext s s' x l :
  (forall a, a ∈ l -> Balances (data (view s' a)) = Balances (data (view s a))) ->
  drainedTotal s' x l = drainedTotal s x l.
Proof.
  induction l as [|a l IH]; intros Hl; [reflexivity|]. unfold drainedTotal in *. simpl.
  rewrite (Hl a) by apply list_elem_of_here.
  rewrite IH; [reflexivity|]. intros b Hb. apply Hl, list_elem_of_further, Hb.
Qed.

(** X14.  When the refund address is not on the drain list,
    [ApplyVote1HardFork] returns and leaves every listed address with
    balance 0 and an empty time lock of every asset and with notation 0;
    no balance or time lock of an address that is neither listed nor the
    refund address changes, and no notation of an address that is not
    listed; and when no address is listed twice, the refund address's
    balance of an asset has grown by what the balance entries of that asset
    of the listed accounts add up to. *)
Theorem ApplyVote1HardFork_drains (Vote1DrainList : list Address)
    (Vote1RefundAddress : Address) (bn ts : Z) :
  Vote1RefundAddress ∉ Vote1DrainList ->
  forall s, exists s',
    ApplyVote1HardFork Vote1DrainList Vote1RefundAddress bn ts s = Some (tt, s')
    /\ (forall a x, a ∈ Vote1DrainList ->
          bal s' a x = 0 /\ tlb s' a x = [] /\ GetNotation a s' = 0)
    /\ (forall a x, a ∉ Vote1DrainList -> a <> Vote1RefundAddress ->
          bal s' a x = bal s a x /\ tlb s' a x = tlb s a x)
    /\ (forall a, a ∉ Vote1DrainList -> GetNotation a s' = GetNotation a s)
    /\ (forall a, a ∉ Vote1DrainList -> a <> Vote1RefundAddress ->
          Balances (data (view s' a)) = Balances (data (view s a)))
    /\ (NoDup Vote1DrainList ->
        forall x, bal s' Vote1RefundAddress x
                  = bal s Vote1RefundAddress x + drainedTotal s x Vote1DrainList).
Proof.
  induction Vote1DrainList as [|a l IH]; intros Hrefund s.
  - exists s. split; [reflexivity|].
    split; [intros b x Hb; inversion Hb|].
    split; [intros; split; reflexivity|]. split; [reflexivity|].
    split; [reflexivity|]. intros _ x. simpl. lia.
  - assert (a <> Vote1RefundAddress) as Ha
      by (intros ->; apply Hrefund, list_elem_of_here).
    assert (Vote1RefundAddress ∉ l) as Hrefund'
      by (intros Hin; apply Hrefund, list_elem_of_further, Hin).
    destruct (TransferAll_effect a Vote1RefundAddress bn ts s Ha)
      as (s1 & Hrun1 & Hfrom1 & Hn1 & Hno1 & Hto1 & Hoth1 & Hl1).
    destruct (IH Hrefund' s1) as (s' & Hrun & Hin & Hout & Hnot & Hlist & Hsum).
    exists s'. split; [|split; [|split; [|split; [|split]]]].
    + unfold ApplyVote1HardFork in *. simpl. munfold. rewrite Hrun1. exact Hrun.
    + intros b x Hb. destruct (decide (b ∈ l)) as [Hbl|Hbl]; [apply Hin, Hbl|].
      apply elem_of_cons in Hb as [->|Hb]; [|contradiction].
      destruct (Hout a x Hbl Ha) as [-> ->]. rewrite (Hnot a Hbl).
      destruct (Hfrom1 x) as [-> ->]. split; [reflexivity|]. split; [reflexivity|exact Hn1].
    + intros b x Hb Hbr.
      assert (b <> a) as Hba by (intros ->; apply Hb, list_elem_of_here).
      assert (b ∉ l) as Hbl by (intros Hin'; apply Hb, list_elem_of_further, Hin').
      destruct (Hout b x Hbl Hbr) as [-> ->]. apply Hoth1; assumption.
    + intros b Hb.
      assert (b <> a) as Hba by (intros ->; apply Hb, list_elem_of_here).
      assert (b ∉ l) as Hbl by (intros Hin'; apply Hb, list_elem_of_further, Hin').
      rewrite (Hnot b Hbl). apply Hno1, Hba.
    + intros b Hb Hbr.
      assert (b <> a) as Hba by (intros ->; apply Hb, list_elem_of_here).
      assert (b ∉ l) as Hbl by (intros Hin'; apply Hb, list_elem_of_further, Hin').
      rewrite (Hlist b Hbl Hbr). apply Hl1; assumption.
    + intros Hnd x. apply NoDup_cons in Hnd as [Hal Hnd].
      rewrite (Hsum Hnd x), Hto1.
      rewrite (drainedTotal_ext s s1 x l).
      * unfold drainedTotal. simpl. lia.
      * intros b Hb. apply Hl1; [intros ->; contradiction|].
        intros ->. contradiction.
Qed.

End Vote1ForkFacts.

Lemma ApplyVote1HardFork_drains_witness :
  exists s',
    ApplyVote1HardFork (H := registryExternals) (H0 := registryStateExternals)
      [BigToAddress 1; BigToAddress 3] (BigToAddress 2) 10 1000 drainState
    = Some (tt, s')
    /\ bal s' (BigToAddress 1) (BigToHash 1) = 0
    /\ bal s' (BigToAddress 3) (BigToHash 1) = 0
    /\ bal s' (BigToAddress 2) (BigToHash 1) = 101.
Proof.
  destruct (ApplyVote1HardFork_drains (H := registryExternals)
              (H0 := registryStateExternals)
              [BigToAddress 1; BigToAddress 3] (BigToAddress 2) 10 1000)
    with (s := drainState) as (s' & Hrun & Hin & _ & _ & _ & Hsum).
  - apply (bool_decide_unpack _). vm_compute. exact I.
  - exists s'. split; [exact Hrun|].
    split; [apply Hin, list_elem_of_here|].
    split; [apply Hin, list_elem_of_further, list_elem_of_here|].
    etransitivity; [apply Hsum | vm_compute; reflexivity].
    apply (bool_decide_unpack _). vm_compute. exact I.
Defined.

Section SmartTransferFacts.
Context `{Externals}.

(** X15.  A SmartTransfer call that passes the checks.  Before smart
    transfers are enabled it fails with "SendTimeLock not enabled".  When
    the sender's time-lock balance of the asset covers the required time
    lock, the call returns without error and the lock is taken from it; the
    receiver is credited with the lock, or, when the lock is the whole
    asset (it starts no later than the parent-block time and never ends),
    with the value as plain balance.  When the time-lock balance does not
    cover it and what can be spent of it in the window plus the plain
    balance is less than the value, the call fails with "not enough
    balance".  A failed call changes no balance and no time-lock balance. *)
Theorem SmartTransfer_moves (env : Env) (msg : Message) (param : FSNCallParam)
    (s : StateDB) :
  let p := decodeTimeLockParam (Data param) in
  let from := From msg in
  let to := tl_To p in
  let asset := tl_AssetID p in
  let ts := ParentTime env in
  let start := Z.max (tl_StartTime p) ts in
  let need := [mkItem start (tl_EndTime p) (Z.abs (tl_Value p))] in
  let whole := TL.IsWholeAsset start (tl_EndTime p) ts in
  Func param = TimeLockFunc ->
  tl_Type p = SmartTransfer ->
  TimeLockParam_Check p (BlockNumber env) ts = None ->
  TL.IsValid need = true ->
  (IsSmartTransferEnabled (BlockNumber env) = false ->
     exists s',
       handleFsnCall env msg param s = Some (Errorf "SendTimeLock not enabled", s')
       /\ forall addr a, bal s' addr a = bal s addr a /\ tlb s' addr a = tlb s addr a)
  /\ (IsSmartTransferEnabled (BlockNumber env) = true ->
      (TL.Cmp (tlb s from asset) need <? 0) = true ->
      TL.GetSpendableValue (tlb s from asset) start (tl_EndTime p) + bal s from asset
        < tl_Value p ->
      exists s',
        handleFsnCall env msg param s = Some (Errorf "not enough balance", s')
        /\ forall addr a, bal s' addr a = bal s addr a /\ tlb s' addr a = tlb s addr a)
  /\ (IsSmartTransferEnabled (BlockNumber env) = true ->
      (TL.Cmp (tlb s from asset) need <? 0) = false ->
      exists s',
        handleFsnCall env msg param s = Some (None, s')
        /\ tickets s' = tickets s
        /\ (forall addr a,
              bal s' addr a
              = bal s addr a
                + (if decide (addr = to /\ a = asset)
                   then (if whole then tl_Value p else 0) else 0))
        /\ (forall addr a, ~ (addr = from /\ a = asset) -> ~ (addr = to /\ a = asset) ->
              tlb s' addr a = tlb s addr a)
        /\ forall addr a t, ts <= t ->
             TL.valueAt (tlb s' addr a) t
             = TL.valueAt (tlb s addr a) t
               + (if decide (addr = to /\ a = asset)
                  then (if whole then 0 else TL.valueAt need t) else 0)
               - (if decide (addr = from /\ a = asset) then TL.valueAt need t else 0)).
Proof.
  intros p from to asset ts start need whole HFunc Htype Hcheck Hvalid.
  pose proof (handleTimeLock_case env msg param s HFunc) as Hrun. cbv zeta in Hrun.
  fold p in Hrun. rewrite Htype in Hrun.
  destruct (decide (SmartTransfer = TimeLockToAsset)) as [?|_]; [discriminate|].
  rewrite Htype in Hrun. fold ts start need in Hrun.
  rewrite Hrun by (assumption || discriminate). clear Hrun.
  apply IsValid_singleton in Hvalid as [Hse Hpos].
  assert (TL.IsEmpty need = false) as Hne by (apply IsEmpty_singleton; lia).
  unfold handleSmartTransfer. munfold. fold from to asset ts whole.
  split; [|split].
  - intros Hoff. rewrite Hoff. cbn [negb]. eexists. split; [reflexivity|].
    intros addr a. split; reflexivity.
  - intros Hon Hcmp Hlow. rewrite Hon. cbn [negb]. cbv beta iota.
    destruct (GetTimeLockBalance_st asset from s) as [Ht0 Hs0].
    destruct (GetTimeLockBalance asset from s) as [t0 s0]. simpl in Ht0, Hs0. subst t0.
    rewrite Hcmp.
    destruct (GetBalance_st asset from s0) as [Hb1 Hs1].
    destruct (GetBalance asset from s0) as [b1 s1]. simpl in Hb1, Hs1. subst b1.
    rewrite (st_same_bal _ _ _ _ Hs0).
    destruct (Z.ltb_spec (TL.GetSpendableValue (tlb s from asset) start (tl_EndTime p)
                          + bal s from asset) (tl_Value p)) as [_|?]; [|lia].
    eexists. split; [reflexivity|]. intros addr a.
    change (bal (AddLog ?l ?x) ?a ?b) with (bal x a b).
    change (tlb (AddLog ?l ?x) ?a ?b) with (tlb x a b).
    rewrite (st_same_bal _ _ _ _ Hs1), (st_same_tlb _ _ _ _ Hs1).
    split; [apply st_same_bal, Hs0 | apply st_same_tlb, Hs0].
  - intros Hon Hcmp. rewrite Hon. cbn [negb]. cbv beta iota.
    destruct (GetTimeLockBalance_st asset from s) as [Ht0 Hs0].
    destruct (GetTimeLockBalance asset from s) as [t0 s0]. simpl in Ht0, Hs0. subst t0.
    rewrite Hcmp.
    destruct (Cmp_nonneg_Sub _ _ Hcmp) as [rest Hrest].
    pose proof (SubTimeLockBalance_st from asset need (BlockNumber env) ts s0) as Hsub.
    rewrite (st_same_tlb _ _ _ _ Hs0) in Hsub. unfold debitTL in Hsub.
    rewrite Hne, Hrest in Hsub. cbn [fmap option_fmap option_map] in Hsub.
    destruct (SubTimeLockBalance from asset need (BlockNumber env) ts s0) as [s1|];
      [|destruct Hsub].
    destruct Hsub as (Ht1 & Hb1 & Hr1).
    destruct whole eqn:Hwhole; cbn [negb].
    + set (s2 := AddBalance to asset (tl_Value p) s1).
      destruct (AddBalance_st to asset (tl_Value p) s1) as (Hb2 & Ht2 & Hr2).
      fold s2 in Ht2, Hb2, Hr2.
      eexists. split; [reflexivity|]. split; [|split; [|split]].
      * simpl. destruct Hr2 as (_ & -> & _), Hr1 as (_ & -> & _), Hs0 as (_ & -> & _).
        reflexivity.
      * intros addr a. change (bal (AddLog ?l ?x) ?a ?b) with (bal x a b).
        rewrite Hb2, !Hb1, !(st_same_bal _ _ _ _ Hs0).
        clear Hcheck. clearbody to asset. repeat case_decide; destruct_and?; subst; lia.
      * intros addr a Hnf Hnt. change (tlb (AddLog ?l ?x) ?a ?b) with (tlb x a b).
        rewrite Ht2, Ht1. case_decide; [tauto|]. apply st_same_tlb, Hs0.
      * intros addr a t Ht. change (tlb (AddLog ?l ?x) ?a ?b) with (tlb x a b).
        rewrite Ht2, Ht1, !(st_same_tlb _ _ _ _ Hs0). clear Hcheck. clearbody from to asset.
        repeat case_decide; destruct_and?; subst;
          rewrite ?valueAt_ClearExpired, ?(valueAt_Sub _ _ _ t Hrest) by exact Ht;
          try lia; exfalso; tauto.
    + set (s2 := AddTimeLockBalance to asset need (BlockNumber env) ts s1).
      destruct (AddTimeLockBalance_st to asset need (BlockNumber env) ts s1)
        as (Ht2 & Hb2 & Hr2). fold s2 in Ht2, Hb2, Hr2.
      unfold creditTL in Ht2. rewrite Hne in Ht2.
      eexists. split; [reflexivity|]. split; [|split; [|split]].
      * simpl. destruct Hr2 as (_ & -> & _), Hr1 as (_ & -> & _), Hs0 as (_ & -> & _).
        reflexivity.
      * intros addr a. change (bal (AddLog ?l ?x) ?a ?b) with (bal x a b).
        rewrite Hb2, Hb1, (st_same_bal _ _ _ _ Hs0).
        case_decide; lia.
      * intros addr a Hnf Hnt. change (tlb (AddLog ?l ?x) ?a ?b) with (tlb x a b).
        rewrite Ht2, !Ht1. repeat case_decide; try tauto. apply st_same_tlb, Hs0.
      * intros addr a t Ht. change (tlb (AddLog ?l ?x) ?a ?b) with (tlb x a b).
        rewrite Ht2, !Ht1, !(st_same_tlb _ _ _ _ Hs0). clear Hcheck. clearbody from to asset.
        repeat case_decide; destruct_and?; subst;
          rewrite ?valueAt_ClearExpired, ?valueAt_Add, ?valueAt_ClearExpired,
            ?(valueAt_Sub _ _ _ t Hrest) by exact Ht; try lia; exfalso; tauto.
Qed.

End SmartTransferFacts.

Lemma SmartTransfer_moves_witness :
  exists s',
    handleFsnCall (H := smartTransfer_externals) demo_env demo_msg
      (mkFSNCallParam TimeLockFunc []) demo_state = Some (None, s')
    /\ bal s' (BigToAddress 2) (BigToHash 7) = 40
    /\ TL.valueAt (tlb s' (BigToAddress 1) (BigToHash 7)) 600 = 60.
Proof.
  destruct (SmartTransfer_moves (H := smartTransfer_externals) demo_env demo_msg
              (mkFSNCallParam TimeLockFunc []) demo_state eq_refl eq_refl eq_refl eq_refl)
    as (_ & _ & Hok).
  destruct (Hok eq_refl) as (s' & Hrun & _ & Hbal & _ & Hval); [vm_compute; reflexivity|].
  exists s'. split; [exact Hrun|]. split.
  - etransitivity; [apply Hbal | vm_compute; reflexivity].
  - etransitivity; [apply Hval; vm_compute; discriminate | vm_compute; reflexivity].
Defined.

(** ** The pool pre-validator only reads *)

Lemma st_same_trans s1 s2 s3 : st_same s1 s2 -> st_same s2 s3 -> st_same s1 s3.
Proof.
  intros (Hv1 & Ht1 & Hl1) (Hv2 & Ht2 & Hl2). split; [|split; congruence].
  intros a. destruct (Hv1 a) as (? & ? & ? & ? & ? & ?), (Hv2 a) as (? & ? & ? & ? & ? & ?).
  repeat split; intros; congruence.
Qed.

Lemma readonly_ret {A} (x : A) : readonly (mret x).
Proof. intros s r s' Hrun. injection Hrun as _ <-. apply st_same_refl. Qed.

Lemma readonly_bind {A B} (m : M A) (f : A -> M B) :
  readonly m -> (forall x, readonly (f x)) -> readonly (m ≫= f).
Proof.
  intros Hm Hf s r s' Hrun. unfold mbind, M_bind in Hrun.
  destruct (m s) as [[x s1]|] eqn:Hms; [|discriminate].
  exact (st_same_trans _ _ _ (Hf x _ _ _ Hrun) (Hm _ _ _ Hms)).
Qed.

Lemma readonly_pure {A} (g : StateDB -> A) : readonly (liftR (fun s => (g s, s))).
Proof. intros s r s' Hrun. injection Hrun as _ <-. apply st_same_refl. Qed.

Lemma readonly_GetBalance a addr : readonly (liftR (GetBalance a addr)).
Proof.
  intros s r s' Hrun. unfold liftR in Hrun. injection Hrun as Hr.
  pose proof (GetBalance_st a addr s) as [_ Hs]. rewrite Hr in Hs. exact Hs.
Qed.

Lemma readonly_GetTimeLockBalance a addr : readonly (liftR (GetTimeLockBalance a addr)).
Proof.
  intros s r s' Hrun. unfold liftR in Hrun. injection Hrun as Hr.
  pose proof (GetTimeLockBalance_st a addr s) as [_ Hs]. rewrite Hr in Hs. exact Hs.
Qed.

Create HintDb readonly.
#[local] Hint Resolve readonly_ret readonly_pure readonly_GetBalance
  readonly_GetTimeLockBalance : readonly.

(** Takes a computation apart along its binds, conditionals and matches. *)
Ltac readonly_step :=
  match goal with
  | |- readonly (mret _) => apply readonly_ret
  | |- readonly (_ ≫= _) => apply readonly_bind; [|intros ?]
  | |- readonly (if ?b then _ else _) => destruct b
  | |- readonly (match ?x with _ => _ end) => destruct x
  | |- readonly _ => solve [eauto with readonly]
  end.

Section PoolFacts.
Context `{Externals}.

Lemma readonly_GetSwap id : readonly (GetSwap id).
Proof. intros s r s' Hrun. apply (GetSwap_run id s r s' Hrun). Qed.

Lemma readonly_GetAsset id : readonly (GetAsset id).
Proof. intros s r s' Hrun. apply (GetAsset_run id s r s' Hrun). Qed.

Lemma readonly_validateSendAsset param from : readonly (validateSendAsset param from).
Proof. unfold validateSendAsset. cbv zeta. repeat readonly_step. Qed.

Lemma readonly_validateTimeLock penv param from :
  readonly (validateTimeLock penv param from).
Proof. unfold validateTimeLock. cbv zeta. repeat readonly_step. Qed.

Lemma readonly_validateBuyTicket penv param from :
  readonly (validateBuyTicket penv param from).
Proof. unfold validateBuyTicket. cbv zeta. repeat readonly_step. Qed.

Lemma readonly_validateMakeSwap penv tx param from :
  readonly (validateMakeSwap penv tx param from).
Proof.
  unfold validateMakeSwap. cbv zeta.
  apply readonly_bind; [apply readonly_GetSwap|]. intros found.
  destruct found; [|apply readonly_ret].
  destruct (MakeSwapParam_Check _ _ _); [apply readonly_ret|].
  apply readonly_bind; [apply readonly_GetAsset|]. intros toAsset.
  destruct toAsset; [apply readonly_ret|].
  repeat readonly_step.
Qed.

Lemma readonly_validateReceiveAssetPayableTx can penv tx from :
  readonly (validateReceiveAssetPayableTx can penv tx from).
Proof. unfold validateReceiveAssetPayableTx. cbv zeta. repeat readonly_step. Qed.

(** X16.  The pool pre-validator only reads: on a transaction that is not
    an FSN call, or that is an FSN call of one of the embedded kinds
    (SendAsset, TimeLock, BuyTicket, MakeSwap, MakeSwapExt, Empty), whatever
    it answers, the state it leaves has the balances, time-lock balances,
    notations, nonces, code sizes, storage, tickets and logs of the state
    it was given. *)
Theorem validateFsnCallTx_reads_only
    (CanTransferTimeLock : StateDB -> Address -> TransferTimeLockParam -> bool)
    (penv : PoolEnv) (tx : Transaction) (from : Address) (s : StateDB) r s' :
  (forall param n, decodeFSNCallParam (tx_Data tx) = Some param ->
                   Func param <> UnknownFunc n) ->
  validateFsnCallTx CanTransferTimeLock penv tx from s = Some (r, s') ->
  st_same s' s
  /\ (forall addr a, bal s' addr a = bal s addr a /\ tlb s' addr a = tlb s addr a)
  /\ (forall addr, GetNotation addr s' = GetNotation addr s)
  /\ tickets s' = tickets s /\ logs s' = logs s.
Proof.
  intros _ Hrun.
  assert (readonly (validateFsnCallTx CanTransferTimeLock penv tx from)) as Hro.
  { unfold validateFsnCallTx. cbv zeta.
    destruct (negb (IsFsnCall (tx_To tx))).
    - destruct (tx_To tx); [apply readonly_validateReceiveAssetPayableTx | apply readonly_ret].
    - destruct (decodeFSNCallParam (tx_Data tx)) as [param|]; [|apply readonly_ret].
      apply readonly_bind.
      + destruct (Func param);
          auto using readonly_validateSendAsset, readonly_validateTimeLock,
            readonly_validateBuyTicket, readonly_validateMakeSwap, readonly_ret.
      + intros x. repeat readonly_step. }
  pose proof (Hro s r s' Hrun) as Hsame. split; [exact Hsame|].
  split; [intros addr a; split; [apply st_same_bal | apply st_same_tlb]; exact Hsame|].
  split; [intros addr; rewrite !GetNotation_view; apply (proj1 Hsame addr)|].
  split; apply Hsame.
Qed.

End PoolFacts.

Lemma validateFsnCallTx_reads_only_witness :
  exists r s',
    validateFsnCallTx (H := pool_externals) (fun _ _ _ => true) pool_env pool_tx
      (BigToAddress 1) pool_state = Some (r, s')
    /\ bal s' (BigToAddress 1) (BigToHash 7) = bal pool_state (BigToAddress 1) (BigToHash 7).
Proof.
  eexists _, _. split.
  - vm_compute. reflexivity.
  - refine (proj1 (proj1 (proj2 (validateFsnCallTx_reads_only (H := pool_externals)
                                   (fun _ _ _ => true) pool_env pool_tx (BigToAddress 1)
                                   pool_state _ _ _ _)) _ _)).
    + intros param n Hdec. vm_compute in Hdec. injection Hdec as <-. discriminate.
    + vm_compute. reflexivity.
Defined.

(** ** Loading the ticket set *)

Section LoadFacts.
Context `{Externals}.

(** X17.  [AllTickets] returns on every state: the walk through the ticket
    ring ends and stays inside the array.  It changes no account and no
    log; a ticket set that the state holds in memory is returned as it is,
    without a change of the state; an error leaves the state as it was; and
    a set that has loaded is then held by the state, from which
    [AllTickets] returns the same set again. *)
Theorem AllTickets_loads (s : StateDB) :
  exists r s0,
    AllTickets s = Some (r, s0)
    /\ stateObjects s0 = stateObjects s /\ logs s0 = logs s
    /\ (tickets s <> [] -> r = inr (tickets s) /\ s0 = s)
    /\ (forall e, r = inl e -> s0 = s)
    /\ (forall tks, r = inr tks ->
          tickets s0 = tks
          /\ exists s1, AllTickets s0 = Some (inr tks, s1) /\ tickets s1 = tks).
Proof.
  destruct (AllTickets_total s) as (r & s0 & Hrun). exists r, s0.
  destruct (AllTickets_effect s r s0 Hrun) as (Hobj & Hlog & _ & _ & Hr).
  split; [exact Hrun|]. split; [exact Hobj|]. split; [exact Hlog|].
  split; [|split].
  - intros Hne. revert Hrun. unfold AllTickets.
    destruct (tickets s) as [|d l] eqn:Htk; [contradiction|]. simpl.
    intros Hrun. injection Hrun as <- <-. split; reflexivity.
  - intros e ->. exact Hr.
  - intros tks ->. split; [exact Hr|].
    destruct (AllTickets_again s tks s0 s0 Hrun (ticket_src_same_refl s0))
      as (s1 & Hagain & _ & _ & Htk1).
    exists s1. split; assumption.
Qed.

End LoadFacts.
